(** * Signature extraction for the Rhino API listings: a shallow embedding

    The development embeds the text-processing core of the two converters

      - [extract_api_signatures.py]  (metadata-anchored extractor), and
      - [extract_rhinoscriptsyntax_signatures.py]  (block-anchored extractor)

    as executable Rocq functions and proves the properties of the
    specification about them.

    Modelling conventions.
      - A Python [str] is a [string]: a sequence of characters with the
        codes 0..255, which are the code points U+0000..U+00FF of Unicode
        (ASCII and the Latin-1 supplement).  White space, word characters,
        line ends and lower case are those of Python on these code points:
        the no-break space U+00A0 and the next-line character U+0085 are
        white space, the letters and numeric characters of U+00AA..U+00FF
        are word characters.  A text with a character beyond U+00FF is not
        among the texts of this development.
      - [None] is [None] of an [option]; Python truthiness of an optional string
        is [truthy].
      - Operations that can raise in Python (tuple unpacking, subscripts,
        the conversion of digits to an integer, the repetition of a list)
        return a [result]; [Raise] carries the exception class.
      - A [dict] literal that is only read is an association list searched
        from the left; the dictionary passed to [build_typed_signature] is a
        [gmap].
      - Regular expressions are embedded as the matching functions they
        denote; each one is given next to the pattern it stands for.
      - What the interpreter allows where the size of an object is read
        from the input (the digits that [int] converts, the length of a
        repeated list) is a parameter, [Py.interpreter].  The depth of the
        recursion and the size of the texts themselves are not part of the
        model. *)

From stdpp Require Import gmap strings.
From Stdlib Require Import Ascii String List Lia Arith NArith DecimalString
  DecimalNat.
Import ListNotations.

Local Open Scope stdpp_scope.

#[global] Arguments String.append !_ _ : simpl nomatch.

(** ** Exceptions *)

(** The exception classes the modelled code can raise.  [FuelExhausted] is
    not one of Python's: a function whose recursion is not structural is given
    fuel, and running out of it is reported in this way (it never is: see
    [map_type_unfold]). *)
Inductive exn :=
| ValueError | IndexError | TypeError | OverflowError | MemoryError
| FuelExhausted.

Inductive result (A : Type) :=
| Ok (a : A)
| Raise (e : exn).
Arguments Ok {A} a.
Arguments Raise {A} e.

Definition bind {A B} (r : result A) (k : A -> result B) : result B :=
  match r with
  | Ok a => k a
  | Raise e => Raise e
  end.

#[global] Instance result_bind : MBind result := fun A B k r => bind r k.
#[global] Instance result_ret : MRet result := @Ok.

(** [try: r except: h] is [try r except Exception: h]. *)
Definition try_except {A} (r : result A) (h : result A) : result A :=
  match r with
  | Ok a => Ok a
  | Raise _ => h
  end.

(** ** Python strings *)

Module Py.

Definition chr (n : nat) : ascii := ascii_of_nat n.
Definition ord (c : ascii) : nat := nat_of_ascii c.

(** [str.isspace] on one character; the same characters are removed by
    [str.strip], separate the words of [str.split] and are matched by [\s] of
    [re]: the ASCII white space (tab to carriage return, the four separators
    and the space), the next-line character U+0085 and the no-break space
    U+00A0. *)
Definition is_space (c : ascii) : bool :=
  let n := ord c in
  ((9 <=? n) && (n <=? 13)) || ((28 <=? n) && (n <=? 32))
  || (n =? 133) || (n =? 160).

(** [\d] of [re]: the decimal digits, which are the ASCII ones here. *)
Definition is_digit (c : ascii) : bool :=
  let n := ord c in (48 <=? n) && (n <=? 57).

(** The classes [[A-Z]], [[a-z]] and [[A-Za-z]] of the patterns. *)
Definition is_upper (c : ascii) : bool :=
  let n := ord c in (65 <=? n) && (n <=? 90).

Definition is_lower (c : ascii) : bool :=
  let n := ord c in (97 <=? n) && (n <=? 122).

Definition is_alpha (c : ascii) : bool := is_upper c || is_lower c.

(** The characters beyond ASCII for which [str.isalnum] holds: the ordinal
    indicators, the micro sign, the superscript digits, the fractions and
    the letters U+00C0..U+00FF, without the signs of multiplication and of
    division. *)
Definition is_latin_alnum (c : ascii) : bool :=
  let n := ord c in
  (n =? 170) || (n =? 178) || (n =? 179) || (n =? 181) || (n =? 185)
  || (n =? 186) || ((188 <=? n) && (n <=? 190))
  || ((192 <=? n) && (n <=? 214)) || ((216 <=? n) && (n <=? 246))
  || (248 <=? n).

(** [\w] of [re]: the characters for which [str.isalnum] holds, and the
    underscore. *)
Definition is_word (c : ascii) : bool :=
  is_alpha c || is_digit c || is_latin_alnum c || Ascii.eqb c "_".

(** [c.lower()]: the letters with a lower case are the ASCII capitals and
    the capitals U+00C0..U+00DE. *)
Definition lower_char (c : ascii) : ascii :=
  let n := ord c in
  if is_upper c || ((192 <=? n) && (n <=? 222) && negb (n =? 215))
  then chr (n + 32) else c.

Fixpoint str_map (f : ascii -> ascii) (s : string) : string :=
  match s with
  | EmptyString => EmptyString
  | String c r => String (f c) (str_map f r)
  end.

Fixpoint str_all (p : ascii -> bool) (s : string) : bool :=
  match s with
  | EmptyString => true
  | String c r => p c && str_all p r
  end.

Fixpoint str_any (p : ascii -> bool) (s : string) : bool :=
  match s with
  | EmptyString => false
  | String c r => p c || str_any p r
  end.

(** [s.lower()] *)
Definition lower (s : string) : string := str_map lower_char s.

Definition is_empty (s : string) : bool :=
  match s with EmptyString => true | _ => false end.

(** Truthiness of a string: [bool(s)]. *)
Definition nonempty (s : string) : bool := negb (is_empty s).

Fixpoint lstrip_by (p : ascii -> bool) (s : string) : string :=
  match s with
  | EmptyString => EmptyString
  | String c r => if p c then lstrip_by p r else s
  end.

Fixpoint rstrip_by (p : ascii -> bool) (s : string) : string :=
  match s with
  | EmptyString => EmptyString
  | String c r =>
      match rstrip_by p r with
      | EmptyString => if p c then EmptyString else String c EmptyString
      | r' => String c r'
      end
  end.

(** [s.lstrip()], [s.rstrip()], [s.strip()] *)
Definition lstrip := lstrip_by is_space.
Definition rstrip := rstrip_by is_space.
Definition strip (s : string) : string := rstrip (lstrip s).

(** [s[n:]] and [s[:n]] for [0 <= n]. *)
Fixpoint drop (n : nat) (s : string) : string :=
  match n, s with
  | S k, String _ r => drop k r
  | _, _ => s
  end.

Fixpoint take (n : nat) (s : string) : string :=
  match n, s with
  | S k, String c r => String c (take k r)
  | _, _ => EmptyString
  end.

(** [s[:-n]] for [0 < n]. *)
Definition drop_last (n : nat) (s : string) : string :=
  take (String.length s - n) s.

(** [s.startswith(p)] *)
Fixpoint startswith (s p : string) {struct p} : bool :=
  match p, s with
  | EmptyString, _ => true
  | String a p', String b s' => Ascii.eqb a b && startswith s' p'
  | String _ _, EmptyString => false
  end.

(** [s.endswith(p)] *)
Definition endswith (s p : string) : bool :=
  (String.length p <=? String.length s) &&
  String.eqb (drop (String.length s - String.length p) s) p.

(** [s.find(sub)], [None] for -1. *)
Fixpoint find (s sub : string) : option nat :=
  if startswith s sub then Some 0
  else match s with
       | EmptyString => None
       | String _ r => option_map S (find r sub)
       end.

(** [s.rfind(sub)], [None] for -1. *)
Fixpoint rfind (s sub : string) : option nat :=
  match s with
  | EmptyString => if startswith s sub then Some 0 else None
  | String _ r =>
      match rfind r sub with
      | Some i => Some (S i)
      | None => if startswith s sub then Some 0 else None
      end
  end.

(** [sub in s] *)
Definition contains (s sub : string) : bool :=
  match find s sub with Some _ => true | None => false end.

(** [s.split(sep, 1)], a list of one or two strings ([sep] is not empty). *)
Definition split1 (s sep : string) : list string :=
  match find s sep with
  | Some i => [take i s; drop (i + String.length sep) s]
  | None => [s]
  end.

(** [s.rsplit(sep, 1)] *)
Definition rsplit1 (s sep : string) : list string :=
  match rfind s sep with
  | Some i => [take i s; drop (i + String.length sep) s]
  | None => [s]
  end.

(** [s.split(sep)] for a separator that is not empty: the occurrences of
    [sep] are taken from the left and do not overlap.  [skip] counts the
    characters of a separator that are still to be passed over. *)
Fixpoint split_from (sep : string) (skip : nat) (cur : string) (s : string)
  : list string :=
  match s with
  | EmptyString => [cur]
  | String c r =>
      match skip with
      | S k => split_from sep k cur r
      | O =>
          if startswith s sep
          then cur :: split_from sep (String.length sep - 1) EmptyString r
          else split_from sep 0 (cur +:+ String c EmptyString) r
      end
  end.

Definition split (s sep : string) : list string :=
  split_from sep 0 EmptyString s.

(** [s.replace(old, new)] for [old] not empty. *)
Fixpoint replace_from (old new : string) (skip : nat) (s : string) : string :=
  match s with
  | EmptyString => EmptyString
  | String c r =>
      match skip with
      | S k => replace_from old new k r
      | O =>
          if startswith s old
          then new +:+ replace_from old new (String.length old - 1) r
          else String c (replace_from old new 0 r)
      end
  end.

Definition replace (s old new : string) : string :=
  replace_from old new 0 s.

(** [s.split()]: the maximal runs of characters that are not white space. *)
Fixpoint split_ws (s : string) : list string :=
  match s with
  | EmptyString => []
  | String c r =>
      if is_space c then split_ws r
      else match r with
           | EmptyString => [String c EmptyString]
           | String c' _ =>
               if is_space c' then String c EmptyString :: split_ws r
               else match split_ws r with
                    | t :: ts => String c t :: ts
                    | [] => [String c EmptyString]
                    end
           end
  end.

(** [sep.join(l)] *)
Fixpoint join (sep : string) (l : list string) : string :=
  match l with
  | [] => EmptyString
  | [x] => x
  | x :: r => x +:+ sep +:+ join sep r
  end.

(** [l[-1]] on a list of strings. *)
Definition last_item (l : list string) : result string :=
  match List.rev l with
  | x :: _ => Ok x
  | [] => Raise IndexError
  end.

(** [l[i]] for [0 <= i]. *)
Definition item (l : list string) (i : nat) : result string :=
  match nth_error l i with
  | Some x => Ok x
  | None => Raise IndexError
  end.

(** [a, b = l] *)
Definition unpack2 (l : list string) : result (string * string) :=
  match l with
  | [a; b] => Ok (a, b)
  | _ => Raise ValueError
  end.

(** The last character of a string. *)
Fixpoint last_char (s : string) : option ascii :=
  match s with
  | EmptyString => None
  | String c EmptyString => Some c
  | String _ r => last_char r
  end.

(** [str(n)] for a natural number. *)
Definition str_of_nat (n : nat) : string :=
  NilEmpty.string_of_uint (Nat.to_uint n).

(** Truthiness of an optional string and the operator [or]. *)
Definition truthy (o : option string) : bool :=
  match o with
  | Some s => nonempty s
  | None => false
  end.

Definition or_else (a b : option string) : option string :=
  if truthy a then a else b.

(** [x is None] *)
Definition is_none {A} (o : option A) : bool :=
  match o with Some _ => false | None => true end.

(** [f'{x}'] for an optional string. *)
Definition fmt (o : option string) : string :=
  match o with
  | Some s => s
  | None => "None"
  end.

(** The characters at which [str.splitlines] ends a line: line feed,
    vertical tab, form feed, carriage return, the file, group and record
    separators and the next-line character U+0085. *)
Definition is_line_break (c : ascii) : bool :=
  let n := ord c in
  ((10 <=? n) && (n <=? 13)) || ((28 <=? n) && (n <=? 30)) || (n =? 133).

(** [s.splitlines()]: the lines without their ends; a carriage return and
    the line feed after it end one line, and an end of line at the end of the
    text opens no further line.  [after_cr] tells that the character before
    was a carriage return. *)
Fixpoint splitlines_from (after_cr : bool) (cur : string) (s : string)
  : list string :=
  match s with
  | EmptyString => if nonempty cur then [cur] else []
  | String c r =>
      if after_cr && Ascii.eqb c (chr 10) then splitlines_from false cur r
      else if is_line_break c
      then cur :: splitlines_from (Ascii.eqb c (chr 13)) EmptyString r
      else splitlines_from false (cur +:+ String c EmptyString) r
  end.

Definition splitlines (s : string) : list string :=
  splitlines_from false EmptyString s.

(** [re.search(r'\bW\b', s)] for a phrase [W] that starts and ends with a
    word character: there is an occurrence of [W] in [s] with no word
    character just before it and none just after it.  [prev_word] tells that
    the character before is a word character. *)
Definition word_follows (w s : string) : bool :=
  match drop (String.length w) s with
  | String d _ => is_word d
  | EmptyString => false
  end.

Fixpoint search_phrase_from (prev_word : bool) (w s : string) : bool :=
  match s with
  | EmptyString => false
  | String c r =>
      (negb prev_word && startswith s w && negb (word_follows w s))
      || search_phrase_from (is_word c) w r
  end.

Definition search_phrase (w s : string) : bool :=
  search_phrase_from false w s.

(** [s[a:b]] for [0 <= a] and [b] that is not negative or is [-1]
    ([None] here). *)
Definition slice (s : string) (a : nat) (b : option nat) : string :=
  let stop :=
    match b with
    | Some j => j
    | None => String.length s - 1
    end in
  take (stop - a) (drop a s).

(** What the interpreter allows: the number of digits that [int] converts
    ([sys.get_int_max_str_digits()]: 4300 unless it is set otherwise, and 0
    where there is no limit), the largest length of a container
    ([sys.maxsize]), and whether there is memory for a list of [n] times the
    item [x] and for the text that joins it. *)
Record interpreter := Interpreter {
  int_max_str_digits : nat;
  maxsize : N;
  allocates : N -> option string -> bool
}.

(** The value of a string of decimal digits. *)
Definition digits_value (d : string) : N :=
  List.fold_left (fun n c => (10 * n + N.of_nat (ord c - 48))%N)
    (list_ascii_of_string d) 0%N.

(** [int(d)] for a string of decimal digits: [ValueError] when there are
    more digits than the interpreter converts. *)
Definition int_of_digits (py : interpreter) (d : string) : result N :=
  if (0 <? int_max_str_digits py)
     && (int_max_str_digits py <? String.length d)
  then Raise ValueError
  else Ok (digits_value d).

(** [[x]*n]: [OverflowError] when [n] is beyond [sys.maxsize], [MemoryError]
    when there is no memory for the list. *)
Definition repeat_item (py : interpreter) (x : option string) (n : N)
  : result (list (option string)) :=
  if (maxsize py <? n)%N then Raise OverflowError
  else if negb (allocates py n x) then Raise MemoryError
  else Ok (List.repeat x (N.to_nat n)).

(** [sep.join(l)] for a list whose items can be [None]: [TypeError] at the
    first item that is. *)
Fixpoint join_items (sep : string) (l : list (option string))
  : result string :=
  match l with
  | [] => Ok EmptyString
  | None :: _ => Raise TypeError
  | [Some x] => Ok x
  | Some x :: r =>
      rest ← join_items sep r;
      Ok (x +:+ sep +:+ rest)
  end.

End Py.

(** ** The metadata-anchored extractor: [extract_api_signatures.py] *)

Module Api.

(** *** [split_types_list] *)

Record split_state := SplitState {
  parts : list string;
  buf : string;
  depth_angle : nat;
  depth_curly : nat;
  depth_paren : nat
}.

Definition push (st : split_state) (ch : ascii) : string :=
  buf st +:+ String ch EmptyString.

(** The body of the loop [for ch in s].  The counters are natural numbers,
    whose subtraction stops at zero as [max(0, d - 1)] does. *)
Definition split_step (st : split_state) (ch : ascii) : split_state :=
  if Ascii.eqb ch "<" then
    SplitState (parts st) (push st ch)
      (depth_angle st + 1) (depth_curly st) (depth_paren st)
  else if Ascii.eqb ch ">" then
    SplitState (parts st) (push st ch)
      (Nat.max 0 (depth_angle st - 1)) (depth_curly st) (depth_paren st)
  else if Ascii.eqb ch "{" then
    SplitState (parts st) (push st ch)
      (depth_angle st) (depth_curly st + 1) (depth_paren st)
  else if Ascii.eqb ch "}" then
    SplitState (parts st) (push st ch)
      (depth_angle st) (Nat.max 0 (depth_curly st - 1)) (depth_paren st)
  else if Ascii.eqb ch "(" then
    SplitState (parts st) (push st ch)
      (depth_angle st) (depth_curly st) (depth_paren st + 1)
  else if Ascii.eqb ch ")" then
    SplitState (parts st) (push st ch)
      (depth_angle st) (depth_curly st) (Nat.max 0 (depth_paren st - 1))
  else if Ascii.eqb ch "," &&
          ((depth_angle st =? 0) && (depth_curly st =? 0)
           && (depth_paren st =? 0)) then
    SplitState (parts st ++ [Py.strip (buf st)]) EmptyString
      (depth_angle st) (depth_curly st) (depth_paren st)
  else
    SplitState (parts st) (push st ch)
      (depth_angle st) (depth_curly st) (depth_paren st).

Fixpoint split_loop (st : split_state) (s : string) : split_state :=
  match s with
  | EmptyString => st
  | String ch r => split_loop (split_step st ch) r
  end.

Definition split_init : split_state := SplitState [] EmptyString 0 0 0.

Definition split_types_list (s : string) : list string :=
  let st := split_loop split_init s in
  let parts :=
    if Py.nonempty (buf st) then parts st ++ [Py.strip (buf st)]
    else parts st in
  List.filter Py.nonempty parts.

(** *** [parse_help_id] *)

Definition parse_help_id (help_id : option string)
  : result (option string * option string * list string) :=
  match help_id with
  | None => Ok (None, None, [])
  | Some help_id =>
      if negb (Py.nonempty help_id) || negb (Py.startswith help_id "M:")
      then Ok (None, None, [])
      else
        let body := Py.drop 2 help_id in
        '(lhs, params_part) ←
          (if Py.contains body "(" then
             '(lhs, rhs) ← Py.unpack2 (Py.split1 body "(");
             params_part ←
               (if Py.contains rhs ")"
                then Py.item (Py.rsplit1 rhs ")") 0
                else Ok rhs);
             Ok (lhs, params_part)
           else Ok (body, EmptyString));
        '(container_fqn, method_raw) ←
          (if Py.contains lhs ".#ctor" then
             container_fqn ← Py.item (Py.split lhs ".#ctor") 0;
             Ok (container_fqn, "#ctor")
           else Py.unpack2 (Py.rsplit1 lhs "."));
        let param_types :=
          if Py.nonempty params_part then split_types_list params_part
          else [] in
        Ok (Some container_fqn, Some method_raw, param_types)
  end.

(** The part of a help id that names the member: what follows the marker,
    up to the first opening parenthesis. *)
Definition identity_part (help_id : string) : string :=
  let body := Py.drop 2 help_id in
  match Py.find body "(" with
  | Some i => Py.take i body
  | None => body
  end.

(** *** [parse_csharp_signature] *)

Definition CS_ACCESS_KWS : list string :=
  ["public"; "private"; "protected"; "internal"].
Definition CS_MODIFIER_KWS : list string :=
  ["static"; "virtual"; "override"; "sealed"; "extern"; "unsafe";
   "abstract"; "new"; "readonly"; "partial"; "async"].

(** [x in l] for a collection of strings. *)
Definition mem (x : string) (l : list string) : bool :=
  List.existsb (String.eqb x) l.

(** [re.sub(r'\s*=\s*[^,]+$', '', p)].  The pattern matches at a position
    when, after any white space, there is an [=] followed by at least one
    character and no comma up to the end; the match then runs to the end of
    the string, so the substitution keeps what precedes the leftmost such
    position. *)
Definition default_clause_at (p : string) : bool :=
  match Py.lstrip p with
  | String c r =>
      Ascii.eqb c "=" && Py.nonempty r
      && Py.str_all (fun x => negb (Ascii.eqb x ",")) r
  | EmptyString => false
  end.

Fixpoint sub_default_clause (p : string) : string :=
  match p with
  | EmptyString => EmptyString
  | String c r =>
      if default_clause_at p then EmptyString
      else String c (sub_default_clause r)
  end.

(** [re.sub(r'^(this|ref|out|params|in)\s+', '', p)] *)
Definition qualifiers : list string := ["this"; "ref"; "out"; "params"; "in"].

Definition qualifier_at (p kw : string) : bool :=
  Py.startswith p kw &&
  match Py.drop (String.length kw) p with
  | String c _ => Py.is_space c
  | EmptyString => false
  end.

Definition sub_qualifier (p : string) : string :=
  match List.find (qualifier_at p) qualifiers with
  | Some kw => Py.lstrip (Py.drop (String.length kw) p)
  | None => p
  end.

(** [$] of [re]: the end of the string, or just before a line feed that
    ends it. *)
Definition LF : string := String (Py.chr 10) EmptyString.
Definition CR : string := String (Py.chr 13) EmptyString.

Definition before_dollar (s : string) : string :=
  if Py.endswith s LF then Py.drop_last 1 s else s.

(** [re.match(r'^[A-Za-z_]\w*$', name)] *)
Definition is_identifier (name : string) : bool :=
  match name with
  | String c r =>
      (Py.is_alpha c || Ascii.eqb c "_")
      && Py.str_all Py.is_word (before_dollar r)
  | EmptyString => false
  end.

(** [f'arg{n}'] *)
Definition arg_name (n : nat) : string := "arg" +:+ Py.str_of_nat n.

(** The body of [for p in parts], on the list of names built so far. *)
Definition param_name_step (param_names : list string) (p : string)
  : result (list string) :=
  let p := Py.strip p in
  let p := sub_default_clause p in
  let p := sub_qualifier p in
  let tokens := Py.split_ws p in
  if negb (Nat.eqb (length tokens) 0) then
    name ← Py.last_item tokens;
    let name := Py.rstrip_by (fun c => Ascii.eqb c ",") name in
    let name := Py.replace name "[]" "" in
    let name := Py.lstrip_by (fun c => Ascii.eqb c "@") name in
    let name :=
      if negb (is_identifier name)
      then arg_name (length param_names + 1) else name in
    Ok (param_names ++ [name])
  else Ok (param_names ++ [arg_name (length param_names + 1)]).

Fixpoint param_name_loop (param_names : list string) (parts : list string)
  : result (list string) :=
  match parts with
  | [] => Ok param_names
  | p :: rest =>
      param_names ← param_name_step param_names p;
      param_name_loop param_names rest
  end.

(** [text[:text.index(')')+1]] *)
Definition upto_first (text sub : string) : result string :=
  match Py.find text sub with
  | Some i => Ok (Py.take (i + 1) text)
  | None => Raise ValueError
  end.

(** [' '.join(text.replace('\n', ' ').split())] *)
Definition oneline_of (text : string) : string :=
  Py.join " " (Py.split_ws (Py.replace text LF " ")).

Definition parse_csharp_signature
    (cs_text : option string) (container_simple : option string)
  : result (option string * option string * list string * bool) :=
  if negb (Py.truthy cs_text) then Ok (None, None, [], false)
  else
    let text := Py.strip (Py.fmt cs_text) in
    text ← (if Py.contains text ")" then upto_first text ")" else Ok text);
    let oneline := oneline_of text in
    let is_static := Py.contains (" " +:+ oneline +:+ " ") " static " in
    '(head, params_part) ←
      (if Py.contains oneline "(" && Py.contains oneline ")" then
         '(head, params) ← Py.unpack2 (Py.split1 oneline "(");
         before ← Py.item (Py.rsplit1 params ")") 0;
         Ok (head, Py.strip before)
       else Ok (oneline, EmptyString));
    let head_tokens :=
      List.filter
        (fun t => negb (mem t CS_ACCESS_KWS) && negb (mem t CS_MODIFIER_KWS))
        (Py.split_ws (Py.strip head)) in
    '(return_type, method_name) ←
      (if Nat.eqb (length head_tokens) 1 then
         name ← Py.item head_tokens 0;
         Ok (None, Some name)
       else if 2 <=? length head_tokens then
         rt ← Py.item head_tokens (length head_tokens - 2);
         name ← Py.last_item head_tokens;
         Ok (Some rt, Some name)
       else Ok (None, None));
    param_names ←
      (if Py.nonempty params_part
       then param_name_loop [] (split_types_list params_part)
       else Ok []);
    Ok (return_type, method_name, param_names, is_static).

(** The text that [parse_csharp_signature] reads: the sample without the
    white space around it, cut after its first closing parenthesis
    ([text = cs_text.strip()] and [text = text[:text.index(')')+1]]). *)
Definition first_block (cs_text : string) : string :=
  let text := Py.strip cs_text in
  match Py.find text ")" with
  | Some i => Py.take (i + 1) text
  | None => text
  end.

(** *** [map_dotnet_to_python] *)

Definition dict_get (d : list (string * string)) (k : string)
  : option string :=
  option_map snd (List.find (fun kv => String.eqb (fst kv) k) d).

Definition aliases : list (string * string) :=
  [ ("System.Void", "None"); ("void", "None");
    ("System.Boolean", "bool"); ("bool", "bool");
    ("System.Double", "float"); ("double", "float");
    ("System.Single", "float"); ("float", "float");
    ("System.Int32", "int"); ("int", "int");
    ("System.Int64", "int"); ("long", "int");
    ("System.String", "str"); ("string", "str");
    ("System.Object", "Any"); ("object", "Any") ].

Definition base_map : list (string * string) :=
  [ ("System.Collections.Generic.List", "List");
    ("System.Collections.Generic.IList", "List");
    ("System.Collections.Generic.IReadOnlyList", "Sequence");
    ("System.Collections.Generic.IEnumerable", "Iterable");
    ("System.Collections.Generic.ICollection", "Sequence");
    ("System.Collections.Generic.Dictionary", "Dict");
    ("System.Collections.Generic.IDictionary", "Dict");
    ("System.Tuple", "Tuple") ].

(** [(.+)\}$] matched against the whole of [s]: the group.  [.] does not
    match a line feed, and the group is greedy, so it is all of [s] up to the
    closing brace that [$] follows. *)
Definition group_before_brace (s : string) : option string :=
  let body := before_dollar s in
  if Py.endswith body "}" then
    let g := Py.drop_last 1 body in
    if Py.nonempty g && negb (Py.contains g LF) then Some g else None
  else None.

(** [re.match(r'(?:System\.)?Nullable\{(.+)\}$', t)]: group 1 *)
Definition match_nullable (t : string) : option string :=
  if Py.startswith t "System.Nullable{" then group_before_brace (Py.drop 16 t)
  else if Py.startswith t "Nullable{" then group_before_brace (Py.drop 9 t)
  else None.

Fixpoint take_while (p : ascii -> bool) (s : string) : string :=
  match s with
  | String c r => if p c then String c (take_while p r) else EmptyString
  | EmptyString => EmptyString
  end.

(** [re.match(r'(?P<base>[\w\.]+)\{(?P<inner>.+)\}$', t)]: the groups.  The
    base is the longest run of word characters and dots at the start: a
    shorter one is followed by one of these and not by a brace. *)
Definition is_name_char (c : ascii) : bool := Py.is_word c || Ascii.eqb c ".".

Definition match_generic (t : string) : option (string * string) :=
  let base := take_while is_name_char t in
  let rest := Py.drop (String.length base) t in
  if Py.nonempty base && Py.startswith rest "{" then
    option_map (pair base) (group_before_brace (Py.drop 1 rest))
  else None.

(** [l[-1]] of the list that [str.split] returns, which is never empty. *)
Definition last_segment (l : list string) : string :=
  List.last l EmptyString.

Definition opt_eqb (t : string) (o : option string) : bool :=
  match o with
  | Some s => String.eqb t s
  | None => false
  end.

(** The body of [map_dotnet_to_python]; [self] stands for the function in
    its recursive calls, made with the same two container arguments. *)
Definition map_body (self : string -> string)
    (container_fqn container_simple : option string) (t : string) : string :=
  let t := Py.strip t in
  if Py.endswith t "[]" then
    let inner := Py.strip (Py.drop_last 2 t) in
    "List[" +:+ self inner +:+ "]"
  else
    match match_nullable t with
    | Some g =>
        let inner := Py.strip g in
        "Optional[" +:+ self inner +:+ "]"
    | None =>
        if Py.endswith t "?" && negb (Py.endswith t "??") then
          let inner := Py.drop_last 1 t in
          "Optional[" +:+ self inner +:+ "]"
        else
          match match_generic t with
          | Some (base, inner) =>
              let inner_parts := split_types_list inner in
              let mapped_inners := List.map self inner_parts in
              let py_base :=
                match dict_get base_map base with
                | Some b => b
                | None => last_segment (Py.split base ".")
                end in
              let inner_str := Py.join ", " mapped_inners in
              py_base +:+ "[" +:+ inner_str +:+ "]"
          | None =>
              match dict_get aliases t with
              | Some a => a
              | None =>
                  if Py.truthy container_simple
                     && opt_eqb t container_simple
                  then Py.fmt (Py.or_else container_fqn (Some t))
                  else t
              end
          end
    end.

(** The recursive calls are on strictly shorter strings; [fuel] bounds their
    depth, and [map_dotnet_to_python] supplies more than is needed (lemma
    [map_dotnet_to_python_unfold]). *)
Fixpoint map_fuel (fuel : nat) (container_fqn container_simple : option string)
    (t : string) : string :=
  match fuel with
  | O => t
  | S fuel =>
      map_body (map_fuel fuel container_fqn container_simple)
        container_fqn container_simple t
  end.

Definition map_dotnet_to_python
    (t : string) (container_fqn container_simple : option string) : string :=
  map_fuel (S (String.length t)) container_fqn container_simple t.

(** *** [build_signature_line] *)

(** [zip(param_names, ann_types)] formatted as [f'{name}: {ann}']. *)
Fixpoint annotate (names anns : list string) : list string :=
  match names, anns with
  | n :: ns, a :: ans => (n +:+ ": " +:+ a) :: annotate ns ans
  | _, _ => []
  end.

(** [[f'arg{i+1}' for i in range(n)]] *)
Definition placeholder_names (n : nat) : list string :=
  List.map (fun i => arg_name (i + 1)) (List.seq 0 n).

(** The step that aligns the count of the names with that of the types. *)
Definition reconcile_names (param_names ann_types : list string)
  : list string :=
  if negb (Nat.eqb (length param_names) (length ann_types))
  then placeholder_names (length ann_types) else param_names.

Definition container_simple_of (container_fqn : option string)
  : option string :=
  if Py.truthy container_fqn
  then Some (last_segment (Py.split (Py.fmt container_fqn) "."))
  else None.

Definition opt_eq (a b : option string) : bool :=
  match a, b with
  | Some x, Some y => String.eqb x y
  | None, None => true
  | _, _ => false
  end.

(** The test that decides the constructor branch. *)
Definition is_ctor (container_fqn method_raw cs_method_name : option string)
  : bool :=
  let container_simple := container_simple_of container_fqn in
  opt_eq method_raw (Some "#ctor")
  || (Py.truthy cs_method_name && Py.truthy container_simple
      && opt_eq cs_method_name container_simple).

Definition signature_name_return
    (container_fqn method_raw cs_return_type cs_method_name : option string)
  : option string * string :=
  let container_simple := container_simple_of container_fqn in
  if is_ctor container_fqn method_raw cs_method_name then
    (Some "__init__", "None")
  else
    (Py.or_else cs_method_name method_raw,
     map_dotnet_to_python
       (Py.fmt (Py.or_else cs_return_type (Some "None")))
       container_fqn container_simple).

(** [self], for a constructor and for a method that is not static and
    whose name the sample gave. *)
Definition self_part (py_method_name cs_method_name : option string)
    (is_static : bool) : list string :=
  if opt_eq py_method_name (Some "__init__")
     || (negb is_static && Py.truthy cs_method_name)
  then ["self"] else [].

Definition signature_params
    (container_fqn method_raw : option string) (param_types : list string)
    (cs_return_type cs_method_name : option string)
    (param_names : list string) (is_static : bool) : list string :=
  let container_simple := container_simple_of container_fqn in
  let py_method_name :=
    fst (signature_name_return container_fqn method_raw cs_return_type
           cs_method_name) in
  let ann_types :=
    List.map (fun t => map_dotnet_to_python t container_fqn container_simple)
      param_types in
  let param_names := reconcile_names param_names ann_types in
  let params := self_part py_method_name cs_method_name is_static in
  params ++ annotate param_names ann_types.

Definition build_signature_line
    (container_fqn method_raw : option string) (param_types : list string)
    (cs_return_type cs_method_name : option string)
    (param_names : list string) (is_static : bool) : string :=
  let '(py_method_name, py_return) :=
    signature_name_return container_fqn method_raw cs_return_type
      cs_method_name in
  let params :=
    signature_params container_fqn method_raw param_types cs_return_type
      cs_method_name param_names is_static in
  let qualified := Py.fmt container_fqn +:+ "." +:+ Py.fmt py_method_name in
  qualified +:+ "(" +:+ Py.join ", " params +:+ ") -> " +:+ py_return.

(** *** [process_file]

    The page is given by what [extract_help_id] and [extract_csharp_pre]
    find in it: the content of the help-id tag and the text of the code
    sample, [None] when there is none. *)
Definition process_file (help_id cs_text : option string)
  : result (option string) :=
  '(container_fqn, method_raw, param_types) ←
    parse_help_id (Py.or_else help_id (Some ""));
  '(cs_return_type, cs_method_name, param_names, is_static) ←
    parse_csharp_signature (Py.or_else cs_text (Some ""))
      (container_simple_of container_fqn);
  if negb (Py.truthy container_fqn)
     || negb (Py.truthy method_raw || Py.truthy cs_method_name)
  then Ok None
  else
    try_except
      (Ok (Some (build_signature_line container_fqn method_raw param_types
                   cs_return_type cs_method_name param_names is_static)))
      (Ok None).

(** *** [filter_namespace]

    The files are given by their text: the input file by the text that the
    iteration sees (decoded, with the ends of lines translated to line feeds),
    the output file by the text that is written to it (before the translation
    of the line feeds to the line ends of the platform).  The two files are
    taken to be different ones. *)

(** [for line in infile]: the lines with their line feeds; the last one
    may have none. *)
Fixpoint file_lines_from (cur : string) (s : string) : list string :=
  match s with
  | EmptyString => if Py.nonempty cur then [cur] else []
  | String c r =>
      if Ascii.eqb c (Py.chr 10)
      then (cur +:+ String c EmptyString) :: file_lines_from EmptyString r
      else file_lines_from (cur +:+ String c EmptyString) r
  end.

Definition file_lines (text : string) : list string :=
  file_lines_from EmptyString text.

(** The calls of [outfile.write], one after the other. *)
Definition written (lines : list string) : string :=
  List.fold_right String.append EmptyString lines.

Definition filter_namespace (input_text : string) (namespace : string)
  : string :=
  written
    (List.filter (fun line => Py.startswith line namespace)
       (file_lines input_text)).

(** A line with its line feed, and a last line without one. *)
Definition ended (l : string) : Prop :=
  exists body,
    l = body +:+ LF /\ Py.str_any (Ascii.eqb (Py.chr 10)) body = false.

Definition open_line (l : string) : Prop :=
  l <> "" /\ Py.str_any (Ascii.eqb (Py.chr 10)) l = false.

End Api.

(** ** The block-anchored extractor: [extract_rhinoscriptsyntax_signatures.py] *)

Module Rss.

Import Api.

(** [norm]: [(s or "").strip().lower()] *)
Definition norm (s : option string) : string :=
  Py.lower (Py.strip (Py.fmt (Py.or_else s (Some "")))).

Definition py_map : list (string * string) :=
  [ ("none", "None"); ("void", "None");
    ("bool", "bool"); ("boolean", "bool");
    ("number", "float"); ("double", "float"); ("float", "float");
    ("int", "int"); ("integer", "int");
    ("str", "str"); ("string", "str");
    ("guid", "str"); ("uuid", "str");
    ("date", "datetime.date"); ("datetime.date", "datetime.date");
    ("color", "Tuple[int, int, int]");
    ("point", "Tuple[float, float, float]");
    ("point3d", "Tuple[float, float, float]");
    ("vector", "Tuple[float, float, float]");
    ("vector3d", "Tuple[float, float, float]");
    ("interval", "Tuple[float, float]");
    ("plane", "Any");
    ("matrix", "List[List[float]]"); ("transform", "List[List[float]]") ].

Definition dn_map : list (string * string) :=
  [ ("none", "None"); ("void", "None");
    ("bool", "bool"); ("boolean", "bool");
    ("number", "float"); ("double", "float"); ("float", "float");
    ("int", "int"); ("integer", "int");
    ("str", "str"); ("string", "str");
    ("guid", "System.Guid"); ("uuid", "System.Guid");
    ("date", "datetime.date"); ("datetime.date", "datetime.date");
    ("color", "System.Drawing.Color");
    ("point", "Rhino.Geometry.Point3d");
    ("point3d", "Rhino.Geometry.Point3d");
    ("vector", "Rhino.Geometry.Vector3d");
    ("vector3d", "Rhino.Geometry.Vector3d");
    ("interval", "Tuple[float, float]");
    ("plane", "Rhino.Geometry.Plane");
    ("matrix", "Rhino.Geometry.Transform");
    ("transform", "Rhino.Geometry.Transform") ].

(** [t.replace(EN_DASH, HYPHEN)], the en dash replaced by a hyphen: the en
    dash U+2013 is beyond U+00FF, so no text of this development has one and
    the call returns its text. *)
Definition replace_en_dash (t : string) : string := t.

Definition is_base_char (c : ascii) : bool :=
  Py.is_alpha c || Py.is_digit c || Ascii.eqb c "_" || Ascii.eqb c ".".

(** [re.match(r'(\d+)\s+([a-zA-Z0-9_.]+)s?$', inner)]: the groups.  The
    digits and the white space after them are the longest runs; the second
    group is greedy and [s] is one of its characters, so it takes all that
    is left up to [$] and [s?] matches nothing. *)
Definition match_tuple_count (inner : string) : option (string * string) :=
  let digits := take_while Py.is_digit inner in
  let rest := Py.drop (String.length digits) inner in
  let ws := take_while Py.is_space rest in
  let base := before_dollar (Py.drop (String.length ws) rest) in
  if Py.nonempty digits && Py.nonempty ws && Py.nonempty base
     && Py.str_all is_base_char base
  then Some (digits, base) else None.

(** [[p.strip() for p in t.split(' or ') if p.strip()]] *)
Definition union_parts (t : string) : list string :=
  List.map Py.strip
    (List.filter (fun p => Py.nonempty (Py.strip p)) (Py.split t " or ")).

(** The loop [for part in ...] over the alternatives of a union: the first
    [mt = base_map.get(part, None)] that is truthy. *)
Fixpoint first_resolved (base_map : list (string * string))
    (parts : list string) : option string :=
  match parts with
  | [] => None
  | part :: rest =>
      match dict_get base_map part with
      | Some mt =>
          if Py.nonempty mt then Some mt else first_resolved base_map rest
      | None => first_resolved base_map rest
      end
  end.

Section Mapper.

(** [map_type] is the closure that [build_type_mapper] returns; it reads
    [base_map], the table chosen by the style, and runs on the interpreter
    [py]. *)
Variable py : Py.interpreter.
Variable base_map : list (string * string).

Definition heuristics (t : string) : option string :=
  if Py.contains t "point" then dict_get base_map "point"
  else if Py.contains t "vector" then dict_get base_map "vector"
  else if Py.contains t "color" then dict_get base_map "color"
  else if Py.contains t "interval" then dict_get base_map "interval"
  else if Py.contains t "plane" then dict_get base_map "plane"
  else if Py.contains t "transform" || Py.contains t "matrix"
  then dict_get base_map "transform"
  else Some "Any".

(** [', '.join([inner_t]*n)] *)
Definition join_repeated (inner_t : option string) (n : N)
  : result string :=
  items ← Py.repeat_item py inner_t n;
  Py.join_items ", " items.

(** The body of [map_type]; the argument [map_type] stands for the function
    in its recursive calls. *)
Definition map_type_body (map_type : string -> result (option string))
    (label : string) : result (option string) :=
  let t := norm (Some label) in
  if negb (Py.nonempty t) then Ok (Some "Any")
  else
    let t := replace_en_dash t in
    if Py.contains t " or " then
      match first_resolved base_map (union_parts t) with
      | Some mt => Ok (Some mt)
      | None =>
          first ← Py.item (Py.split1 t " or ") 0;
          map_type first
      end
    else if Py.startswith t "list of " || Py.startswith t "array of "
    then
      inner ← Py.item (Py.split1 t " of ") 1;
      r ← map_type (Py.strip inner);
      Ok (Some ("List[" +:+ Py.fmt r +:+ "]"))
    else if Py.startswith t "tuple of " then
      inner ← Py.item (Py.split1 t " of ") 1;
      match match_tuple_count (Py.strip inner) with
      | Some (digits, base) =>
          n ← Py.int_of_digits py digits;
          inner_t ← map_type base;
          items ← join_repeated inner_t n;
          Ok (Some ("Tuple[" +:+ items +:+ "]"))
      | None => Ok (Some "Tuple[Any, ...]")
      end
    else
      match dict_get base_map t with
      | Some l => Ok (Some l)
      | None =>
          if Py.contains t "," then
            first ← Py.item (Py.split1 t ",") 0;
            map_type (Py.strip first)
          else if Py.startswith t "[" && Py.contains t "..."
                  && (Py.contains t "guid" || Py.contains t "uuid")
          then
            Ok (Some ("List["
                      +:+ default "str" (dict_get base_map "guid")
                      +:+ "]"))
          else Ok (heuristics t)
      end.

(** The recursive calls are on strictly shorter labels; [fuel] bounds their
    depth, and [map_type] supplies more than is needed (lemma
    [map_type_unfold]). *)
Fixpoint map_type_fuel (fuel : nat) (label : string)
  : result (option string) :=
  match fuel with
  | O => Raise FuelExhausted
  | S fuel => map_type_body (map_type_fuel fuel) label
  end.

Definition map_type (label : string) : result (option string) :=
  map_type_fuel (S (String.length label)) label.

End Mapper.

(** [build_type_mapper(style)]:
    [base_map = dn_map if style == 'dotnet' else py_map]. *)
Definition style_map (style : string) : list (string * string) :=
  if String.eqb style "dotnet" then dn_map else py_map.

Definition build_type_mapper (py : Py.interpreter) (style : string)
  : string -> result (option string) :=
  map_type py (style_map style).

(** *** [build_typed_signature] *)

(** An entry of the parameters table: [{'type': ..., 'optional': ...}]. *)
Record pinfo := PInfo { ptype : string; poptional : bool }.

(** The body of [for name, default in sig_params]: the item appended. *)
Definition typed_item (param_types : gmap string pinfo)
    (p : string * option string) : string :=
  let '(name, dflt) := p in
  let pinfo := default (PInfo "Any" false) (param_types !! name) in
  let ann := ptype pinfo in
  let optional := poptional pinfo in
  let '(ann, dflt) :=
    if optional && Py.is_none dflt
       && negb (mem ann ["Any"; "None"])
       && negb (Py.startswith ann "Optional[")
    then ("Optional[" +:+ ann +:+ "]", Some "None")
    else (ann, dflt) in
  match dflt with
  | None => name +:+ ": " +:+ ann
  | Some d => name +:+ ": " +:+ ann +:+ " = " +:+ d
  end.

Definition build_typed_signature (func_name : string)
    (sig_params : list (string * option string))
    (param_types : gmap string pinfo) (returns_type : string) : string :=
  let items := List.map (typed_item param_types) sig_params in
  let args_str := Py.join ", " items in
  "rhinoscriptsyntax." +:+ func_name +:+ "(" +:+ args_str +:+ ") -> "
    +:+ returns_type.

(** *** [parse_signature] *)

(** The pattern that [re.match] applies to [sig_text], piece by piece:
    [^\s*], the group [[A-Za-z_]\w*], [\s*\(\s*], the group [.*?] and
    [\s*\)\s*$]; the result is the two groups.  The name is the longest run
    of word characters: after a shorter one comes a word character, which is
    neither white space nor the parenthesis.  The closing parenthesis of the
    pattern has only white space after it, so it is the last character of the
    text that is not white space; the second group, which takes as little as
    it can between the white space, is what stands between the two
    parentheses, trimmed; its [.] does not match a line feed. *)
Definition match_signature (sig_text : string) : option (string * string) :=
  match Py.lstrip sig_text with
  | String c r =>
      if Py.is_alpha c || Ascii.eqb c "_" then
        let name := String c (take_while Py.is_word r) in
        match Py.lstrip (Py.drop (String.length name) (String c r)) with
        | String p inner =>
            let tail := Py.rstrip inner in
            if Ascii.eqb p "(" && Py.endswith tail ")" then
              let g := Py.strip (Py.drop_last 1 tail) in
              if Py.contains g LF then None else Some (name, g)
            else None
        | EmptyString => None
        end
      else None
  | EmptyString => None
  end.

(** The loop [for ch in params_raw]: the parts found, the buffer and the
    depth of the parentheses. *)
Record sig_state := SigState {
  sig_parts : list string;
  sig_buf : string;
  sig_depth : nat
}.

Definition sig_step (st : sig_state) (ch : ascii) : sig_state :=
  if Ascii.eqb ch "(" then
    SigState (sig_parts st) (sig_buf st +:+ String ch EmptyString)
      (sig_depth st + 1)
  else if Ascii.eqb ch ")" then
    SigState (sig_parts st) (sig_buf st +:+ String ch EmptyString)
      (Nat.max 0 (sig_depth st - 1))
  else if Ascii.eqb ch "," && (sig_depth st =? 0) then
    SigState (sig_parts st ++ [Py.strip (sig_buf st)]) EmptyString
      (sig_depth st)
  else
    SigState (sig_parts st) (sig_buf st +:+ String ch EmptyString)
      (sig_depth st).

Fixpoint sig_loop (st : sig_state) (s : string) : sig_state :=
  match s with
  | EmptyString => st
  | String ch r => sig_loop (sig_step st ch) r
  end.

Definition sig_parts_of (params_raw : string) : list string :=
  let st := sig_loop (SigState [] EmptyString 0) params_raw in
  if Py.nonempty (sig_buf st)
  then sig_parts st ++ [Py.strip (sig_buf st)]
  else sig_parts st.

(** The body of [for p in parts], on the list of parameters built so
    far. *)
Definition sig_param_step (params : list (string * option string))
    (p : string) : result (list (string * option string)) :=
  if negb (Py.nonempty p) then Ok params
  else if Py.contains p "=" then
    '(n, d) ← Py.unpack2 (Py.split1 p "=");
    Ok (params ++ [(Py.strip n, Some (Py.strip d))])
  else Ok (params ++ [(Py.strip p, None)]).

Fixpoint sig_param_loop (params : list (string * option string))
    (parts : list string) : result (list (string * option string)) :=
  match parts with
  | [] => Ok params
  | p :: rest =>
      params ← sig_param_step params p;
      sig_param_loop params rest
  end.

Definition parse_signature (sig_text : string)
  : result (option string * list (string * option string)) :=
  let sig_text := Py.replace (Py.strip sig_text) CR "" in
  sig_text ← Py.item (Py.splitlines sig_text) 0;
  match match_signature sig_text with
  | None => Ok (None, [])
  | Some (name, params_raw) =>
      params ←
        (if Py.nonempty params_raw
         then sig_param_loop [] (sig_parts_of params_raw)
         else Ok []);
      Ok (Some name, params)
  end.

(** *** [parse_returns_block] *)

(** [re.search(r'\bNone on error\b', ln, re.IGNORECASE)]: without regard
    to case, so the phrase in lower case is searched in the line in lower
    case (a character is a word character exactly when its lower case
    is). *)
Definition none_on_error (ln : string) : bool :=
  Py.search_phrase "none on error" (Py.lower ln).

(** The body of [for ln in lines], on [ret_type] and [saw_none]. *)
Definition returns_step (map_type : string -> result (option string))
    (st : option string * bool) (ln : string)
  : result (option string * bool) :=
  let '(ret_type, saw_none) := st in
  let saw_none := if none_on_error ln then true else saw_none in
  token ← Py.item (Py.split1 ln ":") 0;
  t ← map_type token;
  let ret_type :=
    if negb (opt_eq t (Some "None")) && Py.is_none ret_type
    then t else ret_type in
  let ret_type :=
    if opt_eq t (Some "None") && Py.is_none ret_type
    then Some "None" else ret_type in
  Ok (ret_type, saw_none).

Fixpoint returns_loop (map_type : string -> result (option string))
    (st : option string * bool) (lines : list string)
  : result (option string * bool) :=
  match lines with
  | [] => Ok st
  | ln :: rest =>
      st ← returns_step map_type st ln;
      returns_loop map_type st rest
  end.

(** [[ln.strip() for ln in pre_text.splitlines() if ln.strip()]] *)
Definition stripped_lines (pre_text : string) : list string :=
  List.map Py.strip
    (List.filter (fun ln => Py.nonempty (Py.strip ln)) (Py.splitlines pre_text)).

Definition parse_returns_block (pre_text : string)
    (map_type : string -> result (option string)) : result string :=
  let lines := stripped_lines pre_text in
  '(ret_type, saw_none) ← returns_loop map_type (None, false) lines;
  let ret_type :=
    match ret_type with
    | None => "None"
    | Some r => r
    end in
  let ret_type :=
    if saw_none && negb (String.eqb ret_type "None")
       && negb (Py.startswith ret_type "Optional[")
    then "Optional[" +:+ ret_type +:+ "]" else ret_type in
  Ok ret_type.

(** *** [parse_params_block] *)

(** [PARAM_LINE_RE.match(s)]: the groups.  The pattern is, piece by piece,
    [^\s*], the group [[A-Za-z_][\w,\s]*], [\s*\(], the group [[^)]*] and
    [\)\s*:?].  The first group is a letter or an underscore and the longest
    run of word characters, commas and white space after it: what follows a
    shorter one is a character of the run and not the parenthesis.  The second
    group is what stands before the first closing parenthesis.  The letters
    of the pattern are of both cases and no character of U+0080..U+00FF has
    an ASCII letter as its other case, so the flag [re.IGNORECASE] changes
    nothing. *)
Definition is_names_char (c : ascii) : bool :=
  Py.is_word c || Ascii.eqb c "," || Py.is_space c.

Definition match_param_line (s : string) : option (string * string) :=
  match Py.lstrip s with
  | String c r =>
      if Py.is_alpha c || Ascii.eqb c "_" then
        let run := take_while is_names_char r in
        match Py.drop (String.length run) r with
        | String p after =>
            if Ascii.eqb p "(" then
              match Py.find after ")" with
              | Some j => Some (String c run, Py.take j after)
              | None => None
              end
            else None
        | EmptyString => None
        end
      else None
  | EmptyString => None
  end.

(** [OPTIONAL_TAG_RE.search(line)]: the word [optional], without regard
    to case. *)
Definition optional_tag (line : string) : bool :=
  Py.search_phrase "optional" (Py.lower line).

(** [[n.strip() for n in names_part.split(',') if n.strip()]] *)
Definition names_of (names_part : string) : list string :=
  List.map Py.strip
    (List.filter (fun n => Py.nonempty (Py.strip n))
       (Py.split names_part ",")).

(** An entry of the table: [{'type': ..., 'optional': ...}], with the type
    as the mapper gave it. *)
Record entry (L : Type) := Entry { entry_type : L; entry_optional : bool }.
Arguments Entry {L} _ _.
Arguments entry_type {L} _.
Arguments entry_optional {L} _.

Section Params.

(** The mapper is a parameter of [parse_params_block]; [L] is the type of
    what it returns. *)
Context {L : Type}.
Variable map_type : string -> result L.

(** [for nm in names: mapping[nm] = {'type': map_type(inner_clean),
    'optional': optional}] *)
Fixpoint assign_names (mapping : gmap string (entry L))
    (names : list string) (inner_clean : string) (optional : bool)
  : result (gmap string (entry L)) :=
  match names with
  | [] => Ok mapping
  | nm :: rest =>
      t ← map_type inner_clean;
      assign_names (<[nm := Entry t optional]> mapping) rest inner_clean
        optional
  end.

(** The body of [for raw_line in pre_text.splitlines()]. *)
Definition params_step (mapping : gmap string (entry L)) (raw_line : string)
  : result (gmap string (entry L)) :=
  let line := Py.rstrip raw_line in
  if negb (Py.nonempty (Py.strip line)) then Ok mapping
  else if (Py.startswith line "  " || Py.startswith line (String (Py.chr 9) ""))
          && negb (bool_decide (mapping = ∅))
  then Ok mapping
  else
    match match_param_line (Py.strip line) with
    | None =>
        if Py.contains line "(" && Py.contains line ")" then
          left ← Py.item (Py.split1 line ":") 0;
          first ← Py.item (Py.split left "(") 0;
          let names_part := Py.strip first in
          let inner :=
            Py.slice left
              (match Py.find left "(" with Some i => i + 1 | None => 0 end)
              (Py.rfind left ")") in
          let names := names_of names_part in
          first ← Py.item (Py.split inner ",") 0;
          let inner_clean := Py.strip first in
          let optional := optional_tag line in
          assign_names mapping names inner_clean optional
        else Ok mapping
    | Some (names_part, type_label) =>
        let names := names_of names_part in
        first ← Py.item (Py.split type_label ",") 0;
        let inner_clean := Py.strip first in
        let optional := optional_tag line in
        assign_names mapping names inner_clean optional
    end.

Fixpoint params_loop (mapping : gmap string (entry L))
    (lines : list string) : result (gmap string (entry L)) :=
  match lines with
  | [] => Ok mapping
  | raw_line :: rest =>
      mapping ← params_step mapping raw_line;
      params_loop mapping rest
  end.

End Params.

Definition parse_params_block {L : Type} (pre_text : string)
    (map_type : string -> result L) : result (gmap string (entry L)) :=
  params_loop map_type ∅ (Py.splitlines pre_text).

End Rss.

(** ** The delimiter-aware split, as the specification words it *)

Module SplitSpec.

Import Api.

(** The three scope counters. *)
Record scope := Scope { angle : nat; curly : nat; paren : nat }.

Definition outside : scope := Scope 0 0 0.

(** No scope is open. *)
Definition closed (d : scope) : bool :=
  (angle d =? 0) && (curly d =? 0) && (paren d =? 0).

(** An opener opens a scope of its kind; a closer closes one, and is passed
    over when none is open (the subtraction on [nat] stops at zero). *)
Definition enter_leave (d : scope) (ch : ascii) : scope :=
  if Ascii.eqb ch "<" then Scope (angle d + 1) (curly d) (paren d)
  else if Ascii.eqb ch ">" then Scope (angle d - 1) (curly d) (paren d)
  else if Ascii.eqb ch "{" then Scope (angle d) (curly d + 1) (paren d)
  else if Ascii.eqb ch "}" then Scope (angle d) (curly d - 1) (paren d)
  else if Ascii.eqb ch "(" then Scope (angle d) (curly d) (paren d + 1)
  else if Ascii.eqb ch ")" then Scope (angle d) (curly d) (paren d - 1)
  else d.

(** The scope counters after the characters of [s], read from [d]. *)
Fixpoint scope_at (d : scope) (s : string) : scope :=
  match s with
  | EmptyString => d
  | String ch r => scope_at (enter_leave d ch) r
  end.

(** A separator splits when no scope is open. *)
Definition is_cut (d : scope) (ch : ascii) : bool :=
  Ascii.eqb ch "," && closed d.

Definition cons_head (ch : ascii) (segs : list string) : list string :=
  match segs with
  | seg :: rest => String ch seg :: rest
  | [] => [String ch EmptyString]
  end.

(** The segments of [s], in order, between the separators that split. *)
Fixpoint segments_from (d : scope) (s : string) : list string :=
  match s with
  | EmptyString => [EmptyString]
  | String ch r =>
      if is_cut d ch then EmptyString :: segments_from d r
      else cons_head ch (segments_from (enter_leave d ch) r)
  end.

Definition segments (s : string) : list string := segments_from outside s.

(** The trimmed segments that are not empty. *)
Definition split_spec (s : string) : list string :=
  List.filter Py.nonempty (List.map Py.strip (segments s)).

(** The scope counters of a state of the loop. *)
Definition scope_of (st : split_state) : scope :=
  Scope (depth_angle st) (depth_curly st) (depth_paren st).

(** [prepend b segs]: the characters of [b] go before the first segment. *)
Definition prepend (b : string) (segs : list string) : list string :=
  match segs with
  | seg :: rest => (b +:+ seg) :: rest
  | [] => [b]
  end.

(** Read from the scope [d], the string [s] has no separator that splits,
    and leaves the scope [d']. *)
Definition whole (d : scope) (s : string) (d' : scope) : Prop :=
  segments_from d s = [s] /\ scope_at d s = d'.

(** A character that is neither a separator nor opens or closes a scope. *)
Definition plain (c : ascii) : bool :=
  negb (List.existsb (Ascii.eqb c)
          ["<"; ">"; "{"; "}"; "("; ")"; ","]%char).

End SplitSpec.

(** ** The calls that [map_type] makes *)

Module RssCalls.

Import Api Rss.

(** What the body of [map_type] does with a label: it returns a label at
    once, or calls itself on a part of the label and returns the result as it
    is, in a list or repeated in a tuple as many times as the digits say. *)
Inductive call :=
| Const (r : string)
| Tail (x : string)
| ListOf (x : string)
| TupleOf (x : string) (digits : string).

Definition run_call (py : Py.interpreter)
    (f : string -> result (option string)) (c : call)
  : result (option string) :=
  match c with
  | Const r => Ok (Some r)
  | Tail x => f x
  | ListOf x =>
      r ← f x;
      Ok (Some ("List[" +:+ Py.fmt r +:+ "]"))
  | TupleOf x digits =>
      n ← Py.int_of_digits py digits;
      inner_t ← f x;
      items ← join_repeated py inner_t n;
      Ok (Some ("Tuple[" +:+ items +:+ "]"))
  end.

Definition call_arg (c : call) : option string :=
  match c with
  | Const _ => None
  | Tail x | ListOf x | TupleOf x _ => Some x
  end.

(** The label as [map_type] looks at it: trimmed and in lower case. *)
Definition normalized (label : string) : string :=
  replace_en_dash (norm (Some label)).

Definition call_of (base_map : list (string * string)) (label : string)
  : call :=
  let t := normalized label in
  if negb (Py.nonempty t) then Const "Any"
  else if Py.contains t " or " then
    match first_resolved base_map (union_parts t) with
    | Some mt => Const mt
    | None => Tail (List.nth 0 (Py.split1 t " or ") EmptyString)
    end
  else if Py.startswith t "list of " || Py.startswith t "array of " then
    ListOf (Py.strip (List.nth 1 (Py.split1 t " of ") EmptyString))
  else if Py.startswith t "tuple of " then
    match
      match_tuple_count (Py.strip (List.nth 1 (Py.split1 t " of ") EmptyString))
    with
    | Some (digits, base) => TupleOf base digits
    | None => Const "Tuple[Any, ...]"
    end
  else
    match dict_get base_map t with
    | Some l => Const l
    | None =>
        if Py.contains t "," then
          Tail (Py.strip (List.nth 0 (Py.split1 t ",") EmptyString))
        else if Py.startswith t "[" && Py.contains t "..."
                && (Py.contains t "guid" || Py.contains t "uuid")
        then Const ("List[" +:+ default "str" (dict_get base_map "guid")
                    +:+ "]")
        else Const (default "Any" (heuristics base_map t))
    end.

(** A label to which one of the rules of [map_type] applies. *)
Definition domain_nouns : list string :=
  ["point"; "vector"; "color"; "interval"; "plane"; "transform"; "matrix"].

Definition recognized (base_map : list (string * string)) (t : string) : bool :=
  Py.contains t " or "
  || Py.startswith t "list of " || Py.startswith t "array of "
  || Py.startswith t "tuple of "
  || negb (Py.is_none (dict_get base_map t))
  || Py.contains t ","
  || (Py.startswith t "[" && Py.contains t "..."
      && (Py.contains t "guid" || Py.contains t "uuid"))
  || List.existsb (Py.contains t) domain_nouns.

(** Outputs of [map_type] that it maps to themselves: in both styles, and in
    the style [dotnet] only. *)
Definition kept_labels : list string :=
  ["None"; "bool"; "float"; "int"; "str"; "datetime.date"; "Any"].

Definition kept_dotnet_labels : list string :=
  ["System.Drawing.Color"; "Rhino.Geometry.Point3d";
   "Rhino.Geometry.Vector3d"; "Rhino.Geometry.Plane";
   "Rhino.Geometry.Transform"].

(** The labels that the mapper can repeat in a tuple: those of the table,
    and [Any]. *)
Definition item_labels (base_map : list (string * string)) : list string :=
  "Any" :: List.map snd base_map.

(** A count, written in digits, that the interpreter can make a tuple of:
    [int] converts the digits, the number is not beyond [sys.maxsize], and
    there is memory for that many times each of the labels. *)
Definition builds (py : Py.interpreter) (base_map : list (string * string))
    (digits : string) : bool :=
  match Py.int_of_digits py digits with
  | Ok n =>
      (n <=? Py.maxsize py)%N
      && List.forallb (fun l => Py.allocates py n (Some l))
           (item_labels base_map)
  | Raise _ => false
  end.

(** The prefixes of a text that are not empty, and its suffixes. *)
Fixpoint prefixes (s : string) : list string :=
  match s with
  | EmptyString => []
  | String c r => String c EmptyString :: List.map (String c) (prefixes r)
  end.

Fixpoint suffixes (s : string) : list string :=
  s :: match s with
       | EmptyString => []
       | String _ r => suffixes r
       end.

(** The runs of digits in a text: every part of it that is made of digits
    and is not empty. *)
Definition digit_runs (text : string) : list string :=
  List.flat_map (fun t => prefixes (take_while Py.is_digit t))
    (suffixes text).

(** Every run of digits in the text is a count that the interpreter can make
    a tuple of. *)
Definition counts_fit (py : Py.interpreter)
    (base_map : list (string * string)) (text : string) : bool :=
  List.forallb (builds py base_map) (digit_runs text).

(** [x] is a part of [s]: a text before it and a text after it make
    [s]. *)
Definition part (x s : string) : Prop := exists a b, s = a +:+ x +:+ b.

(** [counts_fit] as a proposition: the interpreter can make a tuple of
    every count that is a part of the text. *)
Definition fits (py : Py.interpreter) (base_map : list (string * string))
    (text : string) : Prop :=
  forall d,
    d <> "" -> Py.str_all Py.is_digit d = true -> part d text ->
    builds py base_map d = true.

(** An interpreter with the limits of CPython on a 64-bit platform
    ([sys.maxsize] is [2**63 - 1], [int] converts 4300 digits) and with
    memory for lists of a million items. *)
Definition cpython : Py.interpreter :=
  Py.Interpreter 4300 (2 ^ 63 - 1) (fun n _ => (n <=? 1000000)%N).

End RssCalls.

(** ** The type spellings built from the alias table *)

Module Forms.

Import Api SplitSpec.

(** A spelling of the alias table, and the array, nullable and generic
    forms over such spellings:
    [T[]], [Nullable{T}], [System.Nullable{T}], [T?], [Base{T1,...,Tn}]. *)
#[local] Unset Elimination Schemes.

Inductive tform :=
| TAlias (k : string)
| TArray (e : tform)
| TNullable (qualified : bool) (e : tform)
| TQuestion (e : tform)
| TGeneric (base : string) (args : list tform).

#[local] Set Elimination Schemes.

(** [k] is a key of the alias table; the base of a generic form is a name
    made of word characters and dots, other than the two names of the
    nullable form, and a generic form has at least one argument. *)
Fixpoint wf (f : tform) : bool :=
  match f with
  | TAlias k => negb (Py.is_none (dict_get aliases k))
  | TArray e => wf e
  | TNullable _ e => wf e
  | TQuestion e => wf e
  | TGeneric base args =>
      Py.nonempty base && Py.str_all is_name_char base
      && negb (mem base ["Nullable"; "System.Nullable"])
      && negb (Nat.eqb (length args) 0)
      && List.forallb wf args
  end.

(** The spelling of a form. *)
Fixpoint render (f : tform) : string :=
  match f with
  | TAlias k => k
  | TArray e => render e +:+ "[]"
  | TNullable qualified e =>
      (if qualified then "System.Nullable{" else "Nullable{")
      +:+ render e +:+ "}"
  | TQuestion e => render e +:+ "?"
  | TGeneric base args =>
      base +:+ "{" +:+ Py.join "," (List.map render args) +:+ "}"
  end.

(** The name that [map_dotnet_to_python] gives to the base of a generic. *)
Definition py_base_of (base : string) : string :=
  match dict_get base_map base with
  | Some b => b
  | None => last_segment (Py.split base ".")
  end.

(** What [map_dotnet_to_python] returns for a name that no branch
    transforms and the alias table does not have: the full name of the
    container when the name is the simple name of the container, and the name
    itself otherwise. *)
Definition own_name (container_fqn container_simple : option string)
    (t : string) : string :=
  if Py.truthy container_simple && opt_eqb t container_simple
  then Py.fmt (Py.or_else container_fqn (Some t)) else t.

(** The label of a form for a container.  A spelling that ends in two
    question marks is not taken for a nullable: it is kept as it is, unless
    it is the simple name of the container. *)
Fixpoint label_in (container_fqn container_simple : option string)
    (f : tform) : string :=
  match f with
  | TAlias k => default k (dict_get aliases k)
  | TArray e =>
      "List[" +:+ label_in container_fqn container_simple e +:+ "]"
  | TNullable _ e =>
      "Optional[" +:+ label_in container_fqn container_simple e +:+ "]"
  | TQuestion e =>
      if Py.endswith (render e) "?"
      then own_name container_fqn container_simple (render e +:+ "?")
      else "Optional[" +:+ label_in container_fqn container_simple e +:+ "]"
  | TGeneric base args =>
      py_base_of base +:+ "["
      +:+ Py.join ", "
            (List.map (label_in container_fqn container_simple) args)
      +:+ "]"
  end.

(** The characters of the spellings. *)
Definition form_char (c : ascii) : bool :=
  is_name_char c
  || List.existsb (Ascii.eqb c) ["{"; "}"; ","; "["; "]"; "?"]%char.

(** A spelling: made of the characters of the forms, not empty, and left
    whole by the splitter. *)
Definition spelled (s : string) : Prop :=
  Py.str_all form_char s = true /\ s <> "" /\ forall d, whole d s d.

(** A label: it has no white space at its ends and does not end with an
    opening bracket. *)
Definition good (s : string) : Prop :=
  exists c r d,
    s = String c r /\ Py.is_space c = false
    /\ Py.last_char s = Some d /\ Py.is_space d = false /\ d <> "["%char.

(** The start of a label has no white space. *)
Definition head_ok (x : string) : Prop :=
  match x with
  | EmptyString => True
  | String c _ => Py.is_space c = false
  end.

End Forms.

(** ** Signatures written from their parts *)

Module Written.

Import Api.

(** A parameter, with its default when it has one: [n] or [n=d]. *)
Definition written_param (p : string * option string) : string :=
  match p with
  | (n, None) => n
  | (n, Some d) => n +:+ "=" +:+ d
  end.

(** A signature: [name(p1, ..., pn)]. *)
Definition written_call (name : string)
    (params : list (string * option string)) : string :=
  name +:+ "(" +:+ Py.join ", " (List.map written_param params) +:+ ")".

(** The characters of a default: no white space, no parenthesis and no
    comma; those of a name: no equals sign either. *)
Definition value_char (c : ascii) : bool :=
  negb (Py.is_space c)
  && negb (List.existsb (Ascii.eqb c) ["("; ")"; ","]%char).

Definition param_name_char (c : ascii) : bool :=
  value_char c && negb (Ascii.eqb c "=").

(** A parameter whose name and default are not empty and are made of these
    characters. *)
Definition simple_param (p : string * option string) : bool :=
  let '(n, d) := p in
  Py.nonempty n && Py.str_all param_name_char n
  && match d with
     | None => true
     | Some d => Py.nonempty d && Py.str_all value_char d
     end.

(** A parameter of a declaration in C#: its type and its name; and a
    declaration: the modifiers, the return type, the name and the parameters,
    [m1 ... mk ret name(T1 n1, ..., Tn nn)]. *)
Definition cs_param (p : string * string) : string :=
  fst p +:+ " " +:+ snd p.

Definition cs_declaration (modifiers : list string) (ret name : string)
    (params : list (string * string)) : string :=
  Py.join " " (modifiers ++ [ret; name]) +:+ "("
    +:+ Py.join ", " (List.map cs_param params) +:+ ")".

(** The characters of a type in such a declaration: no white space, no
    bracket that opens or closes a scope, no comma and no equals sign. *)
Definition cs_type_char (c : ascii) : bool :=
  negb (Py.is_space c)
  && negb (List.existsb (Ascii.eqb c)
             ["("; ")"; "<"; ">"; "{"; "}"; ","; "="]%char).

Definition cs_keyword (t : string) : bool :=
  mem t CS_ACCESS_KWS || mem t CS_MODIFIER_KWS.

(** A type: not empty, of these characters, and not a keyword. *)
Definition cs_type (t : string) : bool :=
  Py.nonempty t && Py.str_all cs_type_char t && negb (cs_keyword t).

(** A name: an identifier without a line feed at its end. *)
Definition cs_name (n : string) : bool :=
  is_identifier n && negb (Py.str_any Py.is_space n).

Definition simple_cs_param (p : string * string) : bool :=
  cs_type (fst p) && negb (mem (fst p) qualifiers) && cs_name (snd p).

(** A text that is not empty and has no white space at its ends. *)
Definition trimmed (s : string) : Prop :=
  exists c r d,
    s = String c r /\ Py.is_space c = false
    /\ Py.last_char s = Some d /\ Py.is_space d = false.

(** A text that is its words joined by single spaces and has no line
    feed; [b] tells whether [static] is one of the words. *)
Definition spaced (s : string) (b : bool) : Prop :=
  Py.split_ws s <> [] /\ Py.join " " (Py.split_ws s) = s
  /\ mem "static" (Py.split_ws s) = b
  /\ Py.str_any (Ascii.eqb (Py.chr 10)) s = false.

End Written.

(** * Properties *)

Import Api.

(** ** Facts about the string operations *)

Module PyFacts.

Lemma app_assoc (a b c : string) : (a +:+ b) +:+ c = a +:+ b +:+ c.
Proof. induction a as [|x a IH]; simpl; [reflexivity | now rewrite IH]. Qed.

Lemma app_nil_r (a : string) : a +:+ "" = a.
Proof. induction a as [|x a IH]; simpl; [reflexivity | now rewrite IH]. Qed.

Lemma length_app (a b : string) :
  String.length (a +:+ b) = String.length a + String.length b.
Proof. induction a as [|x a IH]; simpl; [reflexivity | now rewrite IH]. Qed.

Lemma str_all_app (p : ascii -> bool) (a b : string) :
  Py.str_all p (a +:+ b) = Py.str_all p a && Py.str_all p b.
Proof.
  induction a as [|x a IH]; simpl; [reflexivity|].
  rewrite IH. now rewrite andb_assoc.
Qed.

Lemma str_any_app (p : ascii -> bool) (a b : string) :
  Py.str_any p (a +:+ b) = Py.str_any p a || Py.str_any p b.
Proof.
  induction a as [|x a IH]; simpl; [reflexivity|].
  rewrite IH. now rewrite orb_assoc.
Qed.

(** *** Stripping *)

Lemma lstrip_by_head (p : ascii -> bool) (s : string) (c : ascii) (r : string) :
  Py.lstrip_by p s = String c r -> p c = false.
Proof.
  induction s as [|x s IH]; simpl; [discriminate|].
  destruct (p x) eqn:E; [exact IH|].
  intros H. injection H as -> _. exact E.
Qed.

Lemma rstrip_by_cons_keep (p : ascii -> bool) (c : ascii) (r : string) :
  p c = false -> Py.rstrip_by p (String c r) = String c (Py.rstrip_by p r).
Proof.
  intros H. simpl. destruct (Py.rstrip_by p r); [now rewrite H | reflexivity].
Qed.

Lemma rstrip_by_idem (p : ascii -> bool) (s : string) :
  Py.rstrip_by p (Py.rstrip_by p s) = Py.rstrip_by p s.
Proof.
  induction s as [|c r IH]; simpl; [reflexivity|].
  destruct (Py.rstrip_by p r) as [|x y] eqn:E.
  - destruct (p c) eqn:Ec; simpl; [reflexivity | now rewrite Ec].
  - simpl in *. now rewrite IH.
Qed.

Lemma lstrip_by_idem (p : ascii -> bool) (s : string) :
  Py.lstrip_by p (Py.lstrip_by p s) = Py.lstrip_by p s.
Proof.
  induction s as [|c r IH]; simpl; [reflexivity|].
  destruct (p c) eqn:E; [exact IH | simpl; now rewrite E].
Qed.

Lemma strip_idem (s : string) : Py.strip (Py.strip s) = Py.strip s.
Proof.
  unfold Py.strip, Py.lstrip, Py.rstrip.
  destruct (Py.lstrip_by Py.is_space s) as [|c r] eqn:E; [reflexivity|].
  pose proof (lstrip_by_head _ _ _ _ E) as Hc.
  rewrite (rstrip_by_cons_keep _ _ _ Hc). simpl Py.lstrip_by at 1.
  rewrite Hc. rewrite <- (rstrip_by_cons_keep _ _ _ Hc).
  apply rstrip_by_idem.
Qed.

Lemma length_lstrip_by (p : ascii -> bool) (s : string) :
  String.length (Py.lstrip_by p s) <= String.length s.
Proof.
  induction s as [|c r IH]; simpl; [lia|]. destruct (p c); simpl; lia.
Qed.

Lemma length_rstrip_by (p : ascii -> bool) (s : string) :
  String.length (Py.rstrip_by p s) <= String.length s.
Proof.
  induction s as [|c r IH]; simpl; [lia|].
  destruct (Py.rstrip_by p r); [destruct (p c)|]; simpl in *; lia.
Qed.

Lemma length_strip (s : string) :
  String.length (Py.strip s) <= String.length s.
Proof.
  unfold Py.strip, Py.rstrip, Py.lstrip.
  pose proof (length_rstrip_by Py.is_space (Py.lstrip_by Py.is_space s)).
  pose proof (length_lstrip_by Py.is_space s). lia.
Qed.

Lemma nonempty_true (s : string) : Py.nonempty s = true <-> s <> "".
Proof. destruct s; cbn; split; intros H; solve [congruence | discriminate]. Qed.

Lemma nonempty_false (s : string) : Py.nonempty s = false <-> s = "".
Proof. destruct s; cbn; split; intros H; solve [congruence | discriminate]. Qed.

(** *** Search, and characters that do not occur *)

Lemma find_cons (b : ascii) (r sub : string) :
  Py.find (String b r) sub
  = if Py.startswith (String b r) sub then Some 0
    else option_map S (Py.find r sub).
Proof. reflexivity. Qed.

Lemma contains_cons (b : ascii) (r sub : string) :
  Py.contains (String b r) sub
  = Py.startswith (String b r) sub || Py.contains r sub.
Proof.
  unfold Py.contains. rewrite find_cons.
  destruct (Py.startswith (String b r) sub); [reflexivity|].
  now destruct (Py.find r sub).
Qed.

Lemma contains_char (c : ascii) (s : string) :
  Py.contains s (String c "") = Py.str_any (Ascii.eqb c) s.
Proof.
  induction s as [|b r IH]; [reflexivity|].
  rewrite contains_cons, IH. simpl.
  now rewrite andb_true_r.
Qed.

Section Absent.
Variable p : ascii -> bool.

Lemma absent_lstrip_by q s :
  Py.str_any p s = false -> Py.str_any p (Py.lstrip_by q s) = false.
Proof.
  induction s as [|c r IH]; simpl; [auto|].
  intros H. apply orb_false_iff in H as [Hc Hr].
  destruct (q c); [auto|]. simpl. now rewrite Hc, Hr.
Qed.

Lemma absent_rstrip_by q s :
  Py.str_any p s = false -> Py.str_any p (Py.rstrip_by q s) = false.
Proof.
  induction s as [|c r IH]; simpl; [auto|].
  intros H. apply orb_false_iff in H as [Hc Hr].
  specialize (IH Hr).
  destruct (Py.rstrip_by q r); [destruct (q c)|]; simpl in *;
    rewrite ?Hc; auto.
Qed.

Lemma absent_strip s :
  Py.str_any p s = false -> Py.str_any p (Py.strip s) = false.
Proof. intros H. now apply absent_rstrip_by, absent_lstrip_by. Qed.

Lemma absent_take n s :
  Py.str_any p s = false -> Py.str_any p (Py.take n s) = false.
Proof.
  revert n. induction s as [|c r IH]; intros [|n]; simpl; auto.
  intros H. apply orb_false_iff in H as [Hc Hr]. rewrite Hc. simpl. auto.
Qed.

Lemma absent_drop n s :
  Py.str_any p s = false -> Py.str_any p (Py.drop n s) = false.
Proof.
  revert n. induction s as [|c r IH]; intros [|n]; simpl; auto.
  intros H. apply orb_false_iff in H as [Hc Hr]. auto.
Qed.

Lemma absent_replace_from old new s :
  Py.str_any p new = false -> Py.str_any p s = false ->
  forall skip, Py.str_any p (Py.replace_from old new skip s) = false.
Proof.
  intros Hn. induction s as [|c r IH]; simpl; [auto|].
  intros H skip. apply orb_false_iff in H as [Hc Hr].
  destruct skip; [|auto].
  destruct (Py.startswith (String c r) old).
  - rewrite str_any_app, Hn. simpl. auto.
  - simpl. rewrite Hc. simpl. auto.
Qed.

Lemma absent_split_ws s :
  Py.str_any p s = false ->
  List.Forall (fun t => Py.str_any p t = false) (Py.split_ws s).
Proof.
  induction s as [|c r IH]; simpl; [constructor|].
  intros H. apply orb_false_iff in H as [Hc Hr]. specialize (IH Hr).
  destruct (Py.is_space c); [exact IH|].
  destruct r as [|c' r']; [repeat constructor; simpl; now rewrite Hc|].
  destruct (Py.is_space c').
  - constructor; [simpl; now rewrite Hc | exact IH].
  - destruct (Py.split_ws (String c' r')) as [|t ts].
    + repeat constructor. simpl. now rewrite Hc.
    + inversion IH; subst. constructor; [|assumption].
      simpl. rewrite Hc. simpl. assumption.
Qed.

Lemma absent_join sep l :
  Py.str_any p sep = false ->
  List.Forall (fun t => Py.str_any p t = false) l ->
  Py.str_any p (Py.join sep l) = false.
Proof.
  intros Hs. induction 1 as [|x l Hx Hl IH]; [reflexivity|].
  destruct l as [|y l]; [exact Hx|].
  change (Py.join sep (x :: y :: l)) with (x +:+ sep +:+ Py.join sep (y :: l)).
  rewrite !str_any_app, Hx, Hs, IH. reflexivity.
Qed.

End Absent.

Lemma item_ok (l : list string) (i : nat) :
  i < length l -> exists x, Py.item l i = Ok x.
Proof.
  intros H. unfold Py.item.
  destruct (nth_error l i) eqn:E; [eauto|].
  apply List.nth_error_None in E. lia.
Qed.

Lemma last_item_ok (l : list string) :
  l <> [] -> exists x, Py.last_item l = Ok x.
Proof.
  intros H. unfold Py.last_item.
  destruct (List.rev l) eqn:E; [|eauto].
  apply (f_equal (@List.rev _)) in E. rewrite List.rev_involutive in E.
  simpl in E. congruence.
Qed.

Lemma upto_first_ok (t sub : string) :
  Py.contains t sub = true -> exists i, upto_first t sub = Ok (Py.take (i + 1) t).
Proof.
  unfold Py.contains, upto_first. destruct (Py.find t sub); [eauto|discriminate].
Qed.

Lemma lstrip_by_all (p : ascii -> bool) (s : string) :
  Py.str_all p s = true -> Py.lstrip_by p s = "".
Proof.
  induction s as [|c r IH]; simpl; [reflexivity|].
  intros H. apply andb_true_iff in H as [Hc Hr]. rewrite Hc. auto.
Qed.

Lemma strip_blank (s : string) :
  Py.str_all Py.is_space s = true -> Py.strip s = "".
Proof.
  intros H. unfold Py.strip, Py.lstrip. now rewrite lstrip_by_all.
Qed.

(** *** Lengths and slices *)

Lemma length_take (n : nat) (s : string) :
  String.length (Py.take n s) = Nat.min n (String.length s).
Proof.
  revert n. induction s as [|c r IH]; intros [|n]; simpl; auto.
Qed.

Lemma length_drop (n : nat) (s : string) :
  String.length (Py.drop n s) = String.length s - n.
Proof.
  revert n. induction s as [|c r IH]; intros [|n]; simpl; auto.
Qed.

Lemma take_drop (n : nat) (s : string) : Py.take n s +:+ Py.drop n s = s.
Proof.
  revert n. induction s as [|c r IH]; intros [|n]; simpl; auto.
  now rewrite IH.
Qed.

Lemma startswith_length (s p : string) :
  Py.startswith s p = true -> String.length p <= String.length s.
Proof.
  revert s. induction p as [|a p IH]; intros [|b s]; simpl; try lia;
    try discriminate.
  intros H. apply andb_true_iff in H as [_ H]. apply IH in H. lia.
Qed.

Lemma startswith_app (s p : string) :
  Py.startswith s p = true -> s = p +:+ Py.drop (String.length p) s.
Proof.
  revert s. induction p as [|a p IH]; intros [|b s]; simpl; try reflexivity;
    try discriminate.
  intros H. apply andb_true_iff in H as [Hc H].
  apply Ascii.eqb_eq in Hc. subst b. f_equal. now apply IH.
Qed.

Lemma startswith_self_app (p s : string) : Py.startswith (p +:+ s) p = true.
Proof.
  induction p as [|a p IH]; simpl; [reflexivity|].
  now rewrite Ascii.eqb_refl, IH.
Qed.

Lemma find_bound (s sub : string) (i : nat) :
  Py.find s sub = Some i -> i + String.length sub <= String.length s.
Proof.
  revert i. induction s as [|c r IH]; intros i.
  - simpl. destruct (Py.startswith "" sub) eqn:E; [|discriminate].
    intros H. injection H as <-. apply startswith_length in E. simpl in *. lia.
  - rewrite find_cons.
    destruct (Py.startswith (String c r) sub) eqn:E.
    + intros H. injection H as <-. apply startswith_length in E. simpl in *. lia.
    + destruct (Py.find r sub) as [j|]; [|discriminate].
      simpl. intros H. injection H as <-. specialize (IH j eq_refl).
      simpl. lia.
Qed.

Lemma contains_find (s sub : string) :
  Py.contains s sub = true -> exists i, Py.find s sub = Some i.
Proof. unfold Py.contains. destruct (Py.find s sub); [eauto|discriminate]. Qed.

Lemma contains_mid (a sub b : string) :
  Py.contains (a +:+ sub +:+ b) sub = true.
Proof.
  induction a as [|c a IH].
  - simpl. unfold Py.contains.
    destruct (sub +:+ b) eqn:E.
    + simpl. destruct sub; [reflexivity|discriminate].
    + rewrite find_cons. rewrite <- E. now rewrite startswith_self_app.
  - change (String c a +:+ sub +:+ b) with (String c (a +:+ sub +:+ b)).
    rewrite contains_cons, IH. apply orb_true_r.
Qed.

Lemma length_str_map (f : ascii -> ascii) (s : string) :
  String.length (Py.str_map f s) = String.length s.
Proof. induction s; simpl; auto. Qed.

Lemma length_replace_from (old new : string) (s : string) :
  String.length new <= String.length old ->
  forall skip,
    String.length (Py.replace_from old new skip s)
    + Nat.min skip (String.length s) <= String.length s.
Proof.
  intros Hlen. induction s as [|c r IH]; intros skip; simpl; [lia|].
  destruct skip as [|k].
  - destruct (Py.startswith (String c r) old) eqn:E.
    + apply startswith_length in E. simpl in E.
      rewrite length_app.
      specialize (IH (String.length old - 1)). lia.
    + simpl. specialize (IH 0). lia.
  - specialize (IH k). lia.
Qed.

Lemma length_replace (s old new : string) :
  String.length new <= String.length old ->
  String.length (Py.replace s old new) <= String.length s.
Proof.
  intros H. pose proof (length_replace_from old new s H 0).
  unfold Py.replace. lia.
Qed.

Lemma length_take_while (p : ascii -> bool) (s : string) :
  String.length (take_while p s) <= String.length s.
Proof. induction s as [|c r IH]; simpl; [lia|]. destruct (p c); simpl; lia. Qed.

Lemma length_before_dollar (s : string) :
  String.length (before_dollar s) <= String.length s.
Proof.
  unfold before_dollar. destruct (Py.endswith s LF); [|lia].
  unfold Py.drop_last. rewrite length_take. lia.
Qed.

Lemma replace_from_cons (old new : string) (c : ascii) (r : string) :
  Py.replace_from old new 0 (String c r)
  = if Py.startswith (String c r) old
    then new +:+ Py.replace_from old new (String.length old - 1) r
    else String c (Py.replace_from old new 0 r).
Proof. reflexivity. Qed.

Lemma split1_found (s sep : string) (i : nat) :
  Py.find s sep = Some i ->
  Py.split1 s sep = [Py.take i s; Py.drop (i + String.length sep) s].
Proof. unfold Py.split1. now intros ->. Qed.


(** *** Last characters and suffixes *)

Lemma last_char_app (a b : string) :
  b <> "" -> Py.last_char (a +:+ b) = Py.last_char b.
Proof.
  intros Hb. induction a as [|c a IH]; [reflexivity|].
  simpl. rewrite IH. destruct (a +:+ b) eqn:E; [|reflexivity].
  destruct a; simpl in E; [congruence|discriminate].
Qed.

Lemma last_char_snoc (a : string) (c : ascii) :
  Py.last_char (a +:+ String c "") = Some c.
Proof. now rewrite last_char_app. Qed.

Lemma snoc_decomp (s : string) :
  s <> "" -> exists a c, s = a +:+ String c "".
Proof.
  induction s as [|x s IH]; [congruence|]. intros _.
  destruct s as [|y s].
  - exists "", x. reflexivity.
  - destruct IH as (a & c & E); [discriminate|].
    exists (String x a), c. simpl. now rewrite E.
Qed.

Lemma last_char_decomp (s : string) (c : ascii) :
  Py.last_char s = Some c -> exists a, s = a +:+ String c "".
Proof.
  intros H. destruct (snoc_decomp s) as (a & x & E).
  - intros ->. discriminate H.
  - subst s. rewrite last_char_snoc in H. injection H as ->. eauto.
Qed.

Lemma drop_app_length (a b : string) :
  Py.drop (String.length a) (a +:+ b) = b.
Proof. induction a; simpl; auto. Qed.

Lemma take_app_length (a b : string) :
  Py.take (String.length a) (a +:+ b) = a.
Proof. induction a; simpl; [now destruct b | now f_equal]. Qed.

(** [endswith] on a string that ends with as many known characters as the
    suffix has. *)
Lemma endswith_app (a q p : string) :
  String.length q = String.length p ->
  Py.endswith (a +:+ q) p = String.eqb q p.
Proof.
  intros H. unfold Py.endswith. rewrite length_app, H.
  replace (String.length a + String.length p - String.length p)
    with (String.length a) by lia.
  rewrite drop_app_length.
  replace (String.length p <=? String.length a + String.length p) with true
    by (symmetry; apply Nat.leb_le; lia).
  reflexivity.
Qed.

Lemma endswith_nil (p : string) : p <> "" -> Py.endswith "" p = false.
Proof. destruct p; [congruence|reflexivity]. Qed.

Lemma endswith_char (s : string) (c : ascii) :
  Py.endswith s (String c "") = true <-> Py.last_char s = Some c.
Proof.
  destruct s as [|x s'] eqn:Es; [split; discriminate|]. rewrite <- Es.
  destruct (snoc_decomp s) as (a & y & E); [subst; discriminate|].
  rewrite E, last_char_snoc, endswith_app by reflexivity.
  simpl. destruct (Ascii.eqb_spec y c); split; intros H; congruence.
Qed.

Lemma endswith_last_ne (s p : string) (c d : ascii) :
  Py.last_char s = Some c -> Py.last_char p = Some d -> c <> d ->
  Py.endswith s p = false.
Proof.
  intros Hs Hp Hne. unfold Py.endswith.
  destruct (String.length p <=? String.length s) eqn:El; [|reflexivity].
  simpl. apply String.eqb_neq. intros E.
  apply Nat.leb_le in El.
  assert (Hd : Py.last_char (Py.drop (String.length s - String.length p) s)
               = Py.last_char s).
  { symmetry.
    rewrite <- (take_drop (String.length s - String.length p) s) at 1.
    apply last_char_app.
    rewrite E. intros ->. discriminate Hp. }
  rewrite E in Hd. congruence.
Qed.

(** *** Stripping a string that has no white space at its ends *)

Lemma lstrip_by_id (p : ascii -> bool) (c : ascii) (r : string) :
  p c = false -> Py.lstrip_by p (String c r) = String c r.
Proof. intros H. simpl. now rewrite H. Qed.

Lemma rstrip_by_snoc (p : ascii -> bool) (a : string) (c : ascii) :
  p c = false -> Py.rstrip_by p (a +:+ String c "") = a +:+ String c "".
Proof.
  intros H. induction a as [|x a IH]; simpl.
  - now rewrite H.
  - rewrite IH. destruct (a +:+ String c "") eqn:E; [|reflexivity].
    destruct a; discriminate E.
Qed.

Lemma strip_id (s : string) (c d : ascii) (r : string) :
  s = String c r -> Py.is_space c = false ->
  Py.last_char s = Some d -> Py.is_space d = false ->
  Py.strip s = s.
Proof.
  intros -> Hc Hl Hd. unfold Py.strip, Py.lstrip, Py.rstrip.
  rewrite lstrip_by_id by exact Hc.
  destruct (last_char_decomp _ _ Hl) as [a ->].
  now apply rstrip_by_snoc.
Qed.

Lemma strip_no_space (s : string) :
  Py.str_any Py.is_space s = false -> Py.strip s = s.
Proof.
  intros H. destruct s as [|c r]; [reflexivity|].
  destruct (snoc_decomp (String c r)) as (a & d & E); [discriminate|].
  assert (Hd : Py.is_space d = false).
  { rewrite E, str_any_app in H. apply orb_false_iff in H as [_ H].
    simpl in H. now rewrite orb_false_r in H. }
  apply (strip_id _ c d r eq_refl).
  - simpl in H. now apply orb_false_iff in H as [H _].
  - rewrite E. apply last_char_snoc.
  - exact Hd.
Qed.


End PyFacts.

(** ** The delimiter-aware splitter *)

Module SplitFacts.

Import SplitSpec.

Lemma split_step_cut (st : split_state) (ch : ascii) :
  is_cut (scope_of st) ch = true ->
  split_step st ch
  = SplitState (parts st ++ [Py.strip (buf st)]) EmptyString
      (depth_angle st) (depth_curly st) (depth_paren st).
Proof.
  unfold is_cut, closed. intros H.
  apply andb_true_iff in H as [Hc Hd].
  apply Ascii.eqb_eq in Hc. subst ch.
  unfold split_step. simpl in *. now rewrite Hd.
Qed.

Lemma split_step_keep (st : split_state) (ch : ascii) :
  is_cut (scope_of st) ch = false ->
  split_step st ch
  = SplitState (parts st) (buf st +:+ String ch EmptyString)
      (angle (enter_leave (scope_of st) ch))
      (curly (enter_leave (scope_of st) ch))
      (paren (enter_leave (scope_of st) ch)).
Proof.
  unfold is_cut, closed, split_step, enter_leave, push. intros H.
  destruct (Ascii.eqb ch "<"); [reflexivity|].
  destruct (Ascii.eqb ch ">"); [reflexivity|].
  destruct (Ascii.eqb ch "{"); [reflexivity|].
  destruct (Ascii.eqb ch "}"); [reflexivity|].
  destruct (Ascii.eqb ch "("); [reflexivity|].
  destruct (Ascii.eqb ch ")"); [reflexivity|].
  simpl in *. now rewrite H.
Qed.

Lemma segments_from_cons (d : scope) (s : string) :
  exists seg rest, segments_from d s = seg :: rest.
Proof.
  destruct s as [|ch r]; simpl; [eauto|].
  destruct (is_cut d ch); [eauto|].
  unfold cons_head. destruct (segments_from _ r); eauto.
Qed.

Lemma prepend_cons_head (b : string) (ch : ascii) (segs : list string) :
  segs <> [] ->
  prepend b (cons_head ch segs) = prepend (b +:+ String ch EmptyString) segs.
Proof.
  destruct segs as [|seg rest]; [congruence|]. intros _. simpl.
  now rewrite PyFacts.app_assoc.
Qed.

(** The loop of [split_types_list], from any state: its parts and its
    buffer are those of the segments that the rest of the input has. *)
Lemma split_loop_segments (s : string) :
  forall st : split_state,
    let segs := prepend (buf st) (segments_from (scope_of st) s) in
    parts (split_loop st s)
      = parts st ++ List.map Py.strip (List.removelast segs)
    /\ buf (split_loop st s) = List.last segs EmptyString.
Proof.
  induction s as [|ch r IH]; intros st; cbv zeta.
  - simpl. rewrite PyFacts.app_nil_r, List.app_nil_r. auto.
  - simpl split_loop. simpl segments_from.
    destruct (is_cut (scope_of st) ch) eqn:Hcut.
    + rewrite (split_step_cut _ _ Hcut).
      set (st' := SplitState _ _ _ _ _).
      specialize (IH st'). cbv zeta in IH.
      change (scope_of st') with (scope_of st) in IH.
      change (buf st') with EmptyString in IH.
      change (parts st') with (parts st ++ [Py.strip (buf st)]) in IH.
      destruct (segments_from_cons (scope_of st) r) as (seg & rest & E).
      rewrite E in *. simpl prepend in *.
      rewrite PyFacts.app_nil_r.
      destruct IH as [IHp IHb]. split.
      * rewrite IHp, <- List.app_assoc. reflexivity.
      * exact IHb.
    + rewrite (split_step_keep _ _ Hcut).
      set (st' := SplitState _ _ _ _ _).
      specialize (IH st'). cbv zeta in IH.
      assert (Hs : scope_of st' = enter_leave (scope_of st) ch)
        by (unfold st', scope_of; simpl; now destruct (enter_leave _ _)).
      rewrite Hs in IH.
      destruct (segments_from_cons (enter_leave (scope_of st) ch) r)
        as (seg & rest & E).
      rewrite prepend_cons_head by (rewrite E; discriminate).
      exact IH.
Qed.

Lemma filter_strip_last (l : list string) :
  l <> [] ->
  List.filter Py.nonempty
    (if Py.nonempty (List.last l EmptyString)
     then List.map Py.strip (List.removelast l)
          ++ [Py.strip (List.last l EmptyString)]
     else List.map Py.strip (List.removelast l))
  = List.filter Py.nonempty (List.map Py.strip l).
Proof.
  intros Hl.
  destruct (List.exists_last Hl) as (l' & x & ->).
  rewrite List.removelast_last, List.last_last.
  rewrite List.map_app, !List.filter_app. simpl.
  destruct x as [|c x]; simpl.
  - now rewrite List.app_nil_r.
  - now rewrite List.filter_app.
Qed.

(** The code computes the split of the specification. *)
Lemma split_types_list_refines (s : string) :
  split_types_list s = split_spec s.
Proof.
  unfold split_types_list, split_spec, segments.
  destruct (split_loop_segments s split_init) as [Hp Hb].
  cbv zeta in *. simpl in Hp, Hb.
  change (scope_of split_init) with outside in *.
  destruct (segments_from_cons outside s) as (seg & rest & E).
  rewrite E in *. simpl prepend in *.
  rewrite Hp, Hb. apply filter_strip_last. discriminate.
Qed.

(** The counters of the loop are the scope counters of the specification. *)
Lemma split_loop_scope (s : string) :
  forall st : split_state,
    scope_of (split_loop st s) = scope_at (scope_of st) s.
Proof.
  induction s as [|ch r IH]; intros st; simpl; [reflexivity|].
  rewrite IH. f_equal.
  destruct (is_cut (scope_of st) ch) eqn:Hcut.
  - rewrite (split_step_cut _ _ Hcut).
    unfold is_cut in Hcut. apply andb_true_iff in Hcut as [Hc _].
    apply Ascii.eqb_eq in Hc. subst ch. reflexivity.
  - rewrite (split_step_keep _ _ Hcut).
    unfold scope_of. simpl. now destruct (enter_leave _ _).
Qed.

Lemma closed_outside (d : scope) : closed d = true -> d = outside.
Proof.
  destruct d as [a c p]. unfold closed. simpl. intros H.
  apply andb_true_iff in H as [H Hp]. apply andb_true_iff in H as [Ha Hc].
  apply Nat.eqb_eq in Ha, Hc, Hp. now subst.
Qed.

Lemma enter_leave_comma (d : scope) : enter_leave d "," = d.
Proof. reflexivity. Qed.

Lemma join_cons (sep x : string) (l : list string) :
  l <> [] -> Py.join sep (x :: l) = x +:+ sep +:+ Py.join sep l.
Proof. destruct l; [congruence | reflexivity]. Qed.

Lemma join_cons_head (sep : string) (ch : ascii) (segs : list string) :
  segs <> [] ->
  Py.join sep (cons_head ch segs) = String ch (Py.join sep segs).
Proof.
  destruct segs as [|seg [|y rest]]; [congruence | reflexivity | reflexivity].
Qed.

(** The segments, joined by the separator, are the input. *)
Lemma join_segments_from (s : string) :
  forall d : scope, Py.join "," (segments_from d s) = s.
Proof.
  induction s as [|ch r IH]; intros d; simpl; [reflexivity|].
  destruct (is_cut d ch) eqn:Hcut.
  - unfold is_cut in Hcut. apply andb_true_iff in Hcut as [Hc _].
    apply Ascii.eqb_eq in Hc. subst ch.
    destruct (segments_from_cons d r) as (seg & rest & E).
    rewrite join_cons by (rewrite E; discriminate).
    now rewrite IH.
  - destruct (segments_from_cons (enter_leave d ch) r) as (seg & rest & E).
    rewrite join_cons_head by (rewrite E; discriminate).
    now rewrite IH.
Qed.

(** Every place where the input is split lies outside all scopes: the
    segments before it, joined, leave no scope open. *)
Lemma cuts_closed (s : string) :
  forall (d : scope) (pre post : list string),
    segments_from d s = pre ++ post -> pre <> [] -> post <> [] ->
    closed (scope_at d (Py.join "," pre)) = true.
Proof.
  induction s as [|ch r IH]; intros d pre post E Hpre Hpost.
  - simpl in E. destruct pre as [|x [|y pre]]; [congruence | |discriminate E].
    destruct post; [congruence | discriminate E].
  - simpl in E. destruct (is_cut d ch) eqn:Hcut.
    + destruct pre as [|x pre]; [congruence|].
      simpl in E. injection E as <- E.
      unfold is_cut in Hcut. apply andb_true_iff in Hcut as [_ Hd].
      destruct pre as [|y pre]; [exact Hd|].
      rewrite join_cons by discriminate. simpl.
      apply (IH d (y :: pre) post E); [discriminate | exact Hpost].
    + destruct (segments_from_cons (enter_leave d ch) r) as (seg & rest & E').
      rewrite E' in E. simpl in E.
      destruct pre as [|x pre]; [congruence|].
      simpl in E. injection E as <- E.
      assert (Hj : Py.join "," (String ch seg :: pre)
                   = String ch (Py.join "," (seg :: pre)))
        by (destruct pre; reflexivity).
      rewrite Hj. simpl scope_at.
      apply (IH (enter_leave d ch) (seg :: pre) post);
        [rewrite E', E; reflexivity | discriminate | exact Hpost].
Qed.

(** The segments of a concatenation. *)
Lemma segments_from_app (a b : string) :
  forall d : scope,
    segments_from d (a +:+ b)
    = List.removelast (segments_from d a)
      ++ prepend (List.last (segments_from d a) EmptyString)
           (segments_from (scope_at d a) b).
Proof.
  induction a as [|ch a IH]; intros d.
  - simpl. destruct (segments_from_cons d b) as (seg & rest & E).
    now rewrite E.
  - simpl. destruct (is_cut d ch) eqn:Hcut.
    + unfold is_cut in Hcut. apply andb_true_iff in Hcut as [Hc _].
      apply Ascii.eqb_eq in Hc. subst ch. rewrite enter_leave_comma.
      rewrite IH.
      destruct (segments_from_cons d a) as (seg & rest & E).
      rewrite E. reflexivity.
    + rewrite IH.
      destruct (segments_from_cons (enter_leave d ch) a) as (seg & rest & E).
      rewrite E.
      destruct (segments_from_cons (scope_at (enter_leave d ch) a) b)
        as (seg' & rest' & E').
      rewrite E'.
      destruct rest as [|y rest]; simpl; [reflexivity|].
      reflexivity.
Qed.

(** A separator outside all scopes splits. *)
Lemma segments_cut (a b : string) :
  closed (scope_at outside a) = true ->
  segments (a +:+ "," +:+ b) = segments a ++ segments b.
Proof.
  intros Hc. unfold segments. rewrite segments_from_app.
  rewrite (closed_outside _ Hc). simpl segments_from.
  simpl prepend. rewrite PyFacts.app_nil_r.
  destruct (segments_from_cons outside a) as (seg & rest & E).
  assert (Hne : segments_from outside a <> []) by (rewrite E; discriminate).
  rewrite (List.app_removelast_last EmptyString Hne) at 3.
  now rewrite <- List.app_assoc.
Qed.


(** *** Strings that the splitter leaves whole *)

Lemma scope_at_app (a b : string) :
  forall d, scope_at d (a +:+ b) = scope_at (scope_at d a) b.
Proof. induction a as [|c a IH]; intros d; simpl; auto. Qed.

Lemma whole_nil (d : scope) : whole d "" d.
Proof. split; reflexivity. Qed.

Lemma whole_app (d d1 d2 : scope) (a b : string) :
  whole d a d1 -> whole d1 b d2 -> whole d (a +:+ b) d2.
Proof.
  intros [Ha Hd1] [Hb Hd2]. split.
  - rewrite segments_from_app, Ha, Hd1, Hb. reflexivity.
  - now rewrite scope_at_app, Hd1.
Qed.

Lemma whole_char (d : scope) (c : ascii) :
  is_cut d c = false -> whole d (String c "") (enter_leave d c).
Proof. intros H. split; simpl; [now rewrite H | reflexivity]. Qed.

Lemma plain_step (d : scope) (c : ascii) :
  plain c = true -> is_cut d c = false /\ enter_leave d c = d.
Proof.
  unfold plain, is_cut, enter_leave. simpl. intros H.
  apply negb_true_iff in H.
  repeat (apply orb_false_iff in H as [? H]).
  repeat match goal with Hx : Ascii.eqb c _ = false |- _ => rewrite Hx; clear Hx end.
  split; reflexivity.
Qed.

Lemma whole_plain (s : string) :
  Py.str_all plain s = true -> forall d, whole d s d.
Proof.
  induction s as [|c s IH]; intros H d; [apply whole_nil|].
  simpl in H. apply andb_true_iff in H as [Hc Hs].
  destruct (plain_step d c Hc) as [Hcut Hd].
  change (String c s) with (String c "" +:+ s).
  apply (whole_app d d d); [|now apply IH].
  pose proof (whole_char d c Hcut) as W. now rewrite Hd in W.
Qed.

Lemma closed_open_curly (d : scope) :
  closed (Scope (angle d) (curly d + 1) (paren d)) = false.
Proof.
  unfold closed. simpl. replace (curly d + 1 =? 0) with false
    by (symmetry; apply Nat.eqb_neq; lia).
  now rewrite andb_false_r.
Qed.

(** Between braces the separators do not split. *)
Lemma whole_braced (s : string) :
  (forall d, closed d = false -> whole d s d) ->
  forall d, whole d ("{" +:+ s +:+ "}") d.
Proof.
  intros Hs d.
  set (d1 := Scope (angle d) (curly d + 1) (paren d)).
  apply (whole_app d d1 d); [apply (whole_char d "{"); reflexivity|].
  apply (whole_app d1 d1 d); [apply Hs, closed_open_curly|].
  assert (E : enter_leave d1 "}" = d).
  { unfold enter_leave, d1. simpl. destruct d as [a c p]. simpl.
    f_equal. lia. }
  pose proof (whole_char d1 "}" eq_refl) as W. now rewrite E in W.
Qed.

Lemma whole_comma (d : scope) :
  closed d = false -> whole d "," d.
Proof.
  intros H. apply (whole_char d ","). unfold is_cut. now rewrite H.
Qed.

Lemma whole_join (xs : list string) :
  List.Forall (fun x => forall d, whole d x d) xs ->
  forall d, closed d = false -> whole d (Py.join "," xs) d.
Proof.
  induction 1 as [|x xs Hx Hxs IH]; intros d Hd; [apply whole_nil|].
  destruct xs as [|y xs]; [apply Hx|].
  change (Py.join "," (x :: y :: xs))
    with (x +:+ "," +:+ Py.join "," (y :: xs)).
  apply (whole_app d d d); [apply Hx|].
  apply (whole_app d d d); [now apply whole_comma|].
  now apply IH.
Qed.

(** The segments of strings that are whole, joined by the separator. *)
Lemma segments_join (xs : list string) :
  xs <> [] ->
  List.Forall (fun x => forall d, whole d x d) xs ->
  segments (Py.join "," xs) = xs.
Proof.
  intros Hne H. induction H as [|x xs Hx Hxs IH]; [congruence|].
  destruct xs as [|y xs]; [apply (Hx outside)|].
  change (Py.join "," (x :: y :: xs))
    with (x +:+ "," +:+ Py.join "," (y :: xs)).
  rewrite segments_cut.
  - rewrite IH by discriminate. unfold segments.
    now rewrite (proj1 (Hx outside)).
  - now rewrite (proj2 (Hx outside)).
Qed.

Lemma split_types_list_join (xs : list string) :
  xs <> [] ->
  List.Forall (fun x => forall d, whole d x d) xs ->
  List.Forall (fun x => x <> "" /\ Py.strip x = x) xs ->
  split_types_list (Py.join "," xs) = xs.
Proof.
  intros Hne Hw Hs.
  rewrite split_types_list_refines. unfold split_spec.
  rewrite (segments_join xs Hne Hw).
  clear Hne Hw. induction Hs as [|x xs [Hx Hsx] _ IH]; [reflexivity|].
  simpl. rewrite Hsx, IH.
  apply PyFacts.nonempty_true in Hx. now rewrite Hx.
Qed.

End SplitFacts.

Import SplitSpec.

(** C5: [split_types_list] returns, in order, the trimmed segments that are
    not empty, of the input split at the separators that are in no open
    [<...>], [{...}] or [(...)] scope.
    - It computes [split_spec], the split as the specification words it;
      the scope counters of the loop are those of [scope_at], where a closer
      without an opener leaves its counter at zero.
    - The segments, joined by the separator, are the input: they are cut at
      separators only, and the last one runs to the end of the string.
    - Wherever the input is cut, no scope is open.
    - A separator that is in no open scope cuts.
    - What is returned is trimmed and not empty.
    - ["Dict{K,V}, str"] gives [["Dict{K,V}"; "str"]]. *)
Theorem split_types_list_correct :
  forall s : string,
    split_types_list s = split_spec s
    /\ scope_of (split_loop split_init s) = scope_at outside s
    /\ (forall d, enter_leave d ">" = Scope (angle d - 1) (curly d) (paren d)
                  /\ enter_leave d "}" = Scope (angle d) (curly d - 1) (paren d)
                  /\ enter_leave d ")" = Scope (angle d) (curly d) (paren d - 1))
    /\ Py.join "," (segments s) = s
    /\ (forall pre post : list string,
          segments s = pre ++ post -> pre <> [] -> post <> [] ->
          closed (scope_at outside (Py.join "," pre)) = true)
    /\ (forall a b : string,
          s = a +:+ "," +:+ b -> closed (scope_at outside a) = true ->
          split_types_list s = split_types_list a ++ split_types_list b)
    /\ List.Forall (fun p => p <> "" /\ Py.strip p = p) (split_types_list s)
    /\ split_types_list "Dict{K,V}, str" = ["Dict{K,V}"; "str"]
    /\ split_types_list "a>, b" = ["a>"; "b"]
    /\ split_types_list "Dict{K,V" = ["Dict{K,V"].
Proof.
  intros s.
  split; [apply SplitFacts.split_types_list_refines|].
  split; [apply (SplitFacts.split_loop_scope s split_init)|].
  split; [intros d; repeat split|].
  split; [apply SplitFacts.join_segments_from|].
  split; [intros pre post; apply SplitFacts.cuts_closed|].
  split.
  { intros a b -> Hc.
    rewrite !SplitFacts.split_types_list_refines. unfold split_spec.
    rewrite (SplitFacts.segments_cut _ _ Hc).
    now rewrite List.map_app, List.filter_app. }
  split.
  { rewrite SplitFacts.split_types_list_refines. unfold split_spec.
    apply List.Forall_forall. intros p Hp.
    apply List.filter_In in Hp as [Hin Hne].
    apply List.in_map_iff in Hin as (x & <- & _).
    split; [now apply PyFacts.nonempty_true | apply PyFacts.strip_idem]. }
  repeat split; vm_compute; reflexivity.
Qed.

Lemma split_types_list_correct_witness :
  closed (scope_at outside (Py.join "," ["Dict{K,V}"])) = true
  /\ split_types_list ("Dict{K,V}" +:+ "," +:+ " str")
     = split_types_list "Dict{K,V}" ++ split_types_list " str".
Proof.
  split.
  - refine (proj1 (proj2 (proj2 (proj2 (proj2
              (split_types_list_correct "Dict{K,V}, str")))))
              ["Dict{K,V}"] [" str"] _ _ _);
      [reflexivity | discriminate | discriminate].
  - refine (proj1 (proj2 (proj2 (proj2 (proj2 (proj2
              (split_types_list_correct ("Dict{K,V}" +:+ "," +:+ " str")))))))
              "Dict{K,V}" " str" _ _); reflexivity.
Defined.

(** ** The type normalizer of the metadata pipeline *)

Module NormFacts.

Import PyFacts SplitFacts Forms SplitSpec.

(** *** The brace groups of the two patterns *)

Lemma before_dollar_id (s : string) (c : ascii) :
  Py.last_char s = Some c -> c <> Py.chr 10 -> before_dollar s = s.
Proof.
  intros Hl Hc. unfold before_dollar.
  now rewrite (endswith_last_ne s LF c (Py.chr 10) Hl eq_refl Hc).
Qed.

Lemma group_before_brace_none (s : string) (c : ascii) :
  Py.last_char s = Some c -> c <> "}"%char -> c <> Py.chr 10 ->
  group_before_brace s = None.
Proof.
  intros Hl Hb Hn. unfold group_before_brace.
  rewrite (before_dollar_id _ _ Hl Hn).
  now rewrite (endswith_last_ne s "}" c "}"%char Hl eq_refl Hb).
Qed.

Lemma group_before_brace_nil : group_before_brace "" = None.
Proof. reflexivity. Qed.

Lemma last_char_drop (n : nat) (s : string) :
  Py.drop n s = "" \/ Py.last_char (Py.drop n s) = Py.last_char s.
Proof.
  destruct (Py.drop n s) eqn:E; [now left|right].
  rewrite <- E. symmetry.
  rewrite <- (take_drop n s) at 1.
  apply last_char_app. now rewrite E.
Qed.

Lemma group_before_brace_drop (n : nat) (s : string) (c : ascii) :
  Py.last_char s = Some c -> c <> "}"%char -> c <> Py.chr 10 ->
  group_before_brace (Py.drop n s) = None.
Proof.
  intros Hl Hb Hn. destruct (last_char_drop n s) as [-> | E]; [reflexivity|].
  apply (group_before_brace_none _ c); congruence.
Qed.

Lemma drop_drop (n m : nat) (s : string) :
  Py.drop n (Py.drop m s) = Py.drop (m + n) s.
Proof.
  revert m. induction s as [|c r IH]; intros [|m]; simpl; auto.
  now destruct n.
Qed.

Lemma match_nullable_none (s : string) (c : ascii) :
  Py.last_char s = Some c -> c <> "}"%char -> c <> Py.chr 10 ->
  match_nullable s = None.
Proof.
  intros Hl Hb Hn. unfold match_nullable.
  rewrite !(group_before_brace_drop _ _ _ Hl Hb Hn).
  now repeat destruct (Py.startswith _ _).
Qed.

Lemma match_generic_none (s : string) (c : ascii) :
  Py.last_char s = Some c -> c <> "}"%char -> c <> Py.chr 10 ->
  match_generic s = None.
Proof.
  intros Hl Hb Hn. unfold match_generic.
  rewrite drop_drop, (group_before_brace_drop _ _ _ Hl Hb Hn).
  now destruct (_ && _).
Qed.

Lemma group_before_brace_some (g : string) :
  g <> "" -> Py.contains g LF = false ->
  group_before_brace (g +:+ "}") = Some g.
Proof.
  intros Hg Hn. unfold group_before_brace.
  rewrite (before_dollar_id _ "}"%char) by
    (try apply last_char_snoc; discriminate).
  rewrite (endswith_app g "}" "}") by reflexivity. simpl.
  unfold Py.drop_last. rewrite length_app. simpl.
  replace (String.length g + 1 - 1) with (String.length g) by lia.
  rewrite take_app_length, Hn.
  apply nonempty_true in Hg. now rewrite Hg.
Qed.

(** *** Character classes *)

Lemma str_all_impl (p q : ascii -> bool) (s : string) :
  (forall c, p c = true -> q c = true) ->
  Py.str_all p s = true -> Py.str_all q s = true.
Proof.
  intros Hpq. induction s as [|c s IH]; simpl; [auto|].
  intros H. apply andb_true_iff in H as [Hc Hs].
  now rewrite (Hpq c Hc), IH.
Qed.

Lemma str_all_none (p q : ascii -> bool) (s : string) :
  (forall c, p c = true -> q c = false) ->
  Py.str_all p s = true -> Py.str_any q s = false.
Proof.
  intros Hpq. induction s as [|c s IH]; simpl; [auto|].
  intros H. apply andb_true_iff in H as [Hc Hs].
  now rewrite (Hpq c Hc), IH.
Qed.

Lemma str_any_impl (p q : ascii -> bool) (s : string) :
  (forall c, q c = true -> p c = true) ->
  Py.str_any p s = false -> Py.str_any q s = false.
Proof.
  intros Hpq. induction s as [|c s IH]; simpl; [auto|].
  intros H. apply orb_false_iff in H as [Hc Hs].
  rewrite IH by assumption.
  destruct (q c) eqn:E; [|reflexivity]. apply Hpq in E. congruence.
Qed.

Lemma form_char_not_space (c : ascii) :
  form_char c = true -> Py.is_space c = false.
Proof.
  destruct c as [[] [] [] [] [] [] [] []]; vm_compute; congruence.
Qed.

Lemma name_char_plain (c : ascii) : is_name_char c = true -> plain c = true.
Proof.
  destruct c as [[] [] [] [] [] [] [] []]; vm_compute; congruence.
Qed.

Lemma name_char_form (c : ascii) : is_name_char c = true -> form_char c = true.
Proof. unfold form_char. now intros ->. Qed.

Lemma name_char_not_space (c : ascii) :
  is_name_char c = true -> Py.is_space c = false.
Proof. intros H. now apply form_char_not_space, name_char_form. Qed.

Lemma line_feed_is_space (c : ascii) :
  Ascii.eqb (Py.chr 10) c = true -> Py.is_space c = true.
Proof. intros H. apply Ascii.eqb_eq in H. now subst c. Qed.

Lemma no_space_no_line_feed (s : string) :
  Py.str_any Py.is_space s = false -> Py.contains s LF = false.
Proof.
  intros H. unfold LF. rewrite contains_char.
  revert H. apply str_any_impl, line_feed_is_space.
Qed.

(** *** The branches of [map_dotnet_to_python] *)

Section Branches.

Variable self : string -> string.
Variables container_fqn container_simple : option string.

Let mb := map_body self container_fqn container_simple.

Lemma drop_last_app (a q : string) (n : nat) :
  n = String.length q -> Py.drop_last n (a +:+ q) = a.
Proof.
  intros ->. unfold Py.drop_last. rewrite length_app.
  replace (String.length a + String.length q - String.length q)
    with (String.length a) by lia.
  apply take_app_length.
Qed.

(** [T[]] *)
Lemma map_array (s : string) :
  Py.str_any Py.is_space s = false ->
  mb (s +:+ "[]") = "List[" +:+ self s +:+ "]".
Proof.
  intros Hs. unfold mb, map_body.
  rewrite (strip_no_space (s +:+ "[]"))
    by (rewrite str_any_app, Hs; reflexivity).
  rewrite (endswith_app s "[]" "[]") by reflexivity. simpl String.eqb.
  cbv iota. rewrite (drop_last_app s "[]" 2 eq_refl). now rewrite strip_no_space.
Qed.

(** [Nullable{T}] and [System.Nullable{T}] *)
Lemma map_nullable (qualified : bool) (s : string) :
  Py.str_any Py.is_space s = false -> s <> "" ->
  mb ((if qualified then "System.Nullable{" else "Nullable{") +:+ s +:+ "}")
  = "Optional[" +:+ self s +:+ "]".
Proof.
  intros Hs Hne. unfold mb, map_body.
  set (pre := if qualified then "System.Nullable{" else "Nullable{").
  assert (Hpre : Py.str_any Py.is_space pre = false)
    by (unfold pre; now destruct qualified).
  rewrite (strip_no_space (pre +:+ s +:+ "}"))
    by (rewrite !str_any_app, Hs, Hpre; reflexivity).
  assert (Hl : Py.last_char (pre +:+ s +:+ "}") = Some "}"%char)
    by (rewrite <- app_assoc; apply last_char_snoc).
  rewrite (endswith_last_ne _ "[]" _ "]"%char Hl eq_refl) by discriminate.
  assert (Hm : match_nullable (pre +:+ s +:+ "}") = Some s).
  { unfold match_nullable, pre. destruct qualified.
    - rewrite startswith_self_app.
      rewrite (drop_app_length "System.Nullable{").
      apply group_before_brace_some; [exact Hne|].
      now apply no_space_no_line_feed.
    - simpl Py.startswith. simpl Py.drop.
      apply group_before_brace_some; [exact Hne|].
      now apply no_space_no_line_feed. }
  rewrite Hm. now rewrite strip_no_space.
Qed.

(** A string that no branch transforms. *)
Lemma map_passthrough (s : string) (c : ascii) :
  Py.strip s = s ->
  Py.last_char s = Some c -> c <> "}"%char -> c <> Py.chr 10 ->
  Py.endswith s "[]" = false ->
  Py.endswith s "?" && negb (Py.endswith s "??") = false ->
  dict_get aliases s = None ->
  mb s = own_name container_fqn container_simple s.
Proof.
  intros Hs Hl Hb Hn He Hq Ha. unfold mb, map_body.
  rewrite Hs, He, (match_nullable_none _ _ Hl Hb Hn), Hq.
  now rewrite (match_generic_none _ _ Hl Hb Hn), Ha.
Qed.

Lemma dict_get_in (d : list (string * string)) (k v : string) :
  dict_get d k = Some v -> In (k, v) d.
Proof.
  unfold dict_get. destruct (List.find _ d) as [[k' v']|] eqn:E;
    [|discriminate].
  simpl. intros H. injection H as ->.
  apply List.find_some in E as [Hin Hk]. simpl in Hk.
  apply String.eqb_eq in Hk. now subst.
Qed.

Lemma alias_key_last (k v : string) :
  dict_get aliases k = Some v ->
  exists c, Py.last_char k = Some c /\ Py.is_word c = true.
Proof.
  intros H. apply dict_get_in in H. simpl in H.
  repeat (destruct H as [H|H];
          [injection H as <- <-; eexists; split; reflexivity|]).
  contradiction.
Qed.

Lemma alias_none_by_last (s : string) (c : ascii) :
  Py.last_char s = Some c -> Py.is_word c = false ->
  dict_get aliases s = None.
Proof.
  intros Hl Hw. destruct (dict_get aliases s) as [v|] eqn:E; [|reflexivity].
  destruct (alias_key_last _ _ E) as (d & Hd & Hwd). congruence.
Qed.

(** [T?] *)
Lemma map_question (s : string) :
  Py.str_any Py.is_space s = false -> s <> "" ->
  Py.endswith s "?" = false ->
  mb (s +:+ "?") = "Optional[" +:+ self s +:+ "]".
Proof.
  intros Hs Hne Hq. unfold mb, map_body.
  rewrite (strip_no_space (s +:+ "?"))
    by (rewrite str_any_app, Hs; reflexivity).
  assert (Hl : Py.last_char (s +:+ "?") = Some "?"%char)
    by apply last_char_snoc.
  rewrite (endswith_last_ne _ "[]" _ "]"%char Hl eq_refl) by discriminate.
  rewrite (match_nullable_none _ _ Hl) by discriminate.
  rewrite (endswith_app s "?" "?") by reflexivity.
  destruct (snoc_decomp s Hne) as (a & c & ->).
  assert (Hc : Ascii.eqb c "?" = false).
  { rewrite (endswith_app a (String c "") "?") in Hq by reflexivity.
    simpl in Hq. now destruct (Ascii.eqb c "?"). }
  rewrite app_assoc.
  rewrite (endswith_app a (String c "" +:+ "?") "??") by reflexivity.
  simpl String.eqb. rewrite Hc. cbn [andb negb].
  rewrite <- (app_assoc a (String c "") "?"). now rewrite (drop_last_app _ "?" 1 eq_refl).
Qed.

(** [T??] and more question marks: kept as it is. *)
Lemma map_question_twice (s : string) :
  Py.str_any Py.is_space s = false ->
  Py.endswith s "?" = true ->
  mb (s +:+ "?") = own_name container_fqn container_simple (s +:+ "?").
Proof.
  intros Hs Hq.
  assert (Hl : Py.last_char (s +:+ "?") = Some "?"%char)
    by apply last_char_snoc.
  apply (map_passthrough _ "?"%char); try exact Hl; try discriminate.
  - apply strip_no_space. rewrite str_any_app, Hs. reflexivity.
  - apply (endswith_last_ne _ "[]" _ "]"%char Hl eq_refl). discriminate.
  - apply endswith_char in Hq. destruct (last_char_decomp _ _ Hq) as [a ->].
    rewrite app_assoc.
    rewrite (endswith_app a ("?" +:+ "?") "??") by reflexivity.
    simpl. apply andb_false_r.
  - apply (alias_none_by_last _ _ Hl). reflexivity.
Qed.

Lemma take_while_app (p : ascii -> bool) (a : string) (c : ascii) (b : string) :
  Py.str_all p a = true -> p c = false ->
  take_while p (a +:+ String c b) = a.
Proof.
  intros Ha Hc. induction a as [|x a IH]; simpl.
  - now rewrite Hc.
  - simpl in Ha. apply andb_true_iff in Ha as [Hx Ha].
    now rewrite Hx, IH.
Qed.

(** A name followed by a brace starts with another name followed by a
    brace only if the names are the same. *)
Lemma startswith_name_brace (base p rest : string) :
  Py.str_all is_name_char base = true ->
  Py.str_all is_name_char p = true ->
  Py.startswith (base +:+ String "{" rest) (p +:+ "{") = true ->
  base = p.
Proof.
  revert p. induction base as [|b base IH]; intros [|x p] Hb Hp H.
  - reflexivity.
  - change (Ascii.eqb x "{" && Py.startswith rest (p +:+ "{") = true) in H.
    apply andb_true_iff in H as [H _]. apply Ascii.eqb_eq in H. subst x.
    discriminate Hp.
  - change (Ascii.eqb "{" b && Py.startswith (base +:+ String "{" rest) ""
            = true) in H.
    apply andb_true_iff in H as [H _]. apply Ascii.eqb_eq in H. subst b.
    discriminate Hb.
  - change (Ascii.eqb x b
            && Py.startswith (base +:+ String "{" rest) (p +:+ "{") = true)
      in H.
    apply andb_true_iff in H as [Hx H]. apply Ascii.eqb_eq in Hx. subst x.
    change (is_name_char b && Py.str_all is_name_char base = true) in Hb.
    change (is_name_char b && Py.str_all is_name_char p = true) in Hp.
    apply andb_true_iff in Hb as [_ Hb]. apply andb_true_iff in Hp as [_ Hp].
    f_equal. now apply IH.
Qed.

(** [Base{T1,...,Tn}] *)
Lemma map_generic (base : string) (xs : list string) :
  Py.nonempty base = true ->
  Py.str_all is_name_char base = true ->
  mem base ["Nullable"; "System.Nullable"] = false ->
  xs <> [] ->
  List.Forall (fun x => forall d, whole d x d) xs ->
  List.Forall (fun x => x <> "" /\ Py.str_any Py.is_space x = false) xs ->
  mb (base +:+ "{" +:+ Py.join "," xs +:+ "}")
  = py_base_of base +:+ "[" +:+ Py.join ", " (List.map self xs) +:+ "]".
Proof.
  intros Hbn Hbc Hbm Hxs Hw Hx.
  set (inner := Py.join "," xs).
  assert (Hin : Py.str_any Py.is_space inner = false).
  { apply absent_join; [reflexivity|].
    revert Hx. apply List.Forall_impl. now intros x [_ H]. }
  assert (Hine : inner <> "").
  { unfold inner. destruct xs as [|x [|y l]]; [congruence| |].
    - inversion Hx; subst. tauto.
    - inversion Hx; subst. destruct x; [tauto|discriminate]. }
  assert (Hbs : Py.str_any Py.is_space base = false).
  { revert Hbc. apply str_all_none, name_char_not_space. }
  unfold mb, map_body.
  set (t := base +:+ "{" +:+ inner +:+ "}").
  assert (Hst : Py.strip t = t).
  { apply strip_no_space. unfold t.
    rewrite !str_any_app, Hbs, Hin. reflexivity. }
  assert (Hl : Py.last_char t = Some "}"%char).
  { unfold t. rewrite <- !app_assoc. apply last_char_snoc. }
  rewrite Hst.
  rewrite (endswith_last_ne _ "[]" _ "]"%char Hl eq_refl) by discriminate.
  assert (Hmn : match_nullable t = None).
  { unfold match_nullable.
    simpl in Hbm. apply orb_false_iff in Hbm as [H1 H2].
    apply orb_false_iff in H2 as [H2 _].
    apply String.eqb_neq in H1, H2.
    destruct (Py.startswith t "System.Nullable{") eqn:E1.
    { exfalso. apply H2.
      apply (startswith_name_brace base "System.Nullable" (inner +:+ "}"));
        [exact Hbc | reflexivity | exact E1]. }
    destruct (Py.startswith t "Nullable{") eqn:E2; [|reflexivity].
    exfalso. apply H1.
    apply (startswith_name_brace base "Nullable" (inner +:+ "}"));
      [exact Hbc | reflexivity | exact E2]. }
  rewrite Hmn.
  rewrite (endswith_last_ne _ "?" _ "?"%char Hl eq_refl) by discriminate.
  simpl andb. cbv iota.
  assert (Hmg : match_generic t = Some (base, inner)).
  { unfold match_generic, t.
    change (base +:+ "{" +:+ inner +:+ "}")
      with (base +:+ String "{" (inner +:+ "}")).
    rewrite (take_while_app _ base "{" _ Hbc) by reflexivity.
    rewrite drop_app_length, Hbn. simpl Py.startswith. simpl Py.drop.
    simpl andb. cbv iota.
    rewrite group_before_brace_some;
      [reflexivity | exact Hine | now apply no_space_no_line_feed]. }
  rewrite Hmg. unfold inner.
  rewrite (split_types_list_join xs Hxs Hw).
  - reflexivity.
  - revert Hx. apply List.Forall_impl. intros x [Hxe Hxs']. split; [exact Hxe|].
    now apply strip_no_space.
Qed.

End Branches.

(** *** Induction on forms *)

Lemma tform_ind (P : tform -> Prop) :
  (forall k, P (TAlias k)) ->
  (forall e, P e -> P (TArray e)) ->
  (forall q e, P e -> P (TNullable q e)) ->
  (forall e, P e -> P (TQuestion e)) ->
  (forall base args, List.Forall P args -> P (TGeneric base args)) ->
  forall f, P f.
Proof.
  intros Ha Hr Hn Hq Hg. fix IH 1. intros [k|e|q e|e|base args].
  - apply Ha.
  - apply Hr, IH.
  - apply Hn, IH.
  - apply Hq, IH.
  - apply Hg. induction args as [|x l IHl]; constructor; [apply IH | exact IHl].
Qed.

Lemma alias_key_cases (k : string) :
  negb (Py.is_none (dict_get aliases k)) = true ->
  In k (List.map fst aliases).
Proof.
  destruct (dict_get aliases k) as [v|] eqn:E; [|discriminate].
  intros _. apply dict_get_in in E.
  now apply (List.in_map fst) in E.
Qed.

Lemma wf_generic (base : string) (args : list tform) :
  wf (TGeneric base args) = true ->
  Py.nonempty base = true /\ Py.str_all is_name_char base = true
  /\ mem base ["Nullable"; "System.Nullable"] = false
  /\ args <> [] /\ List.Forall (fun a => wf a = true) args.
Proof.
  cbn [wf]. intros H.
  apply andb_true_iff in H as [H Hall].
  apply andb_true_iff in H as [H Hlen].
  apply andb_true_iff in H as [H Hmem].
  apply andb_true_iff in H as [Hne Hchars].
  repeat split; try assumption.
  - now apply negb_true_iff in Hmem.
  - intros ->. discriminate Hlen.
  - apply List.Forall_forall. now apply List.forallb_forall.
Qed.

Lemma str_all_join (p : ascii -> bool) (sep : string) (xs : list string) :
  Py.str_all p sep = true ->
  List.Forall (fun x => Py.str_all p x = true) xs ->
  Py.str_all p (Py.join sep xs) = true.
Proof.
  intros Hs. induction 1 as [|x xs Hx Hxs IH]; [reflexivity|].
  destruct xs as [|y xs]; [exact Hx|].
  change (Py.join sep (x :: y :: xs)) with (x +:+ sep +:+ Py.join sep (y :: xs)).
  now rewrite !str_all_app, Hx, Hs, IH.
Qed.

Lemma app_nonempty_l (a b : string) : a <> "" -> a +:+ b <> "".
Proof. destruct a; [congruence|discriminate]. Qed.

Lemma join_nonempty (sep : string) (xs : list string) :
  xs <> [] -> List.Forall (fun x => x <> "") xs -> Py.join sep xs <> "".
Proof.
  intros Hne H. destruct H as [|x xs Hx Hxs]; [congruence|].
  destruct xs; [exact Hx|]. now apply app_nonempty_l.
Qed.

(** *** The spellings of the forms *)

Lemma spelled_no_space (s : string) :
  spelled s -> Py.str_any Py.is_space s = false.
Proof. intros [H _]. revert H. apply str_all_none, form_char_not_space. Qed.

Lemma render_spelled (f : tform) : wf f = true -> spelled (render f).
Proof.
  induction f as [k|e IH|q e IH|e IH|base args IH] using tform_ind;
    intros Hwf.
  - apply alias_key_cases in Hwf. simpl in Hwf.
    repeat (destruct Hwf as [<-|Hwf];
            [split; [reflexivity|split; [discriminate|]];
             now apply whole_plain|]).
    contradiction.
  - destruct (IH Hwf) as (Hc & Hne & Hw). split; [|split].
    + cbn [render]. now rewrite str_all_app, Hc.
    + now apply app_nonempty_l.
    + intros d. apply (whole_app d d d); [apply Hw|now apply whole_plain].
  - destruct (IH Hwf) as (Hc & Hne & Hw). split; [|split].
    + cbn [render]. rewrite !str_all_app, Hc. now destruct q.
    + cbn [render]. destruct q; discriminate.
    + intros d. cbn [render].
      assert (Hb : whole d ("{" +:+ render e +:+ "}") d).
      { apply whole_braced. intros d' _. apply Hw. }
      destruct q.
      * change ("System.Nullable{" +:+ render e +:+ "}")
          with ("System.Nullable" +:+ "{" +:+ render e +:+ "}").
        apply (whole_app d d d); [now apply whole_plain|exact Hb].
      * change ("Nullable{" +:+ render e +:+ "}")
          with ("Nullable" +:+ "{" +:+ render e +:+ "}").
        apply (whole_app d d d); [now apply whole_plain|exact Hb].
  - destruct (IH Hwf) as (Hc & Hne & Hw). split; [|split].
    + cbn [render]. now rewrite str_all_app, Hc.
    + now apply app_nonempty_l.
    + intros d. apply (whole_app d d d); [apply Hw|now apply whole_plain].
  - destruct (wf_generic _ _ Hwf) as (Hbn & Hbc & _ & Hargs & Hall).
    assert (Hsp : List.Forall spelled (List.map render args)).
    { apply List.Forall_map. apply List.Forall_forall. intros a Ha.
      rewrite List.Forall_forall in IH, Hall. now apply IH, Hall. }
    split; [|split].
    + cbn [render]. rewrite !str_all_app.
      rewrite (str_all_impl _ _ _ name_char_form Hbc).
      rewrite str_all_join; [reflexivity|reflexivity|].
      revert Hsp. apply List.Forall_impl. now intros x [H _].
    + apply app_nonempty_l. now apply nonempty_true.
    + intros d. cbn [render].
      apply (whole_app d d d).
      * apply whole_plain. revert Hbc. apply str_all_impl, name_char_plain.
      * apply whole_braced. intros d' Hd'. apply whole_join; [|exact Hd'].
        revert Hsp. apply List.Forall_impl. now intros x (_ & _ & H).
Qed.

Lemma length_join_in (sep x : string) (xs : list string) :
  In x xs -> String.length x <= String.length (Py.join sep xs).
Proof.
  induction xs as [|y xs IH]; [contradiction|].
  intros [->|Hin].
  - destruct xs; [simpl; lia|].
    change (Py.join sep (x :: s :: xs)) with (x +:+ sep +:+ Py.join sep (s :: xs)).
    rewrite length_app. lia.
  - specialize (IH Hin). destruct xs as [|z xs]; [contradiction|].
    change (Py.join sep (y :: z :: xs)) with (y +:+ sep +:+ Py.join sep (z :: xs)).
    rewrite !length_app. lia.
Qed.

(** *** The normalizer on the forms *)

Lemma own_name_miss (cf cs : option string) (t : string) :
  cs <> Some t -> own_name cf cs t = t.
Proof.
  intros H. unfold own_name. destruct cs as [s|]; [|reflexivity].
  simpl opt_eqb. destruct (String.eqb_spec t s); [congruence|].
  now rewrite andb_false_r.
Qed.

(** With enough fuel the normalizer maps the spelling of a form to its
    label, for every container. *)
Lemma map_fuel_render (cf cs : option string) (f : tform) :
  wf f = true ->
  forall fuel, String.length (render f) < fuel ->
    map_fuel fuel cf cs (render f) = label_in cf cs f.
Proof.
  induction f as [k|e IH|q e IH|e IH|base args IH] using tform_ind;
    intros Hwf fuel Hfuel; (destruct fuel as [|fuel]; [lia|]);
    cbn [map_fuel].
  - apply alias_key_cases in Hwf. simpl in Hwf.
    repeat (destruct Hwf as [<-|Hwf]; [reflexivity|]). contradiction.
  - cbn [render label_in] in *. rewrite length_app in Hfuel.
    rewrite map_array by (now apply spelled_no_space, render_spelled).
    rewrite IH; [reflexivity | exact Hwf | simpl in Hfuel; lia].
  - cbn [render label_in] in *.
    pose proof (render_spelled e Hwf) as Hsp.
    rewrite map_nullable;
      [|now apply spelled_no_space | apply Hsp].
    rewrite IH; [reflexivity | exact Hwf |].
    rewrite !length_app in Hfuel. simpl in Hfuel. lia.
  - cbn [render label_in] in *.
    pose proof (render_spelled e Hwf) as Hsp.
    rewrite length_app in Hfuel.
    destruct (Py.endswith (render e) "?") eqn:Hq.
    + apply map_question_twice; [now apply spelled_no_space | exact Hq].
    + rewrite map_question;
        [|now apply spelled_no_space | apply Hsp | exact Hq].
      rewrite IH; [reflexivity | exact Hwf | simpl in Hfuel; lia].
  - destruct (wf_generic _ _ Hwf) as (Hbn & Hbc & Hbm & Hargs & Hall).
    cbn [render label_in] in *.
    assert (Hsp : List.Forall spelled (List.map render args)).
    { apply List.Forall_map. revert Hall. apply List.Forall_impl.
      intros a. apply render_spelled. }
    rewrite map_generic; try assumption.
    + rewrite List.map_map.
      assert (E : List.map (fun x => map_fuel fuel cf cs (render x)) args
                  = List.map (label_in cf cs) args).
      { apply List.map_ext_in. intros a Ha.
        rewrite List.Forall_forall in IH, Hall.
        apply IH; [exact Ha | now apply Hall|].
        pose proof (length_join_in "," (render a) (List.map render args)
                      (List.in_map render _ _ Ha)) as Hlen.
        rewrite !length_app in Hfuel. simpl in Hfuel. lia. }
      now rewrite E.
    + intros E. apply Hargs. now destruct args.
    + revert Hsp. apply List.Forall_impl. now intros x (_ & _ & H).
    + revert Hsp. apply List.Forall_impl. intros x Hx. split; [apply Hx|].
      now apply spelled_no_space.
Qed.

(** *** The labels are kept *)

Lemma wrapped_good (x body : string) :
  head_ok x -> good (x +:+ "[" +:+ body +:+ "]").
Proof.
  intros Hx.
  assert (Hl : Py.last_char (x +:+ "[" +:+ body +:+ "]") = Some "]"%char)
    by (rewrite <- !app_assoc; apply last_char_snoc).
  destruct x as [|c x].
  - exists "["%char, (body +:+ "]"), "]"%char. repeat split; try exact Hl.
    discriminate.
  - exists c, (x +:+ "[" +:+ body +:+ "]"), "]"%char.
    repeat split; try exact Hl; try exact Hx. discriminate.
Qed.

Lemma good_strip (s : string) : good s -> Py.strip s = s.
Proof.
  intros (c & r & d & E & Hc & Hl & Hd & _). now apply (strip_id s c d r).
Qed.

Lemma wrapped_stable (self : string -> string) (cf cs : option string)
    (x body : string) :
  head_ok x -> good body ->
  map_body self cf cs (x +:+ "[" +:+ body +:+ "]")
  = own_name cf cs (x +:+ "[" +:+ body +:+ "]").
Proof.
  intros Hx Hb.
  assert (Hl : Py.last_char (x +:+ "[" +:+ body +:+ "]") = Some "]"%char)
    by (rewrite <- !app_assoc; apply last_char_snoc).
  apply (map_passthrough self cf cs _ "]"%char); try exact Hl;
    try discriminate.
  - apply good_strip. now apply wrapped_good.
  - destruct Hb as (c & r & d & _ & _ & Hld & _ & Hd).
    destruct (last_char_decomp _ _ Hld) as [a ->].
    replace (x +:+ "[" +:+ (a +:+ String d "") +:+ "]")
      with ((x +:+ "[" +:+ a) +:+ (String d "" +:+ "]"))
      by (now rewrite !app_assoc).
    rewrite (endswith_app _ (String d "" +:+ "]") "[]") by reflexivity.
    simpl. destruct (Ascii.eqb_spec d "["); [congruence|reflexivity].
  - rewrite (endswith_last_ne _ "?" _ "?"%char Hl eq_refl) by discriminate.
    reflexivity.
  - apply (alias_none_by_last _ _ Hl). reflexivity.
Qed.

Lemma good_join (xs : list string) :
  xs <> [] -> List.Forall good xs -> good (Py.join ", " xs).
Proof.
  intros Hne H. induction H as [|x xs Hx Hxs IH]; [congruence|].
  destruct xs as [|y xs]; [exact Hx|].
  change (Py.join ", " (x :: y :: xs))
    with (x +:+ ", " +:+ Py.join ", " (y :: xs)).
  destruct Hx as (c & r & _ & -> & Hc & _).
  destruct IH as (c' & r' & d & E & _ & Hl & Hd & Hdb); [discriminate|].
  exists c, (r +:+ ", " +:+ Py.join ", " (y :: xs)), d.
  repeat split; try assumption.
  rewrite <- Hl, <- app_assoc. apply last_char_app.
  rewrite E. discriminate.
Qed.

Lemma absent_split_from (p : ascii -> bool) (sep : string) (s : string) :
  Py.str_any p s = false ->
  forall skip cur, Py.str_any p cur = false ->
    List.Forall (fun x => Py.str_any p x = false)
      (Py.split_from sep skip cur s).
Proof.
  induction s as [|c s IH]; intros Hs skip cur Hcur; simpl.
  - now repeat constructor.
  - simpl in Hs. apply orb_false_iff in Hs as [Hc Hs].
    destruct skip; [|now apply IH].
    destruct (Py.startswith (String c s) sep).
    + constructor; [exact Hcur | now apply IH].
    + apply IH; [exact Hs|].
      rewrite str_any_app, Hcur. simpl. now rewrite Hc.
Qed.

Lemma py_base_head (base : string) :
  Py.str_all is_name_char base = true -> head_ok (py_base_of base).
Proof.
  intros Hb. unfold py_base_of.
  destruct (dict_get base_map base) as [b|] eqn:E.
  - apply dict_get_in in E. simpl in E.
    repeat (destruct E as [E|E]; [injection E as <- <-; reflexivity|]).
    contradiction.
  - assert (Hs : Py.str_any Py.is_space base = false)
      by (revert Hb; apply str_all_none, name_char_not_space).
    pose proof (absent_split_from Py.is_space "." base Hs 0 "" eq_refl) as Hf.
    unfold last_segment, Py.split.
    assert (Hlast : Py.str_any Py.is_space
                      (List.last (Py.split_from "." 0 "" base) "") = false).
    { induction Hf as [|x l Hx Hl IHl]; [reflexivity|].
      destruct l; [exact Hx | exact IHl]. }
    destruct (List.last _ _) as [|c r]; [exact I|].
    simpl in Hlast. now apply orb_false_iff in Hlast as [Hlast _].
Qed.

(** *** The container *)

Lemma split_from_not_nil (sep s : string) :
  forall skip cur, Py.split_from sep skip cur s <> [].
Proof.
  induction s as [|c s IH]; intros skip cur; cbn [Py.split_from];
    [discriminate|].
  destruct skip; [|apply IH].
  destruct (Py.startswith (String c s) sep); [discriminate | apply IH].
Qed.

(** The last segment of a dotted name is at its end. *)
Lemma split_dot_last (s : string) :
  forall cur,
    exists a, cur +:+ s = a +:+ List.last (Py.split_from "." 0 cur s) "".
Proof.
  induction s as [|c s IH]; intros cur.
  - exists "". cbn [Py.split_from List.last]. now rewrite app_nil_r.
  - cbn [Py.split_from].
    destruct (Py.startswith (String c s) ".") eqn:E.
    + assert (Hc : c = "."%char).
      { cbn [Py.startswith] in E. apply andb_true_iff in E as [E _].
        apply Ascii.eqb_eq in E. now subst. }
      subst c. change (String.length "." - 1) with 0.
      destruct (IH "") as [a Ha]. change ("" +:+ s) with s in Ha.
      pose proof (split_from_not_nil "." s 0 "") as Hne.
      destruct (Py.split_from "." 0 "" s) as [|y l]; [congruence|].
      change (List.last (cur :: y :: l) "") with (List.last (y :: l) "").
      exists (cur +:+ "." +:+ a). rewrite !app_assoc, <- Ha. reflexivity.
    + destruct (IH (cur +:+ String c "")) as [a Ha]. exists a.
      rewrite <- Ha. now rewrite app_assoc.
Qed.

Lemma last_segment_suffix (s : string) :
  exists a, s = a +:+ last_segment (Py.split s ".").
Proof. apply (split_dot_last s ""). Qed.

(** A text that [strip] leaves as it is does not start with white
    space. *)
Lemma trimmed_head (c : ascii) (r : string) :
  Py.strip (String c r) = String c r -> Py.is_space c = false.
Proof.
  intros H. destruct (Py.is_space c) eqn:E; [|reflexivity].
  pose proof (length_rstrip_by Py.is_space (Py.lstrip (String c r))) as H1.
  pose proof (length_lstrip_by Py.is_space r) as H2.
  unfold Py.strip, Py.rstrip in H. rewrite H in H1.
  unfold Py.lstrip in H1. cbn [Py.lstrip_by] in H1. rewrite E in H1.
  simpl String.length in H1. lia.
Qed.

Section Container.

(** The container as [build_signature_line] passes it: its full name, and
    its simple name, which is the last segment of the full name; the full
    name has no white space around it. *)
Variable cf : option string.
Let cs := container_simple_of cf.
Hypothesis cf_trimmed : forall s, cf = Some s -> Py.strip s = s.

(** A spelling with two question marks at its end that is the simple name
    of the container is replaced by the full name, which ends with it. *)
Lemma own_name_question (r : string) :
  Py.endswith r "?" = true -> Py.str_any Py.is_space r = false ->
  own_name cf cs (r +:+ "?") = r +:+ "?"
  \/ exists a,
       cf = Some (a +:+ r +:+ "?")
       /\ own_name cf cs (r +:+ "?") = a +:+ r +:+ "?".
Proof.
  intros Hq Hs. unfold own_name.
  destruct (Py.truthy cs && opt_eqb (r +:+ "?") cs) eqn:E; [|now left].
  right. apply andb_true_iff in E as [_ E].
  unfold cs, container_simple_of in *.
  destruct (Py.truthy cf) eqn:Ht; [|discriminate E].
  destruct cf as [s|]; [|discriminate Ht].
  cbn [opt_eqb Py.fmt] in E. apply String.eqb_eq in E.
  destruct (last_segment_suffix s) as [a Ha]. rewrite <- E in Ha.
  exists a. split; [now rewrite Ha|].
  unfold Py.or_else. rewrite Ht. cbn [Py.fmt]. exact Ha.
Qed.

Lemma question_good (a r : string) :
  Py.endswith r "?" = true -> Py.str_any Py.is_space r = false ->
  Py.strip (a +:+ r +:+ "?") = a +:+ r +:+ "?" ->
  good (a +:+ r +:+ "?").
Proof.
  intros Hq Hs Hst.
  assert (Hl : Py.last_char (a +:+ r +:+ "?") = Some "?"%char)
    by (rewrite <- app_assoc; apply last_char_snoc).
  destruct (a +:+ r +:+ "?") as [|c x] eqn:E; [discriminate Hl|].
  exists c, x, "?"%char. repeat split; try exact Hl; try discriminate.
  exact (trimmed_head c x Hst).
Qed.

Lemma label_good (f : tform) : wf f = true -> good (label_in cf cs f).
Proof.
  induction f as [k|e IH|q e IH|e IH|base args IH] using tform_ind;
    intros Hwf.
  - apply alias_key_cases in Hwf. simpl in Hwf.
    repeat (destruct Hwf as [<-|Hwf];
            [do 3 eexists; repeat split; try reflexivity; discriminate|]).
    contradiction.
  - apply (wrapped_good "List"). reflexivity.
  - apply (wrapped_good "Optional"). reflexivity.
  - cbn [label_in]. destruct (Py.endswith (render e) "?") eqn:Hq;
      [|apply (wrapped_good "Optional"); reflexivity].
    pose proof (render_spelled e Hwf) as Hsp.
    pose proof (spelled_no_space _ Hsp) as Hns.
    destruct (own_name_question (render e) Hq Hns) as [-> | (a & Hcf & ->)].
    + apply (question_good "" (render e) Hq Hns).
      apply strip_no_space. rewrite !str_any_app, Hns. reflexivity.
    + apply (question_good a (render e) Hq Hns). now apply cf_trimmed.
  - destruct (wf_generic _ _ Hwf) as (_ & Hbc & _ & _ & _).
    apply wrapped_good. now apply py_base_head.
Qed.

(** The normalizer keeps the label of a form, unless the label is the
    simple name of the container. *)
Lemma label_stable (self : string -> string) (f : tform) :
  wf f = true ->
  cs <> Some (label_in cf cs f) ->
  map_body self cf cs (label_in cf cs f) = label_in cf cs f.
Proof.
  intros Hwf Hcs. pose proof (own_name_miss cf cs _ Hcs) as Hown.
  destruct f as [k|e|q e|e|base args].
  - apply alias_key_cases in Hwf. simpl in Hwf.
    repeat (destruct Hwf as [<-|Hwf];
            [first [reflexivity | exact Hown]|]).
    contradiction.
  - rewrite <- Hown at 2. cbn [label_in].
    apply (wrapped_stable self cf cs "List"); [reflexivity|].
    now apply label_good.
  - rewrite <- Hown at 2. cbn [label_in].
    apply (wrapped_stable self cf cs "Optional"); [reflexivity|].
    now apply label_good.
  - cbn [label_in wf] in *.
    pose proof (render_spelled e Hwf) as Hsp.
    pose proof (spelled_no_space _ Hsp) as Hns.
    destruct (Py.endswith (render e) "?") eqn:Hq.
    + destruct (own_name_question (render e) Hq Hns)
        as [E | (a & Hcf & E)].
      * rewrite E. rewrite <- E at 2. now apply map_question_twice.
      * rewrite E in Hown |- *.
        transitivity (own_name cf cs (a +:+ render e +:+ "?"));
          [|exact Hown].
        rewrite <- (app_assoc a (render e) "?").
        assert (Hl : Py.last_char ((a +:+ render e) +:+ "?")
                     = Some "?"%char) by apply last_char_snoc.
        apply (map_passthrough self cf cs _ "?"%char); try exact Hl;
          try discriminate.
        -- rewrite app_assoc. now apply cf_trimmed.
        -- apply (endswith_last_ne _ "[]" _ "]"%char Hl eq_refl).
           discriminate.
        -- apply endswith_char in Hq.
           destruct (last_char_decomp _ _ Hq) as [b Hb]. rewrite Hb.
           rewrite <- (app_assoc a b "?"), app_assoc.
           rewrite (endswith_app (a +:+ b) ("?" +:+ "?") "??")
             by reflexivity.
           simpl. apply andb_false_r.
        -- apply (alias_none_by_last _ _ Hl). reflexivity.
    + rewrite <- Hown at 2.
      apply (wrapped_stable self cf cs "Optional");
        [reflexivity | now apply label_good].
  - destruct (wf_generic _ _ Hwf) as (_ & Hbc & _ & Hargs & Hall).
    rewrite <- Hown at 2. cbn [label_in].
    apply wrapped_stable; [now apply py_base_head|].
    apply good_join.
    + intros E. apply Hargs. now destruct args.
    + apply List.Forall_map. revert Hall. apply List.Forall_impl.
      intros a. apply label_good.
Qed.

(** Variant A is idempotent on the forms, for a container whose simple
    name is not the label. *)
Lemma variant_a_idempotent (f : tform) :
  wf f = true ->
  cs <> Some (map_dotnet_to_python (render f) cf cs) ->
  map_dotnet_to_python (map_dotnet_to_python (render f) cf cs) cf cs
  = map_dotnet_to_python (render f) cf cs.
Proof.
  intros Hwf. unfold map_dotnet_to_python at 1 3 4.
  rewrite (map_fuel_render cf cs f Hwf) by lia. intros Hcs.
  unfold map_dotnet_to_python. cbn [map_fuel].
  now apply label_stable.
Qed.

End Container.

(** *** The recursion of [map_dotnet_to_python] *)

Lemma endswith_length (s p : string) :
  Py.endswith s p = true -> String.length p <= String.length s.
Proof.
  unfold Py.endswith. intros H. apply andb_true_iff in H as [H _].
  now apply Nat.leb_le.
Qed.

Lemma group_before_brace_length (s g : string) :
  group_before_brace s = Some g -> String.length g < String.length s.
Proof.
  unfold group_before_brace.
  pose proof (length_before_dollar s) as Hb.
  destruct (Py.endswith (before_dollar s) "}") eqn:E; [|discriminate].
  apply endswith_length in E. simpl in E.
  destruct (_ && _); [|discriminate].
  intros H. injection H as <-.
  unfold Py.drop_last. rewrite length_take. lia.
Qed.

Lemma match_nullable_length (t g : string) :
  match_nullable t = Some g -> String.length g < String.length t.
Proof.
  unfold match_nullable.
  destruct (Py.startswith t "System.Nullable{").
  { intros H. apply group_before_brace_length in H.
    rewrite length_drop in H. lia. }
  destruct (Py.startswith t "Nullable{"); [|discriminate].
  intros H. apply group_before_brace_length in H.
  rewrite length_drop in H. lia.
Qed.

Lemma match_generic_length (t base inner : string) :
  match_generic t = Some (base, inner) ->
  String.length inner < String.length t.
Proof.
  unfold match_generic. destruct (_ && _); [|discriminate].
  destruct (group_before_brace _) as [g|] eqn:E; [|discriminate].
  simpl. intros H. injection H as _ <-.
  apply group_before_brace_length in E.
  rewrite !length_drop in E. lia.
Qed.

Lemma split_part_length (s p : string) :
  In p (split_types_list s) -> String.length p <= String.length s.
Proof.
  rewrite split_types_list_refines. unfold split_spec.
  intros H. apply List.filter_In in H as [H _].
  apply List.in_map_iff in H as (seg & <- & Hseg).
  etransitivity; [apply length_strip|].
  pose proof (length_join_in "," seg _ Hseg) as Hl.
  unfold segments in Hl. now rewrite join_segments_from in Hl.
Qed.

Section Recursion.

Variables container_fqn container_simple : option string.

Lemma map_body_ext (f g : string -> string) (t : string) :
  (forall x, String.length x < String.length t -> f x = g x) ->
  map_body f container_fqn container_simple t
  = map_body g container_fqn container_simple t.
Proof.
  intros H. unfold map_body.
  pose proof (length_strip t) as Hs.
  set (t' := Py.strip t) in *.
  destruct (Py.endswith t' "[]") eqn:Ea.
  { apply endswith_length in Ea. simpl in Ea.
    rewrite H; [reflexivity|].
    pose proof (length_strip (Py.drop_last 2 t')) as Hi.
    unfold Py.drop_last in *. rewrite length_take in Hi. lia. }
  destruct (match_nullable t') as [gp|] eqn:En.
  { apply match_nullable_length in En.
    rewrite H; [reflexivity|].
    pose proof (length_strip gp). lia. }
  destruct (Py.endswith t' "?" && negb (Py.endswith t' "??")) eqn:Eq.
  { apply andb_true_iff in Eq as [Eq _].
    apply endswith_length in Eq. simpl in Eq.
    rewrite H; [reflexivity|].
    unfold Py.drop_last. rewrite length_take. lia. }
  destruct (match_generic t') as [[base inner]|] eqn:Eg; [|reflexivity].
  apply match_generic_length in Eg.
  assert (E : List.map f (split_types_list inner)
              = List.map g (split_types_list inner)).
  { apply List.map_ext_in. intros p Hp. apply H.
    apply split_part_length in Hp. lia. }
  now rewrite E.
Qed.

(** More fuel than the length of the spelling is enough. *)
Lemma map_fuel_enough (n : nat) :
  forall (m : nat) (t : string),
    String.length t < n -> String.length t < m ->
    map_fuel n container_fqn container_simple t
    = map_fuel m container_fqn container_simple t.
Proof.
  induction n as [|n IH]; intros m t Hn Hm; [lia|].
  destruct m as [|m]; [lia|]. cbn [map_fuel].
  apply map_body_ext. intros x Hx. apply IH; lia.
Qed.

(** [map_dotnet_to_python] satisfies the equation of its definition in
    Python. *)
Lemma map_dotnet_to_python_unfold (t : string) :
  map_dotnet_to_python t container_fqn container_simple
  = map_body
      (fun x => map_dotnet_to_python x container_fqn container_simple)
      container_fqn container_simple t.
Proof.
  unfold map_dotnet_to_python at 1. cbn [map_fuel].
  apply map_body_ext. intros x Hx. unfold map_dotnet_to_python.
  apply map_fuel_enough; lia.
Qed.

End Recursion.

End NormFacts.

(** ** The end-to-end example, the metadata parser and the page boundary *)

(** C1: the page whose help id is
    [M:Rhino.Display.ColorHSL.CreateFromLCH(Rhino.Display.ColorLCH)] and whose
    code sample is [public static ColorHSL CreateFromLCH( ColorLCH lch )]
    goes through identity parsing, sample parsing, type normalization and
    assembly and gives exactly the line
    [Rhino.Display.ColorHSL.CreateFromLCH(lch: Rhino.Display.ColorLCH) -> Rhino.Display.ColorHSL]. *)
Theorem end_to_end_CreateFromLCH :
  process_file
    (Some "M:Rhino.Display.ColorHSL.CreateFromLCH(Rhino.Display.ColorLCH)")
    (Some "public static ColorHSL CreateFromLCH( ColorLCH lch )")
  = Ok (Some "Rhino.Display.ColorHSL.CreateFromLCH(lch: Rhino.Display.ColorLCH) -> Rhino.Display.ColorHSL").
Proof. vm_compute. reflexivity. Qed.

(** C6: [parse_help_id] on a constructor id, on an id with an empty
    parameter list, and on every input that does not start with [M:]. *)
Theorem parse_help_id_cases :
  parse_help_id (Some "M:Ns.Cls.#ctor(Ns.A,Ns.B)")
    = Ok (Some "Ns.Cls", Some "#ctor", ["Ns.A"; "Ns.B"])
  /\ parse_help_id (Some "M:Ns.Cls.Foo()") = Ok (Some "Ns.Cls", Some "Foo", [])
  /\ (forall help_id : option string,
        (forall s, help_id = Some s -> Py.startswith s "M:" = false) ->
        parse_help_id help_id = Ok (None, None, [])).
Proof.
  split; [vm_compute; reflexivity|].
  split; [vm_compute; reflexivity|].
  intros [s|] H; [|reflexivity].
  unfold parse_help_id. rewrite (H s eq_refl).
  now rewrite orb_true_r.
Qed.

Lemma parse_help_id_cases_witness :
  parse_help_id (Some "T:Rhino.Display.ColorHSL") = Ok (None, None, [])
  /\ parse_help_id None = Ok (None, None, []).
Proof.
  split.
  - apply (proj2 (proj2 parse_help_id_cases)).
    intros s Hs. injection Hs as <-. reflexivity.
  - apply (proj2 (proj2 parse_help_id_cases)).
    intros s Hs. discriminate Hs.
Defined.

(** C2: a page whose help id is [M:Foo] (a method marker followed by a name
    without a dot) makes [parse_help_id] raise [ValueError] at the unpacking
    of [left.rsplit('.', 1)]; [process_file] calls it before its [try], so
    the exception leaves [process_file], whatever the code sample is. *)
Theorem process_file_raises_on_undotted_id :
  forall cs_text : option string,
    parse_help_id (Some "M:Foo") = Raise ValueError
    /\ process_file (Some "M:Foo") cs_text = Raise ValueError.
Proof. intros cs_text. split; reflexivity. Qed.

(** ** The code-sample parser *)

Module SampleFacts.

Lemma absent_oneline (p : ascii -> bool) (text : string) :
  p " "%char = false -> Py.str_any p text = false ->
  Py.str_any p (oneline_of text) = false.
Proof.
  intros Hsp H. unfold oneline_of. apply PyFacts.absent_join.
  - simpl. now rewrite Hsp.
  - apply PyFacts.absent_split_ws. apply PyFacts.absent_replace_from; [|assumption].
    simpl. now rewrite Hsp.
Qed.

Lemma head_name_ok (head_tokens : list string) :
  exists rt name,
    (if Nat.eqb (length head_tokens) 1 then
       name ← Py.item head_tokens 0;
       Ok (None, Some name)
     else if 2 <=? length head_tokens then
       rt ← Py.item head_tokens (length head_tokens - 2);
       name ← Py.last_item head_tokens;
       Ok (Some rt, Some name)
     else Ok (None, None)) = Ok (rt, name).
Proof.
  destruct (Nat.eqb (length head_tokens) 1) eqn:E1.
  - apply Nat.eqb_eq in E1.
    destruct (PyFacts.item_ok head_tokens 0) as [x Hx]; [lia|].
    rewrite Hx. simpl. eauto.
  - destruct (2 <=? length head_tokens) eqn:E2; [|eauto].
    apply Nat.leb_le in E2.
    destruct (PyFacts.item_ok head_tokens (length head_tokens - 2)) as [x Hx]; [lia|].
    destruct (PyFacts.last_item_ok head_tokens) as [y Hy].
    { intros ->. simpl in E2. lia. }
    rewrite Hx, Hy. simpl. eauto.
Qed.

Lemma blank_is_nothing (s : string) (container_simple : option string) :
  Py.str_all Py.is_space s = true ->
  parse_csharp_signature (Some s) container_simple
  = Ok (None, None, [], false).
Proof.
  intros H. unfold parse_csharp_signature.
  destruct (Py.truthy (Some s)); [|reflexivity].
  simpl Py.fmt. rewrite (PyFacts.strip_blank _ H). reflexivity.
Qed.

End SampleFacts.


(** ** The stages of a page that can raise *)

Module PageFacts.

Import PyFacts.

Lemma param_name_step_ok (names : list string) (p : string) :
  exists names', param_name_step names p = Ok names'.
Proof.
  unfold param_name_step.
  set (tokens := Py.split_ws _).
  destruct (Nat.eqb (length tokens) 0) eqn:E; simpl negb; cbv iota; [eauto|].
  destruct (last_item_ok tokens) as [x ->]; [|simpl; eauto].
  intros H. rewrite H in E. discriminate E.
Qed.

Lemma param_name_loop_ok (parts names : list string) :
  exists names', param_name_loop names parts = Ok names'.
Proof.
  revert names. induction parts as [|p parts IH]; intros names; simpl; [eauto|].
  destruct (param_name_step_ok names p) as [names' ->]. simpl. apply IH.
Qed.

Lemma rsplit1_first (s sep : string) :
  exists x, Py.item (Py.rsplit1 s sep) 0 = Ok x.
Proof. unfold Py.rsplit1. destruct (Py.rfind s sep); simpl; eauto. Qed.

Lemma split_from_first (sep : string) (s : string) :
  forall skip cur, exists x, Py.item (Py.split_from sep skip cur s) 0 = Ok x.
Proof.
  induction s as [|c s IH]; intros skip cur; simpl; [eauto|].
  destruct skip; [|apply IH].
  destruct (Py.startswith (String c s) sep); [simpl; eauto | apply IH].
Qed.

Lemma unpack2_split1 (s sep : string) :
  Py.contains s sep = true ->
  exists a b, Py.unpack2 (Py.split1 s sep) = Ok (a, b).
Proof.
  intros H. destruct (contains_find _ _ H) as [i Hi].
  rewrite (split1_found _ _ _ Hi). simpl. eauto.
Qed.

(** The code-sample parser returns for every text. *)
Lemma bind_ok {A B} (a : A) (k : A -> result B) : (Ok a ≫= k) = k a.
Proof. reflexivity. Qed.

(** The code-sample parser returns for every text. *)
Lemma parse_csharp_signature_total (cs_text container_simple : option string) :
  exists v, parse_csharp_signature cs_text container_simple = Ok v.
Proof.
  unfold parse_csharp_signature.
  destruct (Py.truthy cs_text); cbn [negb]; [|eauto].
  set (text0 := Py.strip (Py.fmt cs_text)).
  assert (Ht : exists text,
    (if Py.contains text0 ")" then upto_first text0 ")" else Ok text0)
    = Ok text).
  { destruct (Py.contains text0 ")") eqn:E; [|eauto].
    destruct (upto_first_ok _ _ E) as [i ->]. eauto. }
  destruct Ht as [text ->]. rewrite bind_ok. cbv beta iota zeta.
  set (oneline := oneline_of text).
  assert (Hrest : forall head params_part : string, exists v,
    (let head_tokens :=
       List.filter
         (fun t => negb (mem t CS_ACCESS_KWS) && negb (mem t CS_MODIFIER_KWS))
         (Py.split_ws (Py.strip head)) in
     '(return_type, method_name) ←
       (if Nat.eqb (length head_tokens) 1 then
          name ← Py.item head_tokens 0;
          Ok (None, Some name)
        else if 2 <=? length head_tokens then
          rt ← Py.item head_tokens (length head_tokens - 2);
          name ← Py.last_item head_tokens;
          Ok (Some rt, Some name)
        else Ok (None, None));
     param_names ←
       (if Py.nonempty params_part
        then param_name_loop [] (split_types_list params_part)
        else Ok []);
     Ok (return_type, method_name, param_names,
         Py.contains (" " +:+ oneline +:+ " ") " static ")) = Ok v).
  { intros head params_part. cbv zeta.
    match goal with
    | |- context [List.filter ?f ?l] =>
        destruct (SampleFacts.head_name_ok (List.filter f l))
          as (rt & name & ->)
    end.
    rewrite bind_ok; cbv beta iota.
    destruct (Py.nonempty params_part).
    - destruct (param_name_loop_ok (split_types_list params_part) [])
        as [names ->]. simpl. eauto.
    - simpl. eauto. }
  destruct (Py.contains oneline "(" && Py.contains oneline ")") eqn:E.
  - apply andb_true_iff in E as [E _].
    destruct (unpack2_split1 _ _ E) as (a & b & ->).
    rewrite bind_ok; cbv beta iota.
    destruct (rsplit1_first b ")") as [x ->].
    rewrite bind_ok; cbv beta iota. apply Hrest.
  - rewrite bind_ok; cbv beta iota. apply Hrest.
Qed.

Lemma rfind_none (s sub : string) :
  Py.rfind s sub = None <-> Py.find s sub = None.
Proof.
  induction s as [|c s IH].
  - simpl. destruct (Py.startswith "" sub); split; congruence.
  - rewrite find_cons. simpl Py.rfind.
    destruct (Py.rfind s sub) as [i|] eqn:Er.
    + split; [discriminate|]. intros H.
      destruct (Py.startswith (String c s) sub); [discriminate|].
      destruct (Py.find s sub); [discriminate|].
      destruct IH as [_ IH]. specialize (IH eq_refl). discriminate.
    + destruct IH as [IH _]. rewrite (IH eq_refl).
      destruct (Py.startswith (String c s) sub); simpl; split; congruence.
Qed.

Lemma contains_false (s sub : string) :
  Py.contains s sub = false <-> Py.find s sub = None.
Proof. unfold Py.contains. destruct (Py.find s sub); split; congruence. Qed.

Lemma startswith_first_char (s : string) (c : ascii) (sub : string) :
  Py.startswith s (String c sub) = true ->
  Py.startswith s (String c "") = true.
Proof.
  destruct s as [|b s]; [discriminate|].
  change (Ascii.eqb c b && Py.startswith s sub = true
          -> Ascii.eqb c b && Py.startswith s "" = true).
  intros H. apply andb_true_iff in H as [-> _]. reflexivity.
Qed.

Lemma contains_first_char (s : string) (c : ascii) (sub : string) :
  Py.contains s (String c sub) = true ->
  Py.contains s (String c "") = true.
Proof.
  induction s as [|b s IH].
  - discriminate.
  - rewrite !contains_cons. intros H. apply orb_true_iff in H as [H|H].
    + now rewrite (startswith_first_char _ _ _ H).
    + rewrite (IH H). apply orb_true_r.
Qed.

(** [parse_help_id] raises exactly on a method id whose member part has no
    dot (and so no constructor marker); the exception is [ValueError]. *)
Lemma parse_help_id_raises (h : string) (e : exn) :
  parse_help_id (Some h) = Raise e <->
  e = ValueError /\ Py.startswith h "M:" = true
  /\ Py.contains (identity_part h) "." = false.
Proof.
  unfold parse_help_id, identity_part.
  destruct (Py.nonempty h) eqn:Hn; cbn [negb orb].
  2:{ apply nonempty_false in Hn. subst h. simpl. split; [discriminate|].
      intros (_ & H & _). discriminate H. }
  destruct (Py.startswith h "M:") eqn:Hs; cbn [negb].
  2:{ split; [discriminate|]. intros (_ & H & _). discriminate H. }
  set (body := Py.drop 2 h).
  assert (Hl : exists params_part,
    (if Py.contains body "(" then
       '(lhs, rhs) ← Py.unpack2 (Py.split1 body "(");
       params_part ←
         (if Py.contains rhs ")"
          then Py.item (Py.rsplit1 rhs ")") 0
          else Ok rhs);
       Ok (lhs, params_part)
     else Ok (body, EmptyString))
    = Ok (match Py.find body "(" with
          | Some i => Py.take i body
          | None => body
          end, params_part)).
  { destruct (Py.contains body "(") eqn:E.
    - destruct (contains_find _ _ E) as [i Hi].
      rewrite (split1_found _ _ _ Hi), Hi. simpl Py.unpack2.
      rewrite bind_ok. cbv beta iota.
      destruct (Py.contains _ ")").
      + match goal with
        | |- context [Py.item (Py.rsplit1 ?r ")") 0] =>
            destruct (rsplit1_first r ")") as [x ->]
        end.
        rewrite bind_ok. eauto.
      + rewrite bind_ok. eauto.
    - apply contains_false in E. rewrite E. eauto. }
  destruct Hl as [params_part ->]. rewrite bind_ok. cbv beta iota.
  set (lhs := match Py.find body "(" with
              | Some i => Py.take i body
              | None => body
              end).
  destruct (Py.contains lhs ".#ctor") eqn:Hc.
  { destruct (split_from_first ".#ctor" lhs 0 "") as [x Hx].
    unfold Py.split. rewrite Hx. rewrite !bind_ok. cbv beta iota.
    split; [discriminate|]. intros (_ & _ & Hd). exfalso.
    rewrite (contains_first_char lhs "." "#ctor" Hc) in Hd. discriminate Hd. }
  unfold Py.rsplit1.
  destruct (Py.rfind lhs ".") as [i|] eqn:Hr.
  - simpl Py.unpack2. rewrite bind_ok. cbv beta iota.
    split; [discriminate|]. intros (_ & _ & Hd).
    apply contains_false, rfind_none in Hd. congruence.
  - simpl. split.
    + intros H. injection H as <-. repeat split.
      now apply contains_false, rfind_none.
    + now intros (-> & _ & _).
Qed.

(** A page makes [process_file] raise exactly when its help id makes
    [parse_help_id] raise: every other stage returns, and the assembly is
    inside the [try]. *)
Lemma process_file_raises (help_id cs_text : option string) (e : exn) :
  process_file help_id cs_text = Raise e <->
  exists h,
    help_id = Some h /\ e = ValueError /\ Py.startswith h "M:" = true
    /\ Py.contains (identity_part h) "." = false.
Proof.
  unfold process_file.
  assert (Hid : exists h, Py.or_else help_id (Some "") = Some h
                  /\ (help_id = Some h
                      \/ (h = "" /\ forall h', help_id = Some h' -> h' = ""))).
  { destruct help_id as [[|c h]|]; simpl.
    - exists "". split; [reflexivity|]. now left.
    - exists (String c h). split; [reflexivity|]. now left.
    - exists "". split; [reflexivity|]. right. split; [reflexivity|].
      intros h' H. discriminate H. }
  destruct Hid as (h & -> & Hh).
  destruct (parse_help_id (Some h)) as [[[cf mr] pts]|e'] eqn:Ep.
  - rewrite bind_ok. cbv beta iota.
    destruct (parse_csharp_signature_total (Py.or_else cs_text (Some ""))
                (container_simple_of cf)) as [[[[rt nm] names] st] ->].
    rewrite bind_ok. cbv beta iota.
    split.
    + destruct (_ || _); discriminate.
    + intros (h' & E & He & Hs & Hd). exfalso.
      assert (Hr : parse_help_id (Some h') = Raise e)
        by (apply parse_help_id_raises; auto).
      destruct Hh as [Hh | [-> Hh]].
      * rewrite E in Hh. injection Hh as ->. congruence.
      * rewrite (Hh h' E) in Hs. discriminate Hs.
  - apply parse_help_id_raises in Ep as (-> & Hs & Hd).
    destruct Hh as [-> | [-> _]]; [|discriminate Hs].
    simpl. split.
    + intros H. injection H as <-. eauto.
    + intros (h' & Hh' & -> & _). reflexivity.
Qed.

End PageFacts.

(** ** Signature assembly *)

Section Assembly.

Variables (container_fqn method_raw : option string).
Variable param_types : list string.
Variables (cs_return_type cs_method_name : option string).
Variable param_names : list string.
Variable is_static : bool.

Let container_simple := container_simple_of container_fqn.
Let ann_types :=
  List.map (fun t => map_dotnet_to_python t container_fqn container_simple)
    param_types.

Lemma annotate_length (names anns : list string) :
  length names = length anns -> length (annotate names anns) = length anns.
Proof.
  revert anns. induction names as [|n ns IH]; intros [|a anns] H;
    simpl in *; try congruence. f_equal. apply IH. congruence.
Qed.

Lemma placeholder_names_seq (n : nat) :
  placeholder_names n
  = List.map (fun i => "arg" +:+ Py.str_of_nat i) (List.seq 1 n).
Proof.
  unfold placeholder_names, arg_name.
  rewrite <- List.seq_shift, List.map_map.
  apply List.map_ext. intros i. now rewrite Nat.add_1_r.
Qed.

Lemma reconcile_names_length (names anns : list string) :
  length (reconcile_names names anns) = length anns.
Proof.
  unfold reconcile_names.
  destruct (Nat.eqb (length names) (length anns)) eqn:E; simpl.
  - now apply Nat.eqb_eq.
  - unfold placeholder_names. now rewrite List.length_map, List.length_seq.
Qed.

Lemma ann_types_length : length ann_types = length param_types.
Proof. unfold ann_types. apply List.length_map. Qed.

Let receiver :=
  self_part
    (fst (signature_name_return container_fqn method_raw cs_return_type
            cs_method_name)) cs_method_name is_static.

Lemma signature_params_eq (names : list string) :
  signature_params container_fqn method_raw param_types cs_return_type
    cs_method_name names is_static
  = receiver ++ annotate (reconcile_names names ann_types) ann_types.
Proof. reflexivity. Qed.

Lemma annotate_placeholders (anns : list string) :
  forall k,
    annotate
      (List.map (fun i => "arg" +:+ Py.str_of_nat i)
         (List.seq k (length anns))) anns
    = List.map (fun it => "arg" +:+ Py.str_of_nat (fst it) +:+ ": "
                          +:+ snd it)
        (List.combine (List.seq k (length anns)) anns).
Proof.
  induction anns as [|a anns IH]; intros k; [reflexivity|].
  simpl. now rewrite IH.
Qed.

(** The line that the assembler emits for given names of the
    parameters. *)
Lemma build_signature_line_eq :
  let ctor := is_ctor container_fqn method_raw cs_method_name in
  let name :=
    if ctor then "__init__"
    else Py.fmt (Py.or_else cs_method_name method_raw) in
  let ret :=
    if ctor then "None"
    else map_dotnet_to_python
           (Py.fmt (Py.or_else cs_return_type (Some "None")))
           container_fqn container_simple in
  let self_or_not :=
    if String.eqb name "__init__"
       || (negb is_static && Py.truthy cs_method_name)
    then ["self"] else [] in
  build_signature_line container_fqn method_raw param_types cs_return_type
    cs_method_name param_names is_static
  = Py.fmt container_fqn +:+ "." +:+ name +:+ "("
    +:+ Py.join ", "
          (self_or_not
           ++ annotate (reconcile_names param_names ann_types) ann_types)
    +:+ ") -> " +:+ ret.
Proof.
  cbv zeta. unfold build_signature_line.
  rewrite signature_params_eq. unfold receiver, self_part.
  unfold signature_name_return. fold container_simple.
  destruct (is_ctor container_fqn method_raw cs_method_name).
  - cbn [fst Py.fmt opt_eq]. now rewrite !PyFacts.app_assoc.
  - cbn [fst].
    destruct (Py.or_else cs_method_name method_raw) as [m|];
      cbn [opt_eq Py.fmt]; now rewrite !PyFacts.app_assoc.
Qed.

(** C7: when the sample gives a number of names that differs from the
    number of types of the metadata, the emitted line names its parameters
    [arg1] .. [argN], [N] the number of types, each with the label of the
    type at its place: the line is [container.name(], then [self] where the
    assembler adds it, then [arg1: T1, ..., argN: TN], then [) -> ret].
    When the numbers agree the line has the names of the sample.  In both
    cases there are as many named parameters as types. *)
Theorem arity_reconciliation :
  let N := length param_types in
  let args := List.map (fun i => "arg" +:+ Py.str_of_nat i) (List.seq 1 N) in
  let ctor := is_ctor container_fqn method_raw cs_method_name in
  let name :=
    if ctor then "__init__"
    else Py.fmt (Py.or_else cs_method_name method_raw) in
  let ret :=
    if ctor then "None"
    else map_dotnet_to_python
           (Py.fmt (Py.or_else cs_return_type (Some "None")))
           container_fqn (container_simple_of container_fqn) in
  let self_or_not :=
    if String.eqb name "__init__"
       || (negb is_static && Py.truthy cs_method_name)
    then ["self"] else [] in
  let types :=
    List.map
      (fun t => map_dotnet_to_python t container_fqn
                  (container_simple_of container_fqn)) param_types in
  let line (names : list string) :=
    Py.fmt container_fqn +:+ "." +:+ name +:+ "("
    +:+ Py.join ", " (self_or_not ++ annotate names types)
    +:+ ") -> " +:+ ret in
  (length param_names <> N ->
     build_signature_line container_fqn method_raw param_types
       cs_return_type cs_method_name param_names is_static
     = line args)
  /\ (length param_names = N ->
      build_signature_line container_fqn method_raw param_types
        cs_return_type cs_method_name param_names is_static
      = line param_names)
  /\ annotate args types
     = List.map (fun it => "arg" +:+ Py.str_of_nat (fst it) +:+ ": "
                           +:+ snd it)
         (List.combine (List.seq 1 N) types)
  /\ length (annotate args types) = N
  /\ (length param_names = N -> length (annotate param_names types) = N).
Proof.
  intros N args ctor name ret self_or_not types line.
  assert (Hargs : length args = N)
    by (unfold args; now rewrite List.length_map, List.length_seq).
  assert (Hty : length types = N) by apply ann_types_length.
  pose proof build_signature_line_eq as Hline. cbv zeta in Hline.
  split; [|split; [|split; [|split]]].
  - intros Hne. rewrite Hline. unfold line.
    assert (Hrec : reconcile_names param_names ann_types = args).
    { unfold reconcile_names. rewrite ann_types_length.
      unfold N in Hne. apply Nat.eqb_neq in Hne. rewrite Hne. simpl.
      apply placeholder_names_seq. }
    now rewrite Hrec.
  - intros He. rewrite Hline. unfold line.
    assert (Hrec : reconcile_names param_names ann_types = param_names).
    { unfold reconcile_names. rewrite ann_types_length, He.
      unfold N. now rewrite Nat.eqb_refl. }
    now rewrite Hrec.
  - unfold args. rewrite <- Hty. apply annotate_placeholders.
  - rewrite annotate_length; congruence.
  - intros He. rewrite annotate_length; congruence.
Qed.

(** Constructors: a record that the assembler takes for a constructor is
    emitted under the name [__init__], with
    [self] as its first parameter and the return label [None], whatever
    return type the sample gave. *)
Lemma constructor_line :
  is_ctor container_fqn method_raw cs_method_name = true ->
  build_signature_line container_fqn method_raw param_types cs_return_type
    cs_method_name param_names is_static
  = Py.fmt container_fqn +:+ ".__init__("
    +:+ Py.join ", "
          ("self" :: annotate (reconcile_names param_names ann_types)
                       ann_types)
    +:+ ") -> None".
Proof.
  intros Hc. unfold build_signature_line.
  rewrite signature_params_eq. unfold receiver, self_part.
  unfold signature_name_return. rewrite Hc. simpl.
  now rewrite !PyFacts.app_assoc.
Qed.

(** Instance methods: [self] is the first
    parameter of a record that is not static and whose member name the
    sample gave; the line has the name of the sample and the label of its
    return type. *)
Lemma instance_method_line :
  is_ctor container_fqn method_raw cs_method_name = false ->
  is_static = false ->
  Py.truthy cs_method_name = true ->
  build_signature_line container_fqn method_raw param_types cs_return_type
    cs_method_name param_names is_static
  = Py.fmt container_fqn +:+ "." +:+ Py.fmt cs_method_name +:+ "("
    +:+ Py.join ", "
          ("self" :: annotate (reconcile_names param_names ann_types)
                       ann_types)
    +:+ ") -> "
    +:+ map_dotnet_to_python
          (Py.fmt (Py.or_else cs_return_type (Some "None")))
          container_fqn container_simple.
Proof.
  intros Hc Hs Hn. pose proof build_signature_line_eq as Hline.
  cbv zeta in Hline. rewrite Hline, Hc, Hs, Hn.
  unfold Py.or_else at 1 2. rewrite Hn.
  cbn [negb andb]. now rewrite orb_true_r.
Qed.

End Assembly.

Lemma arity_reconciliation_witness :
  build_signature_line (Some "Ns.Cls") (Some "Foo")
    ["System.Int32"; "System.String"] (Some "void") (Some "Foo") ["x"] false
  = "Ns.Cls.Foo(self, arg1: int, arg2: str) -> None".
Proof.
  pose proof (proj1 (arity_reconciliation (Some "Ns.Cls") (Some "Foo")
                       ["System.Int32"; "System.String"] (Some "void")
                       (Some "Foo") ["x"] false)) as H.
  cbv zeta in H. rewrite H by (simpl; lia). vm_compute. reflexivity.
Defined.

(** C8: a record is a constructor for the assembler when the metadata member
    is [#ctor] or the sample's member name is the simple name of the
    container; then the line is emitted as [__init__] with the return label
    [None], whatever the recovered return type.  For a record that is not
    static and not a constructor, and whose member name the sample gave, the
    line is emitted under that name with [self] as its first parameter. *)
Theorem constructor_and_instance_emission :
  forall container_fqn method_raw param_types cs_return_type cs_method_name
         param_names is_static,
    let container_simple := container_simple_of container_fqn in
    let anns :=
      List.map (fun t => map_dotnet_to_python t container_fqn container_simple)
        param_types in
    let named := annotate (reconcile_names param_names anns) anns in
    (is_ctor container_fqn method_raw cs_method_name = true ->
       build_signature_line container_fqn method_raw param_types
         cs_return_type cs_method_name param_names is_static
       = Py.fmt container_fqn +:+ ".__init__("
         +:+ Py.join ", " ("self" :: named) +:+ ") -> None")
    /\ (is_ctor container_fqn method_raw cs_method_name = false ->
        is_static = false ->
        Py.truthy cs_method_name = true ->
        build_signature_line container_fqn method_raw param_types
          cs_return_type cs_method_name param_names is_static
        = Py.fmt container_fqn +:+ "." +:+ Py.fmt cs_method_name +:+ "("
          +:+ Py.join ", " ("self" :: named) +:+ ") -> "
          +:+ map_dotnet_to_python
                (Py.fmt (Py.or_else cs_return_type (Some "None")))
                container_fqn container_simple).
Proof.
  intros. split.
  - apply constructor_line.
  - apply instance_method_line.
Qed.

Lemma constructor_and_instance_emission_witness :
  build_signature_line (Some "Ns.Cls") (Some "#ctor") ["System.Int32"]
    (Some "int") (Some "Cls") ["x"] true
  = "Ns.Cls.__init__(self, x: int) -> None"
  /\ build_signature_line (Some "Ns.Cls") (Some "Foo") ["System.Int32"]
       (Some "void") (Some "Foo") ["x"] false
     = "Ns.Cls.Foo(self, x: int) -> None".
Proof.
  split.
  - refine (proj1 (constructor_and_instance_emission (Some "Ns.Cls")
              (Some "#ctor") ["System.Int32"] (Some "int") (Some "Cls")
              ["x"] true) _).
    reflexivity.
  - refine (proj2 (constructor_and_instance_emission (Some "Ns.Cls")
              (Some "Foo") ["System.Int32"] (Some "void") (Some "Foo")
              ["x"] false) _ _ _); reflexivity.
Defined.

(** A record that is neither static nor a constructor and yet gets no
    [self]: the page has no code sample, so the sample gave no member name. *)
Lemma instance_method_without_self :
  is_ctor (Some "Ns.Cls") (Some "Foo") None = false
  /\ signature_params (Some "Ns.Cls") (Some "Foo") ["System.Int32"]
       None None [] false
     = ["arg1: int"]
  /\ List.head
       (signature_params (Some "Ns.Cls") (Some "Foo") ["System.Int32"]
          None None [] false)
     <> Some "self"
  /\ process_file (Some "M:Ns.Cls.Foo(System.Int32)") None
     = Ok (Some "Ns.Cls.Foo(arg1: int) -> None").
Proof.
  split; [reflexivity|]. split; [reflexivity|].
  split; [vm_compute; discriminate | vm_compute; reflexivity].
Qed.

(** ** Assembly of the typed signature in the free-text pipeline *)

Import Rss.

(** C10: in [build_typed_signature] the item of a parameter is built by
    [typed_item].  When the table marks the parameter optional, the example
    gives no default and the mapped type is neither [Any] nor [None] nor
    starts with [Optional[], the annotation is [Optional[type]] and the
    default [= None] is added.  A parameter that the table does not have is
    annotated [Any], is not optional, and keeps the default of the example. *)
Theorem optional_parameter_wrapping :
  forall (func_name : string) (sig_params : list (string * option string))
         (param_types : gmap string pinfo) (returns_type : string)
         (name : string),
    build_typed_signature func_name sig_params param_types returns_type
    = "rhinoscriptsyntax." +:+ func_name +:+ "("
      +:+ Py.join ", " (List.map (typed_item param_types) sig_params)
      +:+ ") -> " +:+ returns_type
    /\ (forall ann : string,
          param_types !! name = Some (PInfo ann true) ->
          ann <> "Any" -> ann <> "None" ->
          Py.startswith ann "Optional[" = false ->
          typed_item param_types (name, None)
          = name +:+ ": Optional[" +:+ ann +:+ "] = None")
    /\ (param_types !! name = None ->
        typed_item param_types (name, None) = name +:+ ": Any"
        /\ forall d : string,
             typed_item param_types (name, Some d)
             = name +:+ ": Any = " +:+ d).
Proof.
  intros func_name sig_params param_types returns_type name.
  split; [reflexivity|]. split.
  - intros ann Hl HA HN HO. unfold typed_item. rewrite Hl.
    cbn -[Py.startswith String.append String.eqb]. rewrite HO. simpl.
    apply String.eqb_neq in HA, HN. rewrite HA, HN. simpl.
    now rewrite !PyFacts.app_assoc.
  - intros Hl. unfold typed_item. rewrite Hl. simpl. split.
    + reflexivity.
    + intros d. reflexivity.
Qed.

Lemma optional_parameter_wrapping_witness :
  typed_item (<["start" := PInfo "Rhino.Geometry.Point3d" true]> ∅)
    ("start", None)
  = "start: Optional[Rhino.Geometry.Point3d] = None"
  /\ typed_item (<["start" := PInfo "Rhino.Geometry.Point3d" true]> ∅)
       ("segments", None)
     = "segments: Any".
Proof.
  split.
  - refine (proj1 (proj2 (optional_parameter_wrapping "AddLine" []
              (<["start" := PInfo "Rhino.Geometry.Point3d" true]> ∅)
              "System.Guid" "start")) "Rhino.Geometry.Point3d" _ _ _ _).
    + reflexivity.
    + discriminate.
    + discriminate.
    + reflexivity.
  - refine (proj1 (proj2 (proj2 (optional_parameter_wrapping "AddLine" []
              (<["start" := PInfo "Rhino.Geometry.Point3d" true]> ∅)
              "System.Guid" "segments")) _)).
    reflexivity.
Defined.

(** ** The free-text type mapper *)

Module RssFacts.

Import Rss RssCalls.

Lemma norm_some (label : string) :
  norm (Some label) = Py.lower (Py.strip label).
Proof. now destruct label. Qed.

Lemma normalized_eq (label : string) :
  normalized label = Py.lower (Py.strip label).
Proof. unfold normalized, replace_en_dash. apply norm_some. Qed.

Lemma length_normalized (label : string) :
  String.length (normalized label) <= String.length label.
Proof.
  rewrite normalized_eq. unfold Py.lower.
  rewrite PyFacts.length_str_map. apply PyFacts.length_strip.
Qed.

(** *** Parts of a text *)

Lemma part_refl (s : string) : part s s.
Proof. exists "", "". now rewrite PyFacts.app_nil_r. Qed.

Lemma part_trans (x y z : string) : part x y -> part y z -> part x z.
Proof.
  intros (a & b & ->) (a' & b' & ->). exists (a' +:+ a), (b +:+ b').
  now rewrite !PyFacts.app_assoc.
Qed.

Lemma part_take (n : nat) (s : string) : part (Py.take n s) s.
Proof. exists "", (Py.drop n s). symmetry. apply PyFacts.take_drop. Qed.

Lemma part_drop (n : nat) (s : string) : part (Py.drop n s) s.
Proof.
  exists (Py.take n s), "". rewrite PyFacts.app_nil_r. symmetry.
  apply PyFacts.take_drop.
Qed.

Lemma lstrip_by_suffix (p : ascii -> bool) (s : string) :
  exists a, s = a +:+ Py.lstrip_by p s.
Proof.
  induction s as [|c s [a IH]]; [now exists ""|]. simpl.
  destruct (p c).
  - exists (String c a). simpl. now rewrite <- IH.
  - now exists "".
Qed.

Lemma rstrip_by_prefix (p : ascii -> bool) (s : string) :
  exists b, s = Py.rstrip_by p s +:+ b.
Proof.
  induction s as [|c s [b IH]]; [now exists ""|]. cbn [Py.rstrip_by].
  destruct (Py.rstrip_by p s) as [|d r] eqn:E.
  - destruct (p c).
    + now exists (String c s).
    + exists s. reflexivity.
  - exists b. change (String c s = String c (String d r +:+ b)).
    now rewrite <- IH.
Qed.

Lemma part_strip (s : string) : part (Py.strip s) s.
Proof.
  unfold Py.strip, Py.lstrip, Py.rstrip.
  destruct (lstrip_by_suffix Py.is_space s) as [a Ha].
  destruct (rstrip_by_prefix Py.is_space (Py.lstrip_by Py.is_space s))
    as [b Hb].
  exists a, b. now rewrite <- Hb.
Qed.

Lemma take_while_drop (p : ascii -> bool) (s : string) :
  s = take_while p s +:+ Py.drop (String.length (take_while p s)) s.
Proof.
  induction s as [|c s IH]; [reflexivity|]. simpl.
  destruct (p c); [|reflexivity]. simpl. now rewrite <- IH.
Qed.

Lemma str_all_take_while (p : ascii -> bool) (s : string) :
  Py.str_all p (take_while p s) = true.
Proof.
  induction s as [|c s IH]; [reflexivity|]. simpl.
  destruct (p c) eqn:E; [|reflexivity]. simpl. now rewrite E.
Qed.

Lemma part_before_dollar (s : string) : part (before_dollar s) s.
Proof.
  unfold before_dollar. destruct (Py.endswith s LF); [|apply part_refl].
  apply part_take.
Qed.

Lemma str_map_take (f : ascii -> ascii) (n : nat) (s : string) :
  Py.str_map f (Py.take n s) = Py.take n (Py.str_map f s).
Proof.
  revert n. induction s as [|c s IH]; intros [|n]; try reflexivity.
  simpl. now rewrite IH.
Qed.

Lemma str_map_drop (f : ascii -> ascii) (n : nat) (s : string) :
  Py.str_map f (Py.drop n s) = Py.drop n (Py.str_map f s).
Proof.
  revert n. induction s as [|c s IH]; intros [|n]; try reflexivity.
  simpl. now rewrite IH.
Qed.

Lemma lower_char_digit (c : ascii) :
  Py.is_digit (Py.lower_char c) = true -> Py.lower_char c = c.
Proof.
  destruct c as [[] [] [] [] [] [] [] []]; vm_compute; congruence.
Qed.

Lemma lower_digits_inv (x d : string) :
  Py.lower x = d -> Py.str_all Py.is_digit d = true -> x = d.
Proof.
  unfold Py.lower. revert d. induction x as [|c x IH]; intros d <-.
  - reflexivity.
  - simpl. intros H. apply andb_true_iff in H as [Hc H].
    rewrite (lower_char_digit c Hc). f_equal. now apply IH.
Qed.

Lemma take_app_l (a b : string) : Py.take (String.length a) (a +:+ b) = a.
Proof. induction a as [|c a IH]; [now destruct b|]. simpl. now rewrite IH. Qed.

Lemma drop_app_l (a b : string) : Py.drop (String.length a) (a +:+ b) = b.
Proof. induction a as [|c a IH]; [now destruct b|]. simpl. now rewrite IH. Qed.

(** A run of digits in the text in lower case is one of the text. *)
Lemma part_lower_digits (d s : string) :
  Py.str_all Py.is_digit d = true -> part d (Py.lower s) -> part d s.
Proof.
  intros Hd (a & b & E).
  set (x := Py.take (String.length d) (Py.drop (String.length a) s)).
  assert (Hx : Py.lower x = d).
  { unfold x, Py.lower in *. rewrite str_map_take, str_map_drop, E.
    now rewrite drop_app_l, take_app_l. }
  apply lower_digits_inv in Hx; [|exact Hd].
  apply part_trans with (y := Py.drop (String.length a) s);
    [|apply part_drop].
  rewrite <- Hx. apply part_take.
Qed.

(** *** The counts that fit *)

Lemma in_prefixes (d x : string) : d <> "" -> In d (prefixes (d +:+ x)).
Proof.
  induction d as [|c d IH]; [congruence|]. intros _.
  change (String c d +:+ x) with (String c (d +:+ x)). cbn [prefixes].
  destruct d as [|c' d'].
  - now left.
  - right. apply (List.in_map (String c)). now apply IH.
Qed.

Lemma in_suffixes (a y : string) : In y (suffixes (a +:+ y)).
Proof.
  induction a as [|c a IH].
  - destruct y; now left.
  - change (String c a +:+ y) with (String c (a +:+ y)). cbn [suffixes].
    now right.
Qed.

Lemma take_while_all_app (p : ascii -> bool) (d b : string) :
  Py.str_all p d = true ->
  take_while p (d +:+ b) = d +:+ take_while p b.
Proof.
  induction d as [|c d IH]; [now destruct b|]. simpl.
  intros H. apply andb_true_iff in H as [Hc H]. now rewrite Hc, IH.
Qed.

Lemma digit_runs_in (d text : string) :
  d <> "" -> Py.str_all Py.is_digit d = true -> part d text ->
  In d (digit_runs text).
Proof.
  intros Hne Hd (a & b & ->). unfold digit_runs.
  apply List.in_flat_map. exists (d +:+ b). split; [apply in_suffixes|].
  rewrite take_while_all_app by exact Hd. now apply in_prefixes.
Qed.

Section Fit.

Variable py : Py.interpreter.
Variable base_map : list (string * string).

Lemma counts_fit_fits (text : string) :
  counts_fit py base_map text = true -> fits py base_map text.
Proof.
  unfold counts_fit. rewrite List.forallb_forall. intros H d Hne Hd Hp.
  apply H. now apply digit_runs_in.
Qed.

Lemma fits_part (x s : string) :
  part x s -> fits py base_map s -> fits py base_map x.
Proof.
  intros Hx H d Hne Hd Hp. apply H; try assumption.
  now apply part_trans with (y := x).
Qed.

Lemma fits_normalized (label : string) :
  fits py base_map label -> fits py base_map (normalized label).
Proof.
  intros H d Hne Hd Hp. rewrite normalized_eq in Hp.
  apply part_lower_digits in Hp; [|exact Hd].
  apply H; try assumption.
  apply part_trans with (y := Py.strip label); [exact Hp | apply part_strip].
Qed.

Lemma builds_ok (d : string) :
  builds py base_map d = true ->
  exists n,
    Py.int_of_digits py d = Ok n
    /\ (Py.maxsize py <? n)%N = false
    /\ forall l, In l (item_labels base_map) ->
                 Py.allocates py n (Some l) = true.
Proof.
  unfold builds. destruct (Py.int_of_digits py d) as [n|e]; [|discriminate].
  intros H. apply andb_true_iff in H as [Hn Ha]. exists n.
  split; [reflexivity|]. split.
  - apply N.ltb_ge. now apply N.leb_le.
  - now apply List.forallb_forall.
Qed.

End Fit.

Lemma join_items_repeat (sep l : string) (n : nat) :
  Py.join_items sep (List.repeat (Some l) n)
  = Ok (Py.join sep (List.repeat l n)).
Proof.
  induction n as [|n IH]; [reflexivity|].
  destruct n as [|n]; [reflexivity|].
  change (List.repeat (Some l) (S (S n)))
    with (Some l :: List.repeat (Some l) (S n)).
  change (List.repeat l (S (S n))) with (l :: List.repeat l (S n)).
  cbn [Py.join_items]. change (List.repeat (Some l) (S n))
    with (Some l :: List.repeat (Some l) n) at 1.
  cbv iota. rewrite IH. reflexivity.
Qed.

(** *** The calls *)

Lemma match_tuple_count_parts (inner digits base : string) :
  match_tuple_count inner = Some (digits, base) ->
  part digits inner /\ part base inner
  /\ digits <> "" /\ Py.str_all Py.is_digit digits = true
  /\ base <> "" /\ Py.str_all is_base_char base = true.
Proof.
  unfold match_tuple_count.
  set (d := take_while Py.is_digit inner).
  set (rest := Py.drop (String.length d) inner).
  set (ws := take_while Py.is_space rest).
  set (b := before_dollar (Py.drop (String.length ws) rest)).
  destruct (Py.nonempty d && Py.nonempty ws && Py.nonempty b
            && Py.str_all is_base_char b) eqn:E; [|discriminate].
  intros H. injection H as <- <-.
  apply andb_true_iff in E as [E Hb]. apply andb_true_iff in E as [E Hbn].
  apply andb_true_iff in E as [Hdn _].
  split; [|split; [|split; [|split; [|split]]]].
  - exists "", rest. apply take_while_drop.
  - apply part_trans with (y := Py.drop (String.length ws) rest);
      [apply part_before_dollar|].
    apply part_trans with (y := rest); apply part_drop.
  - now apply PyFacts.nonempty_true.
  - apply str_all_take_while.
  - now apply PyFacts.nonempty_true.
  - exact Hb.
Qed.

Lemma match_tuple_count_length (inner digits base : string) :
  match_tuple_count inner = Some (digits, base) ->
  String.length base <= String.length inner.
Proof.
  intros H. apply match_tuple_count_parts in H as (_ & (a & b & ->) & _).
  rewrite !PyFacts.length_app. lia.
Qed.

Section Calls.

Variable py : Py.interpreter.
Variable base_map : list (string * string).
Hypothesis known_map : base_map = dn_map \/ base_map = py_map.

Lemma heuristics_some (t : string) :
  exists l, heuristics base_map t = Some l /\ In l (item_labels base_map).
Proof.
  unfold heuristics, item_labels.
  destruct known_map as [-> | ->];
    repeat match goal with
           | |- context [if ?b then _ else _] => destruct b
           end; eexists; (split; [reflexivity|]); simpl; tauto.
Qed.

(** The body of [map_type] makes the call that [call_of] names. *)
Lemma body_call (f : string -> result (option string)) (label : string) :
  map_type_body py base_map f label
  = run_call py f (call_of base_map label).
Proof.
  unfold map_type_body, call_of, normalized, replace_en_dash.
  destruct (Py.nonempty (norm (Some label))); simpl negb; cbv iota;
    [|reflexivity].
  set (t := norm (Some label)).
  destruct (Py.contains t " or ") eqn:Hor.
  { destruct (first_resolved _ _); [reflexivity|].
    destruct (PyFacts.contains_find _ _ Hor) as [i Hi].
    rewrite (PyFacts.split1_found _ _ _ Hi). reflexivity. }
  destruct (Py.startswith t "list of " || Py.startswith t "array of ") eqn:Hl.
  { assert (Hof : Py.contains t " of " = true).
    { apply orb_true_iff in Hl as [Hl|Hl]; apply PyFacts.startswith_app in Hl;
        rewrite Hl.
      - apply (PyFacts.contains_mid "list" " of " _).
      - apply (PyFacts.contains_mid "array" " of " _). }
    destruct (PyFacts.contains_find _ _ Hof) as [i Hi].
    rewrite (PyFacts.split1_found _ _ _ Hi). reflexivity. }
  destruct (Py.startswith t "tuple of ") eqn:Ht.
  { assert (Hof : Py.contains t " of " = true).
    { apply PyFacts.startswith_app in Ht. rewrite Ht.
      apply (PyFacts.contains_mid "tuple" " of " _). }
    destruct (PyFacts.contains_find _ _ Hof) as [i Hi].
    rewrite (PyFacts.split1_found _ _ _ Hi). simpl.
    destruct (match_tuple_count _) as [[digits base]|]; reflexivity. }
  destruct (dict_get base_map t); [reflexivity|].
  destruct (Py.contains t ",") eqn:Hc.
  { destruct (PyFacts.contains_find _ _ Hc) as [i Hi].
    rewrite (PyFacts.split1_found _ _ _ Hi). reflexivity. }
  destruct (_ && _); [reflexivity|].
  destruct (heuristics_some t) as (l & -> & _). reflexivity.
Qed.

(** What a call is made on is a part of the label as [map_type] looks at
    it, and so are the digits of a tuple. *)
Lemma call_parts (label : string) :
  match call_of base_map label with
  | Const _ => True
  | Tail x | ListOf x => part x (normalized label)
  | TupleOf x digits =>
      part x (normalized label) /\ part digits (normalized label)
      /\ digits <> "" /\ Py.str_all Py.is_digit digits = true
      /\ Py.str_all is_base_char x = true
  end.
Proof.
  unfold call_of. set (t := normalized label).
  destruct (Py.nonempty t); simpl negb; cbv iota; [|exact I].
  destruct (Py.contains t " or ") eqn:Hor.
  { destruct (first_resolved _ _); [exact I|].
    destruct (PyFacts.contains_find _ _ Hor) as [i Hi].
    rewrite (PyFacts.split1_found _ _ _ Hi). simpl. apply part_take. }
  destruct (Py.startswith t "list of " || Py.startswith t "array of ") eqn:Hl.
  { assert (Hof : Py.contains t " of " = true).
    { apply orb_true_iff in Hl as [Hl|Hl]; apply PyFacts.startswith_app in Hl;
        rewrite Hl.
      - apply (PyFacts.contains_mid "list" " of " _).
      - apply (PyFacts.contains_mid "array" " of " _). }
    destruct (PyFacts.contains_find _ _ Hof) as [i Hi].
    rewrite (PyFacts.split1_found _ _ _ Hi). simpl.
    eapply part_trans; [apply part_strip | apply part_drop]. }
  destruct (Py.startswith t "tuple of ") eqn:Ht.
  { assert (Hof : Py.contains t " of " = true).
    { apply PyFacts.startswith_app in Ht. rewrite Ht.
      apply (PyFacts.contains_mid "tuple" " of " _). }
    destruct (PyFacts.contains_find _ _ Hof) as [i Hi].
    rewrite (PyFacts.split1_found _ _ _ Hi). simpl.
    destruct (match_tuple_count _) as [[digits base]|] eqn:Hm; [|exact I].
    apply match_tuple_count_parts in Hm as (Hd & Hb & Hdn & Hdd & _ & Hbc).
    assert (Hi' : part (Py.strip (Py.drop (i + 4) t)) t)
      by (eapply part_trans; [apply part_strip | apply part_drop]).
    repeat split; try assumption; eapply part_trans; eassumption. }
  destruct (dict_get base_map t); [exact I|].
  destruct (Py.contains t ",") eqn:Hc.
  { destruct (PyFacts.contains_find _ _ Hc) as [i Hi].
    rewrite (PyFacts.split1_found _ _ _ Hi). simpl.
    eapply part_trans; [apply part_strip | apply part_take]. }
  destruct (_ && _); exact I.
Qed.

(** The recursive calls are on strictly shorter labels. *)
Lemma call_shorter (label x : string) :
  call_arg (call_of base_map label) = Some x ->
  String.length x < String.length label.
Proof.
  pose proof (length_normalized label) as Hn.
  unfold call_of. set (t := normalized label) in *.
  destruct (Py.nonempty t); simpl negb; cbv iota; [|discriminate].
  destruct (Py.contains t " or ") eqn:Hor.
  { destruct (first_resolved _ _); [discriminate|].
    destruct (PyFacts.contains_find _ _ Hor) as [i Hi].
    rewrite (PyFacts.split1_found _ _ _ Hi). simpl.
    intros H. injection H as <-.
    apply PyFacts.find_bound in Hi. simpl in Hi. rewrite PyFacts.length_take. lia. }
  destruct (Py.startswith t "list of " || Py.startswith t "array of ") eqn:Hl.
  { assert (Hof : Py.contains t " of " = true).
    { apply orb_true_iff in Hl as [Hl|Hl]; apply PyFacts.startswith_app in Hl;
        rewrite Hl.
      - apply (PyFacts.contains_mid "list" " of " _).
      - apply (PyFacts.contains_mid "array" " of " _). }
    destruct (PyFacts.contains_find _ _ Hof) as [i Hi].
    rewrite (PyFacts.split1_found _ _ _ Hi). simpl.
    intros H. injection H as <-.
    apply PyFacts.find_bound in Hi. simpl in Hi.
    pose proof (PyFacts.length_strip (Py.drop (i + 4) t)) as Hs.
    rewrite PyFacts.length_drop in Hs. lia. }
  destruct (Py.startswith t "tuple of ") eqn:Ht.
  { assert (Hof : Py.contains t " of " = true).
    { apply PyFacts.startswith_app in Ht. rewrite Ht.
      apply (PyFacts.contains_mid "tuple" " of " _). }
    destruct (PyFacts.contains_find _ _ Hof) as [i Hi].
    rewrite (PyFacts.split1_found _ _ _ Hi). simpl.
    destruct (match_tuple_count _) as [[digits base]|] eqn:Hm; [|discriminate].
    simpl. intros H. injection H as <-.
    apply match_tuple_count_length in Hm.
    apply PyFacts.find_bound in Hi. simpl in Hi.
    pose proof (PyFacts.length_strip (Py.drop (i + 4) t)) as Hs.
    rewrite PyFacts.length_drop in Hs. lia. }
  destruct (dict_get base_map t); [discriminate|].
  destruct (Py.contains t ",") eqn:Hc.
  { destruct (PyFacts.contains_find _ _ Hc) as [i Hi].
    rewrite (PyFacts.split1_found _ _ _ Hi). simpl.
    intros H. injection H as <-.
    apply PyFacts.find_bound in Hi. simpl in Hi.
    pose proof (PyFacts.length_strip (Py.take i t)) as Hs.
    rewrite PyFacts.length_take in Hs. lia. }
  destruct (_ && _); discriminate.
Qed.

Lemma run_call_ext (f g : string -> result (option string)) (c : call) :
  (forall x, call_arg c = Some x -> f x = g x) ->
  run_call py f c = run_call py g c.
Proof.
  destruct c as [r|x|x|x n]; simpl; intros H; [reflexivity| | |];
    now rewrite (H x eq_refl).
Qed.

(** More fuel than the length of the label is enough. *)
Lemma map_type_fuel_enough (n : nat) :
  forall (m : nat) (label : string),
    String.length label < n -> String.length label < m ->
    map_type_fuel py base_map n label = map_type_fuel py base_map m label.
Proof.
  induction n as [|n IH]; intros m label Hn Hm; [lia|].
  destruct m as [|m]; [lia|]. simpl.
  rewrite !body_call. apply run_call_ext.
  intros x Hx. apply call_shorter in Hx. apply IH; lia.
Qed.

(** [map_type] satisfies the equation of its definition in Python. *)
Lemma map_type_unfold (label : string) :
  map_type py base_map label
  = map_type_body py base_map (map_type py base_map) label.
Proof.
  unfold map_type at 1. simpl. rewrite !body_call. apply run_call_ext.
  intros x Hx. apply call_shorter in Hx. apply map_type_fuel_enough; lia.
Qed.

Lemma map_type_call (label : string) :
  map_type py base_map label
  = run_call py (map_type py base_map) (call_of base_map label).
Proof. rewrite map_type_unfold. apply body_call. Qed.

(** *** A name in a tuple *)

Lemma base_char_lower (c : ascii) :
  is_base_char c = true ->
  is_base_char (Py.lower_char c) = true /\ Py.is_space c = false
  /\ Ascii.eqb " " (Py.lower_char c) = false
  /\ Ascii.eqb "," (Py.lower_char c) = false
  /\ Ascii.eqb "[" (Py.lower_char c) = false.
Proof.
  destruct c as [[] [] [] [] [] [] [] []]; vm_compute; intros H;
    repeat split; congruence.
Qed.

Lemma absent_contains (c : ascii) (r s : string) :
  Py.str_any (Ascii.eqb c) s = false -> Py.contains s (String c r) = false.
Proof.
  intros H. destruct (Py.contains s (String c r)) eqn:E; [|reflexivity].
  apply PageFacts.contains_first_char in E.
  rewrite PyFacts.contains_char in E. congruence.
Qed.

Lemma absent_startswith (c : ascii) (s p : string) :
  Py.str_any (Ascii.eqb c) s = false -> Py.str_any (Ascii.eqb c) p = true ->
  Py.startswith s p = false.
Proof.
  intros Hs Hp. destruct (Py.startswith s p) eqn:E; [|reflexivity].
  apply PyFacts.startswith_app in E. rewrite E, PyFacts.str_any_app, Hp in Hs.
  discriminate Hs.
Qed.

(** For a name of letters, digits, underscores and dots the body returns
    at once: a label of the table, or [Any]. *)
Lemma base_const (x : string) :
  Py.str_all is_base_char x = true ->
  exists l, call_of base_map x = Const l /\ In l (item_labels base_map).
Proof.
  intros Hx.
  assert (Hs : Py.str_any Py.is_space x = false).
  { revert Hx. apply NormFacts.str_all_none. intros c Hc.
    now apply base_char_lower in Hc. }
  assert (Ht : forall c, (c = " " \/ c = "," \/ c = "[")%char ->
                 Py.str_any (Ascii.eqb c) (normalized x) = false).
  { intros c Hc. rewrite normalized_eq, (PyFacts.strip_no_space _ Hs).
    unfold Py.lower. clear Hs. induction x as [|b x IH]; [reflexivity|].
    simpl in Hx |- *. apply andb_true_iff in Hx as [Hb Hx].
    rewrite (IH Hx). apply base_char_lower in Hb as (_ & _ & H1 & H2 & H3).
    destruct Hc as [-> | [-> | ->]]; now rewrite ?H1, ?H2, ?H3. }
  unfold call_of. set (t := normalized x) in *.
  destruct (Py.nonempty t); simpl negb; cbv iota;
    [|exists "Any"; split; [reflexivity | now left]].
  rewrite (absent_contains " " "or " t) by (apply Ht; auto).
  rewrite (absent_startswith " " t "list of ") by (auto; apply Ht; auto).
  rewrite (absent_startswith " " t "array of ") by (auto; apply Ht; auto).
  rewrite (absent_startswith " " t "tuple of ") by (auto; apply Ht; auto).
  cbn [orb]. cbv iota.
  destruct (dict_get base_map t) as [l|] eqn:E.
  { exists l. split; [reflexivity|]. right.
    apply NormFacts.dict_get_in in E.
    now apply (List.in_map snd) in E. }
  rewrite (absent_contains "," "" t) by (apply Ht; auto).
  rewrite (absent_startswith "[" t "[") by (auto; apply Ht; auto).
  cbn [andb]. cbv iota.
  destruct (heuristics_some t) as (l & -> & Hl). now exists l.
Qed.

(** *** Totality *)

(** [map_type] returns a label, and neither raises nor returns [None], for
    a label in which every run of digits is a count that the interpreter can
    make a tuple of. *)
Lemma map_type_total (label : string) :
  fits py base_map label ->
  exists l, map_type py base_map label = Ok (Some l).
Proof.
  remember (String.length label) as n eqn:Hn.
  revert label Hn. induction n as [n IH] using lt_wf_ind. intros label -> Hf.
  rewrite map_type_call.
  pose proof (call_shorter label) as Hs.
  pose proof (call_parts label) as Hp.
  apply fits_normalized in Hf.
  destruct (call_of base_map label) as [r|x|x|x digits]; simpl.
  - eauto.
  - apply (IH (String.length x)); [apply Hs | |]; try reflexivity.
    now apply (fits_part py base_map x (normalized label)).
  - destruct (IH (String.length x) (Hs x eq_refl) x eq_refl) as [l ->];
      [now apply (fits_part py base_map x (normalized label))|].
    simpl. eauto.
  - destruct Hp as (Hx & Hd & Hdn & Hdd & Hbc).
    destruct (builds_ok py base_map digits (Hf digits Hdn Hdd Hd))
      as (k & -> & Hk & Ha).
    rewrite PageFacts.bind_ok. cbv beta.
    destruct (base_const x Hbc) as (l & Hc & Hl).
    rewrite (map_type_call x), Hc. simpl run_call.
    rewrite PageFacts.bind_ok. cbv beta.
    unfold join_repeated, Py.repeat_item. rewrite Hk, (Ha l Hl).
    cbn [negb]. rewrite PageFacts.bind_ok. cbv beta.
    rewrite join_items_repeat, PageFacts.bind_ok. eauto.
Qed.

Lemma map_type_strip (x : string) :
  map_type py base_map (Py.strip x) = map_type py base_map x.
Proof.
  rewrite !map_type_call. unfold call_of.
  now rewrite !normalized_eq, PyFacts.strip_idem.
Qed.

Lemma values_nonempty (k l : string) :
  dict_get base_map k = Some l -> Py.nonempty l = true.
Proof.
  unfold dict_get. destruct (List.find _ base_map) as [[k' l']|] eqn:E;
    [|discriminate].
  simpl. intros H. injection H as <-.
  apply List.find_some in E as [Hin _].
  destruct known_map as [-> | ->]; simpl in Hin;
    repeat (destruct Hin as [Hin|Hin]; [injection Hin as <- <-; reflexivity|]);
    contradiction.
Qed.

Lemma first_resolved_app (pre : list string) (p : string) (post : list string)
    (l : string) :
  List.Forall (fun q => dict_get base_map q = None) pre ->
  dict_get base_map p = Some l ->
  first_resolved base_map (pre ++ p :: post) = Some l.
Proof.
  intros Hpre Hp. induction Hpre as [|q pre Hq _ IH]; simpl.
  - rewrite Hp. now rewrite (values_nonempty _ _ Hp).
  - now rewrite Hq.
Qed.

(** A union: the label of the first alternative that the table has. *)
Lemma union_rule (label : string) (pre : list string) (p : string)
    (post : list string) (l : string) :
  Py.contains (normalized label) " or " = true ->
  union_parts (normalized label) = pre ++ p :: post ->
  List.Forall (fun q => dict_get base_map q = None) pre ->
  dict_get base_map p = Some l ->
  map_type py base_map label = Ok (Some l).
Proof.
  intros Hor Hparts Hpre Hp. rewrite map_type_call. unfold call_of.
  destruct (normalized label) as [|c r] eqn:E; [discriminate Hor|].
  cbn [Py.nonempty Py.is_empty negb]. rewrite Hor, Hparts.
  now rewrite (first_resolved_app _ _ _ _ Hpre Hp).
Qed.

(** [list of X] and [array of X], when the label is not a union: the
    result for [X], in a list. *)
Lemma list_of_call (label X : string) :
  normalized label = "list of " +:+ X
  \/ normalized label = "array of " +:+ X ->
  Py.contains (normalized label) " or " = false ->
  map_type py base_map label
  = (r ← map_type py base_map X; Ok (Some ("List[" +:+ Py.fmt r +:+ "]"))).
Proof.
  intros HX Hor.
  rewrite map_type_call. unfold call_of. rewrite Hor.
  destruct HX as [-> | ->]; simpl String.append; cbn -[Py.strip map_type];
    now rewrite map_type_strip.
Qed.

Lemma list_of_rule (label X : string) :
  normalized label = "list of " +:+ X
  \/ normalized label = "array of " +:+ X ->
  Py.contains (normalized label) " or " = false ->
  fits py base_map label ->
  exists l,
    map_type py base_map X = Ok (Some l)
    /\ map_type py base_map label = Ok (Some ("List[" +:+ l +:+ "]")).
Proof.
  intros HX Hor Hf.
  assert (Hp : part X (normalized label)).
  { destruct HX as [-> | ->]; [exists "list of ", "" | exists "array of ", ""];
      now rewrite PyFacts.app_nil_r. }
  destruct (map_type_total X) as [l Hl].
  { apply (fits_part py base_map X (normalized label) Hp).
    now apply fits_normalized. }
  exists l. split; [exact Hl|].
  rewrite (list_of_call label X HX Hor), Hl. reflexivity.
Qed.

(** A label that no rule recognizes: [Any]. *)
Lemma unrecognized_rule (label : string) :
  recognized base_map (normalized label) = false ->
  map_type py base_map label = Ok (Some "Any").
Proof.
  unfold recognized. intros H.
  repeat (apply orb_false_iff in H as [H ?]).
  rewrite map_type_call. unfold call_of.
  destruct (Py.nonempty (normalized label)); [|reflexivity].
  simpl negb. cbv iota.
  rewrite H.
  repeat match goal with
         | Hx : ?b = false |- context [?b] => rewrite Hx
         end.
  simpl orb. cbv iota.
  destruct (dict_get base_map (normalized label)); [discriminate|].
  unfold heuristics.
  match goal with
  | Hx : List.existsb _ _ = false |- _ => simpl in Hx;
      repeat (apply orb_false_iff in Hx as [? Hx])
  end.
  repeat match goal with
         | Hx : ?b = false |- context [?b] => rewrite Hx
         end.
  reflexivity.
Qed.

End Calls.

End RssFacts.

Import Rss RssCalls.

Lemma style_map_known (style : string) :
  style_map style = dn_map \/ style_map style = py_map.
Proof. unfold style_map. destruct (String.eqb style "dotnet"); auto. Qed.




(** ** Idempotence of the two normalizers *)

Import Forms.

(** C3 (as the code has it).  Variant A, [map_dotnet_to_python], with the
    container as [build_signature_line] passes it (the full name, without
    white space around it, and its last segment as the simple name): for
    every spelling of the alias table and every array, nullable and generic
    form built from such spellings, the normalizer applied to its own output
    returns that output, unless the output is the simple name of the
    container.  Each alias is mapped to its label, and the label to itself
    unless it is the simple name of the container.  Variant B, [map_type]:
    its outputs [None], [bool], [float], [int], [str], [datetime.date] and
    [Any], and in the style [dotnet] also the labels of color, point, vector,
    plane and transform, are mapped to themselves. *)
Theorem normalizers_idempotent :
  (forall (container_fqn : option string) (f : tform),
      let container_simple := container_simple_of container_fqn in
      let normalize :=
        fun t => map_dotnet_to_python t container_fqn container_simple in
      wf f = true ->
      (forall s, container_fqn = Some s -> Py.strip s = s) ->
      container_simple <> Some (normalize (render f)) ->
      normalize (normalize (render f)) = normalize (render f))
  /\ (forall (container_fqn : option string) (k v : string),
        let container_simple := container_simple_of container_fqn in
        let normalize :=
          fun t => map_dotnet_to_python t container_fqn container_simple in
        dict_get aliases k = Some v ->
        normalize k = v
        /\ (container_simple <> Some v -> normalize v = v))
  /\ (forall (py : Py.interpreter) (style l : string),
        In l kept_labels
        \/ (style = "dotnet" /\ In l kept_dotnet_labels) ->
        build_type_mapper py style l = Ok (Some l)).
Proof.
  split; [|split].
  - intros cf f cs normalize Hwf Htrim Hcs.
    now apply NormFacts.variant_a_idempotent.
  - intros cf k v cs normalize H. apply NormFacts.dict_get_in in H.
    simpl in H.
    repeat (destruct H as [H|H];
            [injection H as <- <-; split;
             [reflexivity
             |intros Hcs;
              first [reflexivity
                    | exact (NormFacts.own_name_miss cf cs _ Hcs)]]|]).
    contradiction.
  - intros py style l [H | [-> H]].
    + unfold build_type_mapper.
      destruct (style_map_known style) as [-> | ->]; simpl in H;
        repeat (destruct H as [<-|H]; [vm_compute; reflexivity|]);
        contradiction.
    + simpl in H.
      repeat (destruct H as [<-|H]; [vm_compute; reflexivity|]).
      contradiction.
Qed.

Lemma normalizers_idempotent_witness :
  map_dotnet_to_python
    (map_dotnet_to_python
       "System.Collections.Generic.Dictionary{System.String,Nullable{int}[]}"
       (Some "Rhino.Geometry.Mesh")
       (container_simple_of (Some "Rhino.Geometry.Mesh")))
    (Some "Rhino.Geometry.Mesh")
    (container_simple_of (Some "Rhino.Geometry.Mesh"))
  = map_dotnet_to_python
      "System.Collections.Generic.Dictionary{System.String,Nullable{int}[]}"
      (Some "Rhino.Geometry.Mesh")
      (container_simple_of (Some "Rhino.Geometry.Mesh"))
  /\ (map_dotnet_to_python "System.Object" (Some "Rhino.Geometry.Mesh")
        (container_simple_of (Some "Rhino.Geometry.Mesh")) = "Any"
      /\ map_dotnet_to_python "Any" (Some "Rhino.Geometry.Mesh")
           (container_simple_of (Some "Rhino.Geometry.Mesh")) = "Any")
  /\ build_type_mapper cpython "dotnet" "Rhino.Geometry.Point3d"
     = Ok (Some "Rhino.Geometry.Point3d").
Proof.
  split; [|split].
  - refine (proj1 normalizers_idempotent (Some "Rhino.Geometry.Mesh")
              (TGeneric "System.Collections.Generic.Dictionary"
                 [TAlias "System.String";
                  TArray (TNullable false (TAlias "int"))]) _ _ _).
    + reflexivity.
    + intros s H. injection H as <-. reflexivity.
    + vm_compute. discriminate.
  - destruct (proj1 (proj2 normalizers_idempotent)
                (Some "Rhino.Geometry.Mesh") "System.Object" "Any" eq_refl)
      as [H1 H2].
    split; [exact H1 | apply H2]. vm_compute. discriminate.
  - refine (proj2 (proj2 normalizers_idempotent) cpython "dotnet"
              "Rhino.Geometry.Point3d" _).
    right. split; [reflexivity|]. simpl. tauto.
Defined.

(** Outputs that the normalizers do not map to themselves.  Variant B:
    the label of [guid] in the style [dotnet], the label of [color] in the
    other style, and a list.  Variant A: the label [Any] for a container
    whose simple name is [Any]; and, for a container whose full name starts
    with white space, the full name itself, which is the output for the
    simple name of the container. *)
Lemma normalizers_not_idempotent :
  build_type_mapper cpython "dotnet" "guid" = Ok (Some "System.Guid")
  /\ build_type_mapper cpython "dotnet" "System.Guid" = Ok (Some "Any")
  /\ build_type_mapper cpython "python" "color"
     = Ok (Some "Tuple[int, int, int]")
  /\ build_type_mapper cpython "python" "Tuple[int, int, int]"
     = Ok (Some "Any")
  /\ build_type_mapper cpython "dotnet" "list of point"
     = Ok (Some "List[Rhino.Geometry.Point3d]")
  /\ build_type_mapper cpython "dotnet" "List[Rhino.Geometry.Point3d]"
     = Ok (Some "Rhino.Geometry.Point3d")
  /\ container_simple_of (Some "Ns.Any") = Some "Any"
  /\ map_dotnet_to_python "object" (Some "Ns.Any") (Some "Any") = "Any"
  /\ map_dotnet_to_python "Any" (Some "Ns.Any") (Some "Any") = "Ns.Any"
  /\ container_simple_of (Some " A.int??") = Some "int??"
  /\ map_dotnet_to_python "int??" (Some " A.int??") (Some "int??")
     = " A.int??"
  /\ map_dotnet_to_python " A.int??" (Some " A.int??") (Some "int??")
     = "A.int??".
Proof. repeat split; vm_compute; reflexivity. Qed.

(** * Further properties of the metadata-anchored extractor *)

(** ** More on strings *)

Import Forms.

Module MoreStrings.

Import PyFacts.

Lemma startswith_cons (b : ascii) (s : string) (a : ascii) (p : string) :
  Py.startswith (String b s) (String a p) = Ascii.eqb a b && Py.startswith s p.
Proof. reflexivity. Qed.

Lemma str_any_cons (p : ascii -> bool) (c : ascii) (s : string) :
  Py.str_any p (String c s) = p c || Py.str_any p s.
Proof. reflexivity. Qed.

End MoreStrings.

(** ** The splitter on its own results *)

Module ResplitFacts.

Import PyFacts SplitFacts NormFacts.

Lemma space_plain (c : ascii) : Py.is_space c = true -> plain c = true.
Proof.
  destruct c as [[] [] [] [] [] [] [] []]; vm_compute; congruence.
Qed.

Lemma blank_plain (a : string) :
  Py.str_all Py.is_space a = true -> Py.str_all plain a = true.
Proof. apply str_all_impl, space_plain. Qed.

Lemma lstrip_decomp (s : string) :
  exists a, s = a +:+ Py.lstrip s /\ Py.str_all Py.is_space a = true.
Proof.
  induction s as [|c s (a & E & Ha)]; [now exists ""|].
  unfold Py.lstrip. simpl. destruct (Py.is_space c) eqn:Hc.
  - exists (String c a). split.
    + simpl. f_equal. exact E.
    + simpl. now rewrite Hc.
  - now exists "".
Qed.

Lemma rstrip_decomp (s : string) :
  exists b, s = Py.rstrip s +:+ b /\ Py.str_all Py.is_space b = true.
Proof.
  induction s as [|c s (b & E & Hb)]; [now exists ""|].
  unfold Py.rstrip in *. simpl.
  destruct (Py.rstrip_by Py.is_space s) as [|d r] eqn:Er.
  - destruct (Py.is_space c) eqn:Hc.
    + exists (String c s). split; [reflexivity|]. simpl. rewrite Hc.
      simpl in E. now rewrite E.
    + exists s. split; [reflexivity|]. simpl in E. now rewrite E.
  - exists b. split; [|exact Hb]. simpl. f_equal. exact E.
Qed.

Lemma strip_decomp (s : string) :
  exists a b,
    s = a +:+ Py.strip s +:+ b
    /\ Py.str_all Py.is_space a = true /\ Py.str_all Py.is_space b = true.
Proof.
  destruct (lstrip_decomp s) as (a & Ea & Ha).
  destruct (rstrip_decomp (Py.lstrip s)) as (b & Eb & Hb).
  exists a, b. split; [|auto]. unfold Py.strip. now rewrite <- Eb.
Qed.

(** A string without a separator that splits has none in its parts. *)
Lemma whole_split (a b : string) (d d2 : scope) :
  whole d (a +:+ b) d2 ->
  whole d a (scope_at d a) /\ whole (scope_at d a) b d2.
Proof.
  intros [Hs Hd]. rewrite segments_from_app in Hs. rewrite scope_at_app in Hd.
  destruct (segments_from_cons (scope_at d a) b) as (x & xs & Ex).
  rewrite Ex in Hs. simpl prepend in Hs.
  destruct (List.removelast (segments_from d a)) as [|y ys] eqn:Er.
  2:{ simpl in Hs. injection Hs as _ Hs. destruct ys; discriminate Hs. }
  simpl in Hs. injection Hs as Hx ->.
  destruct (segments_from_cons d a) as (g & gs & Eg).
  assert (gs = []).
  { rewrite Eg in Er. destruct gs as [|g' gs]; [reflexivity|discriminate]. }
  subst gs.
  pose proof (join_segments_from a d) as Ja. rewrite Eg in Ja. simpl in Ja.
  subst g.
  pose proof (join_segments_from b (scope_at d a)) as Jb.
  rewrite Ex in Jb. simpl in Jb. subst x.
  split; split; auto.
Qed.

Lemma whole_blank (a : string) (d : scope) :
  Py.str_all Py.is_space a = true -> whole d a d.
Proof. intros H. now apply whole_plain, blank_plain. Qed.

Lemma whole_strip (g : string) (d d2 : scope) :
  whole d g d2 -> whole d (Py.strip g) d2.
Proof.
  intros H. destruct (strip_decomp g) as (a & b & E & Ha & Hb).
  rewrite E in H. apply whole_split in H as [H1 H2].
  destruct (whole_blank a d Ha) as [_ Hda]. rewrite Hda in H2.
  apply whole_split in H2 as [H2 H3].
  destruct (whole_blank b (scope_at d (Py.strip g)) Hb) as [_ Hdb].
  destruct H3 as [_ H3]. rewrite Hdb in H3. now rewrite H3 in H2.
Qed.

(** The segments of a string: the first one is read from the scope the
    string is read from, every other one from outside all scopes, and every
    segment but the last one ends outside all scopes. *)
Lemma segments_from_chain (s : string) :
  forall d, exists g rest,
    segments_from d s = g :: rest
    /\ segments_from d g = [g]
    /\ (rest <> [] -> scope_at d g = outside)
    /\ List.Forall (fun x => segments_from outside x = [x]) rest
    /\ List.Forall (fun x => whole outside x outside) (List.removelast rest).
Proof.
  induction s as [|c r IH]; intros d.
  - exists "", []. simpl. repeat split; auto. congruence.
  - simpl segments_from. destruct (is_cut d c) eqn:Hc.
    + assert (Hd : d = outside).
      { apply closed_outside. unfold is_cut in Hc.
        now apply andb_true_iff in Hc as [_ Hc]. }
      destruct (IH d) as (g & rest & E & Hg & Hs & Hq & Hr).
      exists "", (g :: rest). rewrite E. subst d.
      repeat split; auto.
      destruct rest as [|x rest]; [constructor|].
      change (List.removelast (g :: x :: rest))
        with (g :: List.removelast (x :: rest)).
      constructor; [|exact Hr]. split; [exact Hg|]. apply Hs. discriminate.
    + destruct (IH (enter_leave d c)) as (g & rest & E & Hg & Hs & Hq & Hr).
      exists (String c g), rest. rewrite E. simpl cons_head.
      repeat split; auto.
      simpl segments_from. now rewrite Hc, Hg.
Qed.

Lemma segments_chain (s : string) :
  List.Forall (fun x => segments_from outside x = [x]) (segments s)
  /\ List.Forall (fun x => whole outside x outside)
       (List.removelast (segments s)).
Proof.
  unfold segments.
  destruct (segments_from_chain s outside) as (g & rest & E & Hg & Hs & Hq & Hr).
  rewrite E. split; [now constructor|].
  destruct rest as [|x rest]; [constructor|].
  change (List.removelast (g :: x :: rest))
    with (g :: List.removelast (x :: rest)).
  constructor; [|exact Hr]. split; [exact Hg|]. apply Hs. discriminate.
Qed.

Lemma removelast_map {A B} (f : A -> B) (l : list A) :
  List.removelast (List.map f l) = List.map f (List.removelast l).
Proof.
  induction l as [|x l IH]; [reflexivity|].
  destruct l as [|y l]; [reflexivity|].
  change (List.removelast (List.map f (x :: y :: l)))
    with (f x :: List.removelast (List.map f (y :: l))).
  now rewrite IH.
Qed.

Lemma removelast_filter {A} (P : A -> Prop) (f : A -> bool) (l : list A) :
  List.Forall P (List.removelast l) ->
  List.Forall P (List.removelast (List.filter f l)).
Proof.
  induction l as [|x l IH]; intros H; [constructor|].
  assert (Hl : List.Forall P (List.removelast l)).
  { destruct l as [|y l]; [constructor|].
    change (List.removelast (x :: y :: l))
      with (x :: List.removelast (y :: l)) in H.
    now inversion H. }
  simpl List.filter. destruct (f x); [|now apply IH].
  destruct (List.filter f l) as [|y fl] eqn:Ef; [constructor|].
  change (List.removelast (x :: y :: fl))
    with (x :: List.removelast (y :: fl)).
  constructor; [|now apply IH].
  destruct l as [|z l]; [discriminate Ef|].
  change (List.removelast (x :: z :: l))
    with (x :: List.removelast (z :: l)) in H.
  now inversion H.
Qed.

(** The parts that the splitter returns. *)
Lemma parts_chain (s : string) :
  List.Forall (fun x => segments_from outside x = [x]) (split_types_list s)
  /\ List.Forall (fun x => whole outside x outside)
       (List.removelast (split_types_list s)).
Proof.
  rewrite split_types_list_refines. unfold split_spec.
  destruct (segments_chain s) as [Hq Hr]. split.
  - apply List.Forall_forall. intros x Hx.
    apply List.filter_In in Hx as [Hx _].
    apply List.in_map_iff in Hx as (g & <- & Hg).
    rewrite List.Forall_forall in Hq.
    assert (W : whole outside g (scope_at outside g))
      by (split; [now apply Hq | reflexivity]).
    now destruct (whole_strip _ _ _ W).
  - apply removelast_filter. rewrite removelast_map.
    apply List.Forall_forall. intros x Hx.
    apply List.in_map_iff in Hx as (g & <- & Hg).
    rewrite List.Forall_forall in Hr. now apply whole_strip, Hr.
Qed.

(** The segments of joined strings of which each one is whole. *)
Lemma segments_join_chain (xs : list string) :
  xs <> [] ->
  List.Forall (fun x => segments_from outside x = [x]) xs ->
  List.Forall (fun x => whole outside x outside) (List.removelast xs) ->
  segments (Py.join "," xs) = xs.
Proof.
  induction xs as [|x xs IH]; intros Hne Hq Hr; [congruence|].
  destruct xs as [|y l].
  - simpl. unfold segments. now inversion Hq.
  - change (List.removelast (x :: y :: l))
      with (x :: List.removelast (y :: l)) in Hr.
    inversion Hr as [|? ? [Hx Hd] Hr']; subst.
    inversion Hq as [|? ? _ Hq']; subst.
    rewrite join_cons by discriminate.
    rewrite segments_cut by (rewrite Hd; reflexivity).
    unfold segments at 1. rewrite Hx. simpl. f_equal.
    apply IH; [discriminate | exact Hq' | exact Hr'].
Qed.

Lemma split_part_alone (p : string) :
  segments_from outside p = [p] -> p <> "" -> Py.strip p = p ->
  split_types_list p = [p].
Proof.
  intros Hq Hne Hs. rewrite split_types_list_refines. unfold split_spec, segments.
  rewrite Hq. simpl. rewrite Hs. apply nonempty_true in Hne. now rewrite Hne.
Qed.

Lemma strip_filter_id (xs : list string) :
  List.Forall (fun x => x <> "" /\ Py.strip x = x) xs ->
  List.filter Py.nonempty (List.map Py.strip xs) = xs.
Proof.
  induction 1 as [|x xs [Hne Hs] _ IH]; [reflexivity|].
  simpl. rewrite Hs. apply nonempty_true in Hne. now rewrite Hne, IH.
Qed.

(** Joining and splitting again. *)
Lemma split_join_whole (xs : list string) :
  List.Forall
    (fun x => whole outside x outside /\ x <> "" /\ Py.strip x = x) xs ->
  split_types_list (Py.join "," xs) = xs.
Proof.
  intros H. destruct xs as [|x l] eqn:E; [reflexivity|]. rewrite <- E in *.
  rewrite split_types_list_refines. unfold split_spec.
  rewrite segments_join_chain.
  - apply strip_filter_id. revert H. apply List.Forall_impl. tauto.
  - now rewrite E.
  - revert H. apply List.Forall_impl. intros y [Hy _]. apply Hy.
  - apply List.Forall_forall. intros y Hy.
    rewrite List.Forall_forall in H.
    assert (Hin : In y xs).
    { clear -Hy. induction xs as [|a [|b l] IH]; [contradiction..|].
      destruct Hy as [->|Hy]; [now left | right; now apply IH]. }
    now apply H.
Qed.

End ResplitFacts.

(** ** Help ids that are well formed *)

Module IdFacts.

Import PyFacts SplitFacts NormFacts PageFacts MoreStrings ResplitFacts.

(** The first and the last occurrence of a character. *)
Lemma find_char (c : ascii) (a b : string) :
  Py.contains a (String c "") = false ->
  Py.find (a +:+ String c b) (String c "") = Some (String.length a).
Proof.
  induction a as [|x a IH]; intros H.
  - simpl. now rewrite Ascii.eqb_refl.
  - rewrite contains_cons in H. apply orb_false_iff in H as [Hx H].
    change (String x a +:+ String c b) with (String x (a +:+ String c b)).
    rewrite find_cons.
    change (Py.startswith (String x (a +:+ String c b)) (String c ""))
      with (Py.startswith (String x a) (String c "")).
    rewrite Hx, (IH H). reflexivity.
Qed.

Lemma rfind_char (c : ascii) (a b : string) :
  Py.contains b (String c "") = false ->
  Py.rfind (a +:+ String c b) (String c "") = Some (String.length a).
Proof.
  intros H. induction a as [|x a IH].
  - change ("" +:+ String c b) with (String c b). simpl Py.rfind.
    apply contains_false, rfind_none in H. rewrite H.
    now rewrite Ascii.eqb_refl.
  - change (String x a +:+ String c b) with (String x (a +:+ String c b)).
    simpl Py.rfind. now rewrite IH.
Qed.

Lemma contains_head_false (c : ascii) (x : ascii) (s : string) :
  Py.contains (String x s) (String c "") = false ->
  Ascii.eqb c x = false /\ Py.contains s (String c "") = false.
Proof.
  rewrite contains_cons, startswith_cons. intros H.
  apply orb_false_iff in H as [H1 H2]. split; [|exact H2].
  now rewrite andb_true_r in H1.
Qed.

(** The constructor marker needs a [#]. *)
Lemma ctor_marker_at (c : ascii) (x b : string) :
  Py.contains x "#" = false ->
  Py.startswith (String c (x +:+ ".#ctor" +:+ b)) ".#ctor" = false.
Proof.
  intros H. rewrite startswith_cons.
  destruct x as [|d x].
  - simpl. apply andb_false_r.
  - apply contains_head_false in H as [H _].
    change (String d x +:+ ".#ctor" +:+ b)
      with (String d (x +:+ ".#ctor" +:+ b)).
    rewrite startswith_cons, H. simpl. apply andb_false_r.
Qed.

Lemma no_hash_no_ctor (x : string) :
  Py.contains x "#" = false -> Py.contains x ".#ctor" = false.
Proof.
  induction x as [|c x IH]; intros H; [reflexivity|].
  rewrite contains_cons. apply contains_head_false in H as [Hc H].
  rewrite (IH H), orb_false_r. rewrite startswith_cons.
  destruct x as [|d x]; [apply andb_false_r|].
  apply contains_head_false in H as [Hd _].
  rewrite startswith_cons, Hd. apply andb_false_r.
Qed.

Lemma split_from_cons (sep cur : string) (c : ascii) (r : string) :
  Py.split_from sep 0 cur (String c r)
  = if Py.startswith (String c r) sep
    then cur :: Py.split_from sep (String.length sep - 1) "" r
    else Py.split_from sep 0 (cur +:+ String c "") r.
Proof. reflexivity. Qed.

Lemma split_ctor_first (x b : string) :
  Py.contains x "#" = false ->
  forall cur, exists rest,
    Py.split_from ".#ctor" 0 cur (x +:+ ".#ctor" +:+ b)
    = (cur +:+ x) :: rest.
Proof.
  induction x as [|c x IH]; intros H cur.
  - change ("" +:+ ".#ctor" +:+ b) with (String "." ("#ctor" +:+ b)).
    rewrite split_from_cons.
    change (String "." ("#ctor" +:+ b)) with (".#ctor" +:+ b).
    rewrite startswith_self_app, app_nil_r. eauto.
  - change (String c x +:+ ".#ctor" +:+ b)
      with (String c (x +:+ ".#ctor" +:+ b)).
    pose proof (contains_head_false _ _ _ H) as [_ Hx].
    rewrite split_from_cons, (ctor_marker_at c x b Hx).
    destruct (IH Hx (cur +:+ String c "")) as [rest ->].
    exists rest. now rewrite app_assoc.
Qed.

Lemma item_head (x : string) (l : list string) : Py.item (x :: l) 0 = Ok x.
Proof. reflexivity. Qed.

Lemma drop_past_char (a : string) (c : ascii) (b : string) :
  Py.drop (String.length a + 1) (a +:+ String c b) = b.
Proof.
  replace (String.length a + 1)
    with (String.length (a +:+ String c ""))
    by (rewrite length_app; reflexivity).
  change (String c b) with (String c "" +:+ b).
  rewrite <- app_assoc. apply drop_app_length.
Qed.

Lemma contains_app_char (c : ascii) (a b : string) :
  Py.contains (a +:+ b) (String c "")
  = Py.contains a (String c "") || Py.contains b (String c "").
Proof. rewrite !contains_char. apply str_any_app. Qed.

Lemma parse_method_id (body : string) :
  parse_help_id (Some ("M:" +:+ body))
  = '(lhs, params_part) ←
      (if Py.contains body "(" then
         '(lhs, rhs) ← Py.unpack2 (Py.split1 body "(");
         params_part ←
           (if Py.contains rhs ")"
            then Py.item (Py.rsplit1 rhs ")") 0
            else Ok rhs);
         Ok (lhs, params_part)
       else Ok (body, EmptyString));
    '(container_fqn, method_raw) ←
      (if Py.contains lhs ".#ctor" then
         container_fqn ← Py.item (Py.split lhs ".#ctor") 0;
         Ok (container_fqn, "#ctor")
       else Py.unpack2 (Py.rsplit1 lhs "."));
    let param_types :=
      if Py.nonempty params_part then split_types_list params_part
      else [] in
    Ok (Some container_fqn, Some method_raw, param_types).
Proof. reflexivity. Qed.

Section RoundTrip.

Variables (container : string) (types : list string).

Hypothesis container_chars :
  Py.contains container "(" = false /\ Py.contains container "#" = false.
Hypothesis types_ok :
  List.Forall
    (fun x => whole outside x outside /\ x <> "" /\ Py.strip x = x) types.

Let params := Py.join "," types.

Lemma params_split :
  (if Py.nonempty params then split_types_list params else []) = types.
Proof.
  unfold params. destruct (Py.nonempty (Py.join "," types)) eqn:E.
  - now apply split_join_whole.
  - apply nonempty_false in E. destruct types as [|x l] eqn:Et; [reflexivity|].
    exfalso. rewrite <- Et in *. revert E. apply join_nonempty.
    + rewrite Et. discriminate.
    + revert types_ok. apply List.Forall_impl. tauto.
Qed.

Lemma params_part_of (lhs : string) :
  Py.contains lhs "(" = false ->
  (if Py.contains (lhs +:+ "(" +:+ params +:+ ")") "(" then
     '(lhs, rhs) ← Py.unpack2 (Py.split1 (lhs +:+ "(" +:+ params +:+ ")") "(");
     params_part ←
       (if Py.contains rhs ")"
        then Py.item (Py.rsplit1 rhs ")") 0
        else Ok rhs);
     Ok (lhs, params_part)
   else Ok (lhs +:+ "(" +:+ params +:+ ")", EmptyString))
  = Ok (lhs, params).
Proof.
  intros Hl. rewrite contains_mid.
  change (lhs +:+ "(" +:+ params +:+ ")")
    with (lhs +:+ String "(" (params +:+ ")")).
  rewrite (split1_found _ _ _ (find_char "(" lhs _ Hl)).
  rewrite take_app_length, drop_past_char.
  simpl Py.unpack2. rewrite bind_ok. cbv beta iota.
  assert (Hc : Py.contains (params +:+ ")") ")" = true).
  { rewrite <- (app_nil_r (params +:+ ")")), app_assoc. apply contains_mid. }
  rewrite Hc. unfold Py.rsplit1.
  rewrite (rfind_char ")" params "" eq_refl). rewrite item_head.
  rewrite bind_ok. now rewrite take_app_length.
Qed.

Lemma constructor_id :
  parse_help_id
    (Some ("M:" +:+ container +:+ ".#ctor" +:+ "(" +:+ params +:+ ")"))
  = Ok (Some container, Some "#ctor", types).
Proof.
  destruct container_chars as [Hc1 Hc2].
  rewrite parse_method_id.
  set (lhs := container +:+ ".#ctor").
  assert (Hl : Py.contains lhs "(" = false).
  { unfold lhs. now rewrite !contains_app_char, Hc1. }
  replace (container +:+ ".#ctor" +:+ "(" +:+ params +:+ ")")
    with (lhs +:+ "(" +:+ params +:+ ")")
    by (unfold lhs; now rewrite !app_assoc).
  rewrite (params_part_of lhs Hl). rewrite bind_ok. cbv beta iota.
  assert (Hh : Py.contains lhs ".#ctor" = true).
  { unfold lhs. rewrite <- (app_nil_r (container +:+ ".#ctor")), app_assoc.
    apply contains_mid. }
  rewrite Hh. unfold Py.split, lhs.
  destruct (split_ctor_first container "" Hc2 "") as [rest Hr].
  rewrite app_nil_r in Hr. rewrite Hr, item_head.
  rewrite !bind_ok. cbv beta iota. now rewrite params_split.
Qed.

Variable method : string.

Hypothesis method_chars :
  Py.contains method "(" = false /\ Py.contains method "#" = false
  /\ Py.contains method "." = false.

Lemma method_id :
  parse_help_id
    (Some ("M:" +:+ container +:+ "." +:+ method +:+ "(" +:+ params +:+ ")"))
  = Ok (Some container, Some method, types).
Proof.
  destruct container_chars as [Hc1 Hc2].
  destruct method_chars as (Hm1 & Hm2 & Hm3).
  rewrite parse_method_id.
  set (lhs := container +:+ "." +:+ method).
  assert (Hl : Py.contains lhs "(" = false).
  { unfold lhs. now rewrite !contains_app_char, Hc1, Hm1. }
  replace (container +:+ "." +:+ method +:+ "(" +:+ params +:+ ")")
    with (lhs +:+ "(" +:+ params +:+ ")")
    by (unfold lhs; now rewrite !app_assoc).
  rewrite (params_part_of lhs Hl). rewrite bind_ok. cbv beta iota.
  assert (Hh : Py.contains lhs ".#ctor" = false).
  { apply no_hash_no_ctor. unfold lhs.
    now rewrite !contains_app_char, Hc2, Hm2. }
  rewrite Hh. unfold Py.rsplit1, lhs.
  change (container +:+ "." +:+ method)
    with (container +:+ String "." method).
  rewrite (rfind_char "." container method Hm3). simpl Py.unpack2.
  rewrite bind_ok. cbv beta iota.
  rewrite take_app_length, drop_past_char.
  now rewrite params_split.
Qed.

End RoundTrip.

End IdFacts.

(** ** The code sample *)

Module SampleShape.

Import PyFacts SplitFacts NormFacts PageFacts MoreStrings.

Lemma first_block_ok (s : string) :
  (if Py.contains (Py.strip s) ")" then upto_first (Py.strip s) ")"
   else Ok (Py.strip s)) = Ok (first_block s).
Proof.
  unfold first_block, upto_first, Py.contains.
  now destruct (Py.find (Py.strip s) ")").
Qed.

(** What the parser returns for a sample that is not empty. *)
Lemma parse_csharp_signature_shape (s : string) (container_simple : option string) :
  s <> "" ->
  exists rt name names,
    parse_csharp_signature (Some s) container_simple
    = Ok (rt, name, names,
          Py.contains (" " +:+ oneline_of (first_block s) +:+ " ") " static ")
    /\ (names = []
        \/ exists parts, param_name_loop [] parts = Ok names).
Proof.
  intros Hne. unfold parse_csharp_signature.
  assert (Ht : Py.truthy (Some s) = true) by now apply nonempty_true.
  rewrite Ht. cbn [negb]. simpl Py.fmt.
  rewrite first_block_ok, bind_ok. cbv beta iota zeta.
  set (oneline := oneline_of (first_block s)).
  assert (Hrest : forall head params_part : string, exists rt name names,
    (let head_tokens :=
       List.filter
         (fun t => negb (mem t CS_ACCESS_KWS) && negb (mem t CS_MODIFIER_KWS))
         (Py.split_ws (Py.strip head)) in
     '(return_type, method_name) ←
       (if Nat.eqb (length head_tokens) 1 then
          name ← Py.item head_tokens 0;
          Ok (None, Some name)
        else if 2 <=? length head_tokens then
          rt ← Py.item head_tokens (length head_tokens - 2);
          name ← Py.last_item head_tokens;
          Ok (Some rt, Some name)
        else Ok (None, None));
     param_names ←
       (if Py.nonempty params_part
        then param_name_loop [] (split_types_list params_part)
        else Ok []);
     Ok (return_type, method_name, param_names,
         Py.contains (" " +:+ oneline +:+ " ") " static "))
    = Ok (rt, name, names, Py.contains (" " +:+ oneline +:+ " ") " static ")
    /\ (names = [] \/ exists parts, param_name_loop [] parts = Ok names)).
  { intros head params_part. cbv zeta.
    match goal with
    | |- context [List.filter ?f ?l] =>
        destruct (SampleFacts.head_name_ok (List.filter f l))
          as (rt & name & ->)
    end.
    rewrite bind_ok; cbv beta iota.
    destruct (Py.nonempty params_part).
    - destruct (param_name_loop_ok (split_types_list params_part) [])
        as [names Hn]. rewrite Hn, bind_ok. exists rt, name, names.
      split; [reflexivity|]. right. eauto.
    - rewrite bind_ok. exists rt, name, []. split; [reflexivity|now left]. }
  destruct (Py.contains oneline "(" && Py.contains oneline ")") eqn:E.
  - apply andb_true_iff in E as [E _].
    destruct (unpack2_split1 _ _ E) as (a & b & ->).
    rewrite bind_ok; cbv beta iota.
    destruct (rsplit1_first b ")") as [x ->].
    rewrite bind_ok; cbv beta iota. apply Hrest.
  - rewrite bind_ok; cbv beta iota. apply Hrest.
Qed.

(** *** The names *)

Lemma str_all_take (p : ascii -> bool) (n : nat) (s : string) :
  Py.str_all p s = true -> Py.str_all p (Py.take n s) = true.
Proof.
  revert n. induction s as [|c s IH]; intros [|n] H; try reflexivity.
  simpl in H |- *. apply andb_true_iff in H as [Hc H].
  now rewrite Hc, IH.
Qed.

Lemma str_all_before_dollar (p : ascii -> bool) (s : string) :
  Py.str_all p s = true -> Py.str_all p (before_dollar s) = true.
Proof.
  intros H. unfold before_dollar, Py.drop_last.
  destruct (Py.endswith s LF); [now apply str_all_take | exact H].
Qed.

Lemma digits_of_uint (u : Decimal.uint) :
  Py.str_all Py.is_digit (NilEmpty.string_of_uint u) = true.
Proof. induction u; simpl; auto. Qed.

Lemma arg_name_identifier (n : nat) : is_identifier (arg_name n) = true.
Proof.
  unfold arg_name, Py.str_of_nat.
  change ("arg" +:+ ?x) with (String "a" ("rg" +:+ x)).
  unfold is_identifier. apply andb_true_iff. split; [reflexivity|].
  apply str_all_before_dollar. rewrite str_all_app.
  apply andb_true_iff. split; [reflexivity|].
  generalize (digits_of_uint (Nat.to_uint n)). apply str_all_impl.
  intros c Hc. unfold Py.is_word. rewrite Hc. now rewrite orb_true_r.
Qed.

Lemma param_name_step_identifier (names names' : list string) (p : string) :
  param_name_step names p = Ok names' ->
  exists n, names' = names ++ [n] /\ is_identifier n = true.
Proof.
  unfold param_name_step.
  set (tokens := Py.split_ws _).
  destruct (Nat.eqb (length tokens) 0) eqn:E; simpl negb; cbv iota.
  - intros H. injection H as <-. eexists. split; [reflexivity|].
    apply arg_name_identifier.
  - destruct (Py.last_item tokens) as [x|e]; [|discriminate].
    rewrite bind_ok. cbv beta zeta.
    set (name := Py.lstrip_by _ _).
    intros H. injection H as <-. eexists. split; [reflexivity|].
    destruct (is_identifier name) eqn:Ei; [exact Ei|].
    apply arg_name_identifier.
Qed.

Lemma param_name_loop_identifier (parts : list string) :
  forall names names',
    param_name_loop names parts = Ok names' ->
    List.Forall (fun n => is_identifier n = true) names ->
    List.Forall (fun n => is_identifier n = true) names'
    /\ length names' = length names + length parts.
Proof.
  induction parts as [|p parts IH]; intros names names' H Hn.
  - injection H as <-. split; [exact Hn | simpl; lia].
  - simpl in H.
    destruct (param_name_step names p) as [names1|e] eqn:E; [|discriminate].
    rewrite bind_ok in H.
    destruct (param_name_step_identifier _ _ _ E) as (n & -> & Hi).
    destruct (IH _ _ H) as [H1 H2].
    + apply Forall_app. split; [exact Hn|]. now constructor.
    + split; [exact H1|]. rewrite H2, List.length_app. simpl. lia.
Qed.

(** *** The flag [is_static] *)

Lemma split_ws_no_space (s : string) :
  List.Forall (fun t => Py.str_any Py.is_space t = false) (Py.split_ws s).
Proof.
  induction s as [|c s IH]; [constructor|].
  simpl. destruct (Py.is_space c) eqn:Hc; [exact IH|].
  destruct s as [|d s].
  - constructor; [|constructor]. simpl. now rewrite Hc.
  - destruct (Py.is_space d) eqn:Hd.
    + constructor; [|exact IH]. simpl. now rewrite Hc.
    + destruct (Py.split_ws (String d s)) as [|t ts].
      * constructor; [|constructor]. simpl. now rewrite Hc.
      * inversion IH; subst. constructor; [|assumption].
        simpl. now rewrite Hc.
Qed.

Lemma startswith_word (w t rest : string) :
  Py.str_any (Ascii.eqb " ") w = false ->
  Py.str_any (Ascii.eqb " ") t = false ->
  Py.startswith (t +:+ String " " rest) (w +:+ " ") = String.eqb w t.
Proof.
  revert t. induction w as [|a w IH]; intros [|c t] Hw Ht.
  - reflexivity.
  - rewrite str_any_cons in Ht. apply orb_false_iff in Ht as [Hc _].
    change (String c t +:+ String " " rest)
      with (String c (t +:+ String " " rest)).
    change ("" +:+ " ") with (String " " "").
    rewrite startswith_cons, Hc. reflexivity.
  - rewrite str_any_cons in Hw. apply orb_false_iff in Hw as [Ha _].
    change ("" +:+ String " " rest) with (String " " rest).
    change (String a w +:+ " ") with (String a (w +:+ " ")).
    rewrite startswith_cons, Ascii.eqb_sym, Ha. reflexivity.
  - rewrite str_any_cons in Hw, Ht. apply orb_false_iff in Hw as [_ Hw].
    apply orb_false_iff in Ht as [_ Ht].
    change (String c t +:+ String " " rest)
      with (String c (t +:+ String " " rest)).
    change (String a w +:+ " ") with (String a (w +:+ " ")).
    rewrite startswith_cons, (IH t Hw Ht).
    change (String.eqb (String a w) (String c t))
      with (if Ascii.eqb a c then String.eqb w t else false).
    now destruct (Ascii.eqb a c).
Qed.

Lemma contains_skip_word (t x p : string) :
  Py.str_any (Ascii.eqb " ") t = false ->
  Py.contains (t +:+ x) (String " " p) = Py.contains x (String " " p).
Proof.
  intros Ht. induction t as [|c t IH]; [reflexivity|].
  rewrite str_any_cons in Ht. apply orb_false_iff in Ht as [Hc Ht].
  change (String c t +:+ x) with (String c (t +:+ x)).
  rewrite contains_cons, startswith_cons, Hc. simpl orb. now apply IH.
Qed.

Lemma static_among (toks : list string) :
  List.Forall (fun t => Py.str_any (Ascii.eqb " ") t = false) toks ->
  Py.contains (" " +:+ Py.join " " toks +:+ " ") " static "
  = mem "static" toks.
Proof.
  induction toks as [|t rest IH]; intros H; [reflexivity|].
  inversion H as [|? ? Ht Hrest]; subst.
  assert (E : " " +:+ Py.join " " (t :: rest) +:+ " "
              = String " " (t +:+ String " "
                  (match rest with
                   | [] => ""
                   | _ => Py.join " " rest +:+ " "
                   end))).
  { destruct rest as [|u rest]; [reflexivity|].
    rewrite join_cons by discriminate. now rewrite !app_assoc. }
  rewrite E. rewrite contains_cons.
  change " static " with (String " " ("static" +:+ " ")) at 1.
  rewrite startswith_cons, Ascii.eqb_refl. cbn [andb].
  rewrite (startswith_word "static" t _ eq_refl Ht).
  unfold mem. simpl List.existsb. f_equal.
  rewrite (contains_skip_word t _ "static " Ht).
  destruct rest as [|u rest]; [reflexivity|].
  change (String " " (Py.join " " (u :: rest) +:+ " "))
    with (" " +:+ Py.join " " (u :: rest) +:+ " ").
  now apply IH.
Qed.

Lemma is_static_tokens (text : string) :
  Py.contains (" " +:+ oneline_of text +:+ " ") " static "
  = mem "static" (Py.split_ws (Py.replace text LF " ")).
Proof.
  unfold oneline_of. apply static_among.
  generalize (split_ws_no_space (Py.replace text LF " ")).
  apply List.Forall_impl. intros t. apply str_any_impl.
  intros c Hc. apply Ascii.eqb_eq in Hc. now subst c.
Qed.

End SampleShape.

(** ** The laws of [map_dotnet_to_python] *)

Module TypeLaws.

Import PyFacts SplitFacts NormFacts.

Lemma lstrip_app_keep (p : ascii -> bool) (s : string) (c : ascii) (r : string) :
  p c = false ->
  Py.lstrip_by p (s +:+ String c r) = Py.lstrip_by p s +:+ String c r.
Proof.
  intros Hc. induction s as [|x s IH]; simpl.
  - now rewrite Hc.
  - destruct (p x); [exact IH | reflexivity].
Qed.

Lemma strip_lstrip (s : string) : Py.strip (Py.lstrip s) = Py.strip s.
Proof. unfold Py.strip, Py.lstrip. now rewrite lstrip_by_idem. Qed.

Lemma strip_snoc (s : string) (c : ascii) :
  Py.is_space c = false ->
  Py.strip (s +:+ String c "") = Py.lstrip s +:+ String c "".
Proof.
  intros Hc. unfold Py.strip, Py.lstrip. rewrite (lstrip_app_keep _ _ _ _ Hc).
  now apply rstrip_by_snoc.
Qed.

Section Laws.

Variables container_fqn container_simple : option string.

Let M (t : string) : string :=
  map_dotnet_to_python t container_fqn container_simple.

Lemma map_strip_eq (a b : string) :
  Py.strip a = Py.strip b -> M a = M b.
Proof.
  intros H. unfold M. rewrite (map_dotnet_to_python_unfold _ _ a).
  rewrite (map_dotnet_to_python_unfold _ _ b). unfold map_body.
  now rewrite H.
Qed.

Lemma map_array_any (s : string) : M (s +:+ "[]") = "List[" +:+ M s +:+ "]".
Proof.
  unfold M at 1. rewrite map_dotnet_to_python_unfold. unfold map_body.
  assert (E : Py.strip (s +:+ "[]") = Py.lstrip s +:+ "[]").
  { change "[]" with ("[" +:+ "]"). rewrite <- app_assoc.
    rewrite strip_snoc by reflexivity.
    change (Py.lstrip (s +:+ "[")) with (Py.lstrip_by Py.is_space (s +:+ String "[" "")).
    rewrite lstrip_app_keep by reflexivity. now rewrite app_assoc. }
  rewrite E. rewrite (endswith_app _ "[]" "[]") by reflexivity.
  simpl String.eqb. cbv iota.
  rewrite (drop_last_app _ "[]" 2 eq_refl).
  fold (M (Py.strip (Py.lstrip s))).
  rewrite (map_strip_eq (Py.strip (Py.lstrip s)) s); [reflexivity|].
  now rewrite strip_idem, strip_lstrip.
Qed.

Lemma last_char_lstrip_by (p : ascii -> bool) (s : string) :
  Py.lstrip_by p s = "" \/ Py.last_char (Py.lstrip_by p s) = Py.last_char s.
Proof.
  induction s as [|c s IH]; [now left|]. simpl Py.lstrip_by.
  destruct (p c) eqn:E; [|now right].
  destruct IH as [IH|IH]; [now left|].
  destruct s as [|d s]; [now left|right]. exact IH.
Qed.

Lemma endswith_lstrip (s : string) (c : ascii) :
  Py.is_space c = false ->
  Py.endswith (Py.lstrip s) (String c "") = Py.endswith s (String c "").
Proof.
  intros Hc.
  destruct (Py.endswith s (String c "")) eqn:E.
  - apply endswith_char in E. apply endswith_char.
    destruct (last_char_decomp _ _ E) as [a ->].
    unfold Py.lstrip. rewrite lstrip_app_keep by exact Hc.
    apply last_char_snoc.
  - destruct (Py.endswith (Py.lstrip s) (String c "")) eqn:E'; [|reflexivity].
    apply endswith_char in E'.
    destruct (last_char_lstrip_by Py.is_space s) as [H|H].
    + unfold Py.lstrip in E'. rewrite H in E'. discriminate E'.
    + unfold Py.lstrip in E'. rewrite H in E'. apply endswith_char in E'.
      congruence.
Qed.

Lemma map_question_any (s : string) :
  Py.endswith s "?" = false ->
  M (s +:+ "?") = "Optional[" +:+ M s +:+ "]".
Proof.
  intros Hq. unfold M at 1. rewrite map_dotnet_to_python_unfold.
  unfold map_body. rewrite strip_snoc by reflexivity.
  set (x := Py.lstrip s).
  assert (Hx : Py.endswith x "?" = false)
    by (unfold x; now rewrite endswith_lstrip).
  assert (Hxs : Py.strip x = Py.strip s) by apply strip_lstrip.
  clearbody x.
  assert (Hl : Py.last_char (x +:+ "?") = Some "?"%char)
    by apply last_char_snoc.
  rewrite (endswith_last_ne _ "[]" _ "]"%char Hl eq_refl) by discriminate.
  rewrite (match_nullable_none _ _ Hl) by discriminate.
  rewrite (endswith_app x "?" "?") by reflexivity.
  assert (H2 : Py.endswith (x +:+ "?") "??" = false).
  { destruct (string_dec x "") as [->|Hxe]; [reflexivity|].
    destruct (snoc_decomp x Hxe) as (a & c & ->).
    assert (Hc : Ascii.eqb c "?" = false).
    { rewrite (endswith_app a (String c "") "?") in Hx by reflexivity.
      simpl in Hx. now destruct (Ascii.eqb c "?"). }
    rewrite app_assoc.
    rewrite (endswith_app a (String c "" +:+ "?") "??") by reflexivity.
    simpl String.eqb. now rewrite Hc. }
  rewrite H2. simpl String.eqb. cbn [andb negb].
  rewrite (drop_last_app _ "?" 1 eq_refl).
  fold (M x). now rewrite (map_strip_eq x s Hxs).
Qed.

Lemma map_nullable_any (qualified : bool) (s : string) :
  s <> "" -> Py.contains s LF = false ->
  M ((if qualified then "System.Nullable{" else "Nullable{") +:+ s +:+ "}")
  = "Optional[" +:+ M s +:+ "]".
Proof.
  intros Hne Hlf. unfold M at 1. rewrite map_dotnet_to_python_unfold.
  unfold map_body.
  set (pre := if qualified then "System.Nullable{" else "Nullable{").
  set (t := pre +:+ s +:+ "}").
  assert (Hl : Py.last_char t = Some "}"%char)
    by (unfold t; rewrite <- app_assoc; apply last_char_snoc).
  assert (Hst : Py.strip t = t).
  { unfold t. rewrite <- app_assoc. rewrite strip_snoc by reflexivity.
    f_equal. unfold pre. now destruct qualified. }
  rewrite Hst.
  rewrite (endswith_last_ne _ "[]" _ "]"%char Hl eq_refl) by discriminate.
  assert (Hm : match_nullable t = Some s).
  { unfold match_nullable, t, pre. destruct qualified.
    - rewrite startswith_self_app.
      rewrite (drop_app_length "System.Nullable{").
      now apply group_before_brace_some.
    - simpl Py.startswith. simpl Py.drop.
      now apply group_before_brace_some. }
  rewrite Hm. fold (M (Py.strip s)).
  rewrite (map_strip_eq (Py.strip s) s); [reflexivity|apply strip_idem].
Qed.

Lemma name_strip (t : string) :
  Py.str_all is_name_char t = true -> Py.strip t = t.
Proof.
  intros H. apply strip_no_space. revert H.
  apply str_all_none, name_char_not_space.
Qed.

Lemma name_last (t : string) :
  Py.str_all is_name_char t = true -> t <> "" ->
  exists c, Py.last_char t = Some c /\ is_name_char c = true.
Proof.
  intros H Hne. destruct (snoc_decomp t Hne) as (a & c & ->).
  exists c. split; [apply last_char_snoc|].
  rewrite str_all_app in H. apply andb_true_iff in H as [_ H].
  simpl in H. now rewrite andb_true_r in H.
Qed.

Lemma map_generic_any (base inner : string) :
  Py.nonempty base = true ->
  Py.str_all is_name_char base = true ->
  mem base ["Nullable"; "System.Nullable"] = false ->
  inner <> "" -> Py.contains inner LF = false ->
  M (base +:+ "{" +:+ inner +:+ "}")
  = py_base_of base +:+ "["
    +:+ Py.join ", " (List.map M (split_types_list inner)) +:+ "]".
Proof.
  intros Hbn Hbc Hbm Hine Hlf.
  unfold M at 1. rewrite map_dotnet_to_python_unfold. unfold map_body.
  set (t := base +:+ "{" +:+ inner +:+ "}").
  assert (Hl : Py.last_char t = Some "}"%char).
  { unfold t. rewrite <- !app_assoc. apply last_char_snoc. }
  assert (Hst : Py.strip t = t).
  { unfold t. rewrite <- !app_assoc. rewrite strip_snoc by reflexivity.
    f_equal. rewrite app_assoc. change ("{" +:+ inner) with (String "{" inner).
    unfold Py.lstrip. rewrite lstrip_app_keep by reflexivity. f_equal.
    destruct base as [|b base]; [discriminate Hbn|].
    apply lstrip_by_id. apply name_char_not_space.
    simpl in Hbc. now apply andb_true_iff in Hbc as [Hbc _]. }
  rewrite Hst.
  rewrite (endswith_last_ne _ "[]" _ "]"%char Hl eq_refl) by discriminate.
  assert (Hmn : match_nullable t = None).
  { unfold match_nullable.
    simpl in Hbm. apply orb_false_iff in Hbm as [H1 H2].
    apply orb_false_iff in H2 as [H2 _].
    apply String.eqb_neq in H1, H2.
    destruct (Py.startswith t "System.Nullable{") eqn:E1.
    { exfalso. apply H2.
      apply (startswith_name_brace base "System.Nullable" (inner +:+ "}"));
        [exact Hbc | reflexivity | exact E1]. }
    destruct (Py.startswith t "Nullable{") eqn:E2; [|reflexivity].
    exfalso. apply H1.
    apply (startswith_name_brace base "Nullable" (inner +:+ "}"));
      [exact Hbc | reflexivity | exact E2]. }
  rewrite Hmn.
  rewrite (endswith_last_ne _ "?" _ "?"%char Hl eq_refl) by discriminate.
  simpl andb. cbv iota.
  assert (Hmg : match_generic t = Some (base, inner)).
  { unfold match_generic, t.
    change (base +:+ "{" +:+ inner +:+ "}")
      with (base +:+ String "{" (inner +:+ "}")).
    rewrite (take_while_app _ base "{" _ Hbc) by reflexivity.
    rewrite drop_app_length, Hbn. simpl Py.startswith. simpl Py.drop.
    simpl andb. cbv iota.
    now rewrite group_before_brace_some. }
  rewrite Hmg. reflexivity.
Qed.

Lemma map_name (t : string) :
  Py.str_all is_name_char t = true ->
  M t = match dict_get aliases t with
        | Some a => a
        | None =>
            if Py.truthy container_simple && opt_eqb t container_simple
            then Py.fmt (Py.or_else container_fqn (Some t)) else t
        end.
Proof.
  intros Hn. unfold M. rewrite map_dotnet_to_python_unfold. unfold map_body.
  rewrite (name_strip t Hn).
  destruct (string_dec t "") as [->|Hte]; [reflexivity|].
  destruct (name_last t Hn Hte) as (c & Hl & Hc).
  assert (Hb : c <> "}"%char) by (intros ->; discriminate Hc).
  assert (Hlf : c <> Py.chr 10) by (intros ->; discriminate Hc).
  rewrite (endswith_last_ne _ "[]" _ "]"%char Hl eq_refl)
    by (intros ->; discriminate Hc).
  rewrite (match_nullable_none _ _ Hl Hb Hlf).
  rewrite (endswith_last_ne _ "?" _ "?"%char Hl eq_refl)
    by (intros ->; discriminate Hc).
  simpl andb. cbv iota.
  now rewrite (match_generic_none _ _ Hl Hb Hlf).
Qed.

End Laws.

Lemma rstrip_by_all (p : ascii -> bool) (s : string) :
  Py.str_all p s = true -> Py.rstrip_by p s = "".
Proof.
  induction s as [|c s IH]; [reflexivity|]. simpl. intros H.
  apply andb_true_iff in H as [Hc H]. now rewrite (IH H), Hc.
Qed.

Lemma rstrip_by_app_all (p : ascii -> bool) (t b : string) :
  Py.str_all p b = true -> Py.rstrip_by p (t +:+ b) = Py.rstrip_by p t.
Proof.
  intros Hb. induction t as [|c t IH].
  - simpl. now apply rstrip_by_all.
  - simpl. now rewrite IH.
Qed.

Lemma strip_pad (a t b : string) :
  Py.str_all Py.is_space a = true -> Py.str_all Py.is_space b = true ->
  Py.strip (a +:+ t +:+ b) = Py.strip t.
Proof.
  intros Ha Hb. unfold Py.strip, Py.lstrip, Py.rstrip.
  assert (E : Py.lstrip_by Py.is_space (a +:+ t +:+ b)
              = Py.lstrip_by Py.is_space (t +:+ b)).
  { induction a as [|x a IH]; [reflexivity|]. simpl in Ha |- *.
    apply andb_true_iff in Ha as [Hx Ha]. rewrite Hx. now apply IH. }
  rewrite E. clear E Ha a.
  induction t as [|c t IH].
  - simpl. rewrite (lstrip_by_all _ _ Hb). reflexivity.
  - simpl Py.lstrip_by. destruct (Py.is_space c) eqn:Hc; [exact IH|].
    apply (rstrip_by_app_all _ (String c t) b Hb).
Qed.

End TypeLaws.

(** ** The lines of a file *)

Module FileFacts.

Import PyFacts NormFacts MoreStrings.

Lemma file_lines_from_cons (cur : string) (c : ascii) (r : string) :
  file_lines_from cur (String c r)
  = if Ascii.eqb c (Py.chr 10)
    then (cur +:+ String c "") :: file_lines_from "" r
    else file_lines_from (cur +:+ String c "") r.
Proof. reflexivity. Qed.

(** Writing the lines one after the other gives the text back. *)
Lemma written_file_lines (s : string) :
  forall cur, written (file_lines_from cur s) = cur +:+ s.
Proof.
  induction s as [|c s IH]; intros cur.
  - rewrite app_nil_r. destruct cur; [reflexivity|].
    simpl. now rewrite app_nil_r.
  - rewrite file_lines_from_cons. destruct (Ascii.eqb c (Py.chr 10)).
    + simpl written. rewrite (IH ""). simpl. now rewrite app_assoc.
    + rewrite IH. now rewrite app_assoc.
Qed.

Lemma file_lines_shape (s : string) :
  forall cur,
    Py.str_any (Ascii.eqb (Py.chr 10)) cur = false ->
    List.Forall ended (List.removelast (file_lines_from cur s))
    /\ List.Forall (fun l => ended l \/ open_line l) (file_lines_from cur s).
Proof.
  induction s as [|c s IH]; intros cur Hc.
  - simpl. destruct (Py.nonempty cur) eqn:E; [|split; constructor].
    split; [constructor|]. constructor; [|constructor]. right.
    split; [now apply nonempty_true | exact Hc].
  - rewrite file_lines_from_cons.
    destruct (Ascii.eqb c (Py.chr 10)) eqn:E.
    + apply Ascii.eqb_eq in E. subst c.
      destruct (IH "" eq_refl) as [H1 H2].
      assert (He : ended (cur +:+ String (Py.chr 10) "")) by now exists cur.
      split.
      * destruct (file_lines_from "" s) as [|x l] eqn:El; [constructor|].
        change (List.removelast (?a :: x :: l))
          with (a :: List.removelast (x :: l)).
        now constructor.
      * constructor; [now left | exact H2].
    + apply IH. rewrite str_any_app, Hc, str_any_cons.
      rewrite Ascii.eqb_sym, E. reflexivity.
Qed.

Lemma file_lines_from_body (body : string) :
  Py.str_any (Ascii.eqb (Py.chr 10)) body = false ->
  forall cur s,
    file_lines_from cur (body +:+ s) = file_lines_from (cur +:+ body) s.
Proof.
  induction body as [|c body IH]; intros H cur s.
  - now rewrite app_nil_r.
  - rewrite str_any_cons in H. apply orb_false_iff in H as [Hc H].
    change (String c body +:+ s) with (String c (body +:+ s)).
    rewrite file_lines_from_cons, Ascii.eqb_sym, Hc, (IH H).
    now rewrite app_assoc.
Qed.

(** Reading what was written gives the lines back. *)
Lemma file_lines_written (ls : list string) :
  List.Forall ended (List.removelast ls) ->
  List.Forall (fun l => ended l \/ open_line l) ls ->
  file_lines (written ls) = ls.
Proof.
  unfold file_lines. induction ls as [|l ls IH]; intros H1 H2; [reflexivity|].
  inversion H2 as [|? ? Hl H2']; subst.
  assert (Hended : ended l ->
            file_lines_from "" (written (l :: ls))
            = l :: file_lines_from "" (written ls)).
  { intros (body & -> & Hb). simpl written. rewrite app_assoc.
    rewrite (file_lines_from_body body Hb). unfold LF.
    change (String (Py.chr 10) "" +:+ written ls)
      with (String (Py.chr 10) (written ls)).
    rewrite file_lines_from_cons, Ascii.eqb_refl. reflexivity. }
  destruct ls as [|x ls'].
  - destruct Hl as [Hl|[Hne Hb]]; [now rewrite Hended|].
    simpl written. rewrite app_nil_r.
    rewrite <- (app_nil_r l) at 1. rewrite (file_lines_from_body l Hb).
    simpl. apply nonempty_true in Hne. now rewrite Hne.
  - change (List.removelast (l :: x :: ls'))
      with (l :: List.removelast (x :: ls')) in H1.
    inversion H1 as [|? ? He H1']; subst.
    rewrite (Hended He). f_equal. now apply IH.
Qed.

Lemma file_lines_filter (text namespace : string) :
  file_lines (filter_namespace text namespace)
  = List.filter (fun line => Py.startswith line namespace)
      (file_lines text).
Proof.
  unfold filter_namespace.
  destruct (file_lines_shape text "" eq_refl) as [H1 H2].
  apply file_lines_written.
  - now apply ResplitFacts.removelast_filter.
  - apply List.Forall_forall. intros l Hl.
    apply List.filter_In in Hl as [Hl _].
    rewrite List.Forall_forall in H2. now apply H2.
Qed.

End FileFacts.

(** ** Properties of the pipeline beyond the listed claims *)

(** [process_file] raises in one case only: the help id has the method
    marker and the part that names the member (up to the first opening
    parenthesis) has no dot; the exception is [ValueError].  No code sample
    makes it raise. *)
Theorem process_file_failure_cases :
  forall (help_id cs_text : option string) (e : exn),
    process_file help_id cs_text = Raise e <->
    exists h,
      help_id = Some h /\ e = ValueError /\ Py.startswith h "M:" = true
      /\ Py.contains (identity_part h) "." = false.
Proof. exact PageFacts.process_file_raises. Qed.

Lemma process_file_failure_cases_witness :
  process_file (Some "M:Foo(System.Int32)") (Some "public void Foo(int x)")
  = Raise ValueError.
Proof.
  apply (process_file_failure_cases (Some "M:Foo(System.Int32)")
           (Some "public void Foo(int x)") ValueError).
  exists "M:Foo(System.Int32)". repeat split; reflexivity.
Defined.

(** [parse_csharp_signature] returns for every sample: the subscripts, the
    unpacking and the call of [index] in it are all guarded. *)
Theorem parse_csharp_signature_never_raises :
  forall cs_text container_simple : option string,
    exists rt name names st,
      parse_csharp_signature cs_text container_simple
      = Ok (rt, name, names, st).
Proof.
  intros cs_text container_simple.
  destruct (PageFacts.parse_csharp_signature_total cs_text container_simple)
    as [[[[rt name] names] st] H].
  now exists rt, name, names, st.
Qed.

(** A page whose help id is missing, empty or without the method marker
    gives no line, whatever its code sample. *)
Theorem process_file_skips_other_pages :
  forall help_id cs_text : option string,
    (forall h, help_id = Some h -> Py.startswith h "M:" = false) ->
    process_file help_id cs_text = Ok None.
Proof.
  intros help_id cs_text H. unfold process_file.
  assert (E : parse_help_id (Py.or_else help_id (Some ""))
              = Ok (None, None, [])).
  { destruct help_id as [h|]; [|reflexivity].
    specialize (H h eq_refl). unfold Py.or_else, Py.truthy.
    destruct (Py.nonempty h) eqn:Hn.
    - unfold parse_help_id. now rewrite Hn, H.
    - reflexivity. }
  rewrite E, PageFacts.bind_ok. cbv beta iota.
  destruct (PageFacts.parse_csharp_signature_total
              (Py.or_else cs_text (Some "")) (container_simple_of None))
    as [[[[rt name] names] st] ->].
  reflexivity.
Qed.

Lemma process_file_skips_other_pages_witness :
  process_file (Some "T:Rhino.Display.ColorHSL")
    (Some "public struct ColorHSL") = Ok None.
Proof.
  apply (process_file_skips_other_pages (Some "T:Rhino.Display.ColorHSL")).
  intros h E. injection E as <-. reflexivity.
Defined.

(** Parsing a help id that is written from its parts gives the parts back:
    for a container without parentheses and number signs, a method name that
    has no dot either, and types that are trimmed, not empty and balanced,
    the ids [M:container.method(t1,...,tn)] and [M:container.#ctor(t1,...,tn)]
    are parsed into the container, the method (or [#ctor]) and the types. *)
Theorem parse_help_id_round_trip :
  forall (container method : string) (types : list string),
    Py.contains container "(" = false /\ Py.contains container "#" = false ->
    Py.contains method "(" = false /\ Py.contains method "#" = false
      /\ Py.contains method "." = false ->
    List.Forall
      (fun x => whole outside x outside /\ x <> "" /\ Py.strip x = x) types ->
    parse_help_id
      (Some ("M:" +:+ container +:+ "." +:+ method +:+ "("
             +:+ Py.join "," types +:+ ")"))
    = Ok (Some container, Some method, types)
    /\ parse_help_id
         (Some ("M:" +:+ container +:+ ".#ctor" +:+ "("
                +:+ Py.join "," types +:+ ")"))
       = Ok (Some container, Some "#ctor", types).
Proof.
  intros container method types Hc Hm Ht. split.
  - now apply IdFacts.method_id.
  - now apply IdFacts.constructor_id.
Qed.

Lemma parse_help_id_round_trip_witness :
  parse_help_id
    (Some "M:Rhino.Geometry.Mesh.Foo(System.Collections.Generic.Dictionary{System.String,System.Int32},System.Double[])")
  = Ok (Some "Rhino.Geometry.Mesh", Some "Foo",
        ["System.Collections.Generic.Dictionary{System.String,System.Int32}";
         "System.Double[]"])
  /\ parse_help_id
       (Some "M:Rhino.Geometry.Mesh.#ctor(System.Collections.Generic.Dictionary{System.String,System.Int32},System.Double[])")
     = Ok (Some "Rhino.Geometry.Mesh", Some "#ctor",
           ["System.Collections.Generic.Dictionary{System.String,System.Int32}";
            "System.Double[]"]).
Proof.
  apply (parse_help_id_round_trip "Rhino.Geometry.Mesh" "Foo"
           ["System.Collections.Generic.Dictionary{System.String,System.Int32}";
            "System.Double[]"]).
  - split; reflexivity.
  - repeat split; reflexivity.
  - repeat constructor; discriminate.
Defined.

(** Every parameter name that [parse_csharp_signature] returns matches the
    pattern of an identifier: a name that does not is replaced by [argN]. *)
Theorem parameter_names_are_identifiers :
  forall (cs_text container_simple rt name : option string)
         (names : list string) (st : bool),
    parse_csharp_signature cs_text container_simple
    = Ok (rt, name, names, st) ->
    List.Forall (fun n => is_identifier n = true) names.
Proof.
  intros cs_text container_simple rt name names st H.
  destruct cs_text as [[|c s]|];
    [injection H as _ _ <- _; constructor | |
     injection H as _ _ <- _; constructor].
  destruct (SampleShape.parse_csharp_signature_shape (String c s)
              container_simple) as (rt' & name' & names' & E & Hn);
    [discriminate|].
  rewrite E in H. injection H as _ _ <- _.
  destruct Hn as [->|[parts Hp]]; [constructor|].
  now apply (SampleShape.param_name_loop_identifier parts [] names').
Qed.

Lemma parameter_names_are_identifiers_witness :
  parse_csharp_signature
    (Some "public void Foo(int 3x, ref string @name, params object[] rest[])")
    None
  = Ok (Some "void", Some "Foo", ["arg1"; "name"; "rest"], false)
  /\ List.Forall (fun n => is_identifier n = true) ["arg1"; "name"; "rest"].
Proof.
  split; [reflexivity|].
  apply (parameter_names_are_identifiers
           (Some "public void Foo(int 3x, ref string @name, params object[] rest[])")
           None (Some "void") (Some "Foo") ["arg1"; "name"; "rest"] false).
  reflexivity.
Defined.

(** The flag [is_static] is set exactly when [static] is one of the words,
    separated by white space, of the sample up to its first closing
    parenthesis: in the head or in the parameter list. *)
Theorem static_flag_is_a_token :
  forall (s : string) (container_simple rt name : option string)
         (names : list string) (st : bool),
    parse_csharp_signature (Some s) container_simple
    = Ok (rt, name, names, st) ->
    st = mem "static" (Py.split_ws (Py.replace (first_block s) LF " ")).
Proof.
  intros s container_simple rt name names st H.
  destruct s as [|c s]; [now injection H as _ _ _ <-|].
  destruct (SampleShape.parse_csharp_signature_shape (String c s)
              container_simple) as (rt' & name' & names' & E & _);
    [discriminate|].
  rewrite E in H. injection H as _ _ _ <-.
  apply SampleShape.is_static_tokens.
Qed.

Lemma static_flag_is_a_token_witness :
  parse_csharp_signature (Some "public void Foo(int a, static b)") None
  = Ok (Some "void", Some "Foo", ["a"; "b"], true)
  /\ true
     = mem "static"
         (Py.split_ws
            (Py.replace (first_block "public void Foo(int a, static b)")
               LF " ")).
Proof.
  split; [reflexivity|].
  apply (static_flag_is_a_token "public void Foo(int a, static b)" None
           (Some "void") (Some "Foo") ["a"; "b"] true).
  reflexivity.
Defined.

(** Splitting is stable: each part that [split_types_list] returns is
    split into itself alone, and joining the parts with commas and splitting
    again gives the same parts, for every input. *)
Theorem resplit_is_stable :
  forall s : string,
    List.Forall (fun p => split_types_list p = [p]) (split_types_list s)
    /\ split_types_list (Py.join "," (split_types_list s))
       = split_types_list s.
Proof.
  intros s. destruct (ResplitFacts.parts_chain s) as [Hq Hr].
  assert (Hs : List.Forall (fun p => p <> "" /\ Py.strip p = p)
                 (split_types_list s)).
  { rewrite SplitFacts.split_types_list_refines. unfold split_spec.
    apply List.Forall_forall. intros p Hp.
    apply List.filter_In in Hp as [Hp Hn].
    apply List.in_map_iff in Hp as (g & <- & _). split.
    - now apply PyFacts.nonempty_true.
    - apply PyFacts.strip_idem. }
  split.
  - rewrite List.Forall_forall in *. intros p Hp.
    destruct (Hs p Hp) as [Hne Hst].
    now apply ResplitFacts.split_part_alone; [apply Hq | |].
  - destruct (split_types_list s) as [|x l] eqn:E; [reflexivity|].
    rewrite <- E in *.
    rewrite SplitFacts.split_types_list_refines. unfold split_spec.
    rewrite ResplitFacts.segments_join_chain;
      [ | rewrite E; discriminate | exact Hq | exact Hr].
    now apply ResplitFacts.strip_filter_id.
Qed.

(** Splitting undoes joining: a list of strings that are trimmed, not
    empty and balanced (read from outside all scopes, each has no separator
    that splits and ends outside all scopes) is what [split_types_list]
    returns for the strings joined with commas. *)
Theorem split_join_round_trip :
  forall xs : list string,
    List.Forall
      (fun x => whole outside x outside /\ x <> "" /\ Py.strip x = x) xs ->
    split_types_list (Py.join "," xs) = xs.
Proof. exact ResplitFacts.split_join_whole. Qed.

Lemma split_join_round_trip_witness :
  split_types_list (Py.join "," ["Dict{K,V}"; "List<int>"; "f(a, b)"])
  = ["Dict{K,V}"; "List<int>"; "f(a, b)"].
Proof.
  apply (split_join_round_trip ["Dict{K,V}"; "List<int>"; "f(a, b)"]).
  repeat constructor; discriminate.
Defined.

(** The lines of the text that [filter_namespace] writes are the lines of
    its input that start with the namespace, in their order; filtering what
    was filtered changes nothing, and the empty namespace keeps the whole
    text. *)
Theorem filter_namespace_keeps_lines :
  forall text namespace : string,
    file_lines (filter_namespace text namespace)
    = List.filter (fun line => Py.startswith line namespace)
        (file_lines text)
    /\ filter_namespace (filter_namespace text namespace) namespace
       = filter_namespace text namespace
    /\ filter_namespace text "" = text.
Proof.
  intros text namespace. split; [apply FileFacts.file_lines_filter|]. split.
  - unfold filter_namespace at 1. rewrite FileFacts.file_lines_filter.
    unfold filter_namespace. f_equal.
    induction (file_lines text) as [|l ls IH]; [reflexivity|].
    simpl. destruct (Py.startswith l namespace) eqn:E; [|exact IH].
    simpl. now rewrite E, IH.
  - unfold filter_namespace.
    assert (E : List.filter (fun line => Py.startswith line "")
                  (file_lines text) = file_lines text).
    { induction (file_lines text) as [|l ls IH]; [reflexivity|].
      cbn [List.filter]. change (Py.startswith l "") with true.
      cbv iota. now rewrite IH. }
    rewrite E. apply (FileFacts.written_file_lines text "").
Qed.

(** ** Laws of [map_dotnet_to_python] for every argument *)

(** White space around a type does not change its label. *)
Theorem surrounding_space_ignored :
  forall (a t b : string) (container_fqn container_simple : option string),
    Py.str_all Py.is_space a = true -> Py.str_all Py.is_space b = true ->
    map_dotnet_to_python (a +:+ t +:+ b) container_fqn container_simple
    = map_dotnet_to_python t container_fqn container_simple.
Proof.
  intros a t b cf cs Ha Hb. apply TypeLaws.map_strip_eq.
  now apply TypeLaws.strip_pad.
Qed.

Lemma surrounding_space_ignored_witness :
  map_dotnet_to_python ("  " +:+ "System.Double[]" +:+ " ") None None
  = map_dotnet_to_python "System.Double[]" None None.
Proof.
  apply (surrounding_space_ignored "  " "System.Double[]" " " None None);
    reflexivity.
Defined.

(** An array: for every string [s] and every container, the label of
    [s[]] is [List[...]] around the label of [s]. *)
Theorem array_maps_to_list :
  forall (s : string) (container_fqn container_simple : option string),
    map_dotnet_to_python (s +:+ "[]") container_fqn container_simple
    = "List[" +:+ map_dotnet_to_python s container_fqn container_simple
      +:+ "]".
Proof. intros s cf cs. apply TypeLaws.map_array_any. Qed.

(** A nullable in braces: for every [s] that is not empty and has no line
    feed, the labels of [Nullable{s}] and [System.Nullable{s}] are
    [Optional[...]] around the label of [s]. *)
Theorem nullable_maps_to_optional :
  forall (qualified : bool) (s : string)
         (container_fqn container_simple : option string),
    s <> "" -> Py.contains s LF = false ->
    map_dotnet_to_python
      ((if qualified then "System.Nullable{" else "Nullable{") +:+ s +:+ "}")
      container_fqn container_simple
    = "Optional[" +:+ map_dotnet_to_python s container_fqn container_simple
      +:+ "]".
Proof. intros q s cf cs. apply TypeLaws.map_nullable_any. Qed.

Lemma nullable_maps_to_optional_witness :
  map_dotnet_to_python "System.Nullable{ Rhino.Geometry.Point3d[] }"
    (Some "Rhino.Geometry.Mesh") (Some "Mesh")
  = "Optional["
    +:+ map_dotnet_to_python " Rhino.Geometry.Point3d[] "
          (Some "Rhino.Geometry.Mesh") (Some "Mesh")
    +:+ "]".
Proof.
  apply (nullable_maps_to_optional true " Rhino.Geometry.Point3d[] "
           (Some "Rhino.Geometry.Mesh") (Some "Mesh"));
    [discriminate | reflexivity].
Defined.

(** A nullable with a question mark: for every [s] that does not itself
    end with a question mark, the label of [s?] is [Optional[...]] around
    the label of [s]. *)
Theorem question_mark_maps_to_optional :
  forall (s : string) (container_fqn container_simple : option string),
    Py.endswith s "?" = false ->
    map_dotnet_to_python (s +:+ "?") container_fqn container_simple
    = "Optional[" +:+ map_dotnet_to_python s container_fqn container_simple
      +:+ "]".
Proof. intros s cf cs. apply TypeLaws.map_question_any. Qed.

Lemma question_mark_maps_to_optional_witness :
  map_dotnet_to_python ("System.Int32[]" +:+ "?") None None
  = "Optional[" +:+ map_dotnet_to_python "System.Int32[]" None None +:+ "]".
Proof.
  apply (question_mark_maps_to_optional "System.Int32[]" None None).
  reflexivity.
Defined.

(** A generic: for a base made of word characters and dots, other than the
    two names of the nullable form, and every argument text that is not
    empty and has no line feed, the label of [base{inner}] is the name of the
    base (from the table, or its last segment) applied to the labels of the
    parts into which [split_types_list] splits [inner], joined with a comma
    and a space. *)
Theorem generic_maps_arguments :
  forall (base inner : string)
         (container_fqn container_simple : option string),
    Py.nonempty base = true ->
    Py.str_all is_name_char base = true ->
    mem base ["Nullable"; "System.Nullable"] = false ->
    inner <> "" -> Py.contains inner LF = false ->
    map_dotnet_to_python (base +:+ "{" +:+ inner +:+ "}")
      container_fqn container_simple
    = py_base_of base +:+ "["
      +:+ Py.join ", "
            (List.map
               (fun p =>
                  map_dotnet_to_python p container_fqn container_simple)
               (split_types_list inner))
      +:+ "]".
Proof. intros base inner cf cs. apply TypeLaws.map_generic_any. Qed.

Lemma generic_maps_arguments_witness :
  map_dotnet_to_python
    ("My.Pair" +:+ "{" +:+ "System.String, Mesh[]" +:+ "}")
    (Some "Rhino.Geometry.Mesh") (Some "Mesh")
  = py_base_of "My.Pair" +:+ "["
    +:+ Py.join ", "
          (List.map
             (fun p =>
                map_dotnet_to_python p (Some "Rhino.Geometry.Mesh")
                  (Some "Mesh"))
             (split_types_list "System.String, Mesh[]"))
    +:+ "]".
Proof.
  apply (generic_maps_arguments "My.Pair" "System.String, Mesh[]"
           (Some "Rhino.Geometry.Mesh") (Some "Mesh"));
    [reflexivity | reflexivity | reflexivity | discriminate | reflexivity].
Defined.

(** A plain name (word characters and dots only) is mapped by the alias
    table when it is one of its keys; otherwise, when it is the simple name of
    the container, it becomes the full name of the container (or stays, when
    that is missing or empty); otherwise it is kept as it is. *)
Theorem plain_name_mapping :
  forall (t : string) (container_fqn container_simple : option string),
    Py.str_all is_name_char t = true ->
    map_dotnet_to_python t container_fqn container_simple
    = match dict_get aliases t with
      | Some a => a
      | None =>
          if Py.truthy container_simple && opt_eqb t container_simple
          then Py.fmt (Py.or_else container_fqn (Some t))
          else t
      end.
Proof. intros t cf cs. apply TypeLaws.map_name. Qed.

Lemma plain_name_mapping_witness :
  map_dotnet_to_python "ColorHSL" (Some "Rhino.Display.ColorHSL")
    (Some "ColorHSL")
  = "Rhino.Display.ColorHSL"
  /\ map_dotnet_to_python "Rhino.Display.ColorLCH"
       (Some "Rhino.Display.ColorHSL") (Some "ColorHSL")
     = "Rhino.Display.ColorLCH".
Proof.
  split.
  - apply (plain_name_mapping "ColorHSL" (Some "Rhino.Display.ColorHSL")
             (Some "ColorHSL")). reflexivity.
  - apply (plain_name_mapping "Rhino.Display.ColorLCH"
             (Some "Rhino.Display.ColorHSL") (Some "ColorHSL")). reflexivity.
Defined.

(** * Further properties of the block-anchored extractor *)

(** ** Lines *)

Module LineFacts.

Import PyFacts NormFacts PageFacts MoreStrings.

Lemma line_break_is_space (c : ascii) :
  Py.is_line_break c = true -> Py.is_space c = true.
Proof.
  destruct c as [[] [] [] [] [] [] [] []]; vm_compute; congruence.
Qed.

Lemma splitlines_from_cons (after_cr : bool) (cur : string) (c : ascii)
    (r : string) :
  Py.splitlines_from after_cr cur (String c r)
  = if after_cr && Ascii.eqb c (Py.chr 10)
    then Py.splitlines_from false cur r
    else if Py.is_line_break c
    then cur :: Py.splitlines_from (Ascii.eqb c (Py.chr 13)) "" r
    else Py.splitlines_from false (cur +:+ String c "") r.
Proof. reflexivity. Qed.

(** A text that goes on after characters of a line has a first line. *)
Lemma splitlines_from_nonempty (s : string) :
  forall cur, cur <> "" -> Py.splitlines_from false cur s <> [].
Proof.
  induction s as [|c s IH]; intros cur Hc.
  - simpl. apply nonempty_true in Hc. now rewrite Hc.
  - rewrite splitlines_from_cons. cbn [andb].
    destruct (Py.is_line_break c); [discriminate|].
    apply IH. now destruct cur.
Qed.

(** A text without ends of lines is one line. *)
Lemma splitlines_from_one (s : string) :
  Py.str_any Py.is_line_break s = false ->
  forall cur, cur +:+ s <> "" ->
    Py.splitlines_from false cur s = [cur +:+ s].
Proof.
  induction s as [|c s IH]; intros H cur Hne.
  - rewrite app_nil_r in *. simpl. apply nonempty_true in Hne.
    now rewrite Hne.
  - rewrite str_any_cons in H. apply orb_false_iff in H as [Hc H].
    rewrite splitlines_from_cons, Hc. cbn [andb].
    rewrite IH; [now rewrite app_assoc | exact H |].
    rewrite app_assoc. exact Hne.
Qed.

Lemma splitlines_one (s : string) :
  Py.str_any Py.is_line_break s = false -> s <> "" ->
  Py.splitlines s = [s].
Proof. intros H Hne. now apply (splitlines_from_one s H ""). Qed.

(** The lines have no ends of lines in them. *)
Lemma splitlines_from_lines (s : string) :
  forall after_cr cur,
    Py.str_any Py.is_line_break cur = false ->
    List.Forall (fun ln => Py.str_any Py.is_line_break ln = false)
      (Py.splitlines_from after_cr cur s).
Proof.
  induction s as [|c s IH]; intros after_cr cur Hc.
  - simpl. destruct (Py.nonempty cur); repeat constructor. exact Hc.
  - rewrite splitlines_from_cons.
    destruct (after_cr && Ascii.eqb c (Py.chr 10)); [now apply IH|].
    destruct (Py.is_line_break c) eqn:E.
    + constructor; [exact Hc | now apply IH].
    + apply IH. rewrite str_any_app, Hc. simpl. now rewrite E.
Qed.

Lemma splitlines_lines (s : string) :
  List.Forall (fun ln => Py.str_any Py.is_line_break ln = false)
    (Py.splitlines s).
Proof. now apply splitlines_from_lines. Qed.

(** A text of white space only has no line that is not blank. *)
Lemma splitlines_from_blank (s : string) :
  Py.str_all Py.is_space s = true ->
  forall after_cr cur,
    Py.str_all Py.is_space cur = true ->
    List.Forall (fun ln => Py.str_all Py.is_space ln = true)
      (Py.splitlines_from after_cr cur s).
Proof.
  induction s as [|c s IH]; intros H after_cr cur Hc.
  - simpl. destruct (Py.nonempty cur); repeat constructor. exact Hc.
  - simpl in H. apply andb_true_iff in H as [Hs H].
    rewrite splitlines_from_cons.
    destruct (after_cr && Ascii.eqb c (Py.chr 10)); [now apply IH|].
    destruct (Py.is_line_break c) eqn:E.
    + constructor; [exact Hc | now apply IH].
    + apply IH; [exact H|]. rewrite str_all_app, Hc. simpl. now rewrite Hs.
Qed.

Lemma stripped_lines_blank (s : string) :
  Py.str_all Py.is_space s = true -> stripped_lines s = [].
Proof.
  intros H. unfold stripped_lines.
  assert (B : List.Forall (fun ln => Py.str_all Py.is_space ln = true)
                (Py.splitlines s)) by now apply splitlines_from_blank.
  induction B as [|ln l Hl _ IH]; [reflexivity|].
  simpl. rewrite (strip_blank _ Hl). exact IH.
Qed.

End LineFacts.

(** ** The signature line *)

Module SignatureFacts.

Import PyFacts NormFacts PageFacts MoreStrings LineFacts.

Lemma sig_param_step_ok (params : list (string * option string)) (p : string) :
  exists params', sig_param_step params p = Ok params'.
Proof.
  unfold sig_param_step. destruct (Py.nonempty p); cbn [negb]; [|eauto].
  destruct (Py.contains p "=") eqn:E; [|eauto].
  destruct (unpack2_split1 _ _ E) as (a & b & ->). rewrite bind_ok. eauto.
Qed.

Lemma sig_param_loop_ok (parts : list string) :
  forall params, exists params', sig_param_loop params parts = Ok params'.
Proof.
  induction parts as [|p parts IH]; intros params; simpl; [eauto|].
  destruct (sig_param_step_ok params p) as [params' ->]. rewrite bind_ok.
  apply IH.
Qed.

(** What [parse_signature] does after it has the first line. *)
Lemma after_first_line_ok (line : string) :
  exists name params,
    match match_signature line with
    | None => Ok (None, [])
    | Some (name, params_raw) =>
        params ←
          (if Py.nonempty params_raw
           then sig_param_loop [] (sig_parts_of params_raw)
           else Ok []);
        Ok (Some name, params)
    end = Ok (name, params)
    /\ match name with
       | Some n => is_identifier n = true
       | None => params = []
       end.
Proof.
  destruct (match_signature line) as [[name raw]|] eqn:E.
  2:{ exists None, []. split; reflexivity. }
  assert (Hn : is_identifier name = true).
  { unfold match_signature in E.
    destruct (Py.lstrip line) as [|c r]; [discriminate|].
    destruct (Py.is_alpha c || Ascii.eqb c "_") eqn:Hc; [|discriminate].
    cbv zeta in E.
    destruct (Py.lstrip _) as [|p inner]; [discriminate|].
    destruct (_ && _); [|discriminate].
    destruct (Py.contains _ LF); [discriminate|].
    injection E as <- _. unfold is_identifier. rewrite Hc. cbn [andb].
    apply SampleShape.str_all_before_dollar.
    clear. induction r as [|x r IH]; [reflexivity|]. simpl.
    destruct (Py.is_word x) eqn:Hx; [|reflexivity]. simpl. now rewrite Hx. }
  destruct (Py.nonempty raw).
  - destruct (sig_param_loop_ok (sig_parts_of raw) []) as [params ->].
    rewrite bind_ok. exists (Some name), params. now split.
  - rewrite bind_ok. exists (Some name), []. now split.
Qed.

Lemma replace_keeps_head (c : ascii) (r old new : string) :
  Py.startswith (String c r) old = false ->
  Py.replace (String c r) old new = String c (Py.replace_from old new 0 r).
Proof. intros H. unfold Py.replace. now rewrite replace_from_cons, H. Qed.

(** The first line of a text that is not blank. *)
Lemma first_line_ok (s : string) :
  Py.strip s <> "" ->
  exists line,
    Py.item (Py.splitlines (Py.replace (Py.strip s) CR "")) 0 = Ok line.
Proof.
  intros H. destruct (Py.strip s) as [|c r] eqn:E; [congruence|].
  assert (Hc : Py.is_space c = false).
  { unfold Py.strip, Py.rstrip in E.
    destruct (Py.lstrip s) as [|c' r'] eqn:El; [discriminate|].
    assert (Py.is_space c' = false) by (eapply lstrip_by_head; exact El).
    rewrite rstrip_by_cons_keep in E by assumption. now injection E as <- _. }
  rewrite replace_keeps_head.
  2:{ unfold CR. rewrite startswith_cons.
      destruct (Ascii.eqb (Py.chr 13) c) eqn:Ec; [|reflexivity].
      apply Ascii.eqb_eq in Ec. subst c. discriminate Hc. }
  unfold Py.splitlines. rewrite splitlines_from_cons. cbn [andb].
  destruct (Py.is_line_break c) eqn:Eb.
  { apply line_break_is_space in Eb. congruence. }
  destruct (Py.splitlines_from false ("" +:+ String c "") _) as [|x l] eqn:Es.
  - exfalso. revert Es. now apply splitlines_from_nonempty.
  - exists x. reflexivity.
Qed.

Lemma parse_signature_blank (s : string) :
  Py.strip s = "" -> parse_signature s = Raise IndexError.
Proof. intros H. unfold parse_signature. now rewrite H. Qed.

Lemma parse_signature_ok (s : string) :
  Py.strip s <> "" ->
  exists name params,
    parse_signature s = Ok (name, params)
    /\ match name with
       | Some n => is_identifier n = true
       | None => params = []
       end.
Proof.
  intros H. unfold parse_signature.
  destruct (first_line_ok s H) as [line ->]. rewrite bind_ok.
  apply after_first_line_ok.
Qed.

End SignatureFacts.

(** ** Signatures that are written from their parts *)

Module WrittenFacts.

Import PyFacts NormFacts PageFacts MoreStrings LineFacts SignatureFacts Written.

Lemma value_char_cases (c : ascii) :
  value_char c = true ->
  Py.is_space c = false /\ Ascii.eqb c "(" = false
  /\ Ascii.eqb c ")" = false /\ Ascii.eqb c "," = false.
Proof.
  unfold value_char. intros H. apply andb_true_iff in H as [H1 H2].
  apply negb_true_iff in H1, H2. cbn [List.existsb] in H2.
  apply orb_false_iff in H2 as [Ha H2]. apply orb_false_iff in H2 as [Hb H2].
  apply orb_false_iff in H2 as [Hc _]. auto.
Qed.

Lemma param_name_char_value (c : ascii) :
  param_name_char c = true -> value_char c = true.
Proof. unfold param_name_char. intros H. now apply andb_true_iff in H. Qed.

Lemma value_no_space (s : string) :
  Py.str_all value_char s = true -> Py.str_any Py.is_space s = false.
Proof. apply str_all_none. intros c H. now apply value_char_cases in H. Qed.

(** What is written for a parameter: not empty, made of the characters of
    a default. *)
Lemma written_param_chars (p : string * option string) :
  simple_param p = true ->
  written_param p <> "" /\ Py.str_all value_char (written_param p) = true.
Proof.
  destruct p as [n [d|]]; unfold simple_param, written_param; intros H.
  - apply andb_true_iff in H as [H Hd]. apply andb_true_iff in H as [Hn Hc].
    apply andb_true_iff in Hd as [Hdn Hdc].
    split.
    + apply app_nonempty_l. now apply nonempty_true.
    + rewrite !str_all_app, Hdc.
      rewrite (str_all_impl _ _ _ param_name_char_value Hc). reflexivity.
  - apply andb_true_iff in H as [H _]. apply andb_true_iff in H as [Hn Hc].
    split; [now apply nonempty_true|].
    exact (str_all_impl _ _ _ param_name_char_value Hc).
Qed.

(** *** The loop over the characters *)

Lemma sig_step_plain (st : sig_state) (c : ascii) :
  value_char c = true ->
  sig_step st c
  = SigState (sig_parts st) (sig_buf st +:+ String c "") (sig_depth st).
Proof.
  intros H. apply value_char_cases in H as (_ & Ha & Hb & Hc).
  unfold sig_step. now rewrite Ha, Hb, Hc.
Qed.

Lemma sig_loop_plain (x : string) :
  Py.str_all value_char x = true ->
  forall ps b n,
    sig_loop (SigState ps b n) x = SigState ps (b +:+ x) n.
Proof.
  induction x as [|c x IH]; intros H ps b n.
  - now rewrite app_nil_r.
  - simpl in H. apply andb_true_iff in H as [Hc H].
    simpl sig_loop. rewrite (sig_step_plain _ _ Hc). simpl.
    rewrite (IH H). now rewrite app_assoc.
Qed.

Lemma sig_loop_app (a b : string) :
  forall st, sig_loop st (a +:+ b) = sig_loop (sig_loop st a) b.
Proof. induction a as [|c a IH]; intros st; [reflexivity|]. simpl. apply IH. Qed.

(** A token after white space, trimmed. *)
Lemma strip_token (b x : string) :
  Py.str_all Py.is_space b = true ->
  Py.str_all value_char x = true ->
  Py.strip (b +:+ x) = x.
Proof.
  intros Hb Hx. rewrite <- (app_nil_r x) at 1.
  rewrite (TypeLaws.strip_pad b x "" Hb eq_refl).
  apply strip_no_space. now apply value_no_space.
Qed.

Lemma sig_loop_cons (st : sig_state) (c : ascii) (r : string) :
  sig_loop st (String c r) = sig_loop (sig_step st c) r.
Proof. reflexivity. Qed.

Lemma sig_step_comma (ps : list string) (b : string) :
  sig_step (SigState ps b 0) "," = SigState (ps ++ [Py.strip b]) "" 0.
Proof. reflexivity. Qed.

Lemma sig_step_space (ps : list string) (b : string) (n : nat) :
  sig_step (SigState ps b n) " " = SigState ps (b +:+ " ") n.
Proof. reflexivity. Qed.

Lemma sig_loop_join (items : list string) :
  items <> [] ->
  List.Forall (fun x => Py.str_all value_char x = true) items ->
  forall ps b,
    Py.str_all Py.is_space b = true ->
    exists b',
      Py.str_all Py.is_space b' = true
      /\ sig_loop (SigState ps b 0) (Py.join ", " items)
         = SigState (ps ++ List.removelast items)
             (b' +:+ List.last items "") 0.
Proof.
  induction items as [|x items IH]; intros Hne H ps b Hb; [congruence|].
  inversion H as [|? ? Hx Hitems]; subst.
  destruct items as [|y l].
  - exists b. split; [exact Hb|]. simpl Py.join.
    rewrite (sig_loop_plain x Hx). simpl. now rewrite List.app_nil_r.
  - rewrite SplitFacts.join_cons by discriminate.
    rewrite sig_loop_app, (sig_loop_plain x Hx).
    set (J := Py.join ", " (y :: l)) in *.
    change (", " +:+ J) with (String "," (String " " J)).
    rewrite !sig_loop_cons, sig_step_comma, sig_step_space.
    rewrite (strip_token b x Hb Hx).
    destruct (IH ltac:(discriminate) Hitems (ps ++ [x]) ("" +:+ " ") eq_refl)
      as (b' & Hb' & E).
    exists b'. split; [exact Hb'|]. rewrite E.
    change (List.removelast (x :: y :: l)) with (x :: List.removelast (y :: l)).
    change (List.last (x :: y :: l) "") with (List.last (y :: l) "").
    now rewrite <- List.app_assoc.
Qed.

Lemma sig_parts_of_join (items : list string) :
  List.Forall
    (fun x => x <> "" /\ Py.str_all value_char x = true) items ->
  sig_parts_of (Py.join ", " items) = items.
Proof.
  intros H. destruct items as [|x l] eqn:E; [reflexivity|]. rewrite <- E in *.
  assert (Hne : items <> []) by (rewrite E; discriminate).
  assert (Hc : List.Forall (fun x => Py.str_all value_char x = true) items)
    by (revert H; apply List.Forall_impl; tauto).
  unfold sig_parts_of.
  destruct (sig_loop_join items Hne Hc [] "" eq_refl) as (b' & Hb' & ->).
  cbn [sig_buf sig_parts List.app].
  assert (Hl : List.last items "" <> ""
               /\ Py.str_all value_char (List.last items "") = true).
  { rewrite List.Forall_forall in H. apply H.
    destruct (List.exists_last Hne) as (l' & z & ->).
    rewrite List.last_last. apply List.in_or_app. right. now left. }
  destruct Hl as [Hl1 Hl2].
  assert (Hb : Py.nonempty (b' +:+ List.last items "") = true).
  { apply nonempty_true. intros Hb. apply Hl1.
    destruct b'; [exact Hb | discriminate Hb]. }
  rewrite Hb, (strip_token _ _ Hb' Hl2).
  symmetry. now apply List.app_removelast_last.
Qed.

(** *** The loop over the parts *)

Lemma sig_param_step_written (acc : list (string * option string))
    (p : string * option string) :
  simple_param p = true ->
  sig_param_step acc (written_param p) = Ok (acc ++ [p]).
Proof.
  intros H. destruct (written_param_chars p H) as [Hne _].
  unfold sig_param_step. apply nonempty_true in Hne. rewrite Hne.
  cbn [negb]. destruct p as [n [d|]]; unfold simple_param in H.
  - apply andb_true_iff in H as [H Hd]. apply andb_true_iff in H as [_ Hc].
    apply andb_true_iff in Hd as [_ Hdc].
    assert (He : Py.contains n "=" = false).
    { rewrite contains_char. revert Hc. apply str_all_none.
      intros c Hc. unfold param_name_char in Hc.
      apply andb_true_iff in Hc as [_ Hc]. apply negb_true_iff in Hc.
      now rewrite Ascii.eqb_sym. }
    unfold written_param. rewrite contains_mid.
    change (n +:+ "=" +:+ d) with (n +:+ String "=" d).
    rewrite (split1_found _ _ _ (IdFacts.find_char "=" n d He)).
    rewrite take_app_length, IdFacts.drop_past_char. simpl Py.unpack2.
    rewrite bind_ok. cbv beta iota.
    rewrite (strip_no_space n), (strip_no_space d); [reflexivity| |].
    + now apply value_no_space.
    + apply value_no_space.
      exact (str_all_impl _ _ _ param_name_char_value Hc).
  - apply andb_true_iff in H as [H _]. apply andb_true_iff in H as [_ Hc].
    unfold written_param.
    assert (He : Py.contains n "=" = false).
    { rewrite contains_char. revert Hc. apply str_all_none.
      intros c Hc. unfold param_name_char in Hc.
      apply andb_true_iff in Hc as [_ Hc]. apply negb_true_iff in Hc.
      now rewrite Ascii.eqb_sym. }
    rewrite He, strip_no_space; [reflexivity|].
    apply value_no_space. exact (str_all_impl _ _ _ param_name_char_value Hc).
Qed.

Lemma sig_param_loop_written (params : list (string * option string)) :
  List.Forall (fun p => simple_param p = true) params ->
  forall acc,
    sig_param_loop acc (List.map written_param params) = Ok (acc ++ params).
Proof.
  induction 1 as [|p params Hp _ IH]; intros acc.
  - simpl. now rewrite List.app_nil_r.
  - simpl. rewrite (sig_param_step_written acc p Hp), bind_ok, IH.
    now rewrite <- List.app_assoc.
Qed.

(** *** The line *)

Lemma replace_absent (c0 : ascii) (new s : string) :
  Py.str_any (Ascii.eqb c0) s = false -> Py.replace s (String c0 "") new = s.
Proof.
  unfold Py.replace. induction s as [|c s IH]; intros H; [reflexivity|].
  rewrite str_any_cons in H. apply orb_false_iff in H as [Hc H].
  rewrite replace_from_cons, startswith_cons, Hc. cbn [andb].
  now rewrite (IH H).
Qed.

Lemma no_space_no_break (s : string) :
  Py.str_any Py.is_space s = false -> Py.str_any Py.is_line_break s = false.
Proof. apply str_any_impl, line_break_is_space. Qed.

Lemma identifier_parts (name : string) :
  is_identifier name = true -> Py.str_any Py.is_space name = false ->
  exists c r,
    name = String c r /\ Py.is_alpha c || Ascii.eqb c "_" = true
    /\ Py.str_all Py.is_word r = true /\ Py.is_space c = false.
Proof.
  intros Hi Hs. destruct name as [|c r]; [discriminate|].
  rewrite str_any_cons in Hs. apply orb_false_iff in Hs as [Hc Hr].
  unfold is_identifier in Hi. apply andb_true_iff in Hi as [Ha Hw].
  exists c, r. repeat split; auto.
  unfold before_dollar in Hw. destruct (Py.endswith r LF) eqn:E; [|exact Hw].
  exfalso. apply endswith_char in E. apply last_char_decomp in E as [a ->].
  rewrite str_any_app in Hr. apply orb_false_iff in Hr as [_ Hr].
  discriminate Hr.
Qed.

Lemma join_no_space_break (items : list string) :
  List.Forall (fun x => Py.str_all value_char x = true) items ->
  Py.str_any Py.is_line_break (Py.join ", " items) = false.
Proof.
  intros H. apply absent_join; [reflexivity|].
  revert H. apply List.Forall_impl. intros x Hx.
  now apply no_space_no_break, value_no_space.
Qed.

Lemma join_first (sep x : string) (l : list string) :
  exists rest, Py.join sep (x :: l) = x +:+ rest.
Proof.
  destruct l as [|y l]; [exists ""; now rewrite app_nil_r|].
  exists (sep +:+ Py.join sep (y :: l)). reflexivity.
Qed.

Lemma join_last (sep : string) (items : list string) :
  items <> [] ->
  exists pre, Py.join sep items = pre +:+ List.last items "".
Proof.
  induction items as [|x items IH]; intros Hne; [congruence|].
  destruct items as [|y l]; [now exists ""|].
  destruct IH as [pre E]; [discriminate|].
  exists (x +:+ sep +:+ pre).
  change (Py.join sep (x :: y :: l)) with (x +:+ sep +:+ Py.join sep (y :: l)).
  rewrite E. change (List.last (x :: y :: l) "") with (List.last (y :: l) "").
  now rewrite !app_assoc.
Qed.

(** The written parameters, joined, have no white space at the ends. *)
Lemma strip_join_items (items : list string) :
  List.Forall
    (fun x => x <> "" /\ Py.str_all value_char x = true) items ->
  Py.strip (Py.join ", " items) = Py.join ", " items.
Proof.
  intros H. destruct items as [|x l] eqn:E; [reflexivity|]. rewrite <- E in *.
  assert (Hne : items <> []) by (rewrite E; discriminate).
  destruct (join_last ", " items Hne) as [pre Hl].
  assert (Hlast : List.last items "" <> ""
                  /\ Py.str_all value_char (List.last items "") = true).
  { rewrite List.Forall_forall in H. apply H.
    destruct (List.exists_last Hne) as (l' & z & ->).
    rewrite List.last_last. apply List.in_or_app. right. now left. }
  destruct Hlast as [Hl1 Hl2].
  destruct (snoc_decomp _ Hl1) as (a & d & Ed).
  assert (Hd : Py.is_space d = false).
  { rewrite Ed, str_all_app in Hl2. apply andb_true_iff in Hl2 as [_ Hl2].
    simpl in Hl2. rewrite andb_true_r in Hl2.
    now apply value_char_cases in Hl2. }
  assert (Hx : x <> "" /\ Py.str_all value_char x = true).
  { rewrite List.Forall_forall in H. apply H. rewrite E. now left. }
  destruct Hx as [Hx1 Hx2]. destruct x as [|c x]; [congruence|].
  assert (Hc : Py.is_space c = false).
  { simpl in Hx2. apply andb_true_iff in Hx2 as [Hx2 _].
    now apply value_char_cases in Hx2. }
  assert (Ef : exists rest, Py.join ", " items = String c x +:+ rest)
    by (rewrite E; apply join_first).
  destruct Ef as [rest Ef].
  apply (strip_id _ c d (x +:+ rest)).
  - exact Ef.
  - exact Hc.
  - rewrite Hl, Ed, <- app_assoc. apply last_char_snoc.
  - exact Hd.
Qed.

Lemma match_written (c : ascii) (r P : string) :
  Py.is_alpha c || Ascii.eqb c "_" = true ->
  Py.str_all Py.is_word r = true -> Py.is_space c = false ->
  Py.strip P = P -> Py.str_any Py.is_line_break P = false ->
  match_signature (String c r +:+ "(" +:+ P +:+ ")") = Some (String c r, P).
Proof.
  intros Ha Hw Hc Hp Hb. unfold match_signature.
  change (String c r +:+ "(" +:+ P +:+ ")")
    with (String c (r +:+ String "(" (P +:+ ")"))).
  unfold Py.lstrip at 1. rewrite (lstrip_by_id _ _ _ Hc), Ha.
  rewrite (take_while_app _ r "(" _ Hw) by reflexivity. cbv zeta.
  change (String c (r +:+ String "(" (P +:+ ")")))
    with (String c r +:+ String "(" (P +:+ ")")).
  rewrite drop_app_length.
  unfold Py.lstrip. rewrite lstrip_by_id by reflexivity.
  rewrite Ascii.eqb_refl. cbn [andb].
  unfold Py.rstrip. rewrite rstrip_by_snoc by reflexivity.
  rewrite (endswith_app P ")" ")") by reflexivity. simpl String.eqb. cbv iota.
  rewrite (drop_last_app P ")" 1 eq_refl), Hp.
  assert (Hlf : Py.contains P LF = false).
  { unfold LF. rewrite contains_char. revert Hb. apply str_any_impl.
    intros x Hx. apply Ascii.eqb_eq in Hx. now subst x. }
  now rewrite Hlf.
Qed.

Lemma parse_written_call (name : string)
    (params : list (string * option string)) :
  is_identifier name = true -> Py.str_any Py.is_space name = false ->
  List.Forall (fun p => simple_param p = true) params ->
  parse_signature (written_call name params) = Ok (Some name, params).
Proof.
  intros Hi Hs Hp.
  destruct (identifier_parts name Hi Hs) as (c & r & -> & Ha & Hw & Hc).
  set (items := List.map written_param params).
  assert (Hitems : List.Forall
            (fun x => x <> "" /\ Py.str_all value_char x = true) items).
  { unfold items. apply List.Forall_forall. intros x Hx.
    apply List.in_map_iff in Hx as (p & <- & Hin).
    rewrite List.Forall_forall in Hp. now apply written_param_chars, Hp. }
  assert (Hchars : List.Forall (fun x => Py.str_all value_char x = true) items)
    by (revert Hitems; apply List.Forall_impl; tauto).
  set (P := Py.join ", " items).
  assert (HP : Py.strip P = P) by now apply strip_join_items.
  assert (HPb : Py.str_any Py.is_line_break P = false)
    by now apply join_no_space_break.
  unfold written_call. fold items. fold P.
  set (text := String c r +:+ "(" +:+ P +:+ ")").
  assert (Hb : Py.str_any Py.is_line_break text = false).
  { unfold text. rewrite !str_any_app, HPb, (no_space_no_break _ Hs).
    reflexivity. }
  assert (Hst : Py.strip text = text).
  { apply (strip_id text c ")" (r +:+ "(" +:+ P +:+ ")")); auto.
    unfold text. rewrite <- !app_assoc. apply last_char_snoc. }
  unfold parse_signature. rewrite Hst. unfold CR.
  rewrite replace_absent.
  2:{ revert Hb. apply str_any_impl. intros x Hx.
      apply Ascii.eqb_eq in Hx. now subst x. }
  rewrite (splitlines_one text Hb) by discriminate.
  rewrite IdFacts.item_head, bind_ok.
  unfold text. rewrite (match_written c r P Ha Hw Hc HP HPb).
  destruct (Py.nonempty P) eqn:En.
  - unfold P. rewrite (sig_parts_of_join items Hitems). unfold items.
    rewrite (sig_param_loop_written params Hp []). now rewrite bind_ok.
  - rewrite bind_ok. apply nonempty_false in En.
    destruct params as [|p l]; [reflexivity|]. exfalso. revert En.
    apply join_nonempty; [discriminate|].
    revert Hitems. apply List.Forall_impl. tauto.
Qed.

End WrittenFacts.

(** ** More on [map_type] *)

Module MapperFacts.

Import PyFacts NormFacts PageFacts MoreStrings RssFacts.

(** *** Case and white space *)

Lemma lower_char_space (c : ascii) :
  Py.is_space (Py.lower_char c) = Py.is_space c.
Proof. destruct c as [[] [] [] [] [] [] [] []]; reflexivity. Qed.

Lemma lower_char_idem (c : ascii) :
  Py.lower_char (Py.lower_char c) = Py.lower_char c.
Proof. destruct c as [[] [] [] [] [] [] [] []]; reflexivity. Qed.

Lemma lower_idem (s : string) : Py.lower (Py.lower s) = Py.lower s.
Proof.
  unfold Py.lower. induction s as [|c s IH]; [reflexivity|].
  simpl. now rewrite lower_char_idem, IH.
Qed.

Lemma lstrip_by_map (p : ascii -> bool) (f : ascii -> ascii) (s : string) :
  (forall c, p (f c) = p c) ->
  Py.lstrip_by p (Py.str_map f s) = Py.str_map f (Py.lstrip_by p s).
Proof.
  intros Hf. induction s as [|c s IH]; [reflexivity|].
  simpl. rewrite Hf. now destruct (p c).
Qed.

Lemma rstrip_by_map (p : ascii -> bool) (f : ascii -> ascii) (s : string) :
  (forall c, p (f c) = p c) ->
  Py.rstrip_by p (Py.str_map f s) = Py.str_map f (Py.rstrip_by p s).
Proof.
  intros Hf. induction s as [|c s IH]; [reflexivity|].
  simpl. rewrite IH, Hf.
  destruct (Py.rstrip_by p s); [now destruct (p c) | reflexivity].
Qed.

Lemma strip_lower (s : string) : Py.strip (Py.lower s) = Py.lower (Py.strip s).
Proof.
  unfold Py.strip, Py.lstrip, Py.rstrip, Py.lower.
  rewrite lstrip_by_map by apply lower_char_space.
  now rewrite rstrip_by_map by apply lower_char_space.
Qed.

Section Known.

Variable py : Py.interpreter.
Variable base_map : list (string * string).
Hypothesis known_map : base_map = dn_map \/ base_map = py_map.

Lemma map_type_normalized (a b : string) :
  normalized a = normalized b ->
  map_type py base_map a = map_type py base_map b.
Proof.
  intros H. rewrite !(map_type_call py base_map known_map).
  unfold call_of. now rewrite H.
Qed.

Lemma map_type_caseless (a b : string) :
  Py.lower (Py.strip a) = Py.lower (Py.strip b) ->
  map_type py base_map a = map_type py base_map b.
Proof.
  intros H. apply map_type_normalized. now rewrite !normalized_eq, H.
Qed.

(** *** The labels that [map_type] returns *)

(** The labels are not empty and none is an [Optional[...]]. *)
Lemma value_plain (k l : string) :
  dict_get base_map k = Some l -> (Py.nonempty l = true /\ Py.startswith l "Optional[" = false).
Proof.
  intros H. apply dict_get_in in H.
  destruct known_map as [-> | ->]; simpl in H;
    repeat (destruct H as [H|H]; [injection H as <- <-; now split|]);
    contradiction.
Qed.

Lemma first_resolved_value (parts : list string) (mt : string) :
  first_resolved base_map parts = Some mt ->
  exists k, dict_get base_map k = Some mt.
Proof.
  induction parts as [|p parts IH]; [discriminate|]. simpl.
  destruct (dict_get base_map p) as [v|] eqn:E; [|exact IH].
  destruct (Py.nonempty v); [|exact IH].
  intros H. injection H as <-. eauto.
Qed.

Lemma heuristics_plain (t l : string) :
  heuristics base_map t = Some l -> (Py.nonempty l = true /\ Py.startswith l "Optional[" = false).
Proof.
  unfold heuristics.
  repeat (match goal with
          | |- (if ?b then _ else _) = _ -> _ =>
              destruct b; [apply value_plain|]
          end).
  intros H. injection H as <-. now split.
Qed.

Lemma const_plain (label r : string) :
  call_of base_map label = Const r -> (Py.nonempty r = true /\ Py.startswith r "Optional[" = false).
Proof.
  unfold call_of.
  destruct (negb (Py.nonempty (normalized label)));
    [intros H; injection H as <-; now split|].
  destruct (Py.contains (normalized label) " or ").
  { destruct (first_resolved base_map _) as [mt|] eqn:E; [|discriminate].
    intros H. injection H as <-.
    destruct (first_resolved_value _ _ E) as [k Hk].
    now apply (value_plain k). }
  destruct (_ || _); [discriminate|].
  destruct (Py.startswith (normalized label) "tuple of ").
  { destruct (match_tuple_count _) as [[d b]|]; [discriminate|].
    intros H. injection H as <-. now split. }
  destruct (dict_get base_map (normalized label)) as [v|] eqn:E.
  { intros H. injection H as <-. now apply (value_plain _ _ E). }
  destruct (Py.contains (normalized label) ","); [discriminate|].
  destruct (_ && _).
  { intros H. injection H as <-. split; reflexivity. }
  destruct (heuristics_some base_map known_map (normalized label))
    as (l & Hl & _).
  rewrite Hl. simpl. intros H. injection H as <-.
  now apply (heuristics_plain _ _ Hl).
Qed.

(** Whatever [map_type] returns is a label of this kind. *)
Lemma map_type_returns_plain (label : string) (r : option string) :
  map_type py base_map label = Ok r ->
  exists l,
    r = Some l /\ Py.nonempty l = true
    /\ Py.startswith l "Optional[" = false.
Proof.
  remember (String.length label) as n eqn:Hn.
  revert label r Hn. induction n as [n IH] using lt_wf_ind.
  intros label r ->.
  rewrite (map_type_call py base_map known_map).
  pose proof (call_shorter base_map label) as Hs.
  destruct (call_of base_map label) as [r0|x|x|x digits] eqn:E; simpl.
  - intros H. injection H as <-. exists r0. split; [reflexivity|].
    now apply (const_plain label).
  - apply (IH (String.length x)); [apply Hs|]; reflexivity.
  - destruct (map_type py base_map x) as [r'|e]; [|discriminate].
    simpl. intros H. injection H as <-. eexists. split; [reflexivity|].
    now split.
  - destruct (Py.int_of_digits py digits) as [k|e]; [|discriminate].
    simpl. destruct (map_type py base_map x) as [r'|e]; [|discriminate].
    simpl. destruct (join_repeated py r' k) as [items|e]; [|discriminate].
    simpl. intros H. injection H as <-. eexists. split; [reflexivity|].
    now split.
Qed.

Lemma map_type_plain (label : string) :
  fits py base_map label ->
  exists l,
    map_type py base_map label = Ok (Some l)
    /\ (Py.nonempty l = true /\ Py.startswith l "Optional[" = false).
Proof.
  intros Hf. destruct (map_type_total py base_map known_map label Hf)
    as [l Hl].
  exists l. split; [exact Hl|].
  destruct (map_type_returns_plain label _ Hl) as (l' & E & Hp).
  injection E as ->. exact Hp.
Qed.

End Known.

End MapperFacts.

(** ** The block of the returned value *)

Module ReturnsFacts.

Import PyFacts NormFacts PageFacts MoreStrings LineFacts RssFacts MapperFacts.

Lemma split1_first (s sep : string) :
  Py.item (Py.split1 s sep) 0 = Ok (List.hd "" (Py.split1 s sep)).
Proof. unfold Py.split1. now destruct (Py.find s sep). Qed.

Lemma part_split1_hd (s sep : string) :
  part (List.hd "" (Py.split1 s sep)) s.
Proof.
  unfold Py.split1. destruct (Py.find s sep); simpl.
  - apply part_take.
  - apply part_refl.
Qed.

(** The lines of a text are parts of it. *)
Lemma splitlines_from_parts (text s : string) :
  forall (after_cr : bool) (cur pre : string),
    (after_cr = true -> cur = "") ->
    text = pre +:+ cur +:+ s ->
    List.Forall (fun ln => part ln text)
      (Py.splitlines_from after_cr cur s).
Proof.
  induction s as [|c s IH]; intros after_cr cur pre Hcr E.
  - simpl. destruct (Py.nonempty cur); constructor; [|constructor].
    exists pre, "". exact E.
  - rewrite splitlines_from_cons.
    destruct (after_cr && Ascii.eqb c (Py.chr 10)) eqn:Hskip.
    + apply andb_true_iff in Hskip as [Ha _]. rewrite (Hcr Ha) in *.
      apply (IH false "" (pre +:+ String c "")); [discriminate|].
      rewrite E. now rewrite !app_assoc.
    + destruct (Py.is_line_break c).
      * constructor; [now exists pre, (String c s)|].
        apply (IH _ "" (pre +:+ cur +:+ String c ""));
          [reflexivity|].
        rewrite E. now rewrite !app_assoc.
      * apply (IH false _ pre); [discriminate|].
        rewrite E. now rewrite !app_assoc.
Qed.

Lemma splitlines_parts (text : string) :
  List.Forall (fun ln => part ln text) (Py.splitlines text).
Proof.
  apply (splitlines_from_parts text text false "" ""); [discriminate|].
  reflexivity.
Qed.

Lemma stripped_lines_parts (text : string) :
  List.Forall (fun ln => part ln text) (stripped_lines text).
Proof.
  unfold stripped_lines. apply List.Forall_forall. intros ln Hln.
  apply List.in_map_iff in Hln as (x & <- & Hx).
  apply List.filter_In in Hx as [Hx _].
  pose proof (splitlines_parts text) as H.
  rewrite List.Forall_forall in H.
  apply part_trans with (y := x); [apply part_strip | now apply H].
Qed.

Section Total.

(** A mapper that returns a label for every token of the text. *)
Variable map_type : string -> result (option string).
Variable text : string.
Hypothesis total :
  forall x, part x text -> exists l, map_type x = Ok (Some l).

(** Once the type is set, no line changes it. *)
Lemma returns_loop_set (lines : list string) :
  List.Forall (fun ln => part ln text) lines ->
  forall (r : string) (saw : bool),
    returns_loop map_type (Some r, saw) lines
    = Ok (Some r, saw || List.existsb none_on_error lines).
Proof.
  induction 1 as [|ln lines Hln _ IH]; intros r saw.
  - simpl. now rewrite orb_false_r.
  - simpl. rewrite split1_first, bind_ok.
    destruct (total (List.hd "" (Py.split1 ln ":"))) as [l ->].
    { apply part_trans with (y := ln); [apply part_split1_hd | exact Hln]. }
    rewrite bind_ok. cbn [Py.is_none andb]. rewrite !andb_false_r.
    rewrite bind_ok, IH. simpl List.existsb.
    destruct (none_on_error ln), saw; reflexivity.
Qed.

(** The first line sets the type. *)
Lemma returns_loop_first (ln : string) (lines : list string) (l : string) :
  List.Forall (fun ln => part ln text) lines ->
  map_type (List.hd "" (Py.split1 ln ":")) = Ok (Some l) ->
  returns_loop map_type (None, false) (ln :: lines)
  = Ok (Some l, List.existsb none_on_error (ln :: lines)).
Proof.
  intros Hl H. simpl. rewrite split1_first, bind_ok, H, bind_ok.
  cbn [Py.is_none]. rewrite !andb_true_r. rewrite bind_ok.
  change (opt_eq (Some l) (Some "None")) with (String.eqb l "None").
  destruct (String.eqb l "None") eqn:El; cbn [negb Py.is_none andb].
  - apply String.eqb_eq in El. subst l. rewrite (returns_loop_set _ Hl).
    now destruct (none_on_error ln).
  - rewrite (returns_loop_set _ Hl). now destruct (none_on_error ln).
Qed.

End Total.

Lemma returns_blank (pre_text : string)
    (map_type : string -> result (option string)) :
  Py.str_all Py.is_space pre_text = true ->
  parse_returns_block pre_text map_type = Ok "None".
Proof.
  intros H. unfold parse_returns_block.
  now rewrite (stripped_lines_blank _ H).
Qed.

End ReturnsFacts.

(** ** The block of the parameters *)

Module ParamsFacts.

Import PyFacts NormFacts PageFacts MoreStrings LineFacts RssFacts MapperFacts
  ReturnsFacts.

(** *** Lines that are skipped *)

Lemma params_step_blank {L : Type} (map_type : string -> result L)
    (mapping : gmap string (entry L)) (raw_line : string) :
  Py.str_all Py.is_space raw_line = true ->
  params_step map_type mapping raw_line = Ok mapping.
Proof.
  intros H. unfold params_step.
  assert (E : Py.strip (Py.rstrip raw_line) = "").
  { unfold Py.rstrip. now rewrite (TypeLaws.rstrip_by_all _ _ H). }
  now rewrite E.
Qed.

Lemma params_loop_blank {L : Type} (map_type : string -> result L)
    (lines : list string) :
  List.Forall (fun ln => Py.str_all Py.is_space ln = true) lines ->
  forall mapping, params_loop map_type mapping lines = Ok mapping.
Proof.
  induction 1 as [|ln lines Hl _ IH]; intros mapping; [reflexivity|].
  simpl. rewrite (params_step_blank _ _ _ Hl), bind_ok. apply IH.
Qed.

Lemma params_blank {L : Type} (pre_text : string)
    (map_type : string -> result L) :
  Py.str_all Py.is_space pre_text = true ->
  parse_params_block pre_text map_type = Ok ∅.
Proof.
  intros H. unfold parse_params_block. apply params_loop_blank.
  now apply splitlines_from_blank.
Qed.

(** *** The names *)

Lemma split_from_no_comma (s : string) :
  forall cur,
    Py.str_any (Ascii.eqb ",") cur = false ->
    List.Forall (fun x => Py.str_any (Ascii.eqb ",") x = false)
      (Py.split_from "," 0 cur s).
Proof.
  induction s as [|c s IH]; intros cur Hc.
  - simpl. now constructor.
  - rewrite IdFacts.split_from_cons, startswith_cons. rewrite andb_true_r.
    destruct (Ascii.eqb "," c) eqn:E.
    + constructor; [exact Hc|]. now apply IH.
    + apply IH. rewrite str_any_app, Hc, str_any_cons, E. reflexivity.
Qed.

(** A name of the table: not empty, trimmed, without a comma. *)
Lemma names_of_keys (names_part : string) :
  List.Forall
    (fun k => k <> "" /\ Py.strip k = k /\ Py.contains k "," = false)
    (names_of names_part).
Proof.
  unfold names_of. apply List.Forall_forall. intros k Hk.
  apply List.in_map_iff in Hk as (n & <- & Hn).
  apply List.filter_In in Hn as [Hn Hne].
  split; [now apply nonempty_true|]. split; [apply strip_idem|].
  rewrite contains_char. apply absent_strip.
  pose proof (split_from_no_comma names_part "" eq_refl) as Hs.
  rewrite List.Forall_forall in Hs. now apply Hs.
Qed.

(** *** The parts of a line *)

Lemma split_first_hd (s sep : string) :
  Py.item (Py.split s sep) 0 = Ok (List.hd "" (Py.split s sep)).
Proof.
  destruct (split_from_first sep s 0 "") as [x Hx]. unfold Py.split.
  destruct (Py.split_from sep 0 "" s); [discriminate Hx | reflexivity].
Qed.

Lemma split_from_hd (sep s : string) :
  forall cur,
    exists b, cur +:+ s = List.hd "" (Py.split_from sep 0 cur s) +:+ b.
Proof.
  induction s as [|c s IH]; intros cur.
  - exists "". reflexivity.
  - rewrite IdFacts.split_from_cons.
    destruct (Py.startswith (String c s) sep).
    + now exists (String c s).
    + destruct (IH (cur +:+ String c "")) as [b Hb]. exists b.
      rewrite <- Hb. now rewrite app_assoc.
Qed.

Lemma part_split_hd (s sep : string) :
  part (List.hd "" (Py.split s sep)) s.
Proof.
  destruct (split_from_hd sep s "") as [b Hb]. exists "", b. exact Hb.
Qed.

Lemma part_rstrip (s : string) : part (Py.rstrip s) s.
Proof.
  destruct (rstrip_by_prefix Py.is_space s) as [b Hb]. now exists "", b.
Qed.

Lemma part_lstrip (s : string) : part (Py.lstrip s) s.
Proof.
  destruct (lstrip_by_suffix Py.is_space s) as [a Ha]. exists a, "".
  now rewrite app_nil_r.
Qed.

Lemma part_slice (s : string) (a : nat) (b : option nat) :
  part (Py.slice s a b) s.
Proof.
  unfold Py.slice. eapply part_trans; [apply part_take | apply part_drop].
Qed.

(** The label that [PARAM_LINE_RE] finds is a part of the line. *)
Lemma match_param_line_part (s names label : string) :
  match_param_line s = Some (names, label) -> part label s.
Proof.
  unfold match_param_line.
  pose proof (part_lstrip s) as Hl.
  destruct (Py.lstrip s) as [|c r]; [discriminate|].
  destruct (Py.is_alpha c || Ascii.eqb c "_"); [|discriminate].
  set (run := take_while is_names_char r).
  pose proof (part_drop (String.length run) r) as Hd.
  destruct (Py.drop (String.length run) r) as [|p after]; [discriminate|].
  destruct (Ascii.eqb p "("); [|discriminate].
  destruct (Py.find after ")") as [j|]; [|discriminate].
  intros H. injection H as _ <-.
  apply part_trans with (y := after); [apply part_take|].
  apply part_trans with (y := String p after);
    [apply (part_drop 1 (String p after))|].
  apply part_trans with (y := r); [exact Hd|].
  apply part_trans with (y := String c r);
    [apply (part_drop 1 (String c r)) | exact Hl].
Qed.

(** *** The assignments *)

Section Assign.

Context {L : Type}.
Variable map_type : string -> result L.

Lemma assign_names_fold (names : list string) (inner_clean : string)
    (optional : bool) (t : L) :
  map_type inner_clean = Ok t ->
  forall mapping,
    assign_names map_type mapping names inner_clean optional
    = Ok (List.fold_left (fun m nm => <[nm := Entry t optional]> m)
            names mapping).
Proof.
  intros H. induction names as [|nm names IH]; intros mapping; [reflexivity|].
  simpl. rewrite H, bind_ok. apply IH.
Qed.

Lemma fold_insert_lookup (names : list string) (e : entry L) (k : string) :
  forall mapping : gmap string (entry L),
    List.fold_left (fun m nm => <[nm := e]> m) names mapping !! k
    = if bool_decide (k ∈ names) then Some e else mapping !! k.
Proof.
  induction names as [|nm names IH]; intros mapping; [reflexivity|].
  simpl. rewrite IH.
  destruct (bool_decide (k ∈ names)) eqn:E.
  - apply bool_decide_eq_true in E.
    rewrite bool_decide_eq_true_2; [reflexivity|]. now right.
  - apply bool_decide_eq_false in E.
    destruct (decide (k = nm)) as [->|Hk].
    + rewrite lookup_insert_eq. rewrite bool_decide_eq_true_2; [reflexivity|].
      now left.
    + rewrite lookup_insert_ne by congruence.
      rewrite bool_decide_eq_false_2; [reflexivity|].
      intros Hin. apply elem_of_cons in Hin as [?|?]; contradiction.
Qed.

Lemma fold_insert_Forall (Q : string -> entry L -> Prop)
    (names : list string) (e : entry L) :
  (forall nm, In nm names -> Q nm e) ->
  forall mapping : gmap string (entry L),
    map_Forall Q mapping ->
    map_Forall Q (List.fold_left (fun m nm => <[nm := e]> m) names mapping).
Proof.
  induction names as [|nm names IH]; intros Hn mapping Hm; [exact Hm|].
  simpl. apply IH.
  - intros k Hk. apply Hn. now right.
  - apply map_Forall_insert_2; [|exact Hm]. apply Hn. now left.
Qed.

(** With a mapper that returns for every part of the text, the loop
    returns, and what holds of the names and of the results of the mapper
    holds of the whole table. *)
Variable K : string -> Prop.
Variable R : L -> Prop.
Variable text : string.
Hypothesis total :
  forall x, part x text -> exists t, map_type x = Ok t /\ R t.

Let Q (k : string) (e : entry L) : Prop := K k /\ R (entry_type e).

Lemma assign_names_inv (mapping : gmap string (entry L))
    (names : list string) (inner_clean : string) (optional : bool) :
  part inner_clean text ->
  List.Forall K names -> map_Forall Q mapping ->
  exists mapping',
    assign_names map_type mapping names inner_clean optional = Ok mapping'
    /\ map_Forall Q mapping'.
Proof.
  intros Hp Hn Hm. destruct (total inner_clean Hp) as (t & Ht & Hr).
  rewrite (assign_names_fold names inner_clean optional t Ht).
  eexists. split; [reflexivity|]. apply fold_insert_Forall; [|exact Hm].
  intros nm Hin. rewrite List.Forall_forall in Hn. split; [now apply Hn|].
  exact Hr.
Qed.

Hypothesis names_ok : forall part, List.Forall K (names_of part).

Lemma params_step_inv (mapping : gmap string (entry L)) (raw_line : string) :
  part raw_line text ->
  map_Forall Q mapping ->
  exists mapping',
    params_step map_type mapping raw_line = Ok mapping'
    /\ map_Forall Q mapping'.
Proof.
  intros Hp Hm. unfold params_step.
  assert (Hline : part (Py.rstrip raw_line) text)
    by (eapply part_trans; [apply part_rstrip | exact Hp]).
  set (line := Py.rstrip raw_line) in *.
  destruct (negb (Py.nonempty _)); [eauto|].
  destruct (_ && negb (bool_decide (mapping = ∅))); [eauto|].
  destruct (match_param_line _) as [[names_part type_label]|] eqn:Em.
  - rewrite split_first_hd, bind_ok.
    apply assign_names_inv; [|apply names_ok | exact Hm].
    apply match_param_line_part in Em.
    eapply part_trans; [apply part_strip|].
    eapply part_trans; [apply part_split_hd|].
    eapply part_trans; [exact Em|].
    eapply part_trans; [apply part_strip | exact Hline].
  - destruct (_ && _); [|eauto].
    rewrite split1_first, bind_ok. cbv beta.
    match goal with
    | |- context [Py.item (Py.split ?l "(") 0] =>
        rewrite (split_first_hd l "(")
    end.
    rewrite bind_ok. cbv beta zeta.
    match goal with
    | |- context [Py.item (Py.split ?l ",") 0] =>
        rewrite (split_first_hd l ",")
    end.
    rewrite bind_ok.
    apply assign_names_inv; [|apply names_ok | exact Hm].
    eapply part_trans; [apply part_strip|].
    eapply part_trans; [apply part_split_hd|].
    eapply part_trans; [apply part_slice|].
    eapply part_trans; [apply part_split1_hd | exact Hline].
Qed.

Lemma params_loop_inv (lines : list string) :
  List.Forall (fun ln => part ln text) lines ->
  forall mapping : gmap string (entry L),
    map_Forall Q mapping ->
    exists mapping',
      params_loop map_type mapping lines = Ok mapping'
      /\ map_Forall Q mapping'.
Proof.
  induction 1 as [|ln lines Hln _ IH]; intros mapping Hm; [simpl; eauto|].
  simpl. destruct (params_step_inv mapping ln Hln Hm) as (m1 & -> & H1).
  rewrite bind_ok. now apply IH.
Qed.

End Assign.

Lemma parse_params_block_inv {L : Type} (map_type : string -> result L)
    (R : L -> Prop) (pre_text : string) :
  (forall x, part x pre_text -> exists t, map_type x = Ok t /\ R t) ->
  exists mapping,
    parse_params_block pre_text map_type = Ok mapping
    /\ map_Forall
         (fun k e =>
            (k <> "" /\ Py.strip k = k /\ Py.contains k "," = false)
            /\ R (entry_type e)) mapping.
Proof.
  intros Ht. unfold parse_params_block.
  apply (params_loop_inv map_type _ R pre_text Ht names_of_keys).
  - apply splitlines_parts.
  - apply map_Forall_empty.
Qed.

(** *** A line that documents parameters *)

Lemma head_char_not_space (c : ascii) :
  Py.is_alpha c || Ascii.eqb c "_" = true -> Py.is_space c = false.
Proof.
  destruct c as [[] [] [] [] [] [] [] []]; vm_compute; congruence.
Qed.

Lemma rstrip_by_after (p : ascii -> bool) (a : string) (d : ascii)
    (b : string) :
  p d = false ->
  Py.rstrip_by p (a +:+ String d b) = a +:+ String d (Py.rstrip_by p b).
Proof.
  intros Hd. induction a as [|c a IH].
  - now apply rstrip_by_cons_keep.
  - change (String c a +:+ String d b) with (String c (a +:+ String d b)).
    simpl Py.rstrip_by. rewrite IH. now destruct a.
Qed.

Lemma match_param_line_written (c : ascii) (r label rest : string) :
  Py.is_alpha c || Ascii.eqb c "_" = true ->
  Py.str_all is_names_char r = true ->
  Py.contains label ")" = false ->
  match_param_line (String c r +:+ "(" +:+ label +:+ ")" +:+ rest)
  = Some (String c r, label).
Proof.
  intros Ha Hr Hl. unfold match_param_line.
  change (String c r +:+ "(" +:+ label +:+ ")" +:+ rest)
    with (String c (r +:+ String "(" (label +:+ String ")" rest))).
  unfold Py.lstrip. rewrite lstrip_by_id by now apply head_char_not_space.
  rewrite Ha. rewrite (take_while_app _ r "(" _ Hr) by reflexivity.
  cbv zeta. rewrite drop_app_length, Ascii.eqb_refl.
  rewrite (IdFacts.find_char ")" label rest Hl).
  now rewrite take_app_length.
Qed.

Lemma documented_line {L : Type} (map_type : string -> result L)
    (c : ascii) (r label rest : string) (t : L) :
  Py.is_alpha c || Ascii.eqb c "_" = true ->
  Py.str_all is_names_char r = true ->
  Py.contains label ")" = false ->
  Py.str_any Py.is_line_break
    (String c r +:+ "(" +:+ label +:+ ")" +:+ rest) = false ->
  map_type (Py.strip (List.hd "" (Py.split label ","))) = Ok t ->
  exists mapping,
    parse_params_block (String c r +:+ "(" +:+ label +:+ ")" +:+ rest)
      map_type = Ok mapping
    /\ forall k,
         mapping !! k
         = if bool_decide (k ∈ names_of (String c r))
           then Some
                  (Entry t
                     (optional_tag
                        (Py.rstrip
                           (String c r +:+ "(" +:+ label +:+ ")" +:+ rest))))
           else None.
Proof.
  intros Ha Hr Hl Hb Ht.
  set (line := String c r +:+ "(" +:+ label +:+ ")" +:+ rest) in *.
  unfold parse_params_block.
  rewrite (splitlines_one line Hb) by discriminate.
  simpl params_loop. unfold params_step.
  rewrite bool_decide_eq_true_2 by reflexivity. cbn [negb].
  rewrite andb_false_r.
  assert (Er : Py.rstrip line
               = String c r +:+ "(" +:+ label +:+ ")" +:+ Py.rstrip rest).
  { unfold line, Py.rstrip.
    rewrite <- (app_assoc (String c r) "(" _).
    rewrite <- (app_assoc (String c r +:+ "(") label _).
    change (")" +:+ rest) with (String ")" rest).
    rewrite rstrip_by_after by reflexivity.
    now rewrite !app_assoc. }
  assert (Es : Py.strip (Py.rstrip line) = Py.rstrip line).
  { unfold Py.strip. rewrite Er at 1.
    change (String c r +:+ "(" +:+ label +:+ ")" +:+ Py.rstrip rest)
      with (String c (r +:+ "(" +:+ label +:+ ")" +:+ Py.rstrip rest)).
    unfold Py.lstrip. rewrite lstrip_by_id by now apply head_char_not_space.
    change (String c (r +:+ "(" +:+ label +:+ ")" +:+ Py.rstrip rest))
      with (String c r +:+ "(" +:+ label +:+ ")" +:+ Py.rstrip rest).
    rewrite <- Er. apply rstrip_by_idem. }
  assert (Hn : Py.nonempty (Py.rstrip line) = true)
    by (rewrite Er; reflexivity).
  assert (Hm : match_param_line (Py.rstrip line) = Some (String c r, label))
    by (rewrite Er; now apply match_param_line_written).
  rewrite Es, Hn, Hm. cbn [negb].
  rewrite split_first_hd, bind_ok. cbv beta zeta.
  rewrite (assign_names_fold map_type _ _ _ t Ht), bind_ok.
  eexists. split; [reflexivity|]. intros k.
  rewrite fold_insert_lookup. now rewrite lookup_empty.
Qed.

End ParamsFacts.

(** ** Tuples of a given length *)

Module TupleFacts.

Import PyFacts NormFacts PageFacts MoreStrings RssFacts MapperFacts.

(** *** [int(str(n))] *)

Lemma int_of_uint (u : Decimal.uint) :
  forall acc,
    List.fold_left (fun n c => 10 * n + (Py.ord c - 48))
      (list_ascii_of_string (NilEmpty.string_of_uint u)) acc
    = Nat.of_uint_acc u acc.
Proof.
  induction u as [|u IH|u IH|u IH|u IH|u IH|u IH|u IH|u IH|u IH|u IH];
    intros acc; [reflexivity|..];
    simpl NilEmpty.string_of_uint; simpl list_ascii_of_string;
    simpl List.fold_left; rewrite IH; simpl Nat.of_uint_acc;
    rewrite Nat.tail_mul_spec; f_equal; vm_compute Py.ord; lia.
Qed.

Lemma digits_fold_nat (l : list ascii) :
  forall a : nat,
    List.fold_left (fun n c => (10 * n + N.of_nat (Py.ord c - 48))%N) l
      (N.of_nat a)
    = N.of_nat (List.fold_left (fun n c => 10 * n + (Py.ord c - 48)) l a).
Proof.
  induction l as [|c l IH]; intros a; [reflexivity|].
  cbn [List.fold_left]. rewrite <- IH. f_equal. lia.
Qed.

Lemma int_of_str (n : nat) : Py.digits_value (Py.str_of_nat n) = N.of_nat n.
Proof.
  unfold Py.digits_value, Py.str_of_nat.
  rewrite (digits_fold_nat _ 0), int_of_uint.
  f_equal. apply (Unsigned.of_to n).
Qed.

Lemma str_of_nat_nonempty (n : nat) : Py.str_of_nat n <> "".
Proof.
  destruct n as [|n]; [discriminate|]. intros E.
  pose proof (int_of_str (S n)) as H. rewrite E in H. discriminate H.
Qed.

Lemma str_of_nat_digits (n : nat) :
  Py.str_all Py.is_digit (Py.str_of_nat n) = true.
Proof. apply SampleShape.digits_of_uint. Qed.

(** *** Character classes *)

Lemma digit_facts (c : ascii) :
  Py.is_digit c = true ->
  Py.is_space c = false /\ Py.lower_char c = c
  /\ Ascii.eqb "o" c = false.
Proof.
  destruct c as [[] [] [] [] [] [] [] []]; vm_compute; intros H;
    repeat split; congruence.
Qed.

Lemma base_char_facts (c : ascii) :
  is_base_char c = true ->
  Py.is_space c = false /\ c <> Py.chr 10.
Proof.
  destruct c as [[] [] [] [] [] [] [] []]; vm_compute; intros H;
    repeat split; congruence.
Qed.

Lemma str_map_app (f : ascii -> ascii) (a b : string) :
  Py.str_map f (a +:+ b) = Py.str_map f a +:+ Py.str_map f b.
Proof. induction a as [|c a IH]; [reflexivity|]. simpl. now rewrite IH. Qed.

Lemma lower_digits (d : string) :
  Py.str_all Py.is_digit d = true -> Py.lower d = d.
Proof.
  unfold Py.lower. induction d as [|c d IH]; [reflexivity|]. simpl.
  intros H. apply andb_true_iff in H as [Hc H].
  apply digit_facts in Hc as (_ & -> & _). now rewrite IH.
Qed.

Lemma replace_absent_head (c0 : ascii) (rest new s : string) :
  Py.str_any (Ascii.eqb c0) s = false ->
  Py.replace s (String c0 rest) new = s.
Proof.
  unfold Py.replace. induction s as [|c s IH]; intros H; [reflexivity|].
  rewrite str_any_cons in H. apply orb_false_iff in H as [Hc H].
  rewrite replace_from_cons, startswith_cons, Hc. cbn [andb].
  now rewrite (IH H).
Qed.

(** *** The label [tuple of N base] *)

Section Tuple.

Variables (n : nat) (base : string).
Hypothesis base_ne : base <> "".
Hypothesis base_chars : Py.str_all is_base_char base = true.
Hypothesis base_lower : Py.lower base = base.

Let d := Py.str_of_nat n.
Let inner := d +:+ " " +:+ base.
Let t := "tuple of " +:+ inner.

Lemma base_no_space : Py.str_any Py.is_space base = false.
Proof.
  revert base_chars. apply str_all_none. intros c Hc.
  now apply base_char_facts in Hc.
Qed.

Lemma d_no_space : Py.str_any Py.is_space d = false.
Proof.
  generalize (str_of_nat_digits n). apply str_all_none. intros c Hc.
  now apply digit_facts in Hc.
Qed.

Lemma base_last :
  exists a c, base = a +:+ String c "" /\ is_base_char c = true.
Proof.
  destruct (snoc_decomp base base_ne) as (a & c & E). exists a, c.
  split; [exact E|]. pose proof base_chars as H. rewrite E, str_all_app in H.
  apply andb_true_iff in H as [_ H]. simpl in H. now rewrite andb_true_r in H.
Qed.

Lemma inner_strip : Py.strip inner = inner.
Proof.
  destruct base_last as (a & c & E & Hc).
  apply base_char_facts in Hc as (Hc & _).
  pose proof (str_of_nat_nonempty n) as Hd. fold d in Hd.
  pose proof (str_of_nat_digits n) as Hdd. fold d in Hdd.
  unfold inner. destruct d as [|x d'] eqn:Ed; [congruence|].
  apply (strip_id _ x c (d' +:+ " " +:+ base)).
  - reflexivity.
  - simpl in Hdd. apply andb_true_iff in Hdd as [Hx _].
    now apply digit_facts in Hx.
  - rewrite E, <- !app_assoc. apply last_char_snoc.
  - exact Hc.
Qed.

Lemma t_normalized : normalized t = t.
Proof.
  rewrite normalized_eq.
  assert (Hs : Py.strip t = t).
  { destruct base_last as (a & c & E & Hc).
    apply base_char_facts in Hc as (Hc & _).
    apply (strip_id _ "t" c ("uple of " +:+ inner)); try reflexivity.
    - unfold t, inner. rewrite E, <- !app_assoc. apply last_char_snoc.
    - exact Hc. }
  rewrite Hs.
  assert (Hl : Py.lower t = t).
  { unfold t, inner, Py.lower. rewrite !str_map_app.
    fold (Py.lower d). fold (Py.lower base).
    rewrite base_lower, (lower_digits d (str_of_nat_digits n)). reflexivity. }
  exact Hl.
Qed.

Lemma space_free (s : string) :
  Py.str_any Py.is_space s = false -> Py.str_any (Ascii.eqb " ") s = false.
Proof.
  apply str_any_impl. intros c Hc. apply Ascii.eqb_eq in Hc. now subst c.
Qed.

Lemma t_no_union : Py.contains t " or " = false.
Proof.
  unfold t, inner.
  change ("tuple of " +:+ d +:+ " " +:+ base)
    with ("tuple" +:+ String " " ("of" +:+ String " " (d +:+ String " " base))).
  rewrite (SampleShape.contains_skip_word "tuple" _ "or " eq_refl).
  rewrite contains_cons.
  change (Py.startswith (String " " ("of" +:+ _)) " or ") with false.
  cbn [orb].
  rewrite (SampleShape.contains_skip_word "of" _ "or " eq_refl).
  rewrite contains_cons, startswith_cons, Ascii.eqb_refl. cbn [andb].
  pose proof (str_of_nat_nonempty n) as Hd. fold d in Hd.
  pose proof (str_of_nat_digits n) as Hdd. fold d in Hdd.
  assert (H1 : Py.startswith (d +:+ String " " base) "or " = false).
  { destruct d as [|x d']; [congruence|]. simpl in Hdd.
    apply andb_true_iff in Hdd as [Hx _].
    apply digit_facts in Hx as (_ & _ & Hx).
    change (String x d' +:+ String " " base)
      with (String x (d' +:+ String " " base)).
    now rewrite startswith_cons, Hx. }
  rewrite H1. cbn [orb].
  rewrite (SampleShape.contains_skip_word d _ "or " (space_free _ d_no_space)).
  rewrite contains_cons, startswith_cons, Ascii.eqb_refl. cbn [andb].
  assert (H2 : Py.contains base " " = false).
  { rewrite contains_char. apply space_free, base_no_space. }
  assert (H3 : Py.startswith base "or " = false).
  { destruct (Py.startswith base "or ") eqn:E; [|reflexivity].
    apply startswith_app in E. rewrite E in H2.
    change ("or " +:+ ?x) with ("or" +:+ " " +:+ x) in H2.
    now rewrite contains_mid in H2. }
  rewrite H3. cbn [orb].
  destruct (Py.contains base " or ") eqn:E; [|reflexivity].
  apply contains_first_char in E. congruence.
Qed.

Lemma inner_count : match_tuple_count inner = Some (d, base).
Proof.
  destruct base_last as (a & c & E & Hc).
  apply base_char_facts in Hc as (_ & Hlf).
  unfold match_tuple_count, inner.
  change (d +:+ " " +:+ base) with (d +:+ String " " base).
  rewrite (take_while_app _ d " " base (str_of_nat_digits n)) by reflexivity.
  rewrite drop_app_length.
  pose proof base_chars as Hb. pose proof base_ne as Hne.
  destruct base as [|b0 base'] eqn:Eb; [congruence|]. rewrite <- Eb in *.
  assert (Hb0 : Py.is_space b0 = false).
  { rewrite Eb in Hb. simpl in Hb. apply andb_true_iff in Hb as [Hb _].
    now apply base_char_facts in Hb. }
  assert (Hw : take_while Py.is_space (String " " base) = " ").
  { rewrite Eb. change (String " " (String b0 base'))
      with (" " +:+ String b0 base').
    now apply take_while_app. }
  rewrite Hw. simpl Py.drop.
  rewrite (before_dollar_id base c) by (rewrite ?E; auto using last_char_snoc).
  pose proof (str_of_nat_nonempty n) as Hd. fold d in Hd.
  apply nonempty_true in Hd, Hne. now rewrite Hd, Hne, Hb.
Qed.

Lemma tuple_call (base_map : list (string * string)) :
  call_of base_map t = TupleOf base d.
Proof.
  unfold call_of. rewrite t_normalized.
  assert (Hn : Py.nonempty t = true) by reflexivity.
  rewrite Hn, t_no_union. cbn [negb].
  change (Py.startswith t "list of ") with false.
  change (Py.startswith t "array of ") with false.
  change (Py.startswith t "tuple of ") with true.
  cbn [orb].
  change (List.nth 1 (Py.split1 t " of ") "") with inner.
  now rewrite inner_strip, inner_count.
Qed.

End Tuple.

End TupleFacts.

(** ** Properties of the block-anchored extractor beyond the listed claims *)

(** The mapper looks at a label without regard to case and to the white
    space around it: two labels that are equal once trimmed and put in lower
    case get the same result. *)
Theorem labels_matched_without_case :
  forall (py : Py.interpreter) (style a b : string),
    Py.lower (Py.strip a) = Py.lower (Py.strip b) ->
    build_type_mapper py style a = build_type_mapper py style b.
Proof.
  intros py style a b H. unfold build_type_mapper.
  apply MapperFacts.map_type_caseless; [apply style_map_known | exact H].
Qed.

Lemma labels_matched_without_case_witness :
  build_type_mapper cpython "dotnet" "  List Of POINT3D " 
  = build_type_mapper cpython "dotnet" "list of point3d".
Proof.
  apply (labels_matched_without_case cpython "dotnet" "  List Of POINT3D "
           "list of point3d").
  reflexivity.
Defined.





(** [parse_signature] raises exactly for a text that is empty or white
    space only, and then [IndexError] (the first line of a text without
    lines); for every other text it returns. *)
Theorem parse_signature_fails_on_blank_only :
  forall (sig_text : string) (e : exn),
    parse_signature sig_text = Raise e <->
    e = IndexError /\ Py.strip sig_text = "".
Proof.
  intros sig_text e. split.
  - intros H. destruct (string_dec (Py.strip sig_text) "") as [Hb|Hb].
    + rewrite (SignatureFacts.parse_signature_blank _ Hb) in H.
      injection H as <-. now split.
    + destruct (SignatureFacts.parse_signature_ok _ Hb)
        as (name & params & E & _).
      rewrite E in H. discriminate H.
  - intros [-> Hb]. now apply SignatureFacts.parse_signature_blank.
Qed.

Lemma parse_signature_fails_on_blank_only_witness :
  parse_signature (String (Py.chr 10) "  ") = Raise IndexError.
Proof.
  apply (parse_signature_fails_on_blank_only (String (Py.chr 10) "  ")
           IndexError).
  split; reflexivity.
Defined.

(** When [parse_signature] returns a name, the name matches the pattern of
    an identifier; when it returns none, it returns no parameter either. *)
Theorem parse_signature_name_is_identifier :
  forall (sig_text : string) (name : option string)
         (params : list (string * option string)),
    parse_signature sig_text = Ok (name, params) ->
    match name with
    | Some n => is_identifier n = true
    | None => params = []
    end.
Proof.
  intros sig_text name params H.
  destruct (string_dec (Py.strip sig_text) "") as [Hb|Hb].
  - rewrite (SignatureFacts.parse_signature_blank _ Hb) in H. discriminate H.
  - destruct (SignatureFacts.parse_signature_ok _ Hb)
      as (name' & params' & E & Hn).
    rewrite E in H. injection H as <- <-. exact Hn.
Qed.

Lemma parse_signature_name_is_identifier_witness :
  parse_signature " AddLine ( start, end ) " 
  = Ok (Some "AddLine", [("start", None); ("end", None)])
  /\ is_identifier "AddLine" = true
  /\ parse_signature "3d(x)" = Ok (None, []).
Proof.
  split; [reflexivity|]. split; [|reflexivity].
  apply (parse_signature_name_is_identifier " AddLine ( start, end ) "
           (Some "AddLine") [("start", None); ("end", None)]).
  reflexivity.
Defined.

(** Parsing a signature that is written from its parts gives the parts
    back: for a name that is an identifier and parameters whose names and
    defaults are not empty and have no white space, parenthesis or comma
    (and the names no equals sign), the text [name(p1, ..., pn)], each [p]
    written [n] or [n=d], is parsed into the name and the parameters. *)
Theorem parse_signature_round_trip :
  forall (name : string) (params : list (string * option string)),
    is_identifier name = true -> Py.str_any Py.is_space name = false ->
    List.Forall (fun p => Written.simple_param p = true) params ->
    parse_signature (Written.written_call name params)
    = Ok (Some name, params).
Proof. exact WrittenFacts.parse_written_call. Qed.

Lemma parse_signature_round_trip_witness :
  parse_signature "AddCircle(plane, radius=1.0, name=None)"
  = Ok (Some "AddCircle",
        [("plane", None); ("radius", Some "1.0"); ("name", Some "None")]).
Proof.
  apply (parse_signature_round_trip "AddCircle"
           [("plane", None); ("radius", Some "1.0"); ("name", Some "None")]).
  - reflexivity.
  - reflexivity.
  - repeat constructor.
Defined.

(** For a block that is empty or white space only, [parse_returns_block]
    gives [None] and does not call the mapper: the result is the same for
    every mapper, also for one that raises. *)
Theorem returns_block_blank_is_none :
  forall (pre_text : string) (map_type : string -> result (option string)),
    Py.str_all Py.is_space pre_text = true ->
    parse_returns_block pre_text map_type = Ok "None".
Proof. exact ReturnsFacts.returns_blank. Qed.

Lemma returns_block_blank_is_none_witness :
  parse_returns_block (String (Py.chr 10) "   ") (fun _ => Raise TypeError)
  = Ok "None".
Proof.
  apply (returns_block_blank_is_none (String (Py.chr 10) "   ")
           (fun _ => Raise TypeError)).
  reflexivity.
Defined.



(** For a block that is empty or white space only, [parse_params_block]
    gives the empty table and does not call the mapper. *)
Theorem params_block_blank_is_empty :
  forall (pre_text : string) (map_type : string -> result (option string)),
    Py.str_all Py.is_space pre_text = true ->
    parse_params_block pre_text map_type = Ok ∅.
Proof. intros pre_text map_type. apply ParamsFacts.params_blank. Qed.

Lemma params_block_blank_is_empty_witness :
  parse_params_block (String (Py.chr 10) "   ")
    (fun _ : string => @Raise (option string) TypeError)
  = Ok ∅.
Proof.
  apply (params_block_blank_is_empty (String (Py.chr 10) "   ")
           (fun _ => Raise TypeError)).
  reflexivity.
Defined.





(** * Pages that are written from their parts *)

(** ** Declarations that are written from their parts *)

Module DeclFacts.

Import PyFacts SplitFacts NormFacts PageFacts MoreStrings Written.

(** *** Words *)

(** A word: not empty and without white space. *)
Lemma split_ws_cons (c : ascii) (r : string) :
  Py.split_ws (String c r)
  = if Py.is_space c then Py.split_ws r
    else match r with
         | EmptyString => [String c EmptyString]
         | String c' _ =>
             if Py.is_space c' then String c EmptyString :: Py.split_ws r
             else match Py.split_ws r with
                  | t :: ts => String c t :: ts
                  | [] => [String c EmptyString]
                  end
         end.
Proof. reflexivity. Qed.

Lemma split_ws_word_then (t s : string) :
  t <> "" -> Py.str_any Py.is_space t = false ->
  Py.split_ws (t +:+ String " " s) = t :: Py.split_ws s.
Proof.
  induction t as [|c t IH]; intros Hne Ht; [congruence|].
  rewrite str_any_cons in Ht. apply orb_false_iff in Ht as [Hc Ht].
  change (String c t +:+ String " " s) with (String c (t +:+ String " " s)).
  rewrite split_ws_cons, Hc. destruct t as [|c2 t].
  - change ("" +:+ String " " s) with (String " " s).
    change (Py.is_space " ") with true. cbv iota.
    now rewrite split_ws_cons.
  - change (String c2 t +:+ String " " s)
      with (String c2 (t +:+ String " " s)) in *.
    pose proof Ht as Ht'. rewrite str_any_cons in Ht'.
    apply orb_false_iff in Ht' as [Hc2 _]. rewrite Hc2.
    now rewrite IH.
Qed.

Lemma split_ws_word (t : string) :
  t <> "" -> Py.str_any Py.is_space t = false -> Py.split_ws t = [t].
Proof.
  induction t as [|c t IH]; intros Hne Ht; [congruence|].
  rewrite str_any_cons in Ht. apply orb_false_iff in Ht as [Hc Ht].
  rewrite split_ws_cons, Hc. destruct t as [|c2 t]; [reflexivity|].
  pose proof Ht as Ht'. rewrite str_any_cons in Ht'.
  apply orb_false_iff in Ht' as [Hc2 _]. rewrite Hc2.
  now rewrite IH.
Qed.

Lemma split_ws_join (toks : list string) :
  List.Forall (fun t => t <> "" /\ Py.str_any Py.is_space t = false) toks ->
  Py.split_ws (Py.join " " toks) = toks.
Proof.
  induction 1 as [|t toks [Hne Ht] _ IH]; [reflexivity|].
  destruct toks as [|u toks]; [now apply split_ws_word|].
  rewrite join_cons by discriminate.
  change (t +:+ " " +:+ Py.join " " (u :: toks))
    with (t +:+ String " " (Py.join " " (u :: toks))).
  now rewrite split_ws_word_then, IH.
Qed.

Lemma no_space_no_lf (t : string) :
  Py.str_any Py.is_space t = false ->
  Py.str_any (Ascii.eqb (Py.chr 10)) t = false.
Proof.
  apply str_any_impl. intros c Hc. apply Ascii.eqb_eq in Hc. now subst c.
Qed.

Lemma spaced_word (t : string) :
  t <> "" -> Py.str_any Py.is_space t = false ->
  spaced t (String.eqb "static" t).
Proof.
  intros Hne Ht. unfold spaced. rewrite (split_ws_word t Hne Ht).
  repeat split; [discriminate | |now apply no_space_no_lf].
  unfold mem. cbn [List.existsb]. apply orb_false_r.
Qed.

Lemma spaced_cons (t s : string) (b : bool) :
  t <> "" -> Py.str_any Py.is_space t = false -> spaced s b ->
  spaced (t +:+ " " +:+ s) (String.eqb "static" t || b).
Proof.
  intros Hne Ht (Hw & Hj & Hm & Hl). unfold spaced.
  change (t +:+ " " +:+ s) with (t +:+ String " " s).
  rewrite (split_ws_word_then t s Hne Ht).
  repeat split; [discriminate | | |].
  - rewrite join_cons by exact Hw. now rewrite Hj.
  - unfold mem in *. cbn [List.existsb]. now rewrite Hm.
  - rewrite str_any_app, (no_space_no_lf t Ht), str_any_cons, Hl.
    reflexivity.
Qed.

(** *** The characters of the words of a declaration *)

Lemma type_char_facts (c : ascii) :
  cs_type_char c = true ->
  Py.is_space c = false /\ plain c = true
  /\ Ascii.eqb ")" c = false /\ Ascii.eqb "(" c = false
  /\ Ascii.eqb "=" c = false /\ Ascii.eqb "," c = false.
Proof.
  destruct c as [[] [] [] [] [] [] [] []]; vm_compute; intros H;
    repeat split; congruence.
Qed.

Lemma word_type_char (c : ascii) :
  Py.is_word c = true -> cs_type_char c = true.
Proof.
  destruct c as [[] [] [] [] [] [] [] []]; vm_compute; congruence.
Qed.

Lemma word_char_facts (c : ascii) :
  Py.is_word c = true ->
  Ascii.eqb c "," = false /\ Ascii.eqb "[" c = false
  /\ Ascii.eqb c "@" = false.
Proof.
  destruct c as [[] [] [] [] [] [] [] []]; vm_compute; intros H;
    repeat split; congruence.
Qed.

Lemma type_chars_no_space (t : string) :
  Py.str_all cs_type_char t = true -> Py.str_any Py.is_space t = false.
Proof. apply str_all_none. intros c H. now apply type_char_facts in H. Qed.

Lemma type_chars_absent (x : ascii) (t : string) :
  (forall c, cs_type_char c = true -> Ascii.eqb x c = false) ->
  Py.str_all cs_type_char t = true -> Py.str_any (Ascii.eqb x) t = false.
Proof. intros H. now apply str_all_none. Qed.

Lemma keyword_facts (m : string) :
  cs_keyword m = true -> m <> "" /\ Py.str_all cs_type_char m = true.
Proof.
  unfold cs_keyword, mem, CS_ACCESS_KWS, CS_MODIFIER_KWS.
  cbn [List.existsb]. rewrite !orb_false_r. intros H.
  repeat (apply orb_true_iff in H as [H|H]);
    apply String.eqb_eq in H; subst m; split; (discriminate || reflexivity).
Qed.

Lemma type_facts (t : string) :
  cs_type t = true ->
  t <> "" /\ Py.str_all cs_type_char t = true /\ cs_keyword t = false.
Proof.
  unfold cs_type. intros H. apply andb_true_iff in H as [H Hk].
  apply andb_true_iff in H as [Hn Hc]. apply negb_true_iff in Hk.
  repeat split; auto. now apply nonempty_true.
Qed.

Lemma name_facts (n : string) :
  cs_name n = true ->
  exists c r,
    n = String c r /\ Py.is_alpha c || Ascii.eqb c "_" = true
    /\ Py.str_all Py.is_word n = true /\ is_identifier n = true.
Proof.
  unfold cs_name. intros H. apply andb_true_iff in H as [Hi Hs].
  apply negb_true_iff in Hs.
  destruct (WrittenFacts.identifier_parts n Hi Hs)
    as (c & r & -> & Ha & Hw & _).
  exists c, r. repeat split; auto. simpl. rewrite Hw, andb_true_r.
  unfold Py.is_word. apply orb_true_iff in Ha as [Ha|Ha].
  - now rewrite Ha.
  - rewrite Ha. apply orb_true_r.
Qed.

Lemma name_type_chars (n : string) :
  cs_name n = true -> n <> "" /\ Py.str_all cs_type_char n = true.
Proof.
  intros H. destruct (name_facts n H) as (c & r & -> & _ & Hw & _).
  split; [discriminate|]. revert Hw. apply str_all_impl, word_type_char.
Qed.

Lemma not_static (t : string) :
  cs_keyword t = false -> String.eqb "static" t = false.
Proof.
  intros H. destruct (String.eqb "static" t) eqn:E; [|reflexivity].
  apply String.eqb_eq in E. subst t. discriminate H.
Qed.

Lemma not_static_with (x : ascii) (a b : string) :
  Py.str_any (Ascii.eqb x) "static" = false ->
  String.eqb "static" (a +:+ String x b) = false.
Proof.
  intros H. destruct (String.eqb "static" _) eqn:E; [|reflexivity].
  apply String.eqb_eq in E. rewrite E in H.
  rewrite str_any_app, str_any_cons, Ascii.eqb_refl in H.
  rewrite orb_true_r in H. discriminate H.
Qed.

(** *** The words of the parameter list *)

(** What follows the name of a parameter: the parameters that are left and
    the closing parenthesis. *)
Lemma join_params (p : string * string) (rest : list (string * string)) :
  Py.join ", " (List.map cs_param (p :: rest)) +:+ ")"
  = cs_param p
    +:+ List.fold_right (fun q acc => ", " +:+ cs_param q +:+ acc) ")" rest.
Proof.
  revert p. induction rest as [|q rest IH]; intros p; [reflexivity|].
  change (List.map cs_param (p :: q :: rest))
    with (cs_param p :: List.map cs_param (q :: rest)).
  rewrite join_cons by discriminate. rewrite !app_assoc, IH.
  reflexivity.
Qed.

Lemma param_words (rest : list (string * string)) :
  List.Forall (fun p => simple_cs_param p = true) rest ->
  forall n,
    cs_name n = true ->
    spaced
      (n +:+ List.fold_right (fun q acc => ", " +:+ cs_param q +:+ acc)
               ")" rest) false.
Proof.
  induction 1 as [|[T n'] rest Hp _ IH]; intros n Hn.
  - simpl List.fold_right.
    destruct (name_type_chars n Hn) as [Hne Hc].
    assert (W : spaced (n +:+ ")") (String.eqb "static" (n +:+ ")"))).
    { apply spaced_word; [now apply app_nonempty_l|].
      rewrite str_any_app, (type_chars_no_space n Hc). reflexivity. }
    now rewrite (not_static_with ")" n "" eq_refl) in W.
  - simpl List.fold_right. unfold cs_param at 1. cbn [fst snd].
    unfold simple_cs_param in Hp. cbn [fst snd] in Hp.
    apply andb_true_iff in Hp as [Hp Hn']. apply andb_true_iff in Hp as [HT _].
    destruct (type_facts T HT) as (HTne & HTc & HTk).
    destruct (name_type_chars n Hn) as [Hne Hc].
    set (tl := n' +:+ List.fold_right
                        (fun q acc => ", " +:+ cs_param q +:+ acc) ")" rest).
    assert (W : spaced ((n +:+ ",") +:+ " " +:+ (T +:+ " " +:+ tl))
                  (String.eqb "static" (n +:+ ",")
                   || (String.eqb "static" T || false))).
    { apply spaced_cons.
      - now apply app_nonempty_l.
      - rewrite str_any_app, (type_chars_no_space n Hc). reflexivity.
      - apply spaced_cons; [exact HTne | now apply type_chars_no_space|].
        now apply IH. }
    rewrite (not_static_with "," n "" eq_refl), (not_static T HTk) in W.
    cbn [orb] in W. unfold tl in W. now rewrite !app_assoc in *.
Qed.

(** *** Texts without white space at their ends *)

Lemma trimmed_strip (s : string) : trimmed s -> Py.strip s = s.
Proof. intros (c & r & d & E & Hc & Hl & Hd). now apply (strip_id s c d r). Qed.

Lemma trimmed_word (t : string) :
  t <> "" -> Py.str_any Py.is_space t = false -> trimmed t.
Proof.
  intros Hne Ht. destruct (snoc_decomp t Hne) as (a & d & E).
  destruct t as [|c r]; [congruence|]. exists c, r, d.
  rewrite str_any_cons in Ht. apply orb_false_iff in Ht as [Hc Hr].
  repeat split; auto.
  - rewrite E. apply last_char_snoc.
  - pose proof (type_chars_no_space "") as _.
    assert (H : Py.str_any Py.is_space (String c r) = false)
      by (rewrite str_any_cons, Hc, Hr; reflexivity).
    rewrite E, str_any_app in H. apply orb_false_iff in H as [_ H].
    rewrite str_any_cons in H. now apply orb_false_iff in H as [H _].
Qed.

Lemma trimmed_app (a m b : string) :
  trimmed a -> trimmed b -> trimmed (a +:+ m +:+ b).
Proof.
  intros (c & r & d & -> & Hc & _ & _) (c' & r' & d' & Eb & _ & Hl & Hd).
  exists c, (r +:+ m +:+ String c' r'), d'. subst b. repeat split; auto.
  rewrite <- app_assoc. now rewrite last_char_app.
Qed.

Lemma trimmed_join (sep : string) (items : list string) :
  items <> [] -> List.Forall trimmed items -> trimmed (Py.join sep items).
Proof.
  intros Hne H. induction H as [|x items Hx _ IH]; [congruence|].
  destruct items as [|y l]; [exact Hx|].
  rewrite join_cons by discriminate. apply trimmed_app; [exact Hx|].
  apply IH. discriminate.
Qed.

Lemma take_all (s : string) : Py.take (String.length s) s = s.
Proof.
  rewrite <- (app_nil_r s) at 2. rewrite take_app_length.
  reflexivity.
Qed.

(** *** The parts of the parameter list *)

Lemma join_spaced (x : string) (l : list string) :
  Py.join ", " (x :: l) = Py.join "," (x :: List.map (String " ") l).
Proof.
  revert x. induction l as [|y l IH]; intros x; [reflexivity|].
  rewrite (join_cons ", " x (y :: l)) by discriminate.
  change (List.map (String " ") (y :: l))
    with (String " " y :: List.map (String " ") l).
  rewrite (join_cons "," x (String " " y :: List.map (String " ") l))
    by discriminate.
  rewrite IH. f_equal.
  change (", " +:+ Py.join "," (y :: List.map (String " ") l))
    with ("," +:+ String " " (Py.join "," (y :: List.map (String " ") l))).
  f_equal. destruct l; reflexivity.
Qed.

Lemma split_spaced_join (items : list string) :
  List.Forall (fun x => trimmed x /\ Py.str_all plain x = true) items ->
  split_types_list (Py.join ", " items) = items.
Proof.
  intros H. destruct items as [|x l]; [reflexivity|].
  inversion H as [|? ? [Hx Hxp] Hl]; subst.
  rewrite join_spaced, split_types_list_refines. unfold split_spec.
  assert (Hall : List.Forall (fun y => forall d, whole d y d)
                   (x :: List.map (String " ") l)).
  { constructor; [now apply whole_plain|].
    apply List.Forall_forall. intros y Hy.
    apply List.in_map_iff in Hy as (z & <- & Hz).
    rewrite List.Forall_forall in Hl. destruct (Hl z Hz) as [_ Hzp].
    apply whole_plain. simpl. now rewrite Hzp. }
  rewrite ResplitFacts.segments_join_chain; [|discriminate| |].
  - simpl List.map. rewrite (trimmed_strip x Hx).
    destruct Hx as (c & r & d & -> & _). cbn [List.filter Py.nonempty
      Py.is_empty negb]. f_equal.
    clear -Hl. induction Hl as [|y l [Hy _] _ IH]; [reflexivity|].
    simpl List.map.
    assert (E : Py.strip (String " " y) = y).
    { change (String " " y) with (" " +:+ y).
      rewrite <- (app_nil_r y) at 1.
      rewrite (TypeLaws.strip_pad " " y "" eq_refl eq_refl).
      now apply trimmed_strip. }
    rewrite E. destruct Hy as (c & r & d & -> & _).
    cbn [List.filter Py.nonempty Py.is_empty negb]. now rewrite IH.
  - revert Hall. apply List.Forall_impl. intros y Hy. apply Hy.
  - apply List.Forall_forall. intros y Hy. rewrite List.Forall_forall in Hall.
    apply Hall. clear -Hy.
    induction (x :: List.map (String " ") l) as [|a [|b k] IH];
      [contradiction..|].
    destruct Hy as [->|Hy]; [now left | right; now apply IH].
Qed.

(** *** The name of a parameter *)

Lemma DeclFacts_param_trimmed (T n : string) :
  T <> "" -> Py.str_all cs_type_char T = true ->
  n <> "" -> Py.str_all cs_type_char n = true ->
  trimmed (cs_param (T, n)).
Proof.
  intros H1 H2 H3 H4. unfold cs_param.
  apply trimmed_app; apply trimmed_word; auto; now apply type_chars_no_space.
Qed.

Lemma sub_default_clause_id (p : string) :
  Py.str_any (Ascii.eqb "=") p = false -> sub_default_clause p = p.
Proof.
  induction p as [|c p IH]; intros H; [reflexivity|].
  simpl sub_default_clause.
  assert (E : default_clause_at (String c p) = false).
  { unfold default_clause_at.
    destruct (Py.lstrip (String c p)) as [|x r] eqn:El; [reflexivity|].
    assert (Hx : Py.str_any (Ascii.eqb "=") (String x r) = false)
      by (rewrite <- El; now apply absent_lstrip_by).
    rewrite str_any_cons in Hx. apply orb_false_iff in Hx as [Hx _].
    now rewrite Ascii.eqb_sym, Hx. }
  rewrite E. rewrite str_any_cons in H. apply orb_false_iff in H as [_ H].
  now rewrite IH.
Qed.

(** A keyword before white space at the start of a type and a name is the
    type. *)
Lemma qualifier_word (kw : string) :
  Py.str_any Py.is_space kw = false ->
  forall T rest,
    Py.str_any Py.is_space T = false ->
    qualifier_at (T +:+ String " " rest) kw = true -> kw = T.
Proof.
  unfold qualifier_at.
  induction kw as [|a kw IH]; intros Hk T rest HT H.
  - destruct T as [|c T]; [reflexivity|].
    rewrite str_any_cons in HT. apply orb_false_iff in HT as [Hc _].
    simpl in H. congruence.
  - rewrite str_any_cons in Hk. apply orb_false_iff in Hk as [Ha Hk].
    apply andb_true_iff in H as [H1 H2].
    destruct T as [|c T].
    + change ("" +:+ String " " rest) with (String " " rest) in H1.
      rewrite startswith_cons in H1. apply andb_true_iff in H1 as [H1 _].
      apply Ascii.eqb_eq in H1. subst a. discriminate Ha.
    + change (String c T +:+ String " " rest)
        with (String c (T +:+ String " " rest)) in H1, H2.
      rewrite startswith_cons in H1. apply andb_true_iff in H1 as [Hac H1].
      apply Ascii.eqb_eq in Hac. subst c.
      rewrite str_any_cons in HT. apply orb_false_iff in HT as [_ HT].
      f_equal. apply (IH Hk T rest HT).
      apply andb_true_iff. split; [exact H1 | exact H2].
Qed.

Lemma sub_qualifier_id (T n : string) :
  Py.str_any Py.is_space T = false -> mem T qualifiers = false ->
  sub_qualifier (T +:+ " " +:+ n) = T +:+ " " +:+ n.
Proof.
  intros HT Hq. unfold sub_qualifier.
  destruct (List.find _ qualifiers) as [kw|] eqn:E; [|reflexivity].
  exfalso. apply List.find_some in E as [Hin Hat].
  assert (Hk : Py.str_any Py.is_space kw = false).
  { simpl in Hin. repeat (destruct Hin as [<-|Hin]; [reflexivity|]).
    contradiction. }
  apply (qualifier_word kw Hk T n HT) in Hat. subst kw.
  unfold mem in Hq. rewrite <- Bool.not_true_iff_false in Hq. apply Hq.
  apply List.existsb_exists. exists T. split; [exact Hin|].
  apply String.eqb_refl.
Qed.

Lemma param_name_step_written (names : list string) (p : string * string) :
  simple_cs_param p = true ->
  param_name_step names (cs_param p) = Ok (names ++ [snd p]).
Proof.
  intros Hp.
  assert (Hc := Hp). unfold simple_cs_param in Hc.
  apply andb_true_iff in Hc as [Hc Hn]. apply andb_true_iff in Hc as [HT Hq].
  apply negb_true_iff in Hq.
  destruct (type_facts _ HT) as (HT1 & HT2 & _).
  destruct (name_facts _ Hn) as (c & r & En & Ha & Hw & Hi).
  destruct (name_type_chars _ Hn) as [Hn1 Hn2].
  destruct p as [T n]. cbn [fst snd] in *.
  unfold param_name_step.
  rewrite (trimmed_strip _ (DeclFacts_param_trimmed T n HT1 HT2 Hn1 Hn2)).
  rewrite sub_default_clause_id.
  2:{ unfold cs_param. cbn [fst snd].
      rewrite !str_any_app, str_any_cons.
      rewrite (type_chars_absent "=" T), (type_chars_absent "=" n); auto;
        intros x Hx; now apply type_char_facts in Hx. }
  unfold cs_param. cbn [fst snd].
  rewrite (sub_qualifier_id T n (type_chars_no_space T HT2) Hq).
  change (T +:+ " " +:+ n) with (T +:+ String " " n).
  rewrite (split_ws_word_then T n HT1 (type_chars_no_space T HT2)).
  rewrite (split_ws_word n Hn1 (type_chars_no_space n Hn2)).
  cbn [length Nat.eqb negb]. change (Py.last_item [T; n]) with (Ok n).
  rewrite bind_ok. cbv beta zeta.
  assert (E1 : Py.rstrip_by (fun x => Ascii.eqb x ",") n = n).
  { destruct (snoc_decomp n Hn1) as (a & d & E). rewrite E.
    apply rstrip_by_snoc. rewrite E, str_all_app in Hw.
    apply andb_true_iff in Hw as [_ Hw]. simpl in Hw.
    rewrite andb_true_r in Hw. now apply word_char_facts in Hw. }
  rewrite E1.
  assert (E2 : Py.replace n "[]" "" = n).
  { apply TupleFacts.replace_absent_head. revert Hw. apply str_all_none.
    intros x Hx. now apply word_char_facts in Hx. }
  rewrite E2.
  assert (E3 : Py.lstrip_by (fun x => Ascii.eqb x "@") n = n).
  { rewrite En. apply lstrip_by_id. rewrite En in Hw. simpl in Hw.
    apply andb_true_iff in Hw as [Hw _]. now apply word_char_facts in Hw. }
  rewrite E3, Hi. reflexivity.
Qed.

Lemma param_name_loop_written (params : list (string * string)) :
  List.Forall (fun p => simple_cs_param p = true) params ->
  forall names,
    param_name_loop names (List.map cs_param params)
    = Ok (names ++ List.map snd params).
Proof.
  induction 1 as [|p params Hp _ IH]; intros names.
  - simpl. now rewrite List.app_nil_r.
  - simpl. rewrite (param_name_step_written names p Hp), bind_ok, IH.
    now rewrite <- List.app_assoc.
Qed.

Lemma keywords_filtered (mods : list string) :
  List.Forall (fun m => cs_keyword m = true) mods ->
  List.filter
    (fun t => negb (mem t CS_ACCESS_KWS) && negb (mem t CS_MODIFIER_KWS))
    mods = [].
Proof.
  induction 1 as [|m mods Hk _ IH]; [reflexivity|].
  cbn [List.filter]. unfold cs_keyword in Hk.
  destruct (mem m CS_ACCESS_KWS), (mem m CS_MODIFIER_KWS);
    try discriminate Hk; exact IH.
Qed.

(** *** The declaration *)

Section Declaration.

Variables (ret name : string) (params : list (string * string)).

Hypothesis ret_ok : cs_type ret = true.
Hypothesis name_ok : cs_name name = true /\ cs_keyword name = false.
Hypothesis params_ok :
  List.Forall (fun p => simple_cs_param p = true) params.

Let P := Py.join ", " (List.map cs_param params).

Lemma call_words : spaced (name +:+ "(" +:+ P +:+ ")") false.
Proof.
  destruct name_ok as [Hn _].
  destruct (name_type_chars name Hn) as [Hne Hc].
  unfold P. destruct params as [|[T n] rest] eqn:E.
  - simpl Py.join.
    assert (W : spaced (name +:+ "()") (String.eqb "static" (name +:+ "()"))).
    { apply spaced_word; [now apply app_nonempty_l|].
      rewrite str_any_app, (type_chars_no_space name Hc). reflexivity. }
    now rewrite (not_static_with "(" name ")" eq_refl
                 : String.eqb "static" (name +:+ "()") = false) in W.
  - rewrite join_params. unfold cs_param at 1. cbn [fst snd].
    inversion params_ok as [|? ? Hp Hrest]; subst.
    unfold simple_cs_param in Hp. cbn [fst snd] in Hp.
    apply andb_true_iff in Hp as [Hp Hn']. apply andb_true_iff in Hp as [HT _].
    destruct (type_facts T HT) as (HTne & HTc & HTk).
    set (tl := n +:+ List.fold_right
                       (fun q acc => ", " +:+ cs_param q +:+ acc) ")" rest).
    assert (W : spaced ((name +:+ "(" +:+ T) +:+ " " +:+ tl)
                  (String.eqb "static" (name +:+ "(" +:+ T) || false)).
    { apply spaced_cons.
      - now apply app_nonempty_l.
      - rewrite !str_any_app, (type_chars_no_space name Hc),
          (type_chars_no_space T HTc). reflexivity.
      - now apply param_words. }
    rewrite (not_static_with "(" name T eq_refl
             : String.eqb "static" (name +:+ "(" +:+ T) = false) in W.
    cbn [orb] in W. unfold tl in W. now rewrite !app_assoc in *.
Qed.

Lemma decl_words (modifiers : list string) :
  List.Forall (fun m => cs_keyword m = true) modifiers ->
  spaced (cs_declaration modifiers ret name params)
    (mem "static" modifiers).
Proof.
  unfold cs_declaration. fold P.
  destruct (type_facts ret ret_ok) as (Hrne & Hrc & Hrk).
  induction 1 as [|m mods Hm _ IH].
  - change (Py.join " " ([] ++ [ret; name])) with (ret +:+ " " +:+ name).
    assert (W : spaced (ret +:+ " " +:+ (name +:+ "(" +:+ P +:+ ")"))
                  (String.eqb "static" ret || false)).
    { apply spaced_cons; [exact Hrne | now apply type_chars_no_space|].
      apply call_words. }
    rewrite (not_static ret Hrk) in W. now rewrite !app_assoc in *.
  - change ((m :: mods) ++ [ret; name]) with (m :: (mods ++ [ret; name])).
    rewrite join_cons by (destruct mods; discriminate).
    destruct (keyword_facts m Hm) as [Hmne Hmc].
    assert (W : spaced (m +:+ " " +:+ (Py.join " " (mods ++ [ret; name])
                          +:+ "(" +:+ P +:+ ")"))
                  (String.eqb "static" m || mem "static" mods)).
    { apply spaced_cons; [exact Hmne | now apply type_chars_no_space|].
      exact IH. }
    now rewrite !app_assoc in *.
Qed.

Variable modifiers : list string.
Hypothesis modifiers_ok :
  List.Forall (fun m => cs_keyword m = true) modifiers.

Let head := Py.join " " (modifiers ++ [ret; name]).
Let text := cs_declaration modifiers ret name params.

Lemma head_words :
  List.Forall (fun t => t <> "" /\ Py.str_all cs_type_char t = true)
    (modifiers ++ [ret; name]).
Proof.
  apply List.Forall_app. split.
  - revert modifiers_ok. apply List.Forall_impl. apply keyword_facts.
  - destruct (type_facts ret ret_ok) as (H1 & H2 & _).
    destruct name_ok as [Hn _]. destruct (name_type_chars name Hn) as [H3 H4].
    repeat constructor; auto.
Qed.

Lemma head_absent (x : ascii) :
  (forall c, cs_type_char c = true -> Ascii.eqb x c = false) ->
  Ascii.eqb x " " = false ->
  Py.str_any (Ascii.eqb x) head = false.
Proof.
  intros Hx Hs. unfold head. apply absent_join.
  - rewrite str_any_cons, Hs. reflexivity.
  - generalize head_words. apply List.Forall_impl. intros t [_ Ht].
    now apply type_chars_absent.
Qed.

Lemma param_chars (p : string * string) :
  simple_cs_param p = true ->
  (fst p <> "" /\ Py.str_all cs_type_char (fst p) = true)
  /\ (snd p <> "" /\ Py.str_all cs_type_char (snd p) = true)
  /\ mem (fst p) qualifiers = false /\ cs_name (snd p) = true.
Proof.
  unfold simple_cs_param. intros H. apply andb_true_iff in H as [H Hn].
  apply andb_true_iff in H as [HT Hq]. apply negb_true_iff in Hq.
  destruct (type_facts _ HT) as (H1 & H2 & _).
  destruct (name_type_chars _ Hn) as [H3 H4]. auto.
Qed.

Lemma cs_param_absent (x : ascii) (p : string * string) :
  (forall c, cs_type_char c = true -> Ascii.eqb x c = false) ->
  Ascii.eqb x " " = false ->
  simple_cs_param p = true ->
  Py.str_any (Ascii.eqb x) (cs_param p) = false.
Proof.
  intros Hx Hs Hp. destruct (param_chars p Hp) as ([_ H1] & [_ H2] & _).
  unfold cs_param. rewrite !str_any_app, str_any_cons, Hs.
  now rewrite (type_chars_absent x _ Hx H1), (type_chars_absent x _ Hx H2).
Qed.

Lemma P_absent (x : ascii) :
  (forall c, cs_type_char c = true -> Ascii.eqb x c = false) ->
  Ascii.eqb x " " = false -> Ascii.eqb x "," = false ->
  Py.str_any (Ascii.eqb x) P = false.
Proof.
  intros Hx Hs Hc. unfold P. apply absent_join.
  - rewrite !str_any_cons, Hs, Hc. reflexivity.
  - apply List.Forall_forall. intros y Hy.
    apply List.in_map_iff in Hy as (p & <- & Hin).
    rewrite List.Forall_forall in params_ok.
    now apply cs_param_absent, params_ok.
Qed.

Lemma cs_param_trimmed (p : string * string) :
  simple_cs_param p = true -> trimmed (cs_param p).
Proof.
  intros Hp. destruct (param_chars p Hp) as ([H1 H2] & [H3 H4] & _).
  unfold cs_param. apply trimmed_app; apply trimmed_word; auto;
    now apply type_chars_no_space.
Qed.

Lemma head_trimmed : trimmed head.
Proof.
  unfold head. apply trimmed_join; [now destruct modifiers|].
  generalize head_words. apply List.Forall_impl. intros t [H1 H2].
  apply trimmed_word; [exact H1 | now apply type_chars_no_space].
Qed.

Lemma P_strip : Py.strip P = P.
Proof.
  unfold P. destruct params as [|p rest] eqn:E; [reflexivity|].
  rewrite <- E in *. apply trimmed_strip, trimmed_join.
  - rewrite E. discriminate.
  - apply List.Forall_forall. intros y Hy.
    apply List.in_map_iff in Hy as (q & <- & Hin).
    rewrite List.Forall_forall in params_ok.
    now apply cs_param_trimmed, params_ok.
Qed.

Lemma text_eq : text = head +:+ "(" +:+ P +:+ ")".
Proof. reflexivity. Qed.

Lemma text_strip : Py.strip text = text.
Proof.
  destruct head_trimmed as (c & r & d & E & Hc & _).
  apply (strip_id text c ")" (r +:+ "(" +:+ P +:+ ")")); auto.
  - rewrite text_eq, E. reflexivity.
  - rewrite text_eq, <- !app_assoc. apply last_char_snoc.
Qed.

Lemma close_absent :
  forall c, cs_type_char c = true -> Ascii.eqb ")" c = false.
Proof. intros c H. now apply type_char_facts in H. Qed.

Lemma open_absent :
  forall c, cs_type_char c = true -> Ascii.eqb "(" c = false.
Proof. intros c H. now apply type_char_facts in H. Qed.

Lemma text_block : first_block text = text.
Proof.
  unfold first_block. rewrite text_strip.
  assert (E : text = (head +:+ "(" +:+ P) +:+ String ")" "")
    by (rewrite text_eq; now rewrite !app_assoc).
  assert (Hf : Py.find text ")" = Some (String.length (head +:+ "(" +:+ P))).
  { rewrite E. apply IdFacts.find_char. rewrite contains_char.
    rewrite !str_any_app, (head_absent ")" close_absent eq_refl).
    now rewrite (P_absent ")" close_absent eq_refl eq_refl). }
  rewrite Hf, E.
  replace (String.length (head +:+ "(" +:+ P) + 1)
    with (String.length ((head +:+ "(" +:+ P) +:+ String ")" ""))
    by (rewrite length_app; reflexivity).
  apply take_all.
Qed.

Lemma text_oneline : oneline_of text = text.
Proof.
  destruct (decl_words modifiers modifiers_ok) as (_ & Hj & _ & Hl).
  fold text in Hj, Hl. unfold oneline_of, LF.
  rewrite (WrittenFacts.replace_absent _ " " text Hl). exact Hj.
Qed.

Lemma text_static :
  Py.contains (" " +:+ oneline_of text +:+ " ") " static "
  = mem "static" modifiers.
Proof.
  destruct (decl_words modifiers modifiers_ok) as (_ & _ & Hm & Hl).
  fold text in Hm, Hl. rewrite SampleShape.is_static_tokens. unfold LF.
  now rewrite (WrittenFacts.replace_absent _ " " text Hl).
Qed.

Lemma text_parts :
  (if Py.contains text "(" && Py.contains text ")" then
     '(head, params) ← Py.unpack2 (Py.split1 text "(");
     before ← Py.item (Py.rsplit1 params ")") 0;
     Ok (head, Py.strip before)
   else Ok (text, EmptyString))
  = Ok (head, P).
Proof.
  assert (H1 : Py.contains text "(" = true)
    by (rewrite text_eq; apply contains_mid).
  assert (H2 : Py.contains text ")" = true).
  { rewrite text_eq.
    replace (head +:+ "(" +:+ P +:+ ")")
      with ((head +:+ "(" +:+ P) +:+ ")" +:+ "")
      by (now rewrite !app_assoc).
    apply contains_mid. }
  rewrite H1, H2. cbn [andb].
  assert (Hh : Py.contains head "(" = false)
    by (rewrite contains_char; apply (head_absent "(" open_absent eq_refl)).
  rewrite text_eq.
  change (head +:+ "(" +:+ P +:+ ")") with (head +:+ String "(" (P +:+ ")")).
  rewrite (split1_found _ _ _ (IdFacts.find_char "(" head _ Hh)).
  rewrite take_app_length, IdFacts.drop_past_char. simpl Py.unpack2.
  rewrite bind_ok. cbv beta iota. unfold Py.rsplit1.
  rewrite (IdFacts.rfind_char ")" P "" eq_refl), IdFacts.item_head, bind_ok.
  now rewrite take_app_length, P_strip.
Qed.

Lemma head_tokens :
  List.filter
    (fun t => negb (mem t CS_ACCESS_KWS) && negb (mem t CS_MODIFIER_KWS))
    (Py.split_ws (Py.strip head))
  = [ret; name].
Proof.
  rewrite (trimmed_strip head head_trimmed). unfold head.
  rewrite split_ws_join.
  2:{ generalize head_words. apply List.Forall_impl. intros t [H1 H2].
      split; [exact H1 | now apply type_chars_no_space]. }
  rewrite List.filter_app.
  rewrite (keywords_filtered modifiers modifiers_ok).
  destruct (type_facts ret ret_ok) as (_ & _ & Hr).
  destruct name_ok as [_ Hn]. unfold cs_keyword in Hr, Hn.
  apply orb_false_iff in Hr as [Hr1 Hr2].
  apply orb_false_iff in Hn as [Hn1 Hn2].
  cbn [List.filter List.app]. now rewrite Hr1, Hr2, Hn1, Hn2.
Qed.

Lemma cs_param_plain (p : string * string) :
  simple_cs_param p = true -> Py.str_all plain (cs_param p) = true.
Proof.
  intros Hp. destruct (param_chars p Hp) as ([_ H1] & [_ H2] & _).
  unfold cs_param. rewrite !str_all_app.
  assert (Hpl : forall t, Py.str_all cs_type_char t = true ->
                          Py.str_all plain t = true).
  { intros t. apply str_all_impl. intros c Hc.
    now apply type_char_facts in Hc. }
  now rewrite (Hpl _ H1), (Hpl _ H2).
Qed.

Lemma text_names :
  (if Py.nonempty P then param_name_loop [] (split_types_list P) else Ok [])
  = Ok (List.map snd params).
Proof.
  unfold P. destruct params as [|p rest] eqn:E; [reflexivity|].
  rewrite <- E in *.
  assert (Hitems : List.Forall
                     (fun x => trimmed x /\ Py.str_all plain x = true)
                     (List.map cs_param params)).
  { apply List.Forall_forall. intros y Hy.
    apply List.in_map_iff in Hy as (q & <- & Hin).
    rewrite List.Forall_forall in params_ok. specialize (params_ok q Hin).
    split; [now apply cs_param_trimmed | now apply cs_param_plain]. }
  assert (Hne : Py.nonempty (Py.join ", " (List.map cs_param params)) = true).
  { assert (T : trimmed (Py.join ", " (List.map cs_param params))).
    { apply trimmed_join; [rewrite E; discriminate|].
      revert Hitems. apply List.Forall_impl. tauto. }
    now destruct T as (c & r & d & -> & _). }
  rewrite Hne, (split_spaced_join _ Hitems).
  apply (param_name_loop_written params params_ok []).
Qed.

Lemma parse_written_declaration (container_simple : option string) :
  parse_csharp_signature (Some text) container_simple
  = Ok (Some ret, Some name, List.map snd params, mem "static" modifiers).
Proof.
  unfold parse_csharp_signature.
  assert (Ht : Py.truthy (Some text) = true).
  { destruct head_trimmed as (c & r & d & E & _).
    rewrite text_eq, E. reflexivity. }
  rewrite Ht. cbn [negb]. simpl Py.fmt.
  rewrite SampleShape.first_block_ok, text_block, bind_ok.
  cbv beta zeta. rewrite text_static, text_oneline.
  rewrite text_parts, bind_ok. cbv beta iota zeta.
  rewrite head_tokens. cbn [length Nat.eqb Nat.leb Nat.sub].
  change (Py.item [ret; name] 0) with (Ok ret).
  change (Py.last_item [ret; name]) with (Ok name).
  rewrite !bind_ok. cbv beta iota.
  now rewrite text_names, bind_ok.
Qed.

End Declaration.

End DeclFacts.

(** ** From a page to its line *)





(** * The claims on samples without parentheses and on idempotence *)

(** ** A sample without parentheses *)

Module ShortfallFacts.

Import PyFacts SplitFacts NormFacts PageFacts MoreStrings SampleShape
  DeclFacts Written.

Lemma split_ws_tokens (s : string) :
  List.Forall (fun t => t <> "" /\ Py.str_any Py.is_space t = false)
    (Py.split_ws s).
Proof.
  induction s as [|c s IH]; [constructor|].
  rewrite split_ws_cons. destruct (Py.is_space c) eqn:Hc; [exact IH|].
  destruct s as [|d s].
  - constructor; [|constructor]. split; [discriminate|].
    rewrite str_any_cons, Hc. reflexivity.
  - destruct (Py.is_space d) eqn:Hd.
    + constructor; [|exact IH]. split; [discriminate|].
      rewrite str_any_cons, Hc. reflexivity.
    + destruct (Py.split_ws (String d s)) as [|t ts].
      * constructor; [|constructor]. split; [discriminate|].
        rewrite str_any_cons, Hc. reflexivity.
      * inversion IH as [|? ? [_ Ht] Hts]; subst.
        constructor; [|assumption]. split; [discriminate|].
        rewrite str_any_cons, Hc. exact Ht.
Qed.

(** The words of the text in one line are the words of the text. *)
Lemma words_of_oneline (text : string) :
  Py.split_ws (Py.strip (oneline_of text))
  = Py.split_ws (Py.replace text LF " ").
Proof.
  unfold oneline_of.
  pose proof (split_ws_tokens (Py.replace text LF " ")) as H.
  destruct (Py.split_ws (Py.replace text LF " ")) as [|t ts] eqn:E;
    [reflexivity|].
  rewrite trimmed_strip.
  - now apply split_ws_join.
  - apply trimmed_join; [discriminate|].
    revert H. apply List.Forall_impl. intros x [Hne Hx].
    now apply trimmed_word.
Qed.

(** The return type and the name are the last two of the words that are
    no keywords. *)
Lemma head_name_eq (words : list string) :
  (if Nat.eqb (length words) 1 then
     name ← Py.item words 0;
     Ok (None, Some name)
   else if 2 <=? length words then
     rt ← Py.item words (length words - 2);
     name ← Py.last_item words;
     Ok (Some rt, Some name)
   else Ok (None, None))
  = Ok (List.last (List.map Some (List.removelast words)) None,
        List.last (List.map Some words) None).
Proof.
  destruct words as [|a [|b rest]]; [reflexivity | reflexivity |].
  assert (Hl : exists pre x y, a :: b :: rest = pre ++ [x; y]).
  { destruct (@List.exists_last _ (a :: b :: rest)) as (l1 & y & E1);
      [discriminate|].
    destruct l1 as [|z l1]; [discriminate E1|].
    destruct (@List.exists_last _ (z :: l1)) as (pre & x & E2);
      [discriminate|].
    exists pre, x, y. rewrite E1, E2. now rewrite <- List.app_assoc. }
  destruct Hl as (pre & x & y & E). rewrite E.
  assert (Hlen : length (pre ++ [x; y]) = S (S (length pre)))
    by (rewrite List.length_app; simpl; lia).
  rewrite Hlen.
  change (Nat.eqb (S (S (length pre))) 1) with false.
  change (2 <=? S (S (length pre))) with true. cbv iota.
  replace (S (S (length pre)) - 2) with (length pre) by lia.
  unfold Py.item, Py.last_item.
  rewrite List.nth_error_app2 by lia. rewrite Nat.sub_diag. cbn [nth_error].
  rewrite List.rev_app_distr. cbn [List.rev List.app].
  rewrite !bind_ok.
  replace (pre ++ [x; y]) with ((pre ++ [x]) ++ [y])
    by (now rewrite <- List.app_assoc).
  rewrite List.removelast_last, !List.map_app. cbn [List.map].
  now rewrite !List.last_last.
Qed.

Lemma oneline_no_both (s : string) :
  Py.contains s "(" = false \/ Py.contains s ")" = false ->
  Py.contains (oneline_of (first_block s)) "("
  && Py.contains (oneline_of (first_block s)) ")" = false.
Proof.
  assert (Hb : forall c, c <> " "%char ->
                 Py.str_any (Ascii.eqb c) s = false ->
                 Py.str_any (Ascii.eqb c) (oneline_of (first_block s))
                 = false).
  { intros c Hc H. apply SampleFacts.absent_oneline.
    - destruct (Ascii.eqb_spec c " "); congruence.
    - unfold first_block.
      destruct (Py.find (Py.strip s) ")");
        [apply absent_take|]; now apply absent_strip. }
  rewrite !contains_char. intros [H|H].
  - rewrite (Hb "("%char) by (auto; discriminate). reflexivity.
  - rewrite (Hb ")"%char) by (auto; discriminate). apply andb_false_r.
Qed.

(** What the parser returns for a sample without an opening or without a
    closing parenthesis. *)
Lemma no_paren_words (s : string) (container_simple : option string) :
  Py.contains s "(" = false \/ Py.contains s ")" = false ->
  let words := Py.split_ws (Py.replace (first_block s) LF " ") in
  let kept :=
    List.filter
      (fun t => negb (mem t CS_ACCESS_KWS) && negb (mem t CS_MODIFIER_KWS))
      words in
  parse_csharp_signature (Some s) container_simple
  = Ok (List.last (List.map Some (List.removelast kept)) None,
        List.last (List.map Some kept) None,
        [], mem "static" words).
Proof.
  intros H. cbv zeta.
  destruct s as [|c s]; [reflexivity|].
  unfold parse_csharp_signature.
  assert (Ht : Py.truthy (Some (String c s)) = true) by reflexivity.
  rewrite Ht. cbn [negb]. simpl Py.fmt.
  rewrite first_block_ok, bind_ok. cbv beta iota zeta.
  rewrite (oneline_no_both _ H), bind_ok. cbv beta iota zeta.
  rewrite words_of_oneline, head_name_eq, bind_ok. cbv beta iota.
  cbn [Py.nonempty Py.is_empty negb]. rewrite bind_ok.
  now rewrite is_static_tokens.
Qed.

End ShortfallFacts.

(** C4 (as the code has it): for a text that is absent, empty or made of
    white space the parser returns [(None, None, [], False)].  For a text
    without an opening or without a closing parenthesis it returns no
    parameter names, and takes the rest from the words of the text (up to a
    first closing parenthesis): the name is the last of the words that are no
    access or modifier keyword, the return type the one before it, each
    [None] where there is no such word, and the flag tells whether [static]
    is one of the words. *)
Theorem parse_shortfall :
  forall (cs_text container_simple : option string),
    ((cs_text = None
      \/ exists s, cs_text = Some s /\ Py.str_all Py.is_space s = true) ->
     parse_csharp_signature cs_text container_simple
     = Ok (None, None, [], false))
    /\ (forall s : string,
          cs_text = Some s ->
          Py.contains s "(" = false \/ Py.contains s ")" = false ->
          let words := Py.split_ws (Py.replace (first_block s) LF " ") in
          let kept :=
            List.filter
              (fun t => negb (mem t CS_ACCESS_KWS)
                        && negb (mem t CS_MODIFIER_KWS)) words in
          parse_csharp_signature cs_text container_simple
          = Ok (List.last (List.map Some (List.removelast kept)) None,
                List.last (List.map Some kept) None,
                [], mem "static" words)).
Proof.
  intros cs_text container_simple. split.
  - intros [-> | (s & -> & H)]; [reflexivity|].
    now apply SampleFacts.blank_is_nothing.
  - intros s -> H. now apply ShortfallFacts.no_paren_words.
Qed.

Lemma parse_shortfall_witness :
  parse_csharp_signature (Some "  ") None = Ok (None, None, [], false)
  /\ parse_csharp_signature (Some "public static int Count") None
     = Ok (Some "int", Some "Count", [], true)
  /\ parse_csharp_signature (Some "public Count") None
     = Ok (None, Some "Count", [], false).
Proof.
  split; [|split].
  - refine (proj1 (parse_shortfall (Some "  ") None) _).
    right. exists "  ". split; reflexivity.
  - pose proof (proj2 (parse_shortfall (Some "public static int Count")
                         None) "public static int Count" eq_refl) as H.
    cbv zeta in H. rewrite H by (left; reflexivity).
    vm_compute. reflexivity.
  - pose proof (proj2 (parse_shortfall (Some "public Count") None)
                  "public Count" eq_refl) as H.
    cbv zeta in H. rewrite H by (left; reflexivity).
    vm_compute. reflexivity.
Defined.

(** A text without a parenthesis for which the parser does not return
    [(None, None, [], False)]. *)
Lemma no_parenthesis_but_recovered :
  Py.contains "public static int Foo" "(" = false
  /\ Py.contains "public static int Foo" ")" = false
  /\ parse_csharp_signature (Some "public static int Foo") None
     = Ok (Some "int", Some "Foo", [], true)
  /\ parse_csharp_signature (Some "public static int Foo") None
     <> Ok (None, None, [], false).
Proof.
  repeat split; try (vm_compute; reflexivity).
  vm_compute. discriminate.
Qed.
